(** * Kyber VPN backend: a shallow embedding and its verified properties

    The development follows the Python sources of the backend:

    - [app/crypto/kyber.py]      (module [KyberManager])
    - [app/crypto/symmetric.py]  (module [AESGCMCipher])
    - [app/network/tun.py]       (module [TunManager])
    - [app/network/vpn.py]       (module [VPNManager])
    - [app/core/security.py]     (module [Security])
    - [app/chat/messaging.py]    (module [MessagingService])
    - [app/api/routes/chat.py]   (module [ChatRoutes])

    Part I holds the definitions, Parts II and III the theorems.  Python
    objects that are mutated in place become explicit state that every
    operation takes and returns; exceptions become values of type
    [Py.Exception]; the operating system (random bytes, clock, uuid
    generator, failing allocations) and the third-party primitives that the
    sources only call (RSA key generation, OAEP padding, the AES block
    function, bcrypt) are inputs of the operations, and so is what the other
    tasks of the event loop do while a coroutine awaits a send. *)

From Stdlib Require Import ZArith List Lia String Ascii Bool.
From Stdlib.Strings Require Import Byte.
From Stdlib Require Import PrimFloat FloatOps SpecFloat.
From stdpp Require Import gmap strings list.

Local Open Scope Z_scope.

(* ===================================================================== *)
(** * Part I: definitions                                                 *)
(* ===================================================================== *)

(** ** Python values shared by all modules *)

Module Py.

(** The exception classes the sources raise or catch.  [LibraryError] stands
    for an exception of any other class raised inside a library call; the
    sources only ever catch it through [except Exception]. *)
Inductive Exception : Type :=
| ValueError (msg : string)
| RuntimeError (msg : string)
| IndexError (msg : string)
| OverflowError (msg : string)
| MemoryError
| InvalidTag
| LibraryError (msg : string).

(** [str(e)] *)
Definition str (e : Exception) : string :=
  match e with
  | ValueError m | RuntimeError m | IndexError m | OverflowError m
  | LibraryError m => m
  | MemoryError | InvalidTag => ""
  end.

(** The outcome of a call that may raise. *)
Definition result (A : Type) : Type := Exception + A.
Definition ok {A : Type} (a : A) : result A := inr a.
Definition raise {A : Type} (e : Exception) : result A := inl e.

(** A Python [float] is an IEEE 754 binary64 number, a primitive [float];
    [x - y] on floats is [PrimFloat.sub]. *)

(** [float(n)] for an [int]: the nearest float, ties to even. *)
Definition float_of_int (n : Z) : result float :=
  match binary_normalize prec emax n 0 false with
  | S754_infinity _ => raise (OverflowError "int too large to convert to float")
  | sf => ok (SF2Prim sf)
  end.

(** [int(x)] for a [float]: its integer part, towards zero. *)
Definition int_of_float (x : float) : result Z :=
  match Prim2SF x with
  | S754_zero _ => ok 0
  | S754_finite s m e =>
      let magnitude :=
        if 0 <=? e then Z.pos m * 2 ^ e else Z.pos m / 2 ^ (- e) in
      ok (if s then - magnitude else magnitude)
  | S754_infinity _ =>
      raise (OverflowError "cannot convert float infinity to integer")
  | S754_nan => raise (ValueError "cannot convert float NaN to integer")
  end.

(** The value of an attribute that holds an [int] at one time and a [float]
    at another. *)
Inductive Number : Type :=
| Int (n : Z)
| Float (x : float).

(** [x - y] for a [float] [x]: an [int] is converted first. *)
Definition float_sub (x : float) (y : Number) : result float :=
  match y with
  | Float y => ok (PrimFloat.sub x y)
  | Int n =>
      match float_of_int n with
      | inl e => raise e
      | inr y => ok (PrimFloat.sub x y)
      end
  end.

(** [os.urandom(n)]: [n] bytes read off the entropy source [rnd]. *)
Definition urandom (rnd : nat -> byte) (n : nat) : list byte :=
  map rnd (seq 0 n).

Definition byte_of_Z (z : Z) : byte :=
  match Byte.of_N (Z.to_N (z mod 256)) with
  | Some b => b
  | None => x00
  end.

Definition Z_of_byte (b : byte) : Z := Z.of_N (Byte.to_N b).

(** [n.bit_length()] for [0 <= n]. *)
Definition bit_length (n : Z) : Z :=
  if n =? 0 then 0 else Z.log2 n + 1.

(** The [k] low-order base-256 digits of [x], least significant first. *)
Fixpoint digits_le (k : nat) (x : Z) : list byte :=
  match k with
  | O => []
  | S k' => byte_of_Z x :: digits_le k' (x / 256)
  end.

(** The [k] low-order base-256 digits of [x], most significant first. *)
Definition to_bytes_be (k : nat) (x : Z) : list byte := rev (digits_le k x).

(** [x.to_bytes(k, 'big')] for [0 <= x]; [None] is Python's OverflowError. *)
Definition int_to_bytes (x : Z) (k : nat) : option (list byte) :=
  if x <? 256 ^ Z.of_nat k then Some (to_bytes_be k x) else None.

(** [int.from_bytes(l, 'big')] *)
Definition int_from_bytes (l : list byte) : Z :=
  fold_left (fun acc b => acc * 256 + Z_of_byte b) l 0.

(** ASCII part of [str.lower()]. *)
Definition lower_ascii (c : ascii) : ascii :=
  let n := nat_of_ascii c in
  if ((65 <=? n) && (n <=? 90))%nat then ascii_of_nat (n + 32) else c.

Fixpoint lower (s : string) : string :=
  match s with
  | EmptyString => EmptyString
  | String c s' => String (lower_ascii c) (lower s')
  end.

(** The base64 alphabet and [base64.b64encode(...).decode("utf-8")]. *)
Definition b64_alphabet : string :=
  "ABCDEFGHIJKLMNOPQRSTUVWXYZabcdefghijklmnopqrstuvwxyz0123456789+/".

Definition b64_char (i : Z) : ascii :=
  match String.get (Z.to_nat i) b64_alphabet with
  | Some c => c
  | None => "="%char
  end.

Fixpoint b64encode (l : list byte) : string :=
  match l with
  | [] => EmptyString
  | [a] =>
      let a := Z_of_byte a in
      String (b64_char (a / 4))
        (String (b64_char ((a mod 4) * 16)) "==")
  | [a; b] =>
      let a := Z_of_byte a in
      let b := Z_of_byte b in
      String (b64_char (a / 4))
        (String (b64_char ((a mod 4) * 16 + b / 16))
           (String (b64_char ((b mod 16) * 4)) "="))
  | a :: b :: c :: rest =>
      let a := Z_of_byte a in
      let b := Z_of_byte b in
      let c := Z_of_byte c in
      String (b64_char (a / 4))
        (String (b64_char ((a mod 4) * 16 + b / 16))
           (String (b64_char ((b mod 16) * 4 + c / 64))
              (String (b64_char (c mod 64)) (b64encode rest))))
  end.


End Py.

(** ** Strings as Python uses them *)

Module Str.

(** [s.split(sep)] for a one-character separator: never empty. *)
Fixpoint split (sep : ascii) (s : string) : list string :=
  match s with
  | EmptyString => [EmptyString]
  | String c s' =>
      if Ascii.eqb c sep then EmptyString :: split sep s'
      else
        match split sep s' with
        | [] => [String c EmptyString]
        | w :: ws => String c w :: ws
        end
  end.

(** [c in s] *)
Fixpoint contains (c : ascii) (s : string) : bool :=
  match s with
  | EmptyString => false
  | String c' s' => Ascii.eqb c c' || contains c s'
  end.

Fixpoint forall_chars (p : ascii -> bool) (s : string) : bool :=
  match s with
  | EmptyString => true
  | String c s' => p c && forall_chars p s'
  end.

Definition is_digit (c : ascii) : bool :=
  let n := nat_of_ascii c in ((48 <=? n) && (n <=? 57))%nat.

(** The value of a hexadecimal digit. *)
Definition hex_value (c : ascii) : option Z :=
  let n := nat_of_ascii c in
  if ((48 <=? n) && (n <=? 57))%nat then Some (Z.of_nat n - 48)
  else if ((97 <=? n) && (n <=? 102))%nat then Some (Z.of_nat n - 87)
  else if ((65 <=? n) && (n <=? 70))%nat then Some (Z.of_nat n - 55)
  else None.

Definition is_hex_digit (c : ascii) : bool :=
  match hex_value c with Some _ => true | None => false end.

(** [s.isascii() and s.isdigit()]: a non-empty run of the digits 0 to 9. *)
Definition is_ascii_digits (s : string) : bool :=
  negb (String.eqb s "") && forall_chars is_digit s.

(** [int(s, 10)] and [int(s, 16)] on strings of digits. *)
Fixpoint int_of_decimal_from (acc : Z) (s : string) : Z :=
  match s with
  | EmptyString => acc
  | String c s' => int_of_decimal_from (acc * 10 + (Z.of_nat (nat_of_ascii c) - 48)) s'
  end.

Definition int_of_decimal (s : string) : Z := int_of_decimal_from 0 s.

Fixpoint int_of_hex_from (acc : Z) (s : string) : Z :=
  match s with
  | EmptyString => acc
  | String c s' =>
      int_of_hex_from (acc * 16 + match hex_value c with Some v => v | None => 0 end) s'
  end.

Definition int_of_hex (s : string) : Z := int_of_hex_from 0 s.

(** [str(n)] for [0 <= n]; [fuel] bounds the number of digits. *)
Fixpoint decimal_digits (fuel : nat) (n : Z) (acc : string) : string :=
  match fuel with
  | O => acc
  | S fuel' =>
      let acc' := String (ascii_of_nat (Z.to_nat (48 + n mod 10))) acc in
      if n / 10 =? 0 then acc' else decimal_digits fuel' (n / 10) acc'
  end.

Definition of_int (n : Z) : string :=
  decimal_digits (S (Z.to_nat (Z.log2 n))) n EmptyString.

(** [sep.join(l)] *)
Fixpoint join (sep : string) (l : list string) : string :=
  match l with
  | [] => EmptyString
  | [s] => s
  | s :: l' => s +:+ sep +:+ join sep l'
  end.

End Str.

(** ** The [base64], [binascii] and [secrets] modules of the standard library

    Decoding follows [binascii.a2b_base64] of CPython 3.11 in its default,
    lenient mode: characters outside the alphabet are skipped, decoding
    stops at the padding that completes a quad, and a quad left incomplete
    is an error ([binascii.Error], a [ValueError]). *)

Module Base64.

(** [table_a2b_base64]: the value of a character of the alphabet. *)
Definition b64_value (c : ascii) : option Z :=
  let n := Z.of_nat (nat_of_ascii c) in
  if (65 <=? n) && (n <=? 90) then Some (n - 65)
  else if (97 <=? n) && (n <=? 122) then Some (n - 71)
  else if (48 <=? n) && (n <=? 57) then Some (n + 4)
  else if n =? 43 then Some 62
  else if n =? 47 then Some 63
  else None.

(** The loop of [a2b_base64] over the rest [s] of the input: [quad_pos] is
    the position in the current quad, [leftchar] the bits left over from
    the previous character, [pads] the number of padding characters seen in
    a row, [out] the bytes written so far. *)
Fixpoint a2b_base64_loop (s : string) (quad_pos : nat) (leftchar : Z)
    (pads : nat) (out : list byte) : Py.result (list byte) :=
  match s with
  | EmptyString =>
      match quad_pos with
      | O => Py.ok out
      | 1%nat =>
          Py.raise (Py.ValueError
            ("Invalid base64-encoded string: number of data characters (" +:+
             Str.of_int (Z.of_nat (length out) / 3 * 4 + 1) +:+
             ") cannot be 1 more than a multiple of 4"))
      | _ => Py.raise (Py.ValueError "Incorrect padding")
      end
  | String c s' =>
      if Ascii.eqb c "=" then
        if (2 <=? quad_pos)%nat then
          if (4 <=? quad_pos + S pads)%nat then Py.ok out
          else a2b_base64_loop s' quad_pos leftchar (S pads) out
        else a2b_base64_loop s' quad_pos leftchar pads out
      else
        match b64_value c with
        | None => a2b_base64_loop s' quad_pos leftchar pads out
        | Some this_ch =>
            match quad_pos with
            | O => a2b_base64_loop s' 1 this_ch 0 out
            | 1%nat =>
                a2b_base64_loop s' 2 (Z.land this_ch 15) 0
                  (out ++ [Py.byte_of_Z
                             (Z.lor (Z.shiftl leftchar 2) (Z.shiftr this_ch 4))])
            | 2%nat =>
                a2b_base64_loop s' 3 (Z.land this_ch 3) 0
                  (out ++ [Py.byte_of_Z
                             (Z.lor (Z.shiftl leftchar 4) (Z.shiftr this_ch 2))])
            | _ =>
                a2b_base64_loop s' 0 0 0
                  (out ++ [Py.byte_of_Z (Z.lor (Z.shiftl leftchar 6) this_ch)])
            end
        end
  end.

(** [binascii.a2b_base64(data)] *)
Definition a2b_base64 (data : string) : Py.result (list byte) :=
  a2b_base64_loop data 0 0 0 [].

Definition is_ascii (c : ascii) : bool := (nat_of_ascii c <? 128)%nat.

(** [base64.b64decode(s)] for a [str]: it must be ASCII. *)
Definition b64decode (s : string) : Py.result (list byte) :=
  if Str.forall_chars is_ascii s then a2b_base64 s
  else Py.raise (Py.ValueError "string argument should contain only ASCII characters").

(** [binascii.hexlify(data).decode('ascii')] *)
Definition hex_digit (n : Z) : ascii :=
  match String.get (Z.to_nat n) "0123456789abcdef" with
  | Some c => c
  | None => "0"%char
  end.

Fixpoint hexlify (data : list byte) : string :=
  match data with
  | [] => EmptyString
  | b :: data' =>
      String (hex_digit (Py.Z_of_byte b / 16))
        (String (hex_digit (Py.Z_of_byte b mod 16)) (hexlify data'))
  end.

(** [secrets.token_hex(nbytes)] on a 64-bit build; [rnd] feeds
    [os.urandom], and [memory n] is the exception, if any, with which the
    allocation of the objects for [n] random bytes fails (the bytes, their
    hexadecimal digits and the text made of them). *)
Definition token_hex (rnd : nat -> byte) (memory : Z -> option Py.Exception)
    (nbytes : Z) : Py.result string :=
  if (nbytes <? - 2 ^ 63) || (2 ^ 63 <=? nbytes)
  then Py.raise (Py.OverflowError "Python int too large to convert to C ssize_t")
  else if nbytes <? 0
  then Py.raise (Py.ValueError "negative argument not allowed")
  else if 2 ^ 63 - 34 <? nbytes
  then Py.raise (Py.OverflowError "byte string is too large")
  else
    match memory nbytes with
    | Some e => Py.raise e
    | None => Py.ok (hexlify (Py.urandom rnd (Z.to_nat nbytes)))
    end.

End Base64.

(** ** RSA as the [cryptography] package provides it

    [kyber.py] simulates Kyber with RSA-OAEP.  The RSA key objects, the
    textbook encryption primitive (RFC 8017: OS2IP, RSAEP, I2OSP) and the DER
    serialisations (X.690; SubjectPublicKeyInfo and PKCS#8) are written out.
    The key generator's choice of primes and the OAEP padding
    (MGF1 with SHA-256) are inputs. *)

Module RSA.

Record RSAPublicKey : Type := {
  pub_n : Z;
  pub_e : Z
}.

Record RSAPrivateKey : Type := {
  priv_n : Z;
  priv_e : Z;
  priv_d : Z;
  priv_p : Z;
  priv_q : Z;
  priv_dmp1 : Z;
  priv_dmq1 : Z;
  priv_iqmp : Z
}.

(** [private_key.public_key()] *)
Definition public_key (sk : RSAPrivateKey) : RSAPublicKey :=
  {| pub_n := priv_n sk; pub_e := priv_e sk |}.

(** The length in bytes of the modulus: [(n.bit_length() + 7) // 8]. *)
Definition modulus_bytes (n : Z) : nat :=
  Z.to_nat ((Py.bit_length n + 7) / 8).

(** [b ^ e mod n] by square and multiply. *)
Fixpoint powmod_pos (b : Z) (e : positive) (n : Z) : Z :=
  match e with
  | xH => b mod n
  | xO e' => let r := powmod_pos b e' n in (r * r) mod n
  | xI e' => let r := powmod_pos b e' n in ((r * r) mod n * b) mod n
  end.

Definition powmod (b e n : Z) : Z :=
  match e with
  | Zpos p => powmod_pos b p n
  | _ => 1 mod n
  end.

(** [public_key.encrypt(msg, OAEP(MGF1(SHA256), SHA256, None))].  [oaep k msg]
    is the encoded message EM of [k] bytes that the padding produces (it
    consumes the library's own randomness); the message may be at most
    [k - 2*32 - 2] bytes long. *)
Definition encrypt (oaep : nat -> list byte -> list byte)
    (pk : RSAPublicKey) (msg : list byte) : Py.result (list byte) :=
  let k := modulus_bytes (pub_n pk) in
  if (length msg + 66 <=? k)%nat then
    let m := Py.int_from_bytes (oaep k msg) in
    match Py.int_to_bytes (powmod m (pub_e pk) (pub_n pk)) k with
    | Some c => Py.ok c
    | None => Py.raise (Py.LibraryError "integer too large")
    end
  else Py.raise (Py.ValueError "Encryption failed").

(** What [rsa.generate_private_key(public_exponent=65537, key_size=bits)]
    returns, as far as it can be checked by computation: the modulus is the
    product of two factors of [bits/2] bits each and has exactly [bits] bits,
    the private exponent inverts 65537 and the CRT components are reduced. *)
Definition generated (bits : Z) (sk : RSAPrivateKey) : bool :=
  (priv_e sk =? 65537) &&
  (priv_n sk =? priv_p sk * priv_q sk) &&
  (Py.bit_length (priv_n sk) =? bits) &&
  (Py.bit_length (priv_p sk) =? bits / 2) &&
  (Py.bit_length (priv_q sk) =? bits / 2) &&
  (0 <? priv_d sk) && (priv_d sk <? priv_n sk) &&
  ((priv_e sk * priv_d sk) mod Z.lcm (priv_p sk - 1) (priv_q sk - 1) =? 1) &&
  (priv_dmp1 sk =? priv_d sk mod (priv_p sk - 1)) &&
  (priv_dmq1 sk =? priv_d sk mod (priv_q sk - 1)) &&
  (0 <=? priv_iqmp sk) && (priv_iqmp sk <? priv_p sk) &&
  ((priv_iqmp sk * priv_q sk) mod priv_p sk =? 1).

(** DER: definite-form length octets. *)
Definition der_length (n : nat) : list byte :=
  if (n <? 128)%nat then [Py.byte_of_Z (Z.of_nat n)]
  else
    let k := modulus_bytes (Z.of_nat n) in
    Py.byte_of_Z (128 + Z.of_nat k) :: Py.to_bytes_be k (Z.of_nat n).

Definition der_tlv (tag : byte) (content : list byte) : list byte :=
  tag :: der_length (length content) ++ content.

(** DER INTEGER of a non-negative number: the shortest big-endian
    two's-complement form, hence one more octet when the top bit is set. *)
Definition der_integer (x : Z) : list byte :=
  der_tlv x02 (Py.to_bytes_be (Z.to_nat (Py.bit_length x / 8 + 1)) x).

Definition der_sequence (content : list byte) : list byte :=
  der_tlv x30 content.

(** AlgorithmIdentifier { rsaEncryption (1.2.840.113549.1.1.1), NULL } *)
Definition rsa_algorithm_identifier : list byte :=
  der_sequence
    (der_tlv x06 [x2a; x86; x48; x86; xf7; x0d; x01; x01; x01] ++ der_tlv x05 []).

(** [public_key.public_bytes(Encoding.DER, PublicFormat.SubjectPublicKeyInfo)] *)
Definition public_bytes (pk : RSAPublicKey) : list byte :=
  der_sequence
    (rsa_algorithm_identifier ++
     der_tlv x03
       (x00 :: der_sequence (der_integer (pub_n pk) ++ der_integer (pub_e pk)))).

(** [private_key.private_bytes(Encoding.DER, PrivateFormat.PKCS8, NoEncryption())] *)
Definition private_bytes (sk : RSAPrivateKey) : list byte :=
  der_sequence
    (der_integer 0 ++ rsa_algorithm_identifier ++
     der_tlv x04
       (der_sequence
          (der_integer 0 ++ der_integer (priv_n sk) ++ der_integer (priv_e sk) ++
           der_integer (priv_d sk) ++ der_integer (priv_p sk) ++
           der_integer (priv_q sk) ++ der_integer (priv_dmp1 sk) ++
           der_integer (priv_dmq1 sk) ++ der_integer (priv_iqmp sk)))).

End RSA.

(** ** [app/crypto/kyber.py]: the simulated Kyber manager *)

Module KyberManager.

(** [self._keypair] *)
Record KeyPair : Type := {
  public_key : list byte;
  secret_key : list byte;
  private_key_obj : RSA.RSAPrivateKey;
  public_key_obj : RSA.RSAPublicKey
}.

(** The object state: [parameter_set], [key_size], [_keypair]. *)
Record t : Type := {
  parameter_set : string;
  key_size : Z;
  _keypair : option KeyPair
}.

(** What [generate_keypair] returns: the two keys, base64-encoded. *)
Record EncodedKeyPair : Type := {
  public_key_b64 : string;
  secret_key_b64 : string
}.

(** An entry of the [details] table of [get_algorithm_details]. *)
Record DetailsEntry : Type := {
  entry_name : string;
  entry_claimed_nist_level : Z;
  entry_public_key_length : Z;
  entry_secret_key_length : Z;
  entry_ciphertext_length : Z;
  entry_shared_key_length : Z
}.

(** The dictionary [get_algorithm_details] returns. *)
Record AlgorithmDetails : Type := {
  name : string;
  claimed_nist_level : Z;
  public_key_length : Z;
  secret_key_length : Z;
  ciphertext_length : Z;
  shared_key_length : Z;
  version : string;
  is_kem : bool;
  note : string
}.

Definition valid_params : list string := ["kyber512"; "kyber768"; "kyber1024"].

(** The [key_sizes] dictionary of [__init__]. *)
Definition key_sizes : list (string * Z) :=
  [("kyber512", 2048); ("kyber768", 3072); ("kyber1024", 4096)].

Fixpoint dict_get {V : Type} (d : list (string * V)) (k : string) : option V :=
  match d with
  | [] => None
  | (k', v) :: d' => if String.eqb k' k then Some v else dict_get d' k
  end.

(** [KyberManager(parameter_set)] *)
Definition __init__ (parameter_set : string) : Py.result t :=
  if existsb (String.eqb (Py.lower parameter_set)) valid_params then
    match dict_get key_sizes (Py.lower parameter_set) with
    | Some size =>
        Py.ok {| parameter_set := Py.lower parameter_set;
                 key_size := size;
                 _keypair := None |}
    | None => Py.raise (Py.LibraryError (Py.lower parameter_set))
    end
  else
    Py.raise (Py.ValueError
      "Conjunto de parámetros inválido. Debe ser uno de: ['kyber512', 'kyber768', 'kyber1024']").

(** [generate_keypair(self)].  [keygen] is the outcome of
    [rsa.generate_private_key(public_exponent=65537, key_size=self.key_size)]:
    a private key, or the exception the library raised. *)
Definition generate_keypair (keygen : Py.result RSA.RSAPrivateKey) (self : t)
    : Py.result EncodedKeyPair * t :=
  match keygen with
  | inr private_key =>
      let public_key := RSA.public_key private_key in
      let public_bytes := RSA.public_bytes public_key in
      let private_bytes := RSA.private_bytes private_key in
      (Py.ok {| public_key_b64 := Py.b64encode public_bytes;
                secret_key_b64 := Py.b64encode private_bytes |},
       {| parameter_set := parameter_set self;
          key_size := key_size self;
          _keypair := Some {| public_key := public_bytes;
                              secret_key := private_bytes;
                              private_key_obj := private_key;
                              public_key_obj := public_key |} |})
  | inl e =>
      (Py.raise (Py.RuntimeError
         ("Error al generar par de claves simulado: " +:+ Py.str e)), self)
  end.

Section WithLibrary.

(** The OAEP padding and the DER parser of the [cryptography] package. *)
Variable oaep : nat -> list byte -> list byte.
Variable load_der_public_key : list byte -> Py.result RSA.RSAPublicKey.

(** [encapsulate(self, public_key=None)]; [rnd] feeds [os.urandom(32)].
    The result is the pair [(shared_key, ciphertext)]. *)
Definition encapsulate (rnd : nat -> byte) (self : t)
    (public_key : option (list byte)) : Py.result (list byte * list byte) :=
  let loaded :=
    match public_key with
    | None =>
        match _keypair self with
        | None => Py.raise (Py.ValueError "No hay clave pública disponible")
        | Some kp => Py.ok (public_key_obj kp)
        end
    | Some der => load_der_public_key der
    end in
  match loaded with
  | inl e => Py.raise e
  | inr public_key_obj =>
      let shared_key := Py.urandom rnd 32 in
      match RSA.encrypt oaep public_key_obj shared_key with
      | inr ciphertext => Py.ok (shared_key, ciphertext)
      | inl e =>
          Py.raise (Py.RuntimeError
            ("Error al encapsular clave compartida: " +:+ Py.str e))
      end
  end.

End WithLibrary.

(** The [details] table of [get_algorithm_details]. *)
Definition details_kyber512 : DetailsEntry :=
  {| entry_name := "CRYSTALS-Kyber-512"; entry_claimed_nist_level := 1;
     entry_public_key_length := 800; entry_secret_key_length := 1632;
     entry_ciphertext_length := 768; entry_shared_key_length := 32 |}.

Definition details_kyber768 : DetailsEntry :=
  {| entry_name := "CRYSTALS-Kyber-768"; entry_claimed_nist_level := 3;
     entry_public_key_length := 1184; entry_secret_key_length := 2400;
     entry_ciphertext_length := 1088; entry_shared_key_length := 32 |}.

Definition details_kyber1024 : DetailsEntry :=
  {| entry_name := "CRYSTALS-Kyber-1024"; entry_claimed_nist_level := 5;
     entry_public_key_length := 1568; entry_secret_key_length := 3168;
     entry_ciphertext_length := 1568; entry_shared_key_length := 32 |}.

Definition details : list (string * DetailsEntry) :=
  [("kyber512", details_kyber512);
   ("kyber768", details_kyber768);
   ("kyber1024", details_kyber1024)].

(** [get_algorithm_details(variant)]: the entry of the table, the one of
    "kyber768" for a variant that is not a key of it, with the keys
    [version], [is_kem] and [note] added. *)
Definition get_algorithm_details (variant : string) : AlgorithmDetails :=
  let result :=
    match dict_get details (Py.lower variant) with
    | Some entry => entry
    | None => details_kyber768
    end in
  {| name := entry_name result;
     claimed_nist_level := entry_claimed_nist_level result;
     public_key_length := entry_public_key_length result;
     secret_key_length := entry_secret_key_length result;
     ciphertext_length := entry_ciphertext_length result;
     shared_key_length := entry_shared_key_length result;
     version := "Simulación educativa";
     is_kem := true;
     note := "Esta es una simulación educativa de Kyber usando RSA" |}.

End KyberManager.

(** ** AES-GCM as the [cryptography] package provides it

    [symmetric.py] delegates to [cryptography]'s [AESGCM].  Its mode of
    operation is written out after NIST SP 800-38D (GHASH over GF(2^128),
    counter mode, a 16-byte tag appended to the ciphertext); the AES block
    encryption under a key is an input, [aes].  A 128-bit block is a number
    below [2^128], read big-endian. *)

Module GCM.

(** Bytewise exclusive or. *)
Definition byte_xor (a b : byte) : byte :=
  let '(a0, (a1, (a2, (a3, (a4, (a5, (a6, a7))))))) := Byte.to_bits a in
  let '(b0, (b1, (b2, (b3, (b4, (b5, (b6, b7))))))) := Byte.to_bits b in
  Byte.of_bits
    (xorb a0 b0, (xorb a1 b1, (xorb a2 b2, (xorb a3 b3,
    (xorb a4 b4, (xorb a5 b5, (xorb a6 b6, xorb a7 b7))))))).

(** [a ^ b] on byte strings, cut to the shorter one. *)
Definition xor_bytes (a b : list byte) : list byte := zip_with byte_xor a b.

Definition bytes_eqb (a b : list byte) : bool :=
  if List.list_eq_dec Byte.byte_eq_dec a b then true else false.

(** A byte string of at most 16 bytes as a block, zero-padded on the right. *)
Definition block_of_bytes (l : list byte) : Z :=
  Py.int_from_bytes (l ++ repeat x00 (16 - length l)).

Definition bytes_of_block (x : Z) : list byte := Py.to_bytes_be 16 x.

(** Number of 16-byte blocks that cover [n] bytes. *)
Definition nblocks (n : nat) : nat := (n + 15) / 16.

(** The blocks of a byte string, the last one zero-padded. *)
Definition blocks_of (l : list byte) : list Z :=
  map (fun i => block_of_bytes (firstn 16 (skipn (16 * i) l)))
      (seq 0 (nblocks (length l))).

(** The reduction constant R = 11100001 || 0^120. *)
Definition gf_R : Z := Z.shiftl 225 120.

(** Multiplication in GF(2^128) (SP 800-38D, algorithm 1); bit [n - 1] of the
    number [x] is examined when [n] steps remain, so the leftmost bit of the
    block comes first. *)
Fixpoint gf_mul_loop (n : nat) (x z v : Z) : Z :=
  match n with
  | O => z
  | S n' =>
      let z' := if Z.testbit x (Z.of_nat n') then Z.lxor z v else z in
      let v' := if Z.testbit v 0 then Z.lxor (Z.shiftr v 1) gf_R
                else Z.shiftr v 1 in
      gf_mul_loop n' x z' v'
  end.

Definition gf_mul (x y : Z) : Z := gf_mul_loop 128 x 0 y.

(** GHASH_H (algorithm 2). *)
Definition ghash (h : Z) (blocks : list Z) : Z :=
  fold_left (fun y x => gf_mul (Z.lxor y x) h) blocks 0.

(** The counter block [i] steps after [icb]: the rightmost 32 bits are
    incremented modulo [2^32] (the function inc_32, iterated). *)
Definition counter_block (icb : Z) (i : nat) : Z :=
  (icb / 2 ^ 32) * 2 ^ 32 + (icb mod 2 ^ 32 + Z.of_nat i) mod 2 ^ 32.

Section WithBlockCipher.

(** [aes key block]: the AES encryption of one block under [key]. *)
Variable aes : list byte -> Z -> Z.

Definition ciph (key : list byte) (block : Z) : Z := aes key block mod 2 ^ 128.

(** The key stream of [n] blocks that starts at counter block [icb]. *)
Definition keystream (key : list byte) (icb : Z) (n : nat) : list byte :=
  concat (map (fun i => bytes_of_block (ciph key (counter_block icb i))) (seq 0 n)).

(** GCTR_K (algorithm 3). *)
Definition gctr (key : list byte) (icb : Z) (x : list byte) : list byte :=
  xor_bytes x (keystream key icb (nblocks (length x))).

(** The hash subkey and the pre-counter block J0 (algorithm 4, steps 1-2). *)
Definition hash_subkey (key : list byte) : Z := ciph key 0.

Definition j0 (key : list byte) (iv : list byte) : Z :=
  if (length iv =? 12)%nat then Py.int_from_bytes iv * 2 ^ 32 + 1
  else ghash (hash_subkey key) (blocks_of iv ++ [8 * Z.of_nat (length iv)]).

(** The authentication tag of ciphertext [c] with associated data [a]. *)
Definition tag (key iv a c : list byte) : list byte :=
  let s := ghash (hash_subkey key)
             (blocks_of a ++ blocks_of c ++
              [8 * Z.of_nat (length a) * 2 ^ 64 + 8 * Z.of_nat (length c)]) in
  gctr key (j0 key iv) (bytes_of_block s).

(** GCM-AE_K and GCM-AD_K (algorithms 4 and 5) with a 128-bit tag;
    [None] is the FAIL of the specification. *)
Definition gcm_encrypt (key iv p a : list byte) : list byte :=
  let c := gctr key (counter_block (j0 key iv) 1) p in
  c ++ tag key iv a c.

Definition gcm_decrypt (key iv data a : list byte) : option (list byte) :=
  let c := firstn (length data - 16) data in
  let t := skipn (length data - 16) data in
  if bytes_eqb t (tag key iv a c)
  then Some (gctr key (counter_block (j0 key iv) 1) c)
  else None.

(** [AESGCM(key)]: an AES key of 128, 192 or 256 bits. *)
Definition AESGCM (key : list byte) : Py.result (list byte) :=
  if existsb (Nat.eqb (length key)) [16; 24; 32]%nat then Py.ok key
  else Py.raise (Py.ValueError "AESGCM key must be 128, 192, or 256 bits.").

Definition aad_bytes (associated_data : option (list byte)) : list byte :=
  match associated_data with
  | Some a => a
  | None => []
  end.

(** The check of the nonce that both methods start with. *)
Definition nonce_ok (nonce : list byte) : bool :=
  ((8 <=? length nonce) && (length nonce <=? 128))%nat.

(** [AESGCM.encrypt(nonce, data, associated_data)] *)
Definition AESGCM_encrypt (key nonce data : list byte)
    (associated_data : option (list byte)) : Py.result (list byte) :=
  if nonce_ok nonce
  then Py.ok (gcm_encrypt key nonce data (aad_bytes associated_data))
  else Py.raise (Py.ValueError "Nonce must be between 8 and 128 bytes").

(** [AESGCM.decrypt(nonce, data, associated_data)] *)
Definition AESGCM_decrypt (key nonce data : list byte)
    (associated_data : option (list byte)) : Py.result (list byte) :=
  if nonce_ok nonce then
    if (length data <? 16)%nat then Py.raise Py.InvalidTag
    else
      match gcm_decrypt key nonce data (aad_bytes associated_data) with
      | Some p => Py.ok p
      | None => Py.raise Py.InvalidTag
      end
  else Py.raise (Py.ValueError "Nonce must be between 8 and 128 bytes").

End WithBlockCipher.

End GCM.

(** ** [app/crypto/symmetric.py]: the AES-256-GCM cipher object *)

Module AESGCMCipher.

(** The object state: [self.key]; [self.cipher] is [AESGCM(self.key)]. *)
Record t : Type := {
  key : list byte
}.

(** The dictionary [encrypt] returns. *)
Record Encrypted : Type := {
  nonce : list byte;
  ciphertext : list byte
}.

Section WithBlockCipher.

Variable aes : list byte -> Z -> Z.

(** [AESGCMCipher(key)]; [rnd] feeds [os.urandom(32)]. *)
Definition __init__ (rnd : nat -> byte) (key : option (list byte)) : Py.result t :=
  let chosen :=
    match key with
    | None => Py.ok (Py.urandom rnd 32)
    | Some k =>
        if (length k =? 32)%nat then Py.ok k
        else Py.raise (Py.ValueError
               "La clave debe tener 32 bytes (256 bits) para AES-256")
    end in
  match chosen with
  | inl e => Py.raise e
  | inr k =>
      match GCM.AESGCM k with
      | inl e => Py.raise e
      | inr _ => Py.ok {| key := k |}
      end
  end.

(** [encrypt(self, plaintext, associated_data=None)]; [rnd] feeds
    [os.urandom(12)]. *)
Definition encrypt (rnd : nat -> byte) (self : t) (plaintext : list byte)
    (associated_data : option (list byte)) : Py.result Encrypted :=
  let nonce := Py.urandom rnd 12 in
  match GCM.AESGCM_encrypt aes (key self) nonce plaintext associated_data with
  | inr ciphertext => Py.ok {| nonce := nonce; ciphertext := ciphertext |}
  | inl e => Py.raise (Py.RuntimeError ("Error al cifrar datos: " +:+ Py.str e))
  end.

(** [decrypt(self, nonce, ciphertext, associated_data=None)] *)
Definition decrypt (self : t) (nonce ciphertext : list byte)
    (associated_data : option (list byte)) : Py.result (list byte) :=
  match GCM.AESGCM_decrypt aes (key self) nonce ciphertext associated_data with
  | inr plaintext => Py.ok plaintext
  | inl Py.InvalidTag =>
      Py.raise (Py.ValueError
        "Autenticación fallida: los datos pueden haber sido manipulados")
  | inl e => Py.raise (Py.RuntimeError ("Error al descifrar datos: " +:+ Py.str e))
  end.








End WithBlockCipher.

End AESGCMCipher.

(** ** The [ipaddress] module of the standard library

    Addresses and networks given as strings, as CPython parses them.  An
    address is its number; failures are [ValueError]s ([AddressValueError]
    and [NetmaskValueError] are subclasses), whose text is not modelled. *)

Module IPAddress.

Inductive Address : Type :=
| IPv4Address (ip : Z)
| IPv6Address (ip : Z) (scope_id : option string).

Inductive Network : Type :=
| IPv4Network (network_address : Z) (prefixlen : Z)
| IPv6Network (network_address : Z) (prefixlen : Z).

Definition invalid {A : Type} (what : string) : Py.result A :=
  Py.raise (Py.ValueError what).

(** [IPv4Address._parse_octet] *)
Definition parse_octet (octet_str : string) : option Z :=
  if String.eqb octet_str "" then None
  else if negb (Str.is_ascii_digits octet_str) then None
  else if (3 <? String.length octet_str)%nat then None
  else if negb (String.eqb octet_str "0") && String.prefix "0" octet_str then None
  else
    let octet_int := Str.int_of_decimal octet_str in
    if 255 <? octet_int then None else Some octet_int.

(** [IPv4Address._ip_int_from_string] *)
Definition ipv4_int_from_string (ip_str : string) : option Z :=
  if String.eqb ip_str "" then None
  else
    match map parse_octet (Str.split "." ip_str) with
    | [Some a; Some b; Some c; Some d] => Some (((a * 256 + b) * 256 + c) * 256 + d)
    | _ => None
    end.

(** [IPv4Address(address)] for a string. *)
Definition parse_ipv4 (address : string) : option Z :=
  if Str.contains "/" address then None else ipv4_int_from_string address.

(** [IPv6Address._parse_hextet] *)
Definition parse_hextet (hextet_str : string) : option Z :=
  if negb (Str.forall_chars Str.is_hex_digit hextet_str) then None
  else if (4 <? String.length hextet_str)%nat then None
  else if String.eqb hextet_str "" then None
  else Some (Str.int_of_hex hextet_str).

Definition is_empty (s : string) : bool := String.eqb s "".

(** Positions [1 .. len - 2] of [parts] that hold an empty string. *)
Definition inner_empty_positions (parts : list string) : list nat :=
  filter (fun i => is_empty (nth i parts "x"))
         (seq 1 (length parts - 2)).

Fixpoint hextets_value (acc : Z) (l : list string) : option Z :=
  match l with
  | [] => Some acc
  | h :: l' =>
      match parse_hextet h with
      | Some v => hextets_value (acc * 65536 + v) l'
      | None => None
      end
  end.

(** The two hextets that replace a dotted-quad suffix, as strings of hex
    digits (['%x']); only their value matters, so they are kept as numbers
    and re-read by [hextets_value] through [hex_of]. *)
Fixpoint hex_digits (fuel : nat) (n : Z) (acc : string) : string :=
  match fuel with
  | O => acc
  | S fuel' =>
      let d := n mod 16 in
      let c := if d <? 10 then ascii_of_nat (Z.to_nat (48 + d))
               else ascii_of_nat (Z.to_nat (87 + d)) in
      if n / 16 =? 0 then String c acc else hex_digits fuel' (n / 16) (String c acc)
  end.

Definition hex_of (n : Z) : string := hex_digits 4 n EmptyString.

(** [IPv6Address._ip_int_from_string] *)
Definition ipv6_int_from_string (ip_str : string) : option Z :=
  if is_empty ip_str then None
  else
    let parts := Str.split ":" ip_str in
    if (length parts <? 3)%nat then None
    else
      let parts_opt :=
        if Str.contains "." (List.last parts "")
        then
          match parse_ipv4 (List.last parts "") with
          | Some v4 =>
              Some (removelast parts ++ [hex_of (v4 / 65536 mod 65536); hex_of (v4 mod 65536)])
          | None => None
          end
        else Some parts in
      match parts_opt with
      | None => None
      | Some parts =>
          if (9 <? length parts)%nat then None
          else
            let n := length parts in
            match inner_empty_positions parts with
            | _ :: _ :: _ => None
            | [skip_index] =>
                let parts_hi0 := skip_index in
                let parts_lo0 := (n - skip_index - 1)%nat in
                let first_empty := is_empty (nth 0 parts "x") in
                let last_empty := is_empty (List.last parts "x") in
                let parts_hi := if first_empty then (parts_hi0 - 1)%nat else parts_hi0 in
                let parts_lo := if last_empty then (parts_lo0 - 1)%nat else parts_lo0 in
                if first_empty && negb (parts_hi =? 0)%nat then None
                else if last_empty && negb (parts_lo =? 0)%nat then None
                else if (8 <? parts_hi + parts_lo + 1)%nat then None
                else
                  let parts_skipped := (8 - (parts_hi + parts_lo))%nat in
                  match hextets_value 0 (firstn parts_hi parts) with
                  | Some hi =>
                      hextets_value (hi * 65536 ^ Z.of_nat parts_skipped)
                        (skipn (n - parts_lo) parts)
                  | None => None
                  end
            | [] =>
                if negb (n =? 8)%nat then None
                else if is_empty (nth 0 parts "x") then None
                else if is_empty (List.last parts "x") then None
                else hextets_value 0 parts
            end
      end.

(** [IPv6Address._split_scope_id]: the address and the scope after ['%']. *)
Fixpoint partition_percent (s : string) : string * option string :=
  match s with
  | EmptyString => (EmptyString, None)
  | String c s' =>
      if Ascii.eqb c "%" then (EmptyString, Some s')
      else let '(a, r) := partition_percent s' in (String c a, r)
  end.

(** [IPv6Address(address)] for a string. *)
Definition parse_ipv6 (address : string) : option (Z * option string) :=
  if Str.contains "/" address then None
  else
    match partition_percent address with
    | (addr, None) =>
        match ipv6_int_from_string addr with
        | Some ip => Some (ip, None)
        | None => None
        end
    | (addr, Some scope_id) =>
        if is_empty scope_id || Str.contains "%" scope_id then None
        else
          match ipv6_int_from_string addr with
          | Some ip => Some (ip, Some scope_id)
          | None => None
          end
    end.

(** [ipaddress.ip_address(address)] *)
Definition ip_address (address : string) : Py.result Address :=
  match parse_ipv4 address with
  | Some ip => Py.ok (IPv4Address ip)
  | None =>
      match parse_ipv6 address with
      | Some (ip, scope) => Py.ok (IPv6Address ip scope)
      | None => invalid "does not appear to be an IPv4 or IPv6 address"
      end
  end.

(** [_prefix_from_prefix_string] *)
Definition prefix_from_prefix_string (max_prefixlen : Z) (s : string) : option Z :=
  if Str.is_ascii_digits s then
    let p := Str.int_of_decimal s in
    if p <=? max_prefixlen then Some p else None
  else None.

(** [_prefix_from_ip_int]: the prefix length of a netmask of contiguous ones. *)
Definition prefix_from_ip_int (ip_int : Z) : option Z :=
  find (fun p => ip_int =? 2 ^ 32 - 2 ^ (32 - p)) (map Z.of_nat (seq 0 33)).

(** [_prefix_from_ip_string]: a dotted netmask, or else a dotted hostmask. *)
Definition prefix_from_ip_string (s : string) : option Z :=
  match ipv4_int_from_string s with
  | None => None
  | Some ip_int =>
      match prefix_from_ip_int ip_int with
      | Some p => Some p
      | None => prefix_from_ip_int (Z.lxor ip_int (2 ^ 32 - 1))
      end
  end.

(** The mask part of a network string: [None] when there is no ['/']. *)
Definition split_optional_netmask (address : string) : option (string * option string) :=
  match Str.split "/" address with
  | [addr] => Some (addr, None)
  | [addr; mask] => Some (addr, Some mask)
  | _ => None
  end.

(** [ipaddress.IPv4Network(address)] with [strict=True]. *)
Definition ipv4_network (address : string) : Py.result Network :=
  match split_optional_netmask address with
  | None => invalid "Only one '/' permitted"
  | Some (addr, mask) =>
      match parse_ipv4 addr with
      | None => invalid "invalid IPv4 address"
      | Some ip =>
          let prefix :=
            match mask with
            | None => Some 32
            | Some m =>
                match prefix_from_prefix_string 32 m with
                | Some p => Some p
                | None => prefix_from_ip_string m
                end
            end in
          match prefix with
          | None => invalid "is not a valid netmask"
          | Some p =>
              if Z.land ip (2 ^ 32 - 2 ^ (32 - p)) =? ip
              then Py.ok (IPv4Network ip p)
              else invalid "has host bits set"
          end
      end
  end.

(** [ipaddress.IPv6Network(address)] with [strict=True]. *)
Definition ipv6_network (address : string) : Py.result Network :=
  match split_optional_netmask address with
  | None => invalid "Only one '/' permitted"
  | Some (addr, mask) =>
      match parse_ipv6 addr with
      | None => invalid "invalid IPv6 address"
      | Some (ip, _) =>
          let prefix :=
            match mask with
            | None => Some 128
            | Some m => prefix_from_prefix_string 128 m
            end in
          match prefix with
          | None => invalid "is not a valid netmask"
          | Some p =>
              if Z.land ip (2 ^ 128 - 2 ^ (128 - p)) =? ip
              then Py.ok (IPv6Network ip p)
              else invalid "has host bits set"
          end
      end
  end.

(** [ipaddress.ip_network(address)] *)
Definition ip_network (address : string) : Py.result Network :=
  match ipv4_network address with
  | inr net => Py.ok net
  | inl _ =>
      match ipv6_network address with
      | inr net => Py.ok net
      | inl _ => invalid "does not appear to be an IPv4 or IPv6 network"
      end
  end.

(** [ip in network] *)
Definition contains (network : Network) (ip : Address) : bool :=
  match network, ip with
  | IPv4Network net p, IPv4Address a => Z.land a (2 ^ 32 - 2 ^ (32 - p)) =? net
  | IPv6Network net p, IPv6Address a _ => Z.land a (2 ^ 128 - 2 ^ (128 - p)) =? net
  | _, _ => false
  end.

(** [network[n]] for [0 <= n]: the [n]-th address of the network. *)
Definition getitem (network : Network) (n : Z) : Py.result Address :=
  match network with
  | IPv4Network net p =>
      if net + 2 ^ (32 - p) - 1 <? net + n
      then Py.raise (Py.IndexError "address out of range")
      else Py.ok (IPv4Address (net + n))
  | IPv6Network net p =>
      if net + 2 ^ (128 - p) - 1 <? net + n
      then Py.raise (Py.IndexError "address out of range")
      else Py.ok (IPv6Address (net + n) None)
  end.

(** [str(address)] for an IPv4 address. *)
Definition str_ipv4 (ip : Z) : string :=
  Str.join "." (map (fun k => Str.of_int (ip / 256 ^ k mod 256)) [3; 2; 1; 0]).

End IPAddress.

(** ** [app/core/config.py]: the settings the core consumes *)

Module Config.

(** An entry of [VPN_SERVERS]; [latency] is read with [.get("latency", ...)]
    and may be absent. *)
Record Server : Type := {
  id : string;
  name : string;
  location : string;
  ip : string;
  port : Z;
  status : string;
  latency : option Z
}.

Record Settings : Type := {
  SECRET_KEY : string;
  ACCESS_TOKEN_EXPIRE_MINUTES : Z;
  ALGORITHM : string;
  VPN_SUBNET : string;
  VPN_SERVER_IP : string;
  TUN_NAME : string;
  KYBER_PARAMETER : string;
  VPN_SERVERS : list Server
}.

(** The settings without any environment variable set. *)
Definition settings : Settings :=
  {| SECRET_KEY := "insecure_default_key_please_change_in_production";
     ACCESS_TOKEN_EXPIRE_MINUTES := 60 * 24 * 8;
     ALGORITHM := "HS256";
     VPN_SUBNET := "10.8.0.0/24";
     VPN_SERVER_IP := "10.8.0.1";
     TUN_NAME := "tun0";
     KYBER_PARAMETER := "kyber768";
     VPN_SERVERS :=
       [ {| id := "server1"; name := "Servidor Principal";
            location := "Madrid, España"; ip := "192.168.1.1"; port := 1194;
            status := "online"; latency := Some 25 |};
         {| id := "server2"; name := "Servidor Respaldo";
            location := "Barcelona, España"; ip := "192.168.1.2"; port := 1194;
            status := "online"; latency := Some 35 |};
         {| id := "server3"; name := "Servidor Internacional";
            location := "Frankfurt, Alemania"; ip := "192.168.1.3"; port := 1194;
            status := "online"; latency := Some 50 |} ] |}.

End Config.

(** ** [app/api/routes/servers.py]: the server catalogue *)

Module ServersRoutes.

(** [HTTPException(status_code, detail)] *)
Record HTTPException : Type := {
  status_code : Z;
  detail : string
}.

(** [GET /]: [get_servers()] *)
Definition get_servers (settings : Config.Settings) : list Config.Server :=
  Config.VPN_SERVERS settings.

(** The loop of [get_server] over the rest of the catalogue. *)
Fixpoint get_server_loop (servers : list Config.Server) (server_id : string)
    : option Config.Server :=
  match servers with
  | [] => None
  | server :: rest =>
      if String.eqb (Config.id server) server_id then Some server
      else get_server_loop rest server_id
  end.

(** [GET /{server_id}]: [get_server(server_id)] *)
Definition get_server (settings : Config.Settings) (server_id : string)
    : HTTPException + Config.Server :=
  match get_server_loop (Config.VPN_SERVERS settings) server_id with
  | Some server => inr server
  | None =>
      inl {| status_code := 404;
             detail := "Servidor con ID " +:+ server_id +:+ " no encontrado" |}
  end.

End ServersRoutes.

(** ** Effects: state and exceptions

    A computation over a state [S] returns a value or raises, and leaves a
    state behind either way (what it mutated before raising stays mutated). *)

Module Eff.

Definition M (S A : Type) : Type := S -> Py.result A * S.

#[global]
Instance M_ret (S : Type) : MRet (M S) :=
  fun A (a : A) s => (inr a, s).

#[global]
Instance M_bind (S : Type) : MBind (M S) :=
  fun A B (f : A -> M S B) (m : M S A) s =>
    match m s with
    | (inr a, s') => f a s'
    | (inl e, s') => (inl e, s')
    end.

(** [raise e] *)
Definition throw {S A : Type} (e : Py.Exception) : M S A :=
  fun s => (inl e, s).

(** A call whose outcome does not depend on the state. *)
Definition lift {S A : Type} (r : Py.result A) : M S A :=
  fun s => (r, s).

Definition get {S : Type} : M S S :=
  fun s => (inr s, s).

Definition modify {S : Type} (f : S -> S) : M S unit :=
  fun s => (inr tt, f s).

(** [try: body  except Exception as e: handler(e)] *)
Definition try_except {S A : Type} (body : M S A)
    (handler : Py.Exception -> M S A) : M S A :=
  fun s =>
    match body s with
    | (inl e, s') => handler e s'
    | (inr a, s') => (inr a, s')
    end.

End Eff.

(** ** [asyncio] tasks

    The event loop holds the tasks that were created; a task handle is its
    index.  A task is [Pending] until it first runs, [Suspended] while it
    waits in [asyncio.sleep], and [Done] once its coroutine returned or the
    task was cancelled. *)

Module Asyncio.

Inductive TaskState : Type := Pending | Suspended | Done.

Abbreviation EventLoop := (list TaskState).

(** [asyncio.create_task(coro)] *)
Definition create_task (loop : EventLoop) : nat * EventLoop :=
  (length loop, loop ++ [Pending]).

(** [task.cancel()] followed by [await task], for a coroutine that returns
    when it is cancelled: afterwards the task is done, whatever it was. *)
Definition cancel_and_await (task : nat) (loop : EventLoop) : EventLoop :=
  <[task := Done]> loop.

Definition is_live (task : nat) (loop : EventLoop) : bool :=
  match loop !! task with
  | Some Pending | Some Suspended => true
  | _ => false
  end.

End Asyncio.

(** ** [app/network/tun.py]: the simulated TUN interface *)

Module TunManager.

(** The [self.interface] dictionary. *)
Record Interface : Type := {
  if_name : string;
  if_ip : string;
  if_netmask : string;
  if_mtu : Z;
  is_up : bool
}.

Record t : Type := {
  name : string;
  mode : string;
  mtu : Z;
  interface : option Interface;
  running : bool;
  ip_address : option string;
  netmask : option string
}.

(** [TunManager(name, mode="tun", mtu=1500)] *)
Definition __init__ (name mode : string) (mtu : Z) : Py.result t :=
  if String.eqb mode "tun" || String.eqb mode "tap" then
    Py.ok {| name := name; mode := mode; mtu := mtu; interface := None;
             running := false; ip_address := None; netmask := None |}
  else Py.raise (Py.ValueError "El modo debe ser 'tun' o 'tap'").

(** [stop(self)] *)
Definition stop (self : t) : t :=
  {| name := name self; mode := mode self; mtu := mtu self;
     interface :=
       match interface self with
       | Some i => Some {| if_name := if_name i; if_ip := if_ip i;
                           if_netmask := if_netmask i; if_mtu := if_mtu i;
                           is_up := false |}
       | None => None
       end;
     running := false;
     ip_address := ip_address self;
     netmask := netmask self |}.

End TunManager.

(** ** [app/models/schemas.py]: the records exchanged with the routes *)

Module Schemas.

(** The dictionary [connect] and [disconnect] return, which the route turns
    into a [ConnectionResponse]. *)
Record ConnectionResponse : Type := {
  success : bool;
  message : string;
  vpnIp : option string
}.

Record VpnStatus : Type := {
  connected : bool;
  uptime : Z;
  bytesReceived : Z;
  bytesSent : Z;
  latency : Z;
  status_vpnIp : option string;
  server_id : option string
}.

End Schemas.

(** ** [app/network/vpn.py]: the connection manager *)

Module VPNManager.

Import Eff.

(** The attributes of a [VPNManager]; [status_task] is a task handle. *)
Record t : Type := {
  kyber : KyberManager.t;
  aes : option AESGCMCipher.t;
  tun : option TunManager.t;
  connected : bool;
  server : option Config.Server;
  connection_time : Py.Number;
  vpn_ip : option string;
  bytes_sent : Z;
  bytes_received : Z;
  latency : Z;
  status_task : option nat
}.

(** The manager together with the event loop its background task runs on. *)
Definition State : Type := t * Asyncio.EventLoop.

(** [VPNManager()] *)
Definition __init__ (settings : Config.Settings) : Py.result t :=
  match KyberManager.__init__ (Config.KYBER_PARAMETER settings) with
  | inl e => Py.raise e
  | inr k =>
      Py.ok {| kyber := k; aes := None; tun := None; connected := false;
               server := None; connection_time := Py.Int 0; vpn_ip := None;
               bytes_sent := 0; bytes_received := 0; latency := 0;
               status_task := None |}
  end.

(** Attribute assignments. *)
Definition with_kyber (v : KyberManager.t) (s : t) : t :=
  {| kyber := v; aes := aes s; tun := tun s; connected := connected s;
     server := server s; connection_time := connection_time s;
     vpn_ip := vpn_ip s; bytes_sent := bytes_sent s;
     bytes_received := bytes_received s; latency := latency s;
     status_task := status_task s |}.

Definition with_aes (v : option AESGCMCipher.t) (s : t) : t :=
  {| kyber := kyber s; aes := v; tun := tun s; connected := connected s;
     server := server s; connection_time := connection_time s;
     vpn_ip := vpn_ip s; bytes_sent := bytes_sent s;
     bytes_received := bytes_received s; latency := latency s;
     status_task := status_task s |}.

Definition with_tun (v : option TunManager.t) (s : t) : t :=
  {| kyber := kyber s; aes := aes s; tun := v; connected := connected s;
     server := server s; connection_time := connection_time s;
     vpn_ip := vpn_ip s; bytes_sent := bytes_sent s;
     bytes_received := bytes_received s; latency := latency s;
     status_task := status_task s |}.

Definition with_vpn_ip (v : option string) (s : t) : t :=
  {| kyber := kyber s; aes := aes s; tun := tun s; connected := connected s;
     server := server s; connection_time := connection_time s;
     vpn_ip := v; bytes_sent := bytes_sent s;
     bytes_received := bytes_received s; latency := latency s;
     status_task := status_task s |}.

Definition with_status_task (v : option nat) (s : t) : t :=
  {| kyber := kyber s; aes := aes s; tun := tun s; connected := connected s;
     server := server s; connection_time := connection_time s;
     vpn_ip := vpn_ip s; bytes_sent := bytes_sent s;
     bytes_received := bytes_received s; latency := latency s;
     status_task := v |}.

(** The block "Actualizar estado" of [connect]; [now] is [time.time()]. *)
Definition with_connection (srv : Config.Server) (now : float) (s : t) : t :=
  {| kyber := kyber s; aes := aes s; tun := tun s; connected := true;
     server := Some srv; connection_time := Py.Float now;
     vpn_ip := vpn_ip s; bytes_sent := 0; bytes_received := 0;
     latency := default 0 (Config.latency srv);
     status_task := status_task s |}.

(** The block "Reiniciar estado" of [_cleanup]. *)
Definition with_reset (s : t) : t :=
  {| kyber := kyber s; aes := None; tun := tun s; connected := false;
     server := None; connection_time := Py.Int 0;
     vpn_ip := None; bytes_sent := 0; bytes_received := 0;
     latency := 0;
     status_task := status_task s |}.

(** The statistics the background task writes. *)
Definition with_statistics (lat sent received : Z) (s : t) : t :=
  {| kyber := kyber s; aes := aes s; tun := tun s; connected := connected s;
     server := server s; connection_time := connection_time s;
     vpn_ip := vpn_ip s; bytes_sent := sent;
     bytes_received := received; latency := lat;
     status_task := status_task s |}.

Definition on_manager (f : t -> t) (st : State) : State := (f (fst st), snd st).

(** What [connect] takes from outside the program: the outcome of the RSA
    key generation, the bytes of [os.urandom], the clock [time.time()], and
    [faults]: the
    exception, if any, that the [n]-th step of the body raises for a reason
    of its own (the library, the event loop, memory). *)
Record ConnectEnv : Type := {
  keygen : Py.result RSA.RSAPrivateKey;
  entropy : nat -> byte;
  clock : float;
  faults : nat -> option Py.Exception
}.

Definition checkpoint (env : ConnectEnv) (n : nat) : M State unit :=
  match faults env n with
  | Some e => throw e
  | None => mret tt
  end.

(** [_cleanup(self)].  [stop_raises] is the exception, if any, that
    [self.tun.stop()] raises; it is logged and otherwise ignored. *)
Definition _cleanup (stop_raises : option Py.Exception) : M State unit :=
  st ← get;
  match status_task (fst st) with
  | Some task =>
      modify (fun st => (with_status_task None (fst st),
                         Asyncio.cancel_and_await task (snd st)))
  | None => mret tt
  end;;
  match tun (fst st) with
  | Some tun =>
      try_except
        (match stop_raises with
         | Some e => throw e
         | None => modify (on_manager (with_tun (Some (TunManager.stop tun))))
         end)
        (fun _ => mret tt);;
      modify (on_manager (with_tun None))
  | None => mret tt
  end;;
  modify (on_manager with_reset).

Section WithLibrary.

Variable oaep : nat -> list byte -> list byte.
Variable load_der_public_key : list byte -> Py.result RSA.RSAPublicKey.
Variable settings : Config.Settings.

(** The [try] block of [connect]. *)
Definition connect_body (env : ConnectEnv) (server : Config.Server)
    : M State Schemas.ConnectionResponse :=
  (* Paso 1: negociación Kyber *)
  checkpoint env 0;;
  st ← get;
  let generated := KyberManager.generate_keypair (keygen env) (kyber (fst st)) in
  modify (on_manager (with_kyber (snd generated)));;
  _ ← lift (fst generated);
  checkpoint env 1;;
  st ← get;
  encapsulated ← lift (KyberManager.encapsulate oaep load_der_public_key
                         (entropy env) (kyber (fst st)) None);
  let shared_key := fst encapsulated in
  (* Paso 2: cifrado AES con la clave derivada *)
  checkpoint env 2;;
  cipher ← lift (AESGCMCipher.__init__ (entropy env) (Some shared_key));
  modify (on_manager (with_aes (Some cipher)));;
  (* Paso 3: interfaz TUN *)
  checkpoint env 3;;
  tun ← lift (TunManager.__init__ (Config.TUN_NAME settings) "tun" 1500);
  modify (on_manager (with_tun (Some tun)));;
  checkpoint env 4;;
  subnet ← lift (IPAddress.ipv4_network (Config.VPN_SUBNET settings));
  checkpoint env 5;;
  address ← lift (IPAddress.getitem subnet 2);
  let ip := match address with
            | IPAddress.IPv4Address a => IPAddress.str_ipv4 a
            | IPAddress.IPv6Address _ _ => ""
            end in
  modify (on_manager (with_vpn_ip (Some ip)));;
  (* Actualizar estado *)
  checkpoint env 6;;
  modify (on_manager (with_connection server (clock env)));;
  (* Tarea de monitoreo en segundo plano *)
  checkpoint env 7;;
  modify (fun st =>
            let created := Asyncio.create_task (snd st) in
            (with_status_task (Some (fst created)) (fst st), snd created));;
  checkpoint env 8;;
  mret {| Schemas.success := true;
          Schemas.message := "Conexión establecida con " +:+ Config.name server;
          Schemas.vpnIp := Some ip |}.

(** [connect(self, server_id)] *)
Definition connect (env : ConnectEnv) (stop_raises : option Py.Exception)
    (server_id : string) : M State Schemas.ConnectionResponse :=
  st ← get;
  if connected (fst st) then
    mret {| Schemas.success := false;
            Schemas.message := "Ya existe una conexión VPN activa";
            Schemas.vpnIp := None |}
  else
    match find (fun s => String.eqb (Config.id s) server_id)
               (Config.VPN_SERVERS settings) with
    | None =>
        mret {| Schemas.success := false;
                Schemas.message :=
                  "Servidor con ID " +:+ server_id +:+ " no encontrado";
                Schemas.vpnIp := None |}
    | Some server =>
        try_except (connect_body env server)
          (fun e =>
             _cleanup stop_raises;;
             mret {| Schemas.success := false;
                     Schemas.message :=
                       "Error al establecer conexión: " +:+ Py.str e;
                     Schemas.vpnIp := None |})
    end.

End WithLibrary.

(** [disconnect(self)] *)
Definition disconnect (stop_raises : option Py.Exception)
    : M State Schemas.ConnectionResponse :=
  st ← get;
  if negb (connected (fst st)) then
    mret {| Schemas.success := true;
            Schemas.message := "No hay conexión activa";
            Schemas.vpnIp := None |}
  else
    try_except
      (_cleanup stop_raises;;
       mret {| Schemas.success := true;
               Schemas.message := "Desconexión exitosa";
               Schemas.vpnIp := None |})
      (fun e =>
         mret {| Schemas.success := false;
                 Schemas.message := "Error al desconectar: " +:+ Py.str e;
                 Schemas.vpnIp := None |}).

(** What [get_status] reports for a connection that has been up for
    [uptime] seconds. *)
Definition connected_status (uptime : Z) (self : t) : Schemas.VpnStatus :=
  {| Schemas.connected := true;
     Schemas.uptime := uptime;
     Schemas.bytesReceived := bytes_received self;
     Schemas.bytesSent := bytes_sent self;
     Schemas.latency := latency self;
     Schemas.status_vpnIp := vpn_ip self;
     Schemas.server_id :=
       match server self with
       | Some srv => Some (Config.id srv)
       | None => None
       end |}.

(** [get_status(self)]; [now] is [time.time()].  The uptime is
    [int(time.time() - self.connection_time)], a difference of floats cut
    down to its integer part; the conversion raises on an infinity or a
    NaN. *)
Definition get_status (now : float) (self : t) : Py.result Schemas.VpnStatus :=
  if negb (connected self) then
    Py.ok {| Schemas.connected := false; Schemas.uptime := 0;
             Schemas.bytesReceived := 0; Schemas.bytesSent := 0;
             Schemas.latency := 0; Schemas.status_vpnIp := None;
             Schemas.server_id := None |}
  else
    match Py.float_sub now (connection_time self) with
    | inl e => Py.raise e
    | inr elapsed =>
        match Py.int_of_float elapsed with
        | inl e => Py.raise e
        | inr uptime => Py.ok (connected_status uptime self)
        end
    end.

(** [random.randint(a, b)] drawn from the raw random number [r]. *)
Definition randint (a b r : Z) : Py.result Z :=
  if a <=? b then Py.ok (a + r mod (b - a + 1))
  else Py.raise (Py.ValueError "empty range for randrange()").

(** One turn of the event loop on the task [task] that runs
    [_update_status_task]: an iteration of its loop up to the next
    [asyncio.sleep], or its end.  An exception ends the task; it is logged. *)
Definition _update_status_task (task : nat) (r_latency r_traffic : Z)
    (st : State) : State :=
  let self := fst st in
  let loop := snd st in
  if Asyncio.is_live task loop then
    if connected self then
      match server self with
      | None => (self, <[task := Asyncio.Done]> loop)
      | Some srv =>
          let base := default 30 (Config.latency srv) in
          match randint (Z.max 1 (base - 10)) (base + 10) r_latency with
          | inl _ => (self, <[task := Asyncio.Done]> loop)
          | inr lat =>
              match randint 1024 8192 r_traffic with
              | inl _ =>
                  (with_statistics lat (bytes_sent self) (bytes_received self) self,
                   <[task := Asyncio.Done]> loop)
              | inr traffic_increment =>
                  (with_statistics lat
                     (bytes_sent self + traffic_increment)
                     (bytes_received self + traffic_increment * 2) self,
                   <[task := Asyncio.Suspended]> loop)
              end
          end
      end
    else (self, <[task := Asyncio.Done]> loop)
  else st.

End VPNManager.

(** ** [app/core/security.py]: tokens and password hashes

    A JSON Web Token is modelled by what it carries: the key and algorithm
    it was signed with, its claims and its expiry (seconds since the epoch);
    any other string is [Malformed].  The signature scheme is ideal: a token
    verifies under a key exactly when it was signed with that key.  The
    bcrypt context of [passlib] is an input, [CryptContext]. *)

Module Security.

Inductive Token : Type :=
| Signed (key algorithm : string) (claims : list (string * string)) (exp : Z)
| Malformed (text : string).

(** The decoded payload: the claims and ["exp"]. *)
Record Payload : Type := {
  claims : list (string * string);
  exp : Z
}.

(** [pwd_context]: [hash password salt] hashes with the salt the library
    draws, [verify plain hashed] checks a password against a hash.  Either
    may raise: bcrypt refuses a password that holds a NUL byte, and a hash
    it does not recognise. *)
Record CryptContext : Type := {
  hash : string -> string -> Py.result string;
  verify : string -> string -> Py.result bool
}.

(** [payload.get(key)] *)
Fixpoint payload_get (d : list (string * string)) (k : string) : option string :=
  match d with
  | [] => None
  | (k', v) :: d' => if String.eqb k' k then Some v else payload_get d' k
  end.

(** [create_access_token(data, expires_delta=None)]; [utcnow] is
    [datetime.utcnow()] in seconds, [expires_delta] is in minutes. *)
Definition create_access_token (settings : Config.Settings) (utcnow : Z)
    (data : list (string * string)) (expires_delta : option Z) : Token :=
  let minutes :=
    match expires_delta with
    | Some d => if d =? 0 then Config.ACCESS_TOKEN_EXPIRE_MINUTES settings else d
    | None => Config.ACCESS_TOKEN_EXPIRE_MINUTES settings
    end in
  Signed (Config.SECRET_KEY settings) (Config.ALGORITHM settings) data
         (utcnow + minutes * 60).

(** [verify_token(token)]: the payload, or [None] for a token that does not
    parse, was signed otherwise, or has expired ([exp < now]). *)
Definition verify_token (settings : Config.Settings) (utcnow : Z)
    (token : Token) : option Payload :=
  match token with
  | Signed key algorithm data e =>
      if String.eqb key (Config.SECRET_KEY settings)
         && String.eqb algorithm (Config.ALGORITHM settings)
         && negb (e <? utcnow)
      then Some {| claims := data; exp := e |}
      else None
  | Malformed _ => None
  end.

(** [verify_password(plain_password, hashed_password)] *)
Definition verify_password (ctx : CryptContext) (plain_password hashed_password : string)
    : Py.result bool :=
  verify ctx plain_password hashed_password.

(** [get_password_hash(password)]; [salt] is the salt the library draws. *)
Definition get_password_hash (ctx : CryptContext) (salt password : string)
    : Py.result string :=
  hash ctx password salt.

(** [generate_random_key(length=32)]; [rnd] feeds the random bytes and
    [memory] tells which allocations fail. *)
Definition generate_random_key (rnd : nat -> byte)
    (memory : Z -> option Py.Exception) (length : Z) : Py.result string :=
  Base64.token_hex rnd memory length.

End Security.

(** ** [datetime] values *)

Module Datetime.

Record t : Type := {
  year : Z;
  month : Z;
  day : Z;
  hour : Z;
  minute : Z;
  second : Z;
  microsecond : Z
}.

(** [d.replace(minute=m, second=s)] *)
Definition replace_minute_second (m s : Z) (d : t) : t :=
  {| year := year d; month := month d; day := day d; hour := hour d;
     minute := m; second := s; microsecond := microsecond d |}.

End Datetime.

(** ** The chat records of [app/models/schemas.py] *)

Module ChatSchemas.

Record User : Type := {
  username : string;
  display_name : string;
  is_online : bool;
  last_seen : option Datetime.t;
  vpn_ip : option string
}.

Record ChatRoom : Type := {
  id : string;
  name : option string;
  participants : list string;
  is_group : bool;
  created_at : Datetime.t;
  encryption_key : option string
}.

(** A message as [messaging.py] builds it: a dictionary with these keys.
    [timestamp] stands for its [isoformat()] rendering. *)
Record Message : Type := {
  message_id : string;
  sender : string;
  room_id : string;
  content : string;
  timestamp : Datetime.t;
  read_by : list string
}.

End ChatSchemas.

(** ** [app/chat/messaging.py]: the messaging service *)

Module MessagingService.

Import ChatSchemas.

(** An entry of [_users_db]. *)
Record UserRecord : Type := {
  db_username : string;
  db_display_name : string;
  hashed_password : string
}.

(** The attributes of the service.  [active_connections] maps a room to a
    set that stays empty; [user_key_pairs] is never written. *)
Record t : Type := {
  connected_users : gmap string User;
  user_sessions : gmap string string;
  vpn_sessions : gmap string string;
  user_key_pairs : gmap string KyberManager.EncodedKeyPair;
  chat_rooms : gmap string ChatRoom;
  active_connections : gmap string (list nat);
  _users_db : gmap string UserRecord
}.

(** The dictionaries the operations return. *)
Record RegisterResult : Type := {
  reg_success : bool;
  reg_message : string
}.

Record AuthResult : Type := {
  success : bool;
  message : string;
  token : option Security.Token;
  user_data : option (string * string)
}.

Record ChannelResult : Type := {
  ch_success : bool;
  ch_message : option string;
  ch_room_id : option string;
  ch_name : option string
}.

(** Python truth of a string: [not s] holds for the empty string. *)
Definition truthy (s : string) : bool := negb (String.eqb s "").

(** [l[:limit]] *)
Definition slice_upto {A : Type} (l : list A) (limit : Z) : list A :=
  if limit <? 0
  then firstn (Z.to_nat (Z.max 0 (Z.of_nat (length l) + limit))) l
  else firstn (Z.to_nat limit) l.

(** Attribute assignments. *)
Definition with_users_db (v : gmap string UserRecord) (s : t) : t :=
  {| connected_users := connected_users s; user_sessions := user_sessions s;
     vpn_sessions := vpn_sessions s; user_key_pairs := user_key_pairs s;
     chat_rooms := chat_rooms s; active_connections := active_connections s;
     _users_db := v |}.

Definition with_chat_rooms (v : gmap string ChatRoom) (s : t) : t :=
  {| connected_users := connected_users s; user_sessions := user_sessions s;
     vpn_sessions := vpn_sessions s; user_key_pairs := user_key_pairs s;
     chat_rooms := v; active_connections := active_connections s;
     _users_db := _users_db s |}.

Definition with_active_connections (v : gmap string (list nat)) (s : t) : t :=
  {| connected_users := connected_users s; user_sessions := user_sessions s;
     vpn_sessions := vpn_sessions s; user_key_pairs := user_key_pairs s;
     chat_rooms := chat_rooms s; active_connections := v;
     _users_db := _users_db s |}.

Definition with_sessions (sessions vpn : gmap string string)
    (users : gmap string User) (s : t) : t :=
  {| connected_users := users; user_sessions := sessions;
     vpn_sessions := vpn; user_key_pairs := user_key_pairs s;
     chat_rooms := chat_rooms s; active_connections := active_connections s;
     _users_db := _users_db s |}.

Definition with_connected_users (users : gmap string User) (s : t) : t :=
  with_sessions (user_sessions s) (vpn_sessions s) users s.

Definition add_participant (u : string) (room : ChatRoom) : ChatRoom :=
  {| id := id room; name := name room;
     participants := participants room ++ [u];
     is_group := is_group room; created_at := created_at room;
     encryption_key := encryption_key room |}.

Definition set_online (online : bool) (ip : option string) (u : User) : User :=
  {| username := username u; display_name := display_name u;
     is_online := online; last_seen := last_seen u;
     vpn_ip := match ip with Some _ => ip | None => vpn_ip u end |}.

Section WithContext.

Variable settings : Config.Settings.
Variable ctx : Security.CryptContext.

(** The attributes [MessagingService()] sets, given the hashes of the two
    demo passwords: the two demo users and the default room; [now] is the
    creation time of the room. *)
Definition fresh (hashed1 hashed2 : string) (now : Datetime.t) : t :=
  let users_db : gmap string UserRecord :=
    <["usuario2" :=
        {| db_username := "usuario2"; db_display_name := "Usuario Demo 2";
           hashed_password := hashed2 |}]>
    (<["usuario1" :=
        {| db_username := "usuario1"; db_display_name := "Usuario Demo 1";
           hashed_password := hashed1 |}]>
     ∅) in
  {| connected_users := ∅; user_sessions := ∅; vpn_sessions := ∅;
     user_key_pairs := ∅;
     chat_rooms :=
       <["general" :=
           {| id := "general"; name := Some "Canal General";
              participants := ["usuario1"; "usuario2"];
              is_group := true; created_at := now;
              encryption_key := None |}]> ∅;
     active_connections := <["general" := []]> ∅;
     _users_db := users_db |}.

(** [MessagingService()].  [salt1], [salt2] are the salts of the two
    password hashes; an exception of the hashing is not caught. *)
Definition __init__ (salt1 salt2 : string) (now : Datetime.t) : Py.result t :=
  match Security.get_password_hash ctx salt1 "password1" with
  | inl e => Py.raise e
  | inr hashed1 =>
      match Security.get_password_hash ctx salt2 "password2" with
      | inl e => Py.raise e
      | inr hashed2 => Py.ok (fresh hashed1 hashed2 now)
      end
  end.

(** [register_user(self, username, password, display_name)]; [salt] is
    the salt of the password hash.  An exception of the hashing is not
    caught: it reaches the caller before anything is stored. *)
Definition register_user (salt : string) (username password display_name : string)
    (self : t) : Py.result RegisterResult * t :=
  match _users_db self !! username with
  | Some _ =>
      (Py.ok {| reg_success := false;
                reg_message := "El nombre de usuario ya está en uso" |}, self)
  | None =>
    match Security.get_password_hash ctx salt password with
    | inl e => (Py.raise e, self)
    | inr hashed =>
      let self1 :=
        with_users_db
          (<[username := {| db_username := username;
                            db_display_name := display_name;
                            hashed_password := hashed |}]> (_users_db self))
          self in
      let self2 :=
        match chat_rooms self1 !! "general" with
        | Some room =>
            if existsb (String.eqb username) (participants room) then self1
            else with_chat_rooms
                   (<["general" := add_participant username room]> (chat_rooms self1))
                   self1
        | None => self1
        end in
      (Py.ok {| reg_success := true;
                reg_message := "Usuario registrado correctamente" |}, self2)
    end
  end.

(** What [authenticate_user] takes from outside: [uuid.uuid4()], the UTC
    clock of the token, and [datetime.now()]. *)
Record AuthEnv : Type := {
  auth_uuid : string;
  auth_utcnow : Z;
  auth_now : Datetime.t
}.

(** The address check of [authenticate_user]: [None] when the address is
    inside the VPN subnet, else the message of the refusal. *)
Definition check_vpn_address (vpn_ip : string) : option string :=
  match IPAddress.ip_address vpn_ip with
  | inl _ => Some "Dirección IP inválida"
  | inr ip =>
      match IPAddress.ip_network (Config.VPN_SUBNET settings) with
      | inl _ => Some "Dirección IP inválida"
      | inr vpn_network =>
          if IPAddress.contains vpn_network ip then None
          else Some "Autenticación solo permitida a través de la VPN"
      end
  end.

(** [authenticate_user(self, username, password, vpn_ip)].  An exception
    of the password verification is not caught. *)
Definition authenticate_user (env : AuthEnv) (username password vpn_ip : string)
    (self : t) : Py.result AuthResult * t :=
  match check_vpn_address vpn_ip with
  | Some refusal =>
      (Py.ok {| success := false; message := refusal; token := None;
                user_data := None |}, self)
  | None =>
      match _users_db self !! username with
      | None =>
          (Py.ok {| success := false; message := "Usuario no encontrado";
                    token := None; user_data := None |}, self)
      | Some user_data =>
        match Security.verify_password ctx password (hashed_password user_data) with
        | inl e => (Py.raise e, self)
        | inr verified =>
          if negb verified
          then
            (Py.ok {| success := false; message := "Credenciales incorrectas";
                      token := None; user_data := None |}, self)
          else
            let session_id := auth_uuid env in
            let token :=
              Security.create_access_token settings (auth_utcnow env)
                [("sub", username); ("session_id", session_id); ("vpn_ip", vpn_ip)]
                None in
            let users :=
              match connected_users self !! username with
              | None =>
                  <[username := {| username := username;
                                   display_name := db_display_name user_data;
                                   is_online := true;
                                   last_seen := Some (auth_now env);
                                   vpn_ip := Some vpn_ip |}]> (connected_users self)
              | Some user =>
                  <[username := set_online true (Some vpn_ip) user]>
                    (connected_users self)
              end in
            (Py.ok {| success := true; message := "Autenticación exitosa";
                      token := Some token;
                      user_data := Some (username, db_display_name user_data) |},
             with_sessions (<[session_id := username]> (user_sessions self))
                           (<[vpn_ip := username]> (vpn_sessions self))
                           users self)
        end
      end
  end.

End WithContext.

(** What [get_room_messages] takes from outside: three [uuid.uuid4()] and
    three [datetime.now()]. *)
Record SampleEnv : Type := {
  uuid1 : string; uuid2 : string; uuid3 : string;
  now1 : Datetime.t; now2 : Datetime.t; now3 : Datetime.t
}.

(** [get_room_messages(self, room_id, limit=50)] *)
Definition get_room_messages (env : SampleEnv) (room_id : string) (limit : Z)
    (self : t) : list Message * t :=
  let sample_messages :=
    [ {| message_id := uuid1 env; sender := "usuario1"; room_id := room_id;
         content := "Hola a todos, ¿cómo están?";
         timestamp := Datetime.replace_minute_second 0 0 (now1 env);
         read_by := ["usuario1"] |};
      {| message_id := uuid2 env; sender := "usuario2"; room_id := room_id;
         content := "Todo bien por aquí, la conexión VPN está funcionando muy bien";
         timestamp := Datetime.replace_minute_second 5 30 (now2 env);
         read_by := ["usuario1"; "usuario2"] |};
      {| message_id := uuid3 env; sender := "usuario1"; room_id := room_id;
         content := "¡Excelente! La criptografía post-cuántica hace que sea muy seguro";
         timestamp := Datetime.replace_minute_second 10 15 (now3 env);
         read_by := ["usuario1"] |} ] in
  (slice_upto sample_messages limit, self).

(** [create_message(self, session_id, room_id, content)]; [uuid] is
    [uuid.uuid4()] and [now] is [datetime.now()]. *)
Definition create_message (uuid : string) (now : Datetime.t)
    (session_id room_id content : string) (self : t) : option Message * t :=
  match user_sessions self !! session_id with
  | None => (None, self)
  | Some username =>
      if negb (truthy username) then (None, self)
      else
        match chat_rooms self !! room_id with
        | None => (None, self)
        | Some room =>
            if negb (existsb (String.eqb username) (participants room))
            then (None, self)
            else
              (Some {| message_id := uuid; sender := username;
                       room_id := room_id; content := content;
                       timestamp := now; read_by := [username] |}, self)
        end
  end.

(** [create_secure_channel(self, user1, user2)]; [keygen] is the outcome of
    the RSA key generation, [uuid] is [uuid.uuid4()], [now] the creation
    time of the room.  An exception of [generate_keypair] is not caught. *)
Definition create_secure_channel (keygen : Py.result RSA.RSAPrivateKey)
    (uuid : string) (now : Datetime.t) (user1 user2 : string) (self : t)
    : Py.result ChannelResult * t :=
  match _users_db self !! user1, _users_db self !! user2 with
  | Some _, Some _ =>
      let room_id :=
        "private_" +:+ user1 +:+ "_" +:+ user2 +:+ "_" +:+ String.substring 0 8 uuid in
      match KyberManager.__init__ "kyber768" with
      | inl e => (Py.raise e, self)
      | inr kyber =>
          match fst (KyberManager.generate_keypair keygen kyber) with
          | inl e => (Py.raise e, self)
          | inr key_pair =>
              let room_name := "Chat privado: " +:+ user1 +:+ " - " +:+ user2 in
              let room :=
                {| id := room_id; name := Some room_name;
                   participants := [user1; user2]; is_group := false;
                   created_at := now;
                   encryption_key := Some (KyberManager.public_key_b64 key_pair) |} in
              (Py.ok {| ch_success := true; ch_message := None;
                        ch_room_id := Some room_id; ch_name := Some room_name |},
               with_active_connections
                 (<[room_id := []]> (active_connections self))
                 (with_chat_rooms (<[room_id := room]> (chat_rooms self)) self))
          end
      end
  | _, _ =>
      (Py.ok {| ch_success := false;
                ch_message := Some "Uno o ambos usuarios no existen";
                ch_room_id := None; ch_name := None |}, self)
  end.

(** An entry of the list [get_user_rooms] returns; [info_created_at] stands
    for its [isoformat()] rendering. *)
Record RoomInfo : Type := {
  info_id : string;
  info_name : option string;
  info_is_group : bool;
  info_participants : list string;
  info_created_at : Datetime.t
}.

Definition room_info (room : ChatRoom) : RoomInfo :=
  {| info_id := id room; info_name := name room; info_is_group := is_group room;
     info_participants := participants room;
     info_created_at := created_at room |}.

(** [get_user_rooms(self, username)].  The rooms are visited in the order
    of [map_to_list]. *)
Definition get_user_rooms (username : string) (self : t) : list RoomInfo :=
  match _users_db self !! username with
  | None => []
  | Some _ =>
      map (fun entry => room_info (snd entry))
        (List.filter
           (fun entry => existsb (String.eqb username) (participants (snd entry)))
           (map_to_list (chat_rooms self)))
  end.

End MessagingService.

(** ** [app/api/routes/chat.py]: the chat routes and the real-time ingress

    WebSocket objects live in a store, [sockets], and are referred to by
    their index, so that the handler of a connection and the registry
    [active_connections] share the object they both send through.  The
    handlers run as tasks of one event loop: each runs alone from one of its
    awaits to the next, and the others run while it waits. *)

Module ChatRoutes.

Import Eff.

(** The dictionary handed to [broadcast_to_room]: a message, a typing
    notice, or any other dictionary, with or without a ["room_id"]. *)
Inductive Payload : Type :=
| PMessage (m : ChatSchemas.Message)
| PTyping (room_id username : string)
| POther (room_id : option string).

(** The frames the server sends. *)
Inductive Frame : Type :=
| MessageSent (message_id : string) (timestamp : Datetime.t)
| ErrorFrame (message : string)
| NewMessage (message : Payload).

(** A WebSocket: whether it was accepted, the code it was closed with, what
    was sent through it, and [send_raises]: the exception, if any, that
    sending through it raises (a peer that went away, a full buffer). *)
Record WebSocket : Type := {
  accepted : bool;
  closed : option Z;
  outbox : list Frame;
  send_raises : option Py.Exception
}.

(** The module state: the messaging service, the registry
    [active_connections] (session id to WebSocket) and the sockets. *)
Record t : Type := {
  messaging_service : MessagingService.t;
  active_connections : gmap string nat;
  sockets : gmap nat WebSocket
}.

(** The frames a client sends, as the handler distinguishes them after
    [json.loads]: a message, a typing notice, a frame of another ["type"],
    and text that makes the handler raise (invalid JSON, a missing key). *)
Inductive Incoming : Type :=
| InMessage (room_id content : string)
| InTyping (room_id : option string)
| InOther (type : string)
| InInvalid (e : Py.Exception).

Definition with_service (v : MessagingService.t) (s : t) : t :=
  {| messaging_service := v; active_connections := active_connections s;
     sockets := sockets s |}.

Definition with_active (v : gmap string nat) (s : t) : t :=
  {| messaging_service := messaging_service s; active_connections := v;
     sockets := sockets s |}.

Definition with_sockets (v : gmap nat WebSocket) (s : t) : t :=
  {| messaging_service := messaging_service s;
     active_connections := active_connections s; sockets := v |}.

Definition push (f : Frame) (ws : WebSocket) : WebSocket :=
  {| accepted := accepted ws; closed := closed ws;
     outbox := outbox ws ++ [f]; send_raises := send_raises ws |}.

(** Whether sending through the socket succeeds. *)
Definition can_send (ws : WebSocket) : bool :=
  match send_raises ws, closed ws with
  | None, None => accepted ws
  | _, _ => false
  end.

(** [await websocket.send_text(json.dumps(frame))] *)
Definition send_text (w : nat) (f : Frame) : M t unit :=
  st ← get;
  match sockets st !! w with
  | None => throw (Py.RuntimeError "WebSocket is not connected")
  | Some ws =>
      match send_raises ws with
      | Some e => throw e
      | None =>
          if can_send ws
          then modify (with_sockets (<[w := push f ws]> (sockets st)))
          else throw (Py.RuntimeError "WebSocket is not connected")
      end
  end.

(** [for x in l: body(x)] *)
Fixpoint for_each {A : Type} (l : list A) (body : A -> M t unit) : M t unit :=
  match l with
  | [] => mret tt
  | x :: l' => body x;; for_each l' body
  end.

Definition payload_room_id (message : Payload) : option string :=
  match message with
  | PMessage m => Some (ChatSchemas.room_id m)
  | PTyping room_id _ => Some room_id
  | POther room_id => room_id
  end.

(** [session_id != exclude_session] *)
Definition not_excluded (session_id : string) (exclude_session : option string) : bool :=
  match exclude_session with
  | Some x => negb (String.eqb session_id x)
  | None => true
  end.

(** The start of [chat_websocket(websocket, session_id)] up to the receive
    loop: an unknown session is closed with code 1008 (policy violation),
    a known one is accepted and registered.  The result tells whether the
    connection was accepted. *)
Definition websocket_connect (session_id : string) (w : nat) (st : t) : bool * t :=
  let ws := default {| accepted := false; closed := None; outbox := [];
                       send_raises := None |} (sockets st !! w) in
  match MessagingService.user_sessions (messaging_service st) !! session_id with
  | None =>
      (false,
       with_sockets
         (<[w := {| accepted := accepted ws; closed := Some 1008;
                    outbox := outbox ws; send_raises := send_raises ws |}]>
            (sockets st)) st)
  | Some username =>
      let st1 :=
        with_sockets
          (<[w := {| accepted := true; closed := closed ws;
                     outbox := outbox ws; send_raises := send_raises ws |}]>
             (sockets st)) st in
      let st2 := with_active (<[session_id := w]> (active_connections st1)) st1 in
      let service := messaging_service st2 in
      let users := MessagingService.connected_users service in
      (true,
       match users !! username with
       | Some user =>
           with_service
             (MessagingService.with_connected_users
                (<[username := MessagingService.set_online true None user]> users)
                service) st2
       | None => st2
       end)
  end.

(** The [WebSocketDisconnect] branch of [chat_websocket]. *)
Definition websocket_disconnect (session_id username : string) (st : t) : t :=
  let st1 := with_active (delete session_id (active_connections st)) st in
  let service := messaging_service st1 in
  let users := MessagingService.connected_users service in
  match users !! username with
  | Some user =>
      with_service
        (MessagingService.with_connected_users
           (<[username := MessagingService.set_online false None user]> users)
           service) st1
  | None => st1
  end.

(** *** The other tasks of the event loop

    [chat_websocket] and [broadcast_to_room] give up control in every
    [await websocket.send_text(...)].  Until they get it back the other tasks
    run: the handlers of the other requests and connections, each from one
    of its awaits to the next.  A [Step] is what one of them does to the
    shared state meanwhile. *)
Inductive Step : Type :=
| Registers (salt username password display_name : string)
    (* POST /register *)
| LogsIn (env : MessagingService.AuthEnv) (username password vpn_ip : string)
    (* POST /login *)
| OpensRoom (keygen : Py.result RSA.RSAPrivateKey) (uuid : string)
    (now : Datetime.t) (user1 user2 : string)
    (* POST /rooms/private *)
| Connects (session_id : string) (w : nat)
    (* another [chat_websocket] up to its receive loop *)
| Sends (w : nat) (f : Frame)
    (* another handler sends a frame *)
| Disconnects (session_id username : string)
    (* the [WebSocketDisconnect] branch of another handler *)
| Drops (session_id : string)
    (* the [except Exception] branch of another handler *)
| Breaks (w : nat) (e : Py.Exception).
    (* the peer of a socket goes away: sending through it raises from now on *)

(** What the other tasks do during one send: before the frame is handed
    over (or the send fails), and after. *)
Definition Interference : Type := list Step * list Step.

(** No other task runs. *)
Definition quiet : Interference := ([], []).

(** What the other tasks do during the sends of one broadcast: for the
    participants in the order of their visits, and for each of them by the
    position of the session visited (what is given for a session whose visit
    sends nothing is not used).  Once the list is used up the other tasks do
    nothing more. *)
Definition Schedule : Type := list (nat -> Interference).

Section Concurrent.

Variable settings : Config.Settings.
Variable ctx : Security.CryptContext.

Definition run_step (step : Step) (st : t) : t :=
  match step with
  | Registers salt username password display_name =>
      with_service
        (snd (MessagingService.register_user ctx salt username password
                display_name (messaging_service st))) st
  | LogsIn env username password vpn_ip =>
      with_service
        (snd (MessagingService.authenticate_user settings ctx env username
                password vpn_ip (messaging_service st))) st
  | OpensRoom keygen uuid now user1 user2 =>
      with_service
        (snd (MessagingService.create_secure_channel keygen uuid now user1 user2
                (messaging_service st))) st
  | Connects session_id w => snd (websocket_connect session_id w st)
  | Sends w f => snd (try_except (send_text w f) (fun _ => mret tt) st)
  | Disconnects session_id username => websocket_disconnect session_id username st
  | Drops session_id => with_active (delete session_id (active_connections st)) st
  | Breaks w e =>
      match sockets st !! w with
      | Some ws =>
          with_sockets
            (<[w := {| accepted := accepted ws; closed := closed ws;
                       outbox := outbox ws; send_raises := Some e |}]>
               (sockets st)) st
      | None => st
      end
  end.

Definition run_steps (steps : list Step) (st : t) : t :=
  fold_left (fun st step => run_step step st) steps st.

(** [await websocket.send_text(json.dumps(frame))] with the other tasks
    running meanwhile. *)
Definition await_send (others : Interference) (w : nat) (f : Frame) : M t unit :=
  fun st =>
    let sent := send_text w f (run_steps (fst others) st) in
    (fst sent, run_steps (snd others) (snd sent)).

(** The body of the inner loop of [broadcast_to_room] for the entry of
    [session_id] in [user_sessions], read when the iterator reaches it. *)
Definition visit (others : Interference) (message : Payload)
    (exclude_session : option string) (participant session_id : string)
    : M t unit :=
  st ← get;
  match MessagingService.user_sessions (messaging_service st) !! session_id with
  | Some username =>
      match active_connections st !! session_id with
      | Some websocket =>
          if String.eqb username participant
             && not_excluded session_id exclude_session
          then
            try_except
              (await_send others websocket (NewMessage message))
              (fun _ => mret tt)
          else mret tt
      | None => mret tt
      end
  | None => mret tt
  end.

(** [for session_id, username in messaging_service.user_sessions.items()]:
    the iterator walks the dictionary itself, and each time it is asked for
    the next entry, the last time included, it raises if the number of
    entries is no longer [used], the number it started with.  [keys] are the
    keys still to visit (nothing ever deletes an entry) and [j] is the
    position reached. *)
Fixpoint sessions_loop (others : nat -> Interference) (message : Payload)
    (exclude_session : option string) (participant : string) (used : nat)
    (keys : list string) (j : nat) : M t unit :=
  st ← get;
  if negb (size (MessagingService.user_sessions (messaging_service st)) =? used)%nat
  then throw (Py.RuntimeError "dictionary changed size during iteration")
  else
    match keys with
    | [] => mret tt
    | session_id :: keys' =>
        visit (others j) message exclude_session participant session_id;;
        sessions_loop others message exclude_session participant used keys' (S j)
    end.

(** The inner loop for one participant.  The sessions are visited in the
    order of [map_to_list]. *)
Definition sessions_pass (others : nat -> Interference) (message : Payload)
    (exclude_session : option string) (participant : string) : M t unit :=
  st ← get;
  let sessions := MessagingService.user_sessions (messaging_service st) in
  sessions_loop others message exclude_session participant (size sessions)
    (map fst (map_to_list sessions)) 0.

(** [room.participants] as the loop over it finds it.  The loop holds the
    room object it looked up; [register_user] appends to the list of the
    room "general", the one object it ever changes, and no room is ever
    replaced under that key. *)
Definition live_participants (room_id : string) (room : ChatSchemas.ChatRoom)
    (st : t) : list string :=
  if String.eqb room_id "general" then
    match MessagingService.chat_rooms (messaging_service st) !! "general" with
    | Some general => ChatSchemas.participants general
    | None => ChatSchemas.participants room
    end
  else ChatSchemas.participants room.

(** [for participant in room.participants] from position [i] on: the list
    is read again at every turn. *)
Fixpoint participants_loop (sched : Schedule) (message : Payload)
    (exclude_session : option string) (room_id : string)
    (room : ChatSchemas.ChatRoom) (i : nat) : M t unit :=
  match sched with
  | [] =>
      st ← get;
      for_each (skipn i (live_participants room_id room st))
        (sessions_pass (fun _ => quiet) message exclude_session)
  | others :: sched' =>
      st ← get;
      match live_participants room_id room st !! i with
      | None => mret tt
      | Some participant =>
          sessions_pass others message exclude_session participant;;
          participants_loop sched' message exclude_session room_id room (S i)
      end
  end.

(** [broadcast_to_room(message, exclude_session=None)] *)
Definition broadcast_to_room (sched : Schedule) (message : Payload)
    (exclude_session : option string) : M t unit :=
  st ← get;
  match payload_room_id message with
  | None => mret tt
  | Some room_id =>
      match MessagingService.chat_rooms (messaging_service st) !! room_id with
      | None => mret tt
      | Some room => participants_loop sched message exclude_session room_id room 0
      end
  end.

(** One turn of the receive loop of [chat_websocket] for the frame [data];
    [uuid] and [now] feed [create_message], [during] is what the other
    tasks do while the answer to the sender is sent, and [sched] what they
    do during the broadcast.  The result tells whether the loop goes on; an
    exception ends it and unregisters the connection. *)
Definition websocket_receive (during : Interference) (sched : Schedule)
    (uuid : string) (now : Datetime.t)
    (session_id : string) (w : nat) (username : string) (data : Incoming)
    : M t bool :=
  try_except
    (match data with
     | InInvalid e => throw e
     | InMessage room_id content =>
         st ← get;
         let created :=
           MessagingService.create_message uuid now session_id room_id content
             (messaging_service st) in
         modify (with_service (snd created));;
         match fst created with
         | Some message =>
             await_send during w
               (MessageSent (ChatSchemas.message_id message)
                  (ChatSchemas.timestamp message));;
             broadcast_to_room sched (PMessage message) None;;
             mret true
         | None =>
             await_send during w (ErrorFrame "No se pudo enviar el mensaje");;
             mret true
         end
     | InTyping (Some room_id) =>
         st ← get;
         if MessagingService.truthy room_id
            && bool_decide (is_Some (MessagingService.chat_rooms
                                       (messaging_service st) !! room_id))
         then broadcast_to_room sched (PTyping room_id username) (Some session_id);;
              mret true
         else mret true
     | InTyping None => mret true
     | InOther _ => mret true
     end)
    (fun _ =>
       modify (fun st => with_active (delete session_id (active_connections st)) st);;
       mret false).

End Concurrent.

(** [get_current_user(token)]: the user name and session id of a valid
    token; [None] is the 401 response. *)
Definition get_current_user (settings : Config.Settings) (utcnow : Z)
    (token : Security.Token) : option (string * option string) :=
  match Security.verify_token settings utcnow token with
  | None => None
  | Some payload =>
      match Security.payload_get (Security.claims payload) "sub" with
      | Some username =>
          if MessagingService.truthy username
          then Some (username,
                     Security.payload_get (Security.claims payload) "session_id")
          else None
      | None => None
      end
  end.

(** The responses of a route that needs a user and validates a query. *)
Inductive Response (A : Type) : Type :=
| Ok (body : A)
| Unauthorized
| Unprocessable.

Arguments Ok {A} body.
Arguments Unauthorized {A}.
Arguments Unprocessable {A}.

(** [GET /rooms/{room_id}/messages?limit=...], with [limit] between 1 and
    100. *)
Definition get_room_messages (settings : Config.Settings) (utcnow : Z)
    (env : MessagingService.SampleEnv) (token : Security.Token)
    (room_id : string) (limit : Z) (st : t)
    : Response (list ChatSchemas.Message) * t :=
  match get_current_user settings utcnow token with
  | None => (Unauthorized, st)
  | Some current_user =>
      if (1 <=? limit) && (limit <=? 100) then
        let r := MessagingService.get_room_messages env room_id limit
                   (messaging_service st) in
        (Ok (fst r), with_service (snd r) st)
      else (Unprocessable, st)
  end.

End ChatRoutes.

(** ** Definitions used in the statements and proofs of Part II *)

(** *** Sizes of DER encodings *)

(** Size of a tag-length-value triple whose content has [m] octets. *)
Definition der_tlv_size (m : nat) : nat := S (length (RSA.der_length m) + m).

Definition der_integer_size (x : Z) : nat :=
  der_tlv_size (Z.to_nat (Py.bit_length x / 8 + 1)).


(** *** The connection manager as a state machine *)

(** The state [_cleanup] leaves behind, in closed form. *)
Definition cleaned (st : VPNManager.State) : VPNManager.State :=
  (VPNManager.with_reset
     (VPNManager.with_tun None (VPNManager.with_status_task None (fst st))),
   match VPNManager.status_task (fst st) with
   | Some task => Asyncio.cancel_and_await task (snd st)
   | None => snd st
   end).

(** Unfolds the monadic plumbing, and nothing of the operations. *)
Ltac unfold_eff :=
  cbv [VPNManager.connect_body VPNManager.connect VPNManager.disconnect
       VPNManager.checkpoint Eff.lift Eff.get Eff.modify Eff.throw
       Eff.try_except mbind Eff.M_bind mret Eff.M_ret VPNManager.on_manager].

(** Case analysis on every call of the block that may raise. *)
Ltac body_cases env :=
  repeat first
    [ progress cbn [fst snd]
    | match goal with
      | |- context [VPNManager.faults env ?n] =>
          destruct (VPNManager.faults env n)
      | |- context [KyberManager.generate_keypair (VPNManager.keygen env) ?k] =>
          destruct (VPNManager.keygen env);
          cbv [KyberManager.generate_keypair]
      | |- context [KyberManager.encapsulate ?o ?l ?r ?k None] =>
          destruct (KyberManager.encapsulate o l r k None) as [? | [? ?]]
      | |- context [AESGCMCipher.__init__ ?r ?k] =>
          destruct (AESGCMCipher.__init__ r k)
      | |- context [TunManager.__init__ ?n ?m ?u] =>
          destruct (TunManager.__init__ n m u)
      | |- context [IPAddress.ipv4_network ?s] =>
          destruct (IPAddress.ipv4_network s)
      | |- context [IPAddress.getitem ?s ?n] =>
          destruct (IPAddress.getitem s n)
      end ].

(** How the block leaves the event loop and the task handle: untouched, or
    with one new task that the manager holds. *)
Definition task_created_or_not (st0 st : VPNManager.State) : Prop :=
  (snd st = snd st0 /\
   VPNManager.status_task (fst st) = VPNManager.status_task (fst st0)) \/
  (snd st = snd st0 ++ [Asyncio.Pending] /\
   VPNManager.status_task (fst st) = Some (length (snd st0))).


(** What [get_status] reports for a manager that is not connected. *)
Definition disconnected_status : Schemas.VpnStatus :=
  {| Schemas.connected := false; Schemas.uptime := 0;
     Schemas.bytesReceived := 0; Schemas.bytesSent := 0;
     Schemas.latency := 0; Schemas.status_vpnIp := None;
     Schemas.server_id := None |}.

(** The response with which [connect] refuses a second connection: the
    StateConflict of the specification. *)
Definition state_conflict : Schemas.ConnectionResponse :=
  {| Schemas.success := false;
     Schemas.message := "Ya existe una conexión VPN activa";
     Schemas.vpnIp := None |}.

(** All connection attributes have the values [__init__] gave them. *)
Definition fully_disconnected (self : VPNManager.t) : Prop :=
  VPNManager.connected self = false /\
  VPNManager.server self = None /\
  VPNManager.connection_time self = Py.Int 0 /\
  VPNManager.vpn_ip self = None /\
  VPNManager.bytes_sent self = 0 /\
  VPNManager.bytes_received self = 0 /\
  VPNManager.latency self = 0 /\
  VPNManager.aes self = None /\
  VPNManager.tun self = None /\
  VPNManager.status_task self = None.

(** Everything [connect] sets up is in place. *)
Definition fully_connected (self : VPNManager.t) : Prop :=
  VPNManager.connected self = true /\
  is_Some (VPNManager.server self) /\
  is_Some (VPNManager.vpn_ip self) /\
  is_Some (VPNManager.aes self) /\
  is_Some (VPNManager.tun self) /\
  is_Some (VPNManager.status_task self).

(** The calls the routes and the event loop make on the manager. *)
Inductive Call : Type :=
| CallConnect (env : VPNManager.ConnectEnv) (stop_raises : option Py.Exception)
    (server_id : string)
| CallDisconnect (stop_raises : option Py.Exception)
| CallGetStatus (now : float)
| RunStatusTask (task : nat) (r_latency r_traffic : Z).

Section Machine.

Variable oaep : nat -> list byte -> list byte.
Variable load_der_public_key : list byte -> Py.result RSA.RSAPublicKey.
Variable settings : Config.Settings.

(** The state after one call. *)
Definition after_call (st : VPNManager.State) (c : Call) : VPNManager.State :=
  match c with
  | CallConnect env stop_raises server_id =>
      snd (VPNManager.connect oaep load_der_public_key settings env
             stop_raises server_id st)
  | CallDisconnect stop_raises => snd (VPNManager.disconnect stop_raises st)
  | CallGetStatus _ => st
  | RunStatusTask task r_latency r_traffic =>
      VPNManager._update_status_task task r_latency r_traffic st
  end.

(** The state after a sequence of calls on a fresh manager and an event
    loop without tasks. *)
Definition after_calls (self : VPNManager.t) (calls : list Call) : VPNManager.State :=
  fold_left after_call calls (self, []).

End Machine.

(** What holds between calls: the manager is fully disconnected or fully
    connected, and a live task is the one the manager holds while connected. *)
Definition consistent (st : VPNManager.State) : Prop :=
  (fully_disconnected (fst st) \/ fully_connected (fst st)) /\
  (forall task, Asyncio.is_live task (snd st) = true ->
     VPNManager.connected (fst st) = true /\
     VPNManager.status_task (fst st) = Some task).

(** *** Concrete inputs *)

(** A 2048-bit key as [rsa.generate_private_key] returns them. *)
Definition demo_rsa_key_2048 : RSA.RSAPrivateKey :=
  {| RSA.priv_n := 0xa38a85764458595fa2d7c133661c5992e58a5669171f1dd98a15f1e288b805b3b387282b2c180f6ce698a1a6a11766f2cd91b0a7022f5053cc75bc8f9e9e9b1a18caa36e7d481b56c5aea24e1a6cac47089419049a31092b38b6dfbae88b24bb22d948469d926561b2f642170d79ccdcbc00dd892b7ed783302dcf44b5b2b102a32ec71056d350c9d232f97ccced7aab4661dc5c99af6dda5de9aad955d6f1c48569f6316c12821b214af8938e90f096edccdc144b34bd1354f4d9e3d09b50e1a557c6b317ade21cf2fa80f9b55b0c5031b038fae802986ca69c6b2d50d1a2c0cdbb5680f472b4ede193682dbc6a99781429f8f7042004200f0b83942bd8208b;
     RSA.priv_e := 0x10001;
     RSA.priv_d := 0x2c7a6011ea449d0a059fe84bb259c382d02aef9565547129d9045ee4dd8a2f02d0b0d19bec421eefdf4763af8de06f7f59a9660205f61842b238d32fbc54269ad2634a4fa28319ec5f973f4d3ea28fb841fd0550db1ebaffa64d164c1f32b8aaacafab98890267d04a7bef3d95ccaa8ade16de29904acf123ee83696d953e010077b764ab38e45043b665af0ce5052e1050e49300bbb4a5cc700cabf6509057b449386a87171756d457649752ff6dc6de01842c3cdb2e93c479cc85a70f2b757fe066405c27e9c254bfbf366d5988a73bdaf6b7e7151bb57a16ce8094a04cdb472c295c0bd485e52e32b23a0b08299dab3020575d6684c0ad7587a1902e56601;
     RSA.priv_p := 0xe6740b13eb7d444cca0aa7ce71c511b32cc8990b4ce5642f1be1df49097da13008faa2eee08b4150c79f2fc92d3b7c85d8374175c76164e22f42a71895c26346f1efadc05960d9d973a697a31246e89a1f496ecb89ef6fea55d9e2f949a05f772777ce9d3f1d8c94bf84cf15ac441499fe5ff73e4214bbf6109da597e54a9b79;
     RSA.priv_q := 0xb5ab996d5736e6fea26ec701df0c5b6439177323f54d2adfdcf3c6f705e88f7bfb88713131888881ce5c0ef2002f20cf6924f5ad7208c9f4b26f538d4786ffd5aed5743c2fc2b5f0312d503ffcb5eb76878e2f195a2a6a8ec56f3527d1ad03f588fa54d35947e4650fb37fa5550b40e27f15f3219b76cb561139ae651bd51723;
     RSA.priv_dmp1 := 0xb12431ffb5dc2c4bfa62066b21f8a18a60ba312a0689ad60a8c60ea44daf4bdf68878006ae835c4983a8514b0a81d74deacd4e7c022e5325a9be4a43139ac045206363e39ed05ba452c99375bdeed38ce4cfc5629f3c7582634b80b4ae6b9ff62f5860716eba7ffd36da1774495e6b979378a0cc326f4dabef49bea7eb9055c1;
     RSA.priv_dmq1 := 0x3a9f71171379a7f8ab39cc06128fce3dfd1e500d5e6ed45300ddb96aa50172abb37347f373e477084c2af0b7aecf866ae7a7019042a80b6366e0fdb92d47a6eeb1483805e3f394fa3924422d23c320845321d298ffbb883f21fecccc58a0d812376d7049f3197bde10beff85be77af2c678e11b2da93eef18b056dfd3a89fcb9;
     RSA.priv_iqmp := 0xa9bed3d3309cfec943fab40f7da44e7cb511a48a0661791a3c41acdbc735a5f286bf067ced5ad17df0f1e09ad5b980d3e82e1c9a04069b3cc1a9643ad4669bb8a797ab978c7d50ad199ce89d08bf26956d4fd36813184817c24771d4dd3d7689cdebf200f01cb433628c4d10d79654fcdf265bf224c2655897f204a47f6cfd4e |}.


(** A 3072-bit key as [rsa.generate_private_key] returns them. *)
Definition demo_rsa_key_3072 : RSA.RSAPrivateKey :=
  {| RSA.priv_n := 0xaef3514595b184bdc8a873079f6b2523bb90567f510e6339298539b6c4856786f3b2b970c61f24ed88b5f2b550d7f89bf963d1694bd589670d7afc6ecb1ca2e5639528594eee231e18c87efdd5598cd89bf89451bb46bf58b398cecdd40fcf52e35192529028a74c4a65113c905e865d79a30c1e068a508f4ec7472f13b265bfd06a0704c26551ef2f91b82d2b888651324fe64a21f87dc57138775acaf7762b071eff6f9ae3a1c5f4d105980d70809740473c019465f32c7b49e63e1b1941217ee20b26e13a5b12384383b2b6a83ad337117591a342241819855234c369eb0b9964d46da6d8625db2de9a5a4d493200af0574548bf117a17749b0db1c5c8c08d3e324ff07474fdc57edc1128fdb1c6f18ac180420383da7527ea06e4f6fcd570473731c94a36c73657afd56b66026913425ce11f879d072eef24f5c1077b1a548b5940ae0317a3ca412c8f4fc0ae4d4c01fb0ed83df4a372d36537d7ba8c5583ff2c93f022928204eb2338c6e5d085f14c564b3677d8d0d6532e5bd60de59a5;
     RSA.priv_e := 0x10001;
     RSA.priv_d := 0xedc429b414598a3a13b73b7e249f0d7e9eaeef9f609dd9241ad5c1362fa7cea78e145c0a7478674b9bfd0bba7800cd13cdc0671e5fbdfa5b5feac1a021d2ed602c12cf1f71321bf00f668d9094a07bd6f742c2f0c140c954d7e0d94ecae221b658d2c7b605cdfa70a8baeace10b7268d6b7eb83d264e5c66277e95b3d9651efbad582be9bff8cb7df27c6c7e972798c44948658662dcc0b1d1ca180c00c48888b9c8db06e6ce6f520602fd4345209ce2f2acdd549846665311cbc16aae9187fcaaa31ccce5c7c7e66b4860bf5de2513f16b7e0585839c52b87754f36dc845f8f5872001339443969b28f35e507f4ad542de26a0cc43176adf502e78d632c9efb58a3fd0b2470caf4bcaf0c2e38d374ec9f5e9437214344e4860513bee911cbb7b099de7c999d1be498bae6ff0a8734a7e2743e0e7dc1038c50fb165e673e2c7d00fc19389ca9ba135b0af56391b4cbd163f1c52ade04c20114bfeaf5b792340a2d5970c91d5a5f4b1d4182f55a83757dbe36c0859343908f53aee1cb82f7bc9;
     RSA.priv_p := 0xd3d794cb8087e01cd40bfb4288acb51ffd7abf0c10db7be772a376b79732610780ff42248420399e4ddeb4b19c9d39120eeb5ee8117e3e15855d1081ff3be70340a0a3c3e495aef5470a55b9a51db5e9126c9e988f261f8f8f10a30d562475cf2932c5a7a4f637410a111c3eafa42d026d711587fb3dd8da45be11f7722c7b2aa80593807facd3c0988a4243fab619743b40bdb436e550d66f9a9872ec77862445db0a5569886083ec4bc686cc360b9dd46254bf99c1a5bab813e85796005b5d;
     RSA.priv_q := 0xd36b1b38b514fde9a4e0ea6d2bdfadef5a7ee1faaa5da6a54ef6aba37e10ab092473fca991349dbed1dc4a445d09f48f9555599d2351b81aa2138aa136ce408a1f91adbcdc8d46fb4164e4e944afae02b7dd6560547cafdf8ef9fb4c44029c55c09937a1505066a9a57d37bd6a561d7fdb19d8753707beabf37ca0314ab5ccfc86b395314b4cbeaea992d95b9eedc455ad9e3b3132a075b0186b3fd331df6fc0c9415baffdacd97bf3422719fd753344f8b9cc4dd602294891e0f2dc11d6dae9;
     RSA.priv_dmp1 := 0xbeb21ad492103e535522affcf5b19a9e807ca54c0444bfa5da5181c5c48a6a43ea005e1727052738f4da1c88a1f5f9f0e293486cd98a6df2cb89ba197b9bfdd9b4aca69ee9bf40aeb5537d55cf680e600fe0cd6781bd0cbe1b481baf1eb35585b58d69d5feae5190efb1f55e0c985a980bd2b752207d4d1f3796e0ef81ccbed6e84794bf20af8032a85e1546c28278296449643bbd0af29906000169baa9e18bf782352c2c02c2f71e981bcf2e371c7fe836d8195e1caec6857c0e3401e8b255;
     RSA.priv_dmq1 := 0x6bc9ceae21bc9b1bf500eae4501b116dd7e09acc16f1fa558ba5bdaa744a8138ff09d786884ea0223a92aa96a22cc230363db69ba3f734faf7292963ba327bbb300f30d9fa44592d1e9117184af99aa92e1ec561d0916585803ab9418fe718d7ab8332569f40eea68d8602d62291d72669898acf700815d14b297deec39d5eee5caad064ba745d3f659b46102d3e21fc60b12c928fb2396e5774ceac995fc6752ee6909d70a3209ace522ae7584ed99dcf85c2c0e85c5fb9ed0e1823d5408a89;
     RSA.priv_iqmp := 0xbf0a494bf4c5044e4949eef17ff5e1fbeb91c74a7fd64cee42641d56ec6cee0f8cb2050698e00c4a61d79ffa529192672b92b459351a9ce73a9d7a219a1296fea6ad8dfd577d7f6796197ff1da671dba5e9710d3b1922e8a75575b476d6f9347590b4512d7c63fd9a70690ef11985d65387e8f0ce50e7c4ad2407d1c9a95dadf0ebc1405b318373d74d5bbe534b8c1e72f5d05d7eebfa0655eb9cf405ffe171d33ddea61bff49de5be07a17d3948c9ea7e2b2e6d28ed17778d4de80be0c8060b |}.

(** An entropy source and two environments for [connect]: one in which
    nothing fails, one in which the step after the creation of the
    background task raises. *)
Definition demo_entropy (i : nat) : byte := Py.byte_of_Z (7 * Z.of_nat i + 3).

Definition demo_env : VPNManager.ConnectEnv :=
  {| VPNManager.keygen := Py.ok demo_rsa_key_3072;
     VPNManager.entropy := demo_entropy;
     VPNManager.clock := 1700000000.75%float;
     VPNManager.faults := fun _ => None |}.

Definition demo_env_failing : VPNManager.ConnectEnv :=
  {| VPNManager.keygen := Py.ok demo_rsa_key_3072;
     VPNManager.entropy := demo_entropy;
     VPNManager.clock := 1700000000.75%float;
     VPNManager.faults :=
       fun n => if (n =? 8)%nat then Some (Py.LibraryError "out of memory") else None |}.

(** The manager [VPNManager()] builds under the default settings. *)
Definition fresh_manager : VPNManager.t :=
  {| VPNManager.kyber :=
       {| KyberManager.parameter_set := "kyber768";
          KyberManager.key_size := 3072;
          KyberManager._keypair := None |};
     VPNManager.aes := None; VPNManager.tun := None;
     VPNManager.connected := false; VPNManager.server := None;
     VPNManager.connection_time := Py.Int 0; VPNManager.vpn_ip := None;
     VPNManager.bytes_sent := 0; VPNManager.bytes_received := 0;
     VPNManager.latency := 0; VPNManager.status_task := None |}.

(** The default settings with a subnet of two addresses. *)
Definition demo_settings_small_subnet : Config.Settings :=
  {| Config.SECRET_KEY := Config.SECRET_KEY Config.settings;
     Config.ACCESS_TOKEN_EXPIRE_MINUTES :=
       Config.ACCESS_TOKEN_EXPIRE_MINUTES Config.settings;
     Config.ALGORITHM := Config.ALGORITHM Config.settings;
     Config.VPN_SUBNET := "10.8.0.0/31";
     Config.VPN_SERVER_IP := Config.VPN_SERVER_IP Config.settings;
     Config.TUN_NAME := Config.TUN_NAME Config.settings;
     Config.KYBER_PARAMETER := Config.KYBER_PARAMETER Config.settings;
     Config.VPN_SERVERS := Config.VPN_SERVERS Config.settings |}.

(** The first entry of the default server catalogue. *)
Definition demo_server : Config.Server :=
  {| Config.id := "server1"; Config.name := "Servidor Principal";
     Config.location := "Madrid, España"; Config.ip := "192.168.1.1";
     Config.port := 1194; Config.status := "online";
     Config.latency := Some 25 |}.

(** The state in which [connect("server1")] leaves that manager under
    [demo_env]: see [connect_reaches_demo_state]. *)
Definition demo_connected_state : VPNManager.State :=
  ({| VPNManager.kyber :=
        snd (KyberManager.generate_keypair (Py.ok demo_rsa_key_3072)
               (VPNManager.kyber fresh_manager));
      VPNManager.aes := Some {| AESGCMCipher.key := Py.urandom demo_entropy 32 |};
      VPNManager.tun :=
        Some {| TunManager.name := "tun0"; TunManager.mode := "tun";
                TunManager.mtu := 1500; TunManager.interface := None;
                TunManager.running := false; TunManager.ip_address := None;
                TunManager.netmask := None |};
      VPNManager.connected := true;
      VPNManager.server := Some demo_server;
      VPNManager.connection_time := Py.Float 1700000000.75%float;
      VPNManager.vpn_ip := Some "10.8.0.2";
      VPNManager.bytes_sent := 0; VPNManager.bytes_received := 0;
      VPNManager.latency := 25;
      VPNManager.status_task := Some 0%nat |},
   [Asyncio.Pending]).

(** The key 00 01 ... 1f, a plaintext and associated data for the closed
    instance below. *)
Definition demo_aes_key : list byte := map (fun i => Py.byte_of_Z (Z.of_nat i)) (seq 0 32).
Definition demo_plaintext : list byte := [x68; x6f; x6c; x61; x20; x76; x70; x6e].
Definition demo_aad : list byte := [x68; x64; x72].

(** The cipher object over that key, and a stand-in for the AES block
    function in closed instances (the theorems hold for every block
    function). *)
Definition demo_cipher : AESGCMCipher.t := {| AESGCMCipher.key := demo_aes_key |}.

Definition demo_block_cipher (key : list byte) (block : Z) : Z :=
  Z.lxor (block * 3 + 1) (Py.int_from_bytes (firstn 16 key)).


(** *** Fan-out of a broadcast *)

(** A socket after more frames were sent through it. *)
Definition extend (fs : list ChatRoutes.Frame) (ws : ChatRoutes.WebSocket)
    : ChatRoutes.WebSocket :=
  {| ChatRoutes.accepted := ChatRoutes.accepted ws;
     ChatRoutes.closed := ChatRoutes.closed ws;
     ChatRoutes.outbox := ChatRoutes.outbox ws ++ fs;
     ChatRoutes.send_raises := ChatRoutes.send_raises ws |}.

(** [st'] differs from [st] at most in that copies of the frame [f] were
    appended to the outboxes of some sockets. *)
Definition only_sent (f : ChatRoutes.Frame) (st st' : ChatRoutes.t) : Prop :=
  ChatRoutes.messaging_service st' = ChatRoutes.messaging_service st /\
  ChatRoutes.active_connections st' = ChatRoutes.active_connections st /\
  forall w,
    match ChatRoutes.sockets st !! w with
    | None => ChatRoutes.sockets st' !! w = None
    | Some ws =>
        exists n, ChatRoutes.sockets st' !! w = Some (extend (repeat f n) ws)
    end.

(** The frame [f] has been sent through socket [w]. *)
Definition received (f : ChatRoutes.Frame) (w : nat) (st : ChatRoutes.t) : Prop :=
  exists ws, ChatRoutes.sockets st !! w = Some ws /\ f ∈ ChatRoutes.outbox ws.

(** Socket [w] holds [ws] with [n] more copies of the frame [f] at the end
    of its outbox. *)
Definition grown (f : ChatRoutes.Frame) (w : nat) (ws : ChatRoutes.WebSocket)
    (n : nat) (st : ChatRoutes.t) : Prop :=
  ChatRoutes.sockets st !! w = Some (extend (repeat f n) ws).

(** The socket [w] is one that [broadcast_to_room message exclude_session]
    sends through: it is registered for a session, other than the excluded
    one, of a participant of the room of the message. *)
Definition addressed (message : ChatRoutes.Payload) (exclude_session : option string)
    (st : ChatRoutes.t) (w : nat) : Prop :=
  exists room_id room session_id username,
    ChatRoutes.payload_room_id message = Some room_id /\
    MessagingService.chat_rooms (ChatRoutes.messaging_service st) !! room_id
      = Some room /\
    username ∈ ChatSchemas.participants room /\
    MessagingService.user_sessions (ChatRoutes.messaging_service st) !! session_id
      = Some username /\
    ChatRoutes.active_connections st !! session_id = Some w /\
    ChatRoutes.not_excluded session_id exclude_session = true.

(** *** Printed addresses *)

(** The decimal rendering of an octet: what [parse_octet] reads back, free
    of dots and slashes, and not empty. *)
Definition octet_ok (o : Z) : bool :=
  match IPAddress.parse_octet (Str.of_int o) with
  | Some v => v =? o
  | None => false
  end
  && negb (Str.contains "." (Str.of_int o))
  && negb (Str.contains "/" (Str.of_int o))
  && negb (String.eqb (Str.of_int o) "").

(** *** Authentication outcomes *)

(** The error kinds of the specification that [authenticate_user] can
    answer with, read off the message of a failed result. *)
Inductive AuthError : Type := AuthenticationFailure | NotFound.

Definition auth_error (r : MessagingService.AuthResult) : option AuthError :=
  if MessagingService.success r then None
  else if String.eqb (MessagingService.message r) "Usuario no encontrado"
       then Some NotFound
       else Some AuthenticationFailure.

(** The claimed address does not parse, or it lies outside the configured
    subnet (which includes every address when the configured subnet itself
    does not parse). *)
Definition off_vpn (settings : Config.Settings) (vpn_ip : string) : Prop :=
  match IPAddress.ip_address vpn_ip with
  | inl _ => True
  | inr ip =>
      match IPAddress.ip_network (Config.VPN_SUBNET settings) with
      | inl _ => True
      | inr vpn_network => IPAddress.contains vpn_network ip = false
      end
  end.

(** The expiry a token carries. *)
Definition token_exp (token : Security.Token) : option Z :=
  match token with
  | Security.Signed _ _ _ e => Some e
  | Security.Malformed _ => None
  end.

(** Every account participates in the room "general", once. *)
Definition everyone_in_general (s : MessagingService.t) : Prop :=
  exists room,
    MessagingService.chat_rooms s !! "general" = Some room /\
    NoDup (ChatSchemas.participants room) /\
    forall username,
      is_Some (MessagingService._users_db s !! username) ->
      username ∈ ChatSchemas.participants room.

(** *** The chat backend as a state machine *)

(** The calls that reach the messaging service and the registry of
    connections, each with what it takes from outside. *)
Inductive ChatCall : Type :=
| Register (salt username password display_name : string)
| Authenticate (env : MessagingService.AuthEnv) (username password vpn_ip : string)
| CreateChannel (keygen : Py.result RSA.RSAPrivateKey) (uuid : string)
    (now : Datetime.t) (user1 user2 : string)
| RoomMessages (utcnow : Z) (env : MessagingService.SampleEnv)
    (token : Security.Token) (room_id : string) (limit : Z)
| WsConnect (session_id : string) (w : nat)
| WsReceive (during : ChatRoutes.Interference) (sched : ChatRoutes.Schedule)
    (uuid : string) (now : Datetime.t) (session_id : string) (w : nat)
    (username : string) (data : ChatRoutes.Incoming)
| WsDisconnect (session_id username : string).

Section ChatMachine.

Variable settings : Config.Settings.
Variable ctx : Security.CryptContext.

Definition on_service (f : MessagingService.t -> MessagingService.t)
    (st : ChatRoutes.t) : ChatRoutes.t :=
  ChatRoutes.with_service (f (ChatRoutes.messaging_service st)) st.

Definition after_chat_call (st : ChatRoutes.t) (c : ChatCall) : ChatRoutes.t :=
  match c with
  | Register salt username password display_name =>
      on_service
        (fun s => snd (MessagingService.register_user ctx salt username
                         password display_name s)) st
  | Authenticate env username password vpn_ip =>
      on_service
        (fun s => snd (MessagingService.authenticate_user settings ctx env
                         username password vpn_ip s)) st
  | CreateChannel keygen uuid now user1 user2 =>
      on_service
        (fun s => snd (MessagingService.create_secure_channel keygen uuid now
                         user1 user2 s)) st
  | RoomMessages utcnow env token room_id limit =>
      snd (ChatRoutes.get_room_messages settings utcnow env token room_id limit st)
  | WsConnect session_id w => snd (ChatRoutes.websocket_connect session_id w st)
  | WsReceive during sched uuid now session_id w username data =>
      snd (ChatRoutes.websocket_receive settings ctx during sched uuid now
             session_id w username data st)
  | WsDisconnect session_id username =>
      ChatRoutes.websocket_disconnect session_id username st
  end.

Definition after_chat_calls (st : ChatRoutes.t) (calls : list ChatCall)
    : ChatRoutes.t :=
  fold_left after_chat_call calls st.

End ChatMachine.

(** *** Concrete inputs for the chat backend *)

(** A stand-in for bcrypt in closed instances (the theorems hold for every
    context): the hash is the salt, a dollar sign and the password, and a
    password that holds a NUL byte is refused, as bcrypt refuses it. *)
Definition demo_refusal : Py.Exception :=
  Py.ValueError "bcrypt does not allow NULL bytes in password".

Definition demo_ctx : Security.CryptContext :=
  {| Security.hash := fun password salt =>
       if Str.contains "000"%char password then Py.raise demo_refusal
       else Py.ok (salt +:+ "$" +:+ password);
     Security.verify := fun plain hashed =>
       if Str.contains "000"%char plain then Py.raise demo_refusal
       else
         match Str.split "$" hashed with
         | [_; p] => Py.ok (String.eqb p plain)
         | _ => Py.ok false
         end |}.

Definition demo_now : Datetime.t :=
  {| Datetime.year := 2024; Datetime.month := 5; Datetime.day := 17;
     Datetime.hour := 10; Datetime.minute := 42; Datetime.second := 7;
     Datetime.microsecond := 250000 |}.

(** The service as [MessagingService()] builds it, and the module state of
    the chat routes around it. *)
Definition demo_service : MessagingService.t :=
  MessagingService.fresh "salt1$password1" "salt2$password2" demo_now.

Definition demo_chat : ChatRoutes.t :=
  {| ChatRoutes.messaging_service := demo_service;
     ChatRoutes.active_connections := ∅;
     ChatRoutes.sockets := ∅ |}.

Definition demo_auth_env : MessagingService.AuthEnv :=
  {| MessagingService.auth_uuid := "7d9f0c1e-2b3a-4c5d-8e6f-a1b2c3d4e5f6";
     MessagingService.auth_utcnow := 1715942527;
     MessagingService.auth_now := demo_now |}.

(** A moment after the expiry of a token issued at [demo_auth_env]. *)
Definition demo_later : Datetime.t :=
  {| Datetime.year := 2024; Datetime.month := 6; Datetime.day := 30;
     Datetime.hour := 9; Datetime.minute := 0; Datetime.second := 0;
     Datetime.microsecond := 0 |}.

Definition demo_later_utc : Z := 1719738000.

Definition demo_sample_env : MessagingService.SampleEnv :=
  {| MessagingService.uuid1 := "00000000-0000-4000-8000-000000000001";
     MessagingService.uuid2 := "00000000-0000-4000-8000-000000000002";
     MessagingService.uuid3 := "00000000-0000-4000-8000-000000000003";
     MessagingService.now1 := demo_now;
     MessagingService.now2 := demo_now;
     MessagingService.now3 := demo_now |}.

(** Three users in the room "general", each with a session and a WebSocket
    through which sending succeeds. *)
Definition demo_session (n : Z) : string :=
  "5e55104" +:+ Str.of_int n +:+ "-0000-4000-8000-000000000000".

Definition demo_auth_env_for (n : Z) : MessagingService.AuthEnv :=
  {| MessagingService.auth_uuid := demo_session n;
     MessagingService.auth_utcnow := 1715942527;
     MessagingService.auth_now := demo_now |}.

Definition demo_live_state : ChatRoutes.t :=
  after_chat_calls Config.settings demo_ctx demo_chat
    [ Register "salt3" "usuario3" "password3" "Usuario Demo 3";
      Authenticate (demo_auth_env_for 1) "usuario1" "password1" "10.8.0.5";
      Authenticate (demo_auth_env_for 2) "usuario2" "password2" "10.8.0.6";
      Authenticate (demo_auth_env_for 3) "usuario3" "password3" "10.8.0.7";
      WsConnect (demo_session 1) 1;
      WsConnect (demo_session 2) 2;
      WsConnect (demo_session 3) 3 ].

(** The same, except that sending through the second socket raises. *)
Definition demo_broadcast_state : ChatRoutes.t :=
  let st := demo_live_state in
  ChatRoutes.with_sockets
    (<[2%nat := {| ChatRoutes.accepted := true; ChatRoutes.closed := None;
                   ChatRoutes.outbox := [];
                   ChatRoutes.send_raises :=
                     Some (Py.RuntimeError "connection lost") |}]>
       (ChatRoutes.sockets st)) st.

Definition demo_message : ChatSchemas.Message :=
  {| ChatSchemas.message_id := "c0ffee00-0000-4000-8000-000000000000";
     ChatSchemas.sender := "usuario1"; ChatSchemas.room_id := "general";
     ChatSchemas.content := "hola"; ChatSchemas.timestamp := demo_now;
     ChatSchemas.read_by := ["usuario1"] |}.

(** A login of "usuario2" from another device, while a broadcast is under
    way. *)
Definition demo_login : ChatRoutes.Step :=
  ChatRoutes.LogsIn (demo_auth_env_for 4) "usuario2" "password2" "10.8.0.8".

(** Whether a step of another task is a login, the one operation that adds
    an entry to [user_sessions]. *)
Definition is_login (step : ChatRoutes.Step) : bool :=
  match step with
  | ChatRoutes.LogsIn _ _ _ _ => true
  | _ => false
  end.

(** No task logs in during the sends that the interference covers. *)
Definition no_login (others : ChatRoutes.Interference) : Prop :=
  Forall (fun step => is_login step = false) (fst others ++ snd others).

(* ===================================================================== *)
(** * Part II: theorems                                                   *)
(* ===================================================================== *)

(** ** The simulated Kyber manager *)

(** ** Lengths of the byte strings *)

Lemma length_digits_le (k : nat) (x : Z) : length (Py.digits_le k x) = k.
Proof.
  revert x; induction k as [|k IH]; intros x; simpl; [reflexivity|].
  now rewrite IH.
Qed.

Lemma length_to_bytes_be (k : nat) (x : Z) : length (Py.to_bytes_be k x) = k.
Proof. unfold Py.to_bytes_be. rewrite length_rev. apply length_digits_le. Qed.

Lemma length_urandom (rnd : nat -> byte) (n : nat) :
  length (Py.urandom rnd n) = n.
Proof. unfold Py.urandom. now rewrite length_map, length_seq. Qed.

Lemma int_to_bytes_length (x : Z) (k : nat) (l : list byte) :
  Py.int_to_bytes x k = Some l -> length l = k.
Proof.
  unfold Py.int_to_bytes. destruct (x <? 256 ^ Z.of_nat k); [|discriminate].
  intros [= <-]. apply length_to_bytes_be.
Qed.

Lemma powmod_pos_bound (b : Z) (e : positive) (n : Z) :
  0 < n -> 0 <= RSA.powmod_pos b e n < n.
Proof.
  intros Hn. destruct e; simpl; apply Z.mod_pos_bound; assumption.
Qed.

Lemma powmod_bound (b e n : Z) : 0 < n -> 0 <= RSA.powmod b e n < n.
Proof.
  intros Hn. destruct e; simpl;
    [apply Z.mod_pos_bound | apply powmod_pos_bound | apply Z.mod_pos_bound];
    assumption.
Qed.

(** A positive number is below two to the power of its bit length. *)
Lemma lt_pow2_bit_length (n : Z) : 0 < n -> n < 2 ^ Py.bit_length n.
Proof.
  intros Hn. unfold Py.bit_length.
  destruct (Z.eqb_spec n 0) as [-> | _]; [lia|].
  replace (Z.log2 n + 1) with (Z.succ (Z.log2 n)) by lia.
  apply Z.log2_spec; assumption.
Qed.

Lemma bit_length_nonneg (n : Z) : 0 <= Py.bit_length n.
Proof.
  unfold Py.bit_length. destruct (n =? 0); [lia|].
  pose proof (Z.log2_nonneg n). lia.
Qed.

(** A number of at most [b] bits, [b] a multiple of eight, fits [b/8] bytes. *)
Lemma lt_256_pow (n b : Z) :
  0 < n -> Py.bit_length n = 8 * b -> n < 256 ^ b.
Proof.
  intros Hn Hb. pose proof (lt_pow2_bit_length n Hn) as H.
  pose proof (bit_length_nonneg n).
  rewrite Hb in H. change 256 with (2 ^ 8).
  rewrite <- Z.pow_mul_r by lia. exact H.
Qed.

Lemma modulus_bytes_exact (n b : Z) :
  0 <= b -> Py.bit_length n = 8 * b -> RSA.modulus_bytes n = Z.to_nat b.
Proof.
  intros Hb H. unfold RSA.modulus_bytes. rewrite H. f_equal.
  replace (8 * b + 7) with (7 + b * 8) by lia.
  rewrite Z.div_add by lia. reflexivity.
Qed.

(** RSA-OAEP encryption of a short message succeeds and yields exactly as
    many bytes as the modulus has. *)
Lemma encrypt_length (oaep : nat -> list byte -> list byte)
    (pk : RSA.RSAPublicKey) (msg : list byte) (b : Z) :
  0 < RSA.pub_n pk ->
  Py.bit_length (RSA.pub_n pk) = 8 * b ->
  Z.of_nat (length msg) + 66 <= b ->
  exists c, RSA.encrypt oaep pk msg = Py.ok c /\ Z.of_nat (length c) = b.
Proof.
  intros Hn Hbits Hmsg. unfold RSA.encrypt.
  assert (Hb : 0 <= b) by lia.
  rewrite (modulus_bytes_exact _ b Hb Hbits).
  destruct (Nat.leb_spec (length msg + 66) (Z.to_nat b)) as [_|Hlt]; [|lia].
  set (c := RSA.powmod _ _ _).
  assert (Hc : 0 <= c < RSA.pub_n pk) by (apply powmod_bound; assumption).
  pose proof (lt_256_pow _ _ Hn Hbits) as Hlt.
  unfold Py.int_to_bytes. rewrite Z2Nat.id by assumption.
  destruct (Z.ltb_spec c (256 ^ b)) as [_|Hge]; [|lia].
  eexists; split; [reflexivity|].
  rewrite length_to_bytes_be. lia.
Qed.

(** ** Sizes of the DER encodings *)

Lemma length_der_tlv (tag : byte) (c : list byte) :
  length (RSA.der_tlv tag c) = der_tlv_size (length c).
Proof. unfold RSA.der_tlv, der_tlv_size. simpl. now rewrite length_app. Qed.

Lemma length_der_integer (x : Z) :
  length (RSA.der_integer x) = der_integer_size x.
Proof.
  unfold RSA.der_integer, der_integer_size.
  now rewrite length_der_tlv, length_to_bytes_be.
Qed.

Lemma length_public_bytes (pk : RSA.RSAPublicKey) :
  length (RSA.public_bytes pk) =
  der_tlv_size
    (15 + der_tlv_size
       (S (der_tlv_size (der_integer_size (RSA.pub_n pk) +
                         der_integer_size (RSA.pub_e pk))))).
Proof.
  unfold RSA.public_bytes, RSA.der_sequence.
  rewrite length_der_tlv, length_app, length_der_tlv. cbn [length].
  rewrite length_der_tlv, length_app, !length_der_integer.
  reflexivity.
Qed.

Lemma length_private_bytes (sk : RSA.RSAPrivateKey) :
  length (RSA.private_bytes sk) =
  der_tlv_size
    (3 + (15 + der_tlv_size
       (der_tlv_size
          (3 + (der_integer_size (RSA.priv_n sk) +
               (der_integer_size (RSA.priv_e sk) +
               (der_integer_size (RSA.priv_d sk) +
               (der_integer_size (RSA.priv_p sk) +
               (der_integer_size (RSA.priv_q sk) +
               (der_integer_size (RSA.priv_dmp1 sk) +
               (der_integer_size (RSA.priv_dmq1 sk) +
                der_integer_size (RSA.priv_iqmp sk))))))))))))%nat.
Proof.
  unfold RSA.private_bytes, RSA.der_sequence.
  rewrite length_der_tlv, !length_app, length_der_tlv.
  rewrite length_der_tlv, !length_app, !length_der_integer.
  reflexivity.
Qed.

Lemma bit_length_le (x b : Z) : 0 <= x < 2 ^ b -> 0 <= b -> Py.bit_length x <= b.
Proof.
  intros [Hx Hlt] Hb. unfold Py.bit_length.
  destruct (Z.eqb_spec x 0) as [-> | Hne]; [assumption|].
  assert (Z.log2 x < b) by (apply Z.log2_lt_pow2; lia). lia.
Qed.

(** Up to 65535 octets of content the length field takes at most three
    octets, so a triple is at most four octets longer than its content. *)
Lemma der_tlv_size_le (m : nat) :
  Z.of_nat m < 65536 -> (der_tlv_size m <= m + 4)%nat.
Proof.
  intros Hm. unfold der_tlv_size, RSA.der_length.
  destruct (m <? 128)%nat; cbn [length]; [lia|].
  rewrite length_to_bytes_be. unfold RSA.modulus_bytes.
  assert (Py.bit_length (Z.of_nat m) <= 16)
    by (apply bit_length_le; [change (2 ^ 16) with 65536|]; lia).
  pose proof (bit_length_nonneg (Z.of_nat m)).
  assert ((Py.bit_length (Z.of_nat m) + 7) / 8 < 3)
    by (apply Z.div_lt_upper_bound; lia).
  lia.
Qed.

Lemma der_integer_size_le (x b : Z) :
  0 <= x < 2 ^ (8 * b) -> 0 <= b < 65535 ->
  (der_integer_size x <= Z.to_nat b + 5)%nat.
Proof.
  intros Hx Hb. unfold der_integer_size.
  assert (Hbl : Py.bit_length x <= 8 * b) by (apply bit_length_le; lia).
  pose proof (bit_length_nonneg x) as Hnn.
  assert (Hdiv : 0 <= Py.bit_length x / 8 <= b).
  { split; [apply Z.div_pos; lia|apply Z.div_le_upper_bound; lia]. }
  etransitivity; [apply der_tlv_size_le; lia|]. lia.
Qed.

(** ** What a generated key looks like *)

Lemma bit_length_pos (n : Z) : 1 < Py.bit_length n -> 0 < n.
Proof.
  unfold Py.bit_length. destruct (Z.eqb_spec n 0) as [-> | Hne]; [lia|].
  intros H. destruct (Z.lt_trichotomy n 0) as [Hneg | [-> | Hpos]]; [|lia|exact Hpos].
  rewrite Z.log2_nonpos in H by lia. lia.
Qed.

Lemma bit_length_range (n b : Z) : 1 < b -> Py.bit_length n = b -> 0 < n < 2 ^ b.
Proof.
  intros Hb H. assert (Hn : 0 < n) by (apply bit_length_pos; lia).
  split; [exact Hn|]. rewrite <- H. apply lt_pow2_bit_length; exact Hn.
Qed.

(** The facts about a generated key that the size arguments use. *)
Lemma generated_facts (bits : Z) (sk : RSA.RSAPrivateKey) :
  2 < bits / 2 ->
  RSA.generated bits sk = true ->
  RSA.priv_e sk = 65537 /\
  Py.bit_length (RSA.priv_n sk) = bits /\
  0 < RSA.priv_d sk < RSA.priv_n sk /\
  Py.bit_length (RSA.priv_p sk) = bits / 2 /\
  Py.bit_length (RSA.priv_q sk) = bits / 2 /\
  0 <= RSA.priv_dmp1 sk < RSA.priv_p sk /\
  0 <= RSA.priv_dmq1 sk < RSA.priv_q sk /\
  0 <= RSA.priv_iqmp sk < RSA.priv_p sk.
Proof.
  intros Hbits H. unfold RSA.generated in H.
  repeat (apply andb_prop in H; destruct H as [H ?]).
  repeat match goal with
         | H : (_ =? _) = true |- _ => apply Z.eqb_eq in H
         | H : (_ <? _) = true |- _ => apply Z.ltb_lt in H
         | H : (_ <=? _) = true |- _ => apply Z.leb_le in H
         end.
  assert (Hp : 0 < RSA.priv_p sk < 2 ^ (bits / 2))
    by (apply bit_length_range; [lia|assumption]).
  assert (Hq : 0 < RSA.priv_q sk < 2 ^ (bits / 2))
    by (apply bit_length_range; [lia|assumption]).
  assert (Hp1 : 1 < RSA.priv_p sk).
  { destruct (Z.eq_dec (RSA.priv_p sk) 1) as [E|]; [|lia].
    rewrite E in *. cbv [Py.bit_length Z.eqb Z.log2] in *. lia. }
  assert (Hq1 : 1 < RSA.priv_q sk).
  { destruct (Z.eq_dec (RSA.priv_q sk) 1) as [E|]; [|lia].
    rewrite E in *. cbv [Py.bit_length Z.eqb Z.log2] in *. lia. }
  pose proof (Z.mod_pos_bound (RSA.priv_d sk) (RSA.priv_p sk - 1)).
  pose proof (Z.mod_pos_bound (RSA.priv_d sk) (RSA.priv_q sk - 1)).
  repeat split; try assumption; try lia.
Qed.

(** The DER public key of a generated key of [16 * h] bits, for the three
    key sizes of [KyberManager.key_sizes]. *)
Lemma public_bytes_generated (h : Z) (sk : RSA.RSAPrivateKey) :
  h = 128 \/ h = 192 \/ h = 256 ->
  RSA.generated (16 * h) sk = true ->
  Z.of_nat (length (RSA.public_bytes (RSA.public_key sk))) = 2 * h + 38.
Proof.
  intros Hh Hgen. rewrite length_public_bytes. unfold der_integer_size. simpl.
  assert (Hf : RSA.priv_e sk = 65537 /\ Py.bit_length (RSA.priv_n sk) = 16 * h).
  { destruct Hh as [-> | [-> | ->]];
      (apply generated_facts in Hgen; [tauto|reflexivity]). }
  destruct Hf as [-> ->].
  destruct Hh as [-> | [-> | ->]]; reflexivity.
Qed.

(** The PKCS#8 secret key of such a key is at most [9 * h + 73] octets. *)
Lemma private_bytes_generated (h : Z) (sk : RSA.RSAPrivateKey) :
  h = 128 \/ h = 192 \/ h = 256 ->
  RSA.generated (16 * h) sk = true ->
  Z.of_nat (length (RSA.private_bytes sk)) <= 9 * h + 73.
Proof.
  intros Hh Hgen.
  assert (Hr : 100 < h < 300) by lia.
  assert (Hhalf : (16 * h) / 2 = 8 * h).
  { replace (16 * h) with ((8 * h) * 2) by lia. apply Z.div_mul. lia. }
  apply generated_facts in Hgen; [|lia]. rewrite Hhalf in Hgen.
  destruct Hgen as (He & Hn & Hd & Hp & Hq & Hdp & Hdq & Hiq).
  apply bit_length_range in Hn; [|lia].
  apply bit_length_range in Hp; [|lia].
  apply bit_length_range in Hq; [|lia].
  replace (16 * h) with (8 * (2 * h)) in Hn by lia.
  pose proof (der_integer_size_le (RSA.priv_n sk) (2 * h)) as Bn.
  pose proof (der_integer_size_le (RSA.priv_d sk) (2 * h)) as Bd.
  pose proof (der_integer_size_le (RSA.priv_p sk) h) as Bp.
  pose proof (der_integer_size_le (RSA.priv_q sk) h) as Bq.
  pose proof (der_integer_size_le (RSA.priv_dmp1 sk) h) as Bdp.
  pose proof (der_integer_size_le (RSA.priv_dmq1 sk) h) as Bdq.
  pose proof (der_integer_size_le (RSA.priv_iqmp sk) h) as Biq.
  assert (Be : der_integer_size (RSA.priv_e sk) = 5%nat) by (rewrite He; reflexivity).
  rewrite length_private_bytes.
  match goal with
  | |- context [der_tlv_size (der_tlv_size ?inner)] =>
      pose proof (der_tlv_size_le inner) as B1;
      pose proof (der_tlv_size_le (der_tlv_size inner)) as B2;
      pose proof (der_tlv_size_le (3 + (15 + der_tlv_size (der_tlv_size inner)))) as B3
  end.
  lia.
Qed.

(** ** Length of the base64 text *)

Lemma b64encode_length (l : list byte) :
  String.length (Py.b64encode l) = (4 * ((length l + 2) / 3))%nat.
Proof.
  assert (H : forall n l, (length l < n)%nat ->
            String.length (Py.b64encode l) = (4 * ((length l + 2) / 3))%nat).
  { clear l. induction n as [|n IH]; intros l Hlen; [lia|].
    destruct l as [|a [|b [|c rest]]]; try reflexivity.
    cbn [Py.b64encode String.length length].
    rewrite IH by (cbn [length] in Hlen; lia).
    replace (S (S (S (length rest))) + 2)%nat with (length rest + 2 + 1 * 3)%nat by lia.
    rewrite Nat.div_add by lia. lia. }
  apply (H (S (length l))). lia.
Qed.

(** What [generate_keypair] returns for a generated key of [16 * h] bits:
    the base64 text of the DER public key. *)
Lemma generate_keypair_returns (h : Z) (sk : RSA.RSAPrivateKey) (km : KyberManager.t) :
  h = 128 \/ h = 192 \/ h = 256 ->
  RSA.generated (16 * h) sk = true ->
  exists enc,
    fst (KyberManager.generate_keypair (Py.ok sk) km) = Py.ok enc /\
    Z.of_nat (String.length (KyberManager.public_key_b64 enc))
      = 4 * ((2 * h + 40) / 3).
Proof.
  intros Hh Hgen. eexists. split; [reflexivity|].
  cbn [KyberManager.public_key_b64]. rewrite b64encode_length.
  pose proof (public_bytes_generated h sk Hh Hgen) as Hlen.
  replace (length (RSA.public_bytes (RSA.public_key sk)))
    with (Z.to_nat (2 * h + 38)) by lia.
  destruct Hh as [-> | [-> | ->]]; reflexivity.
Qed.

(** ** The manager *)

(** The three managers [KyberManager.__init__] can build. *)
Lemma init_cases (level : string) (km : KyberManager.t) :
  KyberManager.__init__ level = Py.ok km ->
  KyberManager._keypair km = None /\
  ((Py.lower level = "kyber512" /\ KyberManager.key_size km = 16 * 128) \/
   (Py.lower level = "kyber768" /\ KyberManager.key_size km = 16 * 192) \/
   (Py.lower level = "kyber1024" /\ KyberManager.key_size km = 16 * 256)).
Proof.
  unfold KyberManager.__init__, KyberManager.valid_params. cbn [existsb].
  destruct (String.eqb_spec (Py.lower level) "kyber512") as [-> | _];
    [intros [= <-]; split; [reflexivity | left; split; reflexivity] |].
  destruct (String.eqb_spec (Py.lower level) "kyber768") as [-> | _];
    [intros [= <-]; split; [reflexivity | right; left; split; reflexivity] |].
  destruct (String.eqb_spec (Py.lower level) "kyber1024") as [-> | _];
    [intros [= <-]; split; [reflexivity | right; right; split; reflexivity] |].
  discriminate.
Qed.

(** With a key pair in place, [encapsulate()] returns 32 fresh bytes and a
    ciphertext as long as the RSA modulus. *)
Lemma encapsulate_lengths (oaep : nat -> list byte -> list byte)
    (load : list byte -> Py.result RSA.RSAPublicKey) (rnd : nat -> byte)
    (km : KyberManager.t) (kp : KyberManager.KeyPair) (h : Z) :
  KyberManager._keypair km = Some kp ->
  Py.bit_length (RSA.pub_n (KyberManager.public_key_obj kp)) = 8 * h ->
  98 <= h ->
  exists shared ct,
    KyberManager.encapsulate oaep load rnd km None = Py.ok (shared, ct) /\
    length shared = 32%nat /\ Z.of_nat (length ct) = h.
Proof.
  intros Hkp Hbits Hh. unfold KyberManager.encapsulate. rewrite Hkp. simpl.
  destruct (encrypt_length oaep (KyberManager.public_key_obj kp)
              (Py.urandom rnd 32) h) as (c & Hc & Hlen).
  - apply bit_length_pos. lia.
  - exact Hbits.
  - rewrite length_urandom. lia.
  - rewrite Hc. exists (Py.urandom rnd 32), c.
    split; [reflexivity|]. split; [apply length_urandom | exact Hlen].
Qed.

(** C1 (amended).  For every parameter level and every key the generator
    returns for it: the shared secret that [encapsulate] produces has the
    reported [shared_key_length] (32 bytes); the ciphertext has
    [key_size / 8] bytes, the DER public key [key_size / 8 + 38] bytes, and
    both, like the base64 text of the public key that [generate_keypair]
    returns and the PKCS#8 secret key, are shorter than the lengths that
    [get_algorithm_details] reports (the published Kyber sizes). *)
Theorem reported_sizes_vs_generated_values
    (oaep : nat -> list byte -> list byte)
    (load : list byte -> Py.result RSA.RSAPublicKey) (rnd : nat -> byte)
    (level : string) (km : KyberManager.t) (sk : RSA.RSAPrivateKey) :
  KyberManager.__init__ level = Py.ok km ->
  RSA.generated (KyberManager.key_size km) sk = true ->
  let d := KyberManager.get_algorithm_details level in
  let km' := snd (KyberManager.generate_keypair (Py.ok sk) km) in
  exists kp enc shared ct,
    KyberManager._keypair km' = Some kp /\
    fst (KyberManager.generate_keypair (Py.ok sk) km) = Py.ok enc /\
    KyberManager.encapsulate oaep load rnd km' None = Py.ok (shared, ct) /\
    Z.of_nat (length shared) = KyberManager.shared_key_length d /\
    Z.of_nat (length ct) = KyberManager.key_size km / 8 /\
    Z.of_nat (length ct) < KyberManager.ciphertext_length d /\
    Z.of_nat (length (KyberManager.public_key kp)) = KyberManager.key_size km / 8 + 38 /\
    Z.of_nat (length (KyberManager.public_key kp)) < KyberManager.public_key_length d /\
    Z.of_nat (String.length (KyberManager.public_key_b64 enc))
      < KyberManager.public_key_length d /\
    Z.of_nat (length (KyberManager.secret_key kp)) < KyberManager.secret_key_length d.
Proof.
  intros Hinit Hgen d km'.
  destruct (init_cases level km Hinit) as [_ Hcases].
  assert (Hh : exists h, (h = 128 \/ h = 192 \/ h = 256) /\
                         KyberManager.key_size km = 16 * h /\
                         KyberManager.shared_key_length d = 32 /\
                         2 * h < KyberManager.ciphertext_length d /\
                         2 * h + 38 < KyberManager.public_key_length d /\
                         4 * ((2 * h + 40) / 3) < KyberManager.public_key_length d /\
                         9 * h + 73 < KyberManager.secret_key_length d).
  { subst d. unfold KyberManager.get_algorithm_details.
    destruct Hcases as [[-> Hk] | [[-> Hk] | [-> Hk]]];
      [exists 128 | exists 192 | exists 256]; cbn; repeat split;
      (lia || exact Hk || reflexivity). }
  destruct Hh as (h & Hh & Hks & Hss & Hct & Hpk & H64 & Hsk).
  rewrite Hks in Hgen |- *.
  pose proof (public_bytes_generated h sk Hh Hgen) as Lpk.
  pose proof (private_bytes_generated h sk Hh Hgen) as Lsk.
  destruct (generate_keypair_returns h sk km Hh Hgen) as (enc & Henc64 & L64).
  assert (Hbits : Py.bit_length (RSA.priv_n sk) = 8 * (2 * h)).
  { apply generated_facts in Hgen; [|destruct Hh as [-> | [-> | ->]]; reflexivity].
    destruct Hgen as (_ & Hn & _). rewrite Hn. lia. }
  set (kp := {| KyberManager.public_key := RSA.public_bytes (RSA.public_key sk);
                KyberManager.secret_key := RSA.private_bytes sk;
                KyberManager.private_key_obj := sk;
                KyberManager.public_key_obj := RSA.public_key sk |}).
  destruct (encapsulate_lengths oaep load rnd km' kp (2 * h))
    as (shared & ct & Henc & Lss & Lct); [reflexivity | exact Hbits | lia |].
  exists kp, enc, shared, ct.
  assert (Hdiv : 16 * h / 8 = 2 * h).
  { replace (16 * h) with ((2 * h) * 8) by lia. apply Z.div_mul. lia. }
  rewrite Hdiv, Hss, Lss, Lct. subst kp. cbn [KyberManager.public_key KyberManager.secret_key].
  repeat split; try reflexivity; try assumption; lia.
Qed.

Lemma reported_sizes_vs_generated_values_witness :
  exists km,
    KyberManager.__init__ "kyber512" = Py.ok km /\
    RSA.generated (KyberManager.key_size km) demo_rsa_key_2048 = true /\
    forall (oaep : nat -> list byte -> list byte)
           (load : list byte -> Py.result RSA.RSAPublicKey) (rnd : nat -> byte),
    exists kp enc shared ct,
      KyberManager._keypair
        (snd (KyberManager.generate_keypair (Py.ok demo_rsa_key_2048) km)) = Some kp /\
      fst (KyberManager.generate_keypair (Py.ok demo_rsa_key_2048) km) = Py.ok enc /\
      KyberManager.encapsulate oaep load rnd
        (snd (KyberManager.generate_keypair (Py.ok demo_rsa_key_2048) km)) None
        = Py.ok (shared, ct) /\
      Z.of_nat (length shared) =
        KyberManager.shared_key_length (KyberManager.get_algorithm_details "kyber512") /\
      Z.of_nat (length ct) = KyberManager.key_size km / 8 /\
      Z.of_nat (length ct) <
        KyberManager.ciphertext_length (KyberManager.get_algorithm_details "kyber512") /\
      Z.of_nat (length (KyberManager.public_key kp)) = KyberManager.key_size km / 8 + 38 /\
      Z.of_nat (length (KyberManager.public_key kp)) <
        KyberManager.public_key_length (KyberManager.get_algorithm_details "kyber512") /\
      Z.of_nat (String.length (KyberManager.public_key_b64 enc)) <
        KyberManager.public_key_length (KyberManager.get_algorithm_details "kyber512") /\
      Z.of_nat (length (KyberManager.secret_key kp)) <
        KyberManager.secret_key_length (KyberManager.get_algorithm_details "kyber512").
Proof.
  exists {| KyberManager.parameter_set := "kyber512";
            KyberManager.key_size := 2048;
            KyberManager._keypair := None |}.
  split; [reflexivity|]. split; [vm_compute; reflexivity|].
  intros oaep load rnd.
  apply (reported_sizes_vs_generated_values oaep load rnd "kyber512");
    [reflexivity | vm_compute; reflexivity].
Defined.

(** C1 as stated fails.  At level "kyber512", for the generated key
    [demo_rsa_key_2048]: the stored public key has 294 bytes (its base64
    text, which [generate_keypair] returns, 392 characters) where 800 are
    reported, the stored secret key 1218 where 1632 are reported, and
    whatever the padding and the random bytes, the ciphertext has 256 bytes
    where 768 are reported. *)
Lemma reported_sizes_differ_at_kyber512 :
  exists km kp,
    KyberManager.__init__ "kyber512" = Py.ok km /\
    RSA.generated (KyberManager.key_size km) demo_rsa_key_2048 = true /\
    KyberManager._keypair
      (snd (KyberManager.generate_keypair (Py.ok demo_rsa_key_2048) km)) = Some kp /\
    length (KyberManager.public_key kp) = 294%nat /\
    (exists enc,
       fst (KyberManager.generate_keypair (Py.ok demo_rsa_key_2048) km) = Py.ok enc /\
       String.length (KyberManager.public_key_b64 enc) = 392%nat) /\
    KyberManager.public_key_length (KyberManager.get_algorithm_details "kyber512") = 800 /\
    length (KyberManager.secret_key kp) = 1218%nat /\
    KyberManager.secret_key_length (KyberManager.get_algorithm_details "kyber512") = 1632 /\
    KyberManager.ciphertext_length (KyberManager.get_algorithm_details "kyber512") = 768 /\
    (forall (oaep : nat -> list byte -> list byte)
            (load : list byte -> Py.result RSA.RSAPublicKey) (rnd : nat -> byte),
     exists shared ct,
       KyberManager.encapsulate oaep load rnd
         (snd (KyberManager.generate_keypair (Py.ok demo_rsa_key_2048) km)) None
         = Py.ok (shared, ct) /\
       length ct = 256%nat).
Proof.
  eexists; eexists.
  split; [reflexivity|]. split; [vm_compute; reflexivity|].
  split; [reflexivity|].
  split; [vm_compute; reflexivity|].
  split; [eexists; split; [reflexivity | vm_compute; reflexivity]|].
  split; [reflexivity|].
  split; [vm_compute; reflexivity|]. split; [reflexivity|].
  split; [reflexivity|].
  intros oaep load rnd.
  destruct (encapsulate_lengths oaep load rnd
              (snd (KyberManager.generate_keypair (Py.ok demo_rsa_key_2048)
                      {| KyberManager.parameter_set := "kyber512";
                         KyberManager.key_size := 2048;
                         KyberManager._keypair := None |}))
              {| KyberManager.public_key :=
                   RSA.public_bytes (RSA.public_key demo_rsa_key_2048);
                 KyberManager.secret_key := RSA.private_bytes demo_rsa_key_2048;
                 KyberManager.private_key_obj := demo_rsa_key_2048;
                 KyberManager.public_key_obj := RSA.public_key demo_rsa_key_2048 |}
              256) as (shared & ct & Henc & _ & Hlen);
    [reflexivity | vm_compute; reflexivity | lia |].
  exists shared, ct. split; [exact Henc | lia].
Qed.

(** ** The AES-256-GCM cipher *)

(** ** Counter mode is an involution *)


Lemma length_xor_bytes (a b : list byte) :
  length (GCM.xor_bytes a b) = Nat.min (length a) (length b).
Proof. apply length_zip_with. Qed.


Lemma length_concat_blocks (f : nat -> Z) (start n : nat) :
  length (concat (map (fun i => GCM.bytes_of_block (f i)) (seq start n)))
  = (n * 16)%nat.
Proof.
  revert start. induction n as [|n IH]; intros start; [reflexivity|].
  cbn [seq map concat]. rewrite length_app, IH. unfold GCM.bytes_of_block.
  rewrite length_to_bytes_be. lia.
Qed.

Lemma length_keystream (aes : list byte -> Z -> Z) (key : list byte)
    (icb : Z) (n : nat) :
  length (GCM.keystream aes key icb n) = (16 * n)%nat.
Proof.
  unfold GCM.keystream.
  rewrite (length_concat_blocks (fun i => GCM.ciph aes key (GCM.counter_block icb i))).
  lia.
Qed.

Lemma nblocks_covers (n : nat) : (n <= 16 * GCM.nblocks n)%nat.
Proof.
  unfold GCM.nblocks.
  pose proof (Nat.div_mod_eq (n + 15) 16) as H.
  pose proof (Nat.mod_upper_bound (n + 15) 16). lia.
Qed.

Lemma length_gctr (aes : list byte -> Z -> Z) (key : list byte) (icb : Z)
    (x : list byte) :
  length (GCM.gctr aes key icb x) = length x.
Proof.
  unfold GCM.gctr. rewrite length_xor_bytes, length_keystream.
  pose proof (nblocks_covers (length x)). lia.
Qed.


Lemma length_tag (aes : list byte -> Z -> Z) (key iv a c : list byte) :
  length (GCM.tag aes key iv a c) = 16%nat.
Proof.
  unfold GCM.tag. rewrite length_gctr. unfold GCM.bytes_of_block.
  apply length_to_bytes_be.
Qed.


(** ** GCM decryption inverts GCM encryption *)


Lemma length_gcm_encrypt (aes : list byte -> Z -> Z) (key iv p a : list byte) :
  length (GCM.gcm_encrypt aes key iv p a) = (length p + 16)%nat.
Proof.
  unfold GCM.gcm_encrypt. now rewrite length_app, length_tag, length_gctr.
Qed.



(** ** The connection manager *)

(** ** Running effectful computations *)

Section EffLaws.

Context {S A B : Type}.

Lemma run_bind (m : Eff.M S A) (f : A -> Eff.M S B) (s : S) :
  (m ≫= f) s =
  match m s with
  | (inr a, s') => f a s'
  | (inl e, s') => (inl e, s')
  end.
Proof. reflexivity. Qed.

Lemma run_ret (a : A) (s : S) : (mret a : Eff.M S A) s = (inr a, s).
Proof. reflexivity. Qed.

Lemma run_try_except (body : Eff.M S A) (handler : Py.Exception -> Eff.M S A) (s : S) :
  Eff.try_except body handler s =
  match body s with
  | (inl e, s') => handler e s'
  | (inr a, s') => (inr a, s')
  end.
Proof. reflexivity. Qed.

End EffLaws.

(** ** [_cleanup] *)

(** [_cleanup] never raises, whether or not [tun.stop()] does. *)
Lemma cleanup_total (stop_raises : option Py.Exception) (st : VPNManager.State) :
  VPNManager._cleanup stop_raises st = (inr tt, cleaned st).
Proof.
  destruct st as [self loop]. unfold VPNManager._cleanup, cleaned.
  destruct self as [k a tn c sv ct ip bs br lat task].
  destruct task as [task|], tn as [tn|], stop_raises as [e|]; reflexivity.
Qed.

Lemma cleaned_fields (st : VPNManager.State) :
  let self' := fst (cleaned st) in
  VPNManager.connected self' = false /\
  VPNManager.server self' = None /\
  VPNManager.connection_time self' = Py.Int 0 /\
  VPNManager.vpn_ip self' = None /\
  VPNManager.bytes_sent self' = 0 /\
  VPNManager.bytes_received self' = 0 /\
  VPNManager.latency self' = 0 /\
  VPNManager.aes self' = None /\
  VPNManager.tun self' = None /\
  VPNManager.status_task self' = None.
Proof. cbn. repeat split. Qed.

Lemma is_live_cancel (task task' : nat) (loop : Asyncio.EventLoop) :
  Asyncio.is_live task' (Asyncio.cancel_and_await task loop) = true ->
  task' <> task /\ Asyncio.is_live task' loop = true.
Proof.
  unfold Asyncio.is_live, Asyncio.cancel_and_await.
  destruct (decide (task' = task)) as [-> | Hne].
  - destruct (decide (task < length loop)%nat) as [Hlt | Hge].
    + rewrite list_lookup_insert_eq by exact Hlt. discriminate.
    + rewrite list_insert_ge by lia.
      rewrite lookup_ge_None_2 by lia. discriminate.
  - rewrite list_lookup_insert_ne by congruence. auto.
Qed.

(** After [_cleanup] the task the manager held is no longer live, and no
    other task has come to life. *)
Lemma cleaned_tasks (st : VPNManager.State) (task : nat) :
  Asyncio.is_live task (snd (cleaned st)) = true ->
  Asyncio.is_live task (snd st) = true /\
  VPNManager.status_task (fst st) <> Some task.
Proof.
  unfold cleaned. cbn [snd].
  destruct (VPNManager.status_task (fst st)) as [held|].
  - intros H. apply is_live_cancel in H as [Hne Hlive].
    split; [exact Hlive | congruence].
  - intros H. split; [exact H | discriminate].
Qed.

(** ** The [try] block of [connect] *)

Section ConnectBody.

Variable oaep : nat -> list byte -> list byte.
Variable load : list byte -> Py.result RSA.RSAPublicKey.
Variable settings : Config.Settings.

Lemma connect_body_tasks (env : VPNManager.ConnectEnv) (server : Config.Server)
    (st0 : VPNManager.State) :
  task_created_or_not st0
    (snd (VPNManager.connect_body oaep load settings env server st0)).
Proof.
  destruct st0 as [self loop]. unfold task_created_or_not. unfold_eff.
  body_cases env; cbn; auto.
Qed.

(** When the block returns, the connection is fully set up. *)
Lemma connect_body_returns (env : VPNManager.ConnectEnv) (server : Config.Server)
    (st0 st1 : VPNManager.State) (resp : Schemas.ConnectionResponse) :
  VPNManager.connect_body oaep load settings env server st0 = (inr resp, st1) ->
  Schemas.success resp = true /\
  Schemas.vpnIp resp = VPNManager.vpn_ip (fst st1) /\
  VPNManager.connected (fst st1) = true /\
  VPNManager.server (fst st1) = Some server /\
  VPNManager.connection_time (fst st1) = Py.Float (VPNManager.clock env) /\
  VPNManager.bytes_sent (fst st1) = 0 /\
  VPNManager.bytes_received (fst st1) = 0 /\
  VPNManager.latency (fst st1) = default 0 (Config.latency server) /\
  is_Some (VPNManager.aes (fst st1)) /\
  is_Some (VPNManager.tun (fst st1)) /\
  is_Some (VPNManager.vpn_ip (fst st1)) /\
  VPNManager.status_task (fst st1) = Some (length (snd st0)) /\
  snd st1 = snd st0 ++ [Asyncio.Pending].
Proof.
  destruct st0 as [self loop]. unfold_eff.
  body_cases env; try discriminate.
  intros [= <- <-]. cbn. repeat split; eauto.
Qed.

End ConnectBody.

(** ** Rollback, conflict and disconnection *)

Lemma get_status_disconnected (now : float) (self : VPNManager.t) :
  VPNManager.connected self = false ->
  VPNManager.get_status now self = Py.ok disconnected_status.
Proof. intros H. unfold VPNManager.get_status. now rewrite H. Qed.

Lemma cleaned_fully_disconnected (st : VPNManager.State) :
  fully_disconnected (fst (cleaned st)).
Proof. apply cleaned_fields. Qed.

Lemma is_live_app_pending (task : nat) (loop : Asyncio.EventLoop) :
  Asyncio.is_live task (loop ++ [Asyncio.Pending]) = true ->
  task = length loop \/ Asyncio.is_live task loop = true.
Proof.
  unfold Asyncio.is_live.
  destruct (decide (task < length loop)%nat) as [Hlt | Hge].
  - rewrite lookup_app_l by exact Hlt. auto.
  - destruct (decide (task = length loop)) as [-> | Hne]; [auto|].
    rewrite lookup_ge_None_2; [discriminate|].
    rewrite length_app. cbn. lia.
Qed.

Section Connect.

Variable oaep : nat -> list byte -> list byte.
Variable load : list byte -> Py.result RSA.RSAPublicKey.
Variable settings : Config.Settings.

(** What [connect] does once the server is resolved, by the outcome of its
    [try] block. *)
Lemma connect_resolved (env : VPNManager.ConnectEnv)
    (stop_raises : option Py.Exception) (server_id : string)
    (server : Config.Server) (st0 : VPNManager.State) :
  VPNManager.connected (fst st0) = false ->
  find (fun s => String.eqb (Config.id s) server_id)
       (Config.VPN_SERVERS settings) = Some server ->
  VPNManager.connect oaep load settings env stop_raises server_id st0 =
  match VPNManager.connect_body oaep load settings env server st0 with
  | (inr resp, st1) => (inr resp, st1)
  | (inl e, st1) =>
      (inr {| Schemas.success := false;
              Schemas.message := "Error al establecer conexión: " +:+ Py.str e;
              Schemas.vpnIp := None |},
       cleaned st1)
  end.
Proof.
  intros Hc Hfind.
  cbv [VPNManager.connect Eff.get mbind Eff.M_bind].
  rewrite Hc, Hfind, run_try_except.
  destruct (VPNManager.connect_body oaep load settings env server st0)
    as [[e | resp] st1]; [|reflexivity].
  rewrite cleanup_total. reflexivity.
Qed.

(** The tasks that are live after a rollback were live before [connect]
    was called; the task the failed attempt held is not among them. *)
Lemma rollback_tasks (env : VPNManager.ConnectEnv) (server : Config.Server)
    (st0 : VPNManager.State) (task : nat) :
  let st1 := snd (VPNManager.connect_body oaep load settings env server st0) in
  Asyncio.is_live task (snd (cleaned st1)) = true ->
  Asyncio.is_live task (snd st0) = true /\
  VPNManager.status_task (fst st1) <> Some task.
Proof.
  intros st1 Hlive. apply cleaned_tasks in Hlive as [Hlive Hheld].
  split; [|exact Hheld].
  destruct (connect_body_tasks oaep load settings env server st0)
    as [[Hloop _] | [Hloop Htask]]; fold st1 in Hloop |- *.
  - now rewrite <- Hloop.
  - fold st1 in Htask. rewrite Hloop in Hlive.
    apply is_live_app_pending in Hlive as [-> | Hlive]; [|exact Hlive].
    congruence.
Qed.

(** C2.  Whatever exception the [try] block of [connect] raises, and
    wherever in the block: [connect] answers with a failure, every
    connection attribute is back at its disconnected value, the TUN object
    and the task handle are dropped, the task the attempt had started is no
    longer live (no task is live that was not before the call), and
    [get_status] reports the disconnected snapshot. *)
Theorem connect_failure_rolls_back (env : VPNManager.ConnectEnv)
    (stop_raises : option Py.Exception) (server_id : string)
    (server : Config.Server) (st0 st1 : VPNManager.State) (e : Py.Exception) :
  VPNManager.connected (fst st0) = false ->
  find (fun s => String.eqb (Config.id s) server_id)
       (Config.VPN_SERVERS settings) = Some server ->
  VPNManager.connect_body oaep load settings env server st0 = (inl e, st1) ->
  exists st',
    VPNManager.connect oaep load settings env stop_raises server_id st0 =
      (inr {| Schemas.success := false;
              Schemas.message := "Error al establecer conexión: " +:+ Py.str e;
              Schemas.vpnIp := None |}, st') /\
    fully_disconnected (fst st') /\
    (forall task, Asyncio.is_live task (snd st') = true ->
       Asyncio.is_live task (snd st0) = true /\
       VPNManager.status_task (fst st1) <> Some task) /\
    (forall now, VPNManager.get_status now (fst st') = Py.ok disconnected_status).
Proof.
  intros Hc Hfind Hbody. exists (cleaned st1).
  split; [rewrite (connect_resolved env stop_raises server_id server st0 Hc Hfind),
            Hbody; reflexivity|].
  split; [apply cleaned_fully_disconnected|].
  split.
  - intros task Hlive.
    pose proof (rollback_tasks env server st0 task) as H.
    rewrite Hbody in H. apply H. exact Hlive.
  - intros now. apply get_status_disconnected. apply cleaned_fields.
Qed.

(** C3.  While the manager is connected, [connect] answers with the
    conflict response, a failure, for every server id, and changes nothing. *)
Theorem connect_while_connected_is_refused (env : VPNManager.ConnectEnv)
    (stop_raises : option Py.Exception) (server_id : string)
    (st : VPNManager.State) :
  VPNManager.connected (fst st) = true ->
  VPNManager.connect oaep load settings env stop_raises server_id st =
    (inr state_conflict, st) /\
  Schemas.success state_conflict = false.
Proof.
  intros Hc. split; [|reflexivity].
  cbv [VPNManager.connect Eff.get mbind Eff.M_bind]. rewrite Hc. reflexivity.
Qed.

End Connect.

(** ** The reachable states *)

Lemma is_live_insert (task task' : nat) (x : Asyncio.TaskState)
    (loop : Asyncio.EventLoop) :
  Asyncio.is_live task' (<[task := x]> loop) = true ->
  task' = task \/ Asyncio.is_live task' loop = true.
Proof.
  destruct (decide (task' = task)) as [-> | Hne]; [auto|].
  unfold Asyncio.is_live. rewrite list_lookup_insert_ne by congruence. auto.
Qed.

Lemma fully_connected_not_disconnected (self : VPNManager.t) :
  VPNManager.connected self = true ->
  fully_disconnected self \/ fully_connected self ->
  fully_connected self.
Proof.
  intros Hc [Hd | Hconn]; [|exact Hconn].
  destruct Hd as [Hd _]. congruence.
Qed.

Lemma fully_connected_statistics (lat sent received : Z) (self : VPNManager.t) :
  fully_connected self ->
  fully_connected (VPNManager.with_statistics lat sent received self).
Proof. unfold fully_connected. cbn. tauto. Qed.

Lemma consistent_fresh (settings : Config.Settings) (self : VPNManager.t) :
  VPNManager.__init__ settings = Py.ok self -> consistent (self, []).
Proof.
  unfold VPNManager.__init__.
  destruct (KyberManager.__init__ _) as [e | k]; [discriminate|].
  intros [= <-]. split.
  - left. cbn. repeat split.
  - intros task. unfold Asyncio.is_live. cbn. discriminate.
Qed.

Lemma consistent_cleaned (st : VPNManager.State) :
  (forall task, Asyncio.is_live task (snd (cleaned st)) = true -> False) ->
  consistent (cleaned st).
Proof.
  intros Hnone. split; [left; apply cleaned_fully_disconnected|].
  intros task Hlive. destruct (Hnone task Hlive).
Qed.

Section Reachable.

Variable oaep : nat -> list byte -> list byte.
Variable load : list byte -> Py.result RSA.RSAPublicKey.
Variable settings : Config.Settings.

Lemma consistent_connect (env : VPNManager.ConnectEnv)
    (stop_raises : option Py.Exception) (server_id : string)
    (st : VPNManager.State) :
  consistent st ->
  consistent (snd (VPNManager.connect oaep load settings env stop_raises server_id st)).
Proof.
  intros Hst.
  destruct (VPNManager.connected (fst st)) eqn:Hc.
  { cbv [VPNManager.connect Eff.get mbind Eff.M_bind]. rewrite Hc. exact Hst. }
  destruct (find (fun s => String.eqb (Config.id s) server_id)
                 (Config.VPN_SERVERS settings)) as [server|] eqn:Hfind.
  2:{ cbv [VPNManager.connect Eff.get mbind Eff.M_bind].
      rewrite Hc, Hfind. exact Hst. }
  rewrite (connect_resolved oaep load settings env stop_raises server_id
             server st Hc Hfind).
  assert (Hdead : forall task, Asyncio.is_live task (snd st) = true -> False).
  { intros task Hlive. apply Hst in Hlive as [Hcon _]. congruence. }
  pose proof (rollback_tasks oaep load settings env server st) as Hroll.
  destruct (VPNManager.connect_body oaep load settings env server st)
    as [[e | resp] st1] eqn:Hbody; cbn [snd] in *.
  - apply consistent_cleaned. intros task Hlive.
    apply Hroll in Hlive as [Hlive _]. eauto.
  - apply connect_body_returns in Hbody
      as (_ & _ & Hcon & Hsrv & _ & _ & _ & _ & Haes & Htun & Hip & Htask & Hloop).
    split.
    + right. repeat split; try assumption; rewrite ?Hsrv, ?Htask; eauto.
    + intros task Hlive. rewrite Hloop in Hlive.
      apply is_live_app_pending in Hlive as [-> | Hlive];
        [split; assumption | destruct (Hdead _ Hlive)].
Qed.

Lemma consistent_disconnect (stop_raises : option Py.Exception)
    (st : VPNManager.State) :
  consistent st -> consistent (snd (VPNManager.disconnect stop_raises st)).
Proof.
  intros Hst. cbv [VPNManager.disconnect Eff.get mbind Eff.M_bind].
  destruct (VPNManager.connected (fst st)) eqn:Hc; cbn [negb]; [|exact Hst].
  rewrite run_try_except, cleanup_total. cbn [snd].
  apply consistent_cleaned. intros task Hlive.
  apply cleaned_tasks in Hlive as [Hlive Hheld].
  apply Hst in Hlive as [_ Htask]. congruence.
Qed.

Lemma consistent_status_task (task : nat) (r_latency r_traffic : Z)
    (st : VPNManager.State) :
  consistent st ->
  consistent (VPNManager._update_status_task task r_latency r_traffic st).
Proof.
  intros Hst. unfold VPNManager._update_status_task.
  destruct (Asyncio.is_live task (snd st)) eqn:Hlive; [|exact Hst].
  destruct Hst as [Hshape Htasks].
  destruct (Htasks task Hlive) as [Hc Hheld]. rewrite Hc.
  pose proof (fully_connected_not_disconnected _ Hc Hshape) as Hfull.
  assert (Hkeep : forall x, forall task', 
             Asyncio.is_live task' (<[task := x]> (snd st)) = true ->
             VPNManager.connected (fst st) = true /\
             VPNManager.status_task (fst st) = Some task').
  { intros x task' H. apply is_live_insert in H as [-> | H]; auto. }
  destruct (VPNManager.server (fst st)) as [srv|] eqn:Hsrv.
  2:{ split; [right; exact Hfull | apply Hkeep]. }
  destruct (VPNManager.randint _ _ r_latency) as [e | lat].
  { split; [right; exact Hfull | apply Hkeep]. }
  destruct (VPNManager.randint 1024 8192 r_traffic) as [e | inc];
    (split; [right; apply fully_connected_statistics, Hfull | apply Hkeep]).
Qed.

Lemma consistent_after_call (st : VPNManager.State) (c : Call) :
  consistent st -> consistent (after_call oaep load settings st c).
Proof.
  destruct c; cbn [after_call]; intros Hst;
    [apply consistent_connect | apply consistent_disconnect | |
     apply consistent_status_task]; exact Hst.
Qed.

(** Every state that a sequence of calls reaches from a fresh manager is
    consistent: no partially connected manager is ever left behind. *)
Lemma consistent_after_calls (self : VPNManager.t) (calls : list Call) :
  VPNManager.__init__ settings = Py.ok self ->
  consistent (after_calls oaep load settings self calls).
Proof.
  intros Hinit. unfold after_calls.
  assert (H0 : consistent (self, [])) by (eapply consistent_fresh; eauto).
  revert H0. generalize (self, @nil Asyncio.TaskState) as st.
  induction calls as [|c calls IH]; intros st Hst; cbn [fold_left];
    [exact Hst | apply IH, consistent_after_call, Hst].
Qed.

End Reachable.

(** C8.  [disconnect] always reports success and leaves the manager not
    connected, so that [get_status] reports [connected = false] with zero
    uptime, counters and latency; called on a connected manager, or on any
    manager in a consistent state (as all reachable ones are), it leaves
    every connection attribute at its disconnected value; called on a
    manager that is not connected it changes nothing. *)
Theorem disconnect_resets (stop_raises : option Py.Exception)
    (st : VPNManager.State) :
  exists resp st',
    VPNManager.disconnect stop_raises st = (inr resp, st') /\
    Schemas.success resp = true /\
    VPNManager.connected (fst st') = false /\
    (forall now, VPNManager.get_status now (fst st') = Py.ok disconnected_status) /\
    (VPNManager.connected (fst st) = true -> fully_disconnected (fst st')) /\
    (consistent st -> fully_disconnected (fst st')) /\
    (VPNManager.connected (fst st) = false ->
       st' = st /\ Schemas.message resp = "No hay conexión activa").
Proof.
  cbv [VPNManager.disconnect Eff.get mbind Eff.M_bind].
  destruct (VPNManager.connected (fst st)) eqn:Hc; cbn [negb].
  - rewrite run_try_except, cleanup_total.
    eexists; exists (cleaned st). split; [reflexivity|].
    split; [reflexivity|]. split; [apply cleaned_fields|].
    split; [intros now; apply get_status_disconnected, cleaned_fields|].
    split; [intros _; apply cleaned_fully_disconnected|].
    split; [intros _; apply cleaned_fully_disconnected | discriminate].
  - eexists; exists st. split; [reflexivity|].
    split; [reflexivity|]. split; [exact Hc|].
    split; [intros now; apply get_status_disconnected, Hc|].
    split; [discriminate|].
    split; [|intros _; split; reflexivity].
    intros [[Hd | Hconn] _]; [exact Hd|].
    destruct Hconn as [Hconn _]. congruence.
Qed.

(** ** Closed instances *)

Section Demo.

Variable oaep : nat -> list byte -> list byte.
Variable load : list byte -> Py.result RSA.RSAPublicKey.

(** Under [demo_env] the key exchange of [connect] succeeds. *)
Lemma demo_encapsulate :
  exists ct,
    KyberManager.encapsulate oaep load demo_entropy
      (snd (KyberManager.generate_keypair (Py.ok demo_rsa_key_3072)
              (VPNManager.kyber fresh_manager))) None
    = Py.ok (Py.urandom demo_entropy 32, ct).
Proof.
  unfold KyberManager.encapsulate. cbn [KyberManager.generate_keypair snd
    KyberManager._keypair KyberManager.public_key_obj Py.ok].
  destruct (encrypt_length oaep (RSA.public_key demo_rsa_key_3072)
              (Py.urandom demo_entropy 32) 384) as (c & Hc & _);
    [reflexivity | reflexivity | rewrite length_urandom; lia |].
  rewrite Hc. exists c. reflexivity.
Qed.

(** The [try] block of [connect("server1")] on the fresh manager, up to
    the step at which [faults] first raises after the key exchange. *)
Lemma demo_connect_body (env : VPNManager.ConnectEnv) :
  VPNManager.keygen env = Py.ok demo_rsa_key_3072 ->
  VPNManager.entropy env = demo_entropy ->
  VPNManager.clock env = 1700000000.75%float ->
  (forall n, (n < 8)%nat -> VPNManager.faults env n = None) ->
  VPNManager.connect_body oaep load Config.settings env demo_server
    (fresh_manager, []) =
  (match VPNManager.faults env 8 with
   | Some e => inl e
   | None =>
       inr {| Schemas.success := true;
              Schemas.message := "Conexión establecida con Servidor Principal";
              Schemas.vpnIp := Some "10.8.0.2" |}
   end, demo_connected_state).
Proof.
  intros Hkey Hent Hclock Hfaults.
  destruct demo_encapsulate as [ct Henc].
  unfold_eff. cbn [fst snd].
  rewrite !Hfaults by lia. rewrite Hkey, Hent, Hclock. cbn [fst snd].
  unfold Py.ok in Henc |- *. cbv zeta.
  cbn [VPNManager.kyber VPNManager.with_kyber fst snd].
  rewrite Henc. cbn [fst snd].
  destruct (VPNManager.faults env 8); reflexivity.
Qed.

End Demo.

(** The demo state is the one [connect("server1")] reaches from the fresh
    manager, for every padding. *)
Lemma connect_reaches_demo_state (oaep : nat -> list byte -> list byte)
    (load : list byte -> Py.result RSA.RSAPublicKey) :
  VPNManager.__init__ Config.settings = Py.ok fresh_manager /\
  VPNManager.connect oaep load Config.settings demo_env None "server1"
    (fresh_manager, []) =
  (inr {| Schemas.success := true;
          Schemas.message := "Conexión establecida con Servidor Principal";
          Schemas.vpnIp := Some "10.8.0.2" |}, demo_connected_state).
Proof.
  split; [reflexivity|].
  rewrite (connect_resolved oaep load Config.settings demo_env None "server1"
             demo_server); [|reflexivity|reflexivity].
  rewrite demo_connect_body; reflexivity.
Qed.

Lemma connect_failure_rolls_back_witness :
  VPNManager.connected (fst (fresh_manager, @nil Asyncio.TaskState)) = false /\
  find (fun s => String.eqb (Config.id s) "server1")
       (Config.VPN_SERVERS Config.settings) = Some demo_server /\
  forall (oaep : nat -> list byte -> list byte)
         (load : list byte -> Py.result RSA.RSAPublicKey),
    VPNManager.connect_body oaep load Config.settings demo_env_failing
      demo_server (fresh_manager, []) =
      (inl (Py.LibraryError "out of memory"), demo_connected_state) /\
    exists st',
      VPNManager.connect oaep load Config.settings demo_env_failing None
        "server1" (fresh_manager, []) =
        (inr {| Schemas.success := false;
                Schemas.message :=
                  "Error al establecer conexión: " +:+
                  Py.str (Py.LibraryError "out of memory");
                Schemas.vpnIp := None |}, st') /\
      fully_disconnected (fst st') /\
      (forall task, Asyncio.is_live task (snd st') = true ->
         Asyncio.is_live task (snd (fresh_manager, @nil Asyncio.TaskState)) = true /\
         VPNManager.status_task (fst demo_connected_state) <> Some task) /\
      (forall now, VPNManager.get_status now (fst st') = Py.ok disconnected_status).
Proof.
  split; [reflexivity|]. split; [reflexivity|].
  intros oaep load.
  assert (Hbody :
    VPNManager.connect_body oaep load Config.settings demo_env_failing
      demo_server (fresh_manager, []) =
      (inl (Py.LibraryError "out of memory"), demo_connected_state)).
  { rewrite demo_connect_body; try reflexivity.
    intros n Hn. cbn. destruct (Nat.eqb_spec n 8); [lia | reflexivity]. }
  split; [exact Hbody|].
  apply (connect_failure_rolls_back oaep load Config.settings demo_env_failing
           None "server1" demo_server (fresh_manager, []) demo_connected_state
           (Py.LibraryError "out of memory"));
    [reflexivity | reflexivity | exact Hbody].
Defined.

Lemma connect_while_connected_is_refused_witness :
  VPNManager.connected (fst demo_connected_state) = true /\
  forall (oaep : nat -> list byte -> list byte)
         (load : list byte -> Py.result RSA.RSAPublicKey),
    VPNManager.connect oaep load Config.settings demo_env None "server2"
      demo_connected_state = (inr state_conflict, demo_connected_state) /\
    Schemas.success state_conflict = false.
Proof.
  split; [reflexivity|].
  intros oaep load.
  apply (connect_while_connected_is_refused oaep load Config.settings demo_env
           None "server2" demo_connected_state).
  reflexivity.
Defined.

(** ** Broadcasting *)

(** ** Loops *)

Lemma for_each_cons {A : Type} (x : A) (l : list A)
    (body : A -> Eff.M ChatRoutes.t unit) (st : ChatRoutes.t) :
  ChatRoutes.for_each (x :: l) body st =
  match body x st with
  | (inr _, st') => ChatRoutes.for_each l body st'
  | (inl e, st') => (inl e, st')
  end.
Proof. reflexivity. Qed.

(** A loop whose body never raises and keeps [I] never raises and keeps [I]. *)
Lemma for_each_invariant {A : Type} (I : ChatRoutes.t -> Prop)
    (body : A -> Eff.M ChatRoutes.t unit) (l : list A) :
  (forall x st, I st -> exists st', body x st = (inr tt, st') /\ I st') ->
  forall st, I st ->
  exists st', ChatRoutes.for_each l body st = (inr tt, st') /\ I st'.
Proof.
  intros Hbody. induction l as [|x l IH]; intros st HI.
  - exists st. split; [reflexivity | exact HI].
  - destruct (Hbody x st HI) as (st1 & Hrun & HI1).
    rewrite for_each_cons, Hrun. apply IH, HI1.
Qed.

(** If moreover the body establishes [D] at one element of the list and
    keeps it afterwards, [D] holds at the end. *)
Lemma for_each_reaches {A : Type} (I D : ChatRoutes.t -> Prop)
    (body : A -> Eff.M ChatRoutes.t unit) (l : list A) (x0 : A) :
  x0 ∈ l ->
  (forall x st, I st ->
     exists st', body x st = (inr tt, st') /\ I st' /\ (D st -> D st')) ->
  (forall st, I st -> exists st', body x0 st = (inr tt, st') /\ D st') ->
  forall st, I st ->
  exists st', ChatRoutes.for_each l body st = (inr tt, st') /\ I st' /\ D st'.
Proof.
  intros Hin Hbody Hhit.
  assert (Hkeep : forall l st, I st -> D st ->
            exists st', ChatRoutes.for_each l body st = (inr tt, st') /\ I st' /\ D st').
  { clear Hin. intros l'. induction l' as [|x l' IH]; intros st HI HD.
    - exists st. repeat split; assumption.
    - destruct (Hbody x st HI) as (st1 & Hrun & HI1 & HD1).
      rewrite for_each_cons, Hrun. apply IH; auto. }
  induction l as [|x l IH]; intros st HI; [inversion Hin|].
  rewrite for_each_cons.
  apply elem_of_cons in Hin as [<- | Hin].
  - destruct (Hhit st HI) as (st1 & Hrun & HD1).
    destruct (Hbody x0 st HI) as (st1' & Hrun' & HI1 & _).
    rewrite Hrun in Hrun'. injection Hrun' as <-.
    rewrite Hrun. apply Hkeep; assumption.
  - destruct (Hbody x st HI) as (st1 & Hrun & HI1 & _).
    rewrite Hrun. apply IH; assumption.
Qed.

(** ** Sending *)

Lemma extend_extend (fs gs : list ChatRoutes.Frame) (ws : ChatRoutes.WebSocket) :
  extend gs (extend fs ws) = extend (fs ++ gs) ws.
Proof. unfold extend. cbn. now rewrite app_assoc. Qed.

Lemma push_extend (f : ChatRoutes.Frame) (ws : ChatRoutes.WebSocket) :
  ChatRoutes.push f ws = extend [f] ws.
Proof. reflexivity. Qed.

Lemma extend_nil (ws : ChatRoutes.WebSocket) : extend [] ws = ws.
Proof. destruct ws. unfold extend. cbn. now rewrite app_nil_r. Qed.

Lemma can_send_extend (fs : list ChatRoutes.Frame) (ws : ChatRoutes.WebSocket) :
  ChatRoutes.can_send (extend fs ws) = ChatRoutes.can_send ws.
Proof. reflexivity. Qed.

Lemma only_sent_refl (f : ChatRoutes.Frame) (st : ChatRoutes.t) : only_sent f st st.
Proof.
  repeat split. intros w. destruct (ChatRoutes.sockets st !! w) as [ws|] eqn:E;
    [|reflexivity].
  exists 0%nat. cbn. now rewrite extend_nil.
Qed.

Lemma only_sent_trans (f : ChatRoutes.Frame) (st1 st2 st3 : ChatRoutes.t) :
  only_sent f st1 st2 -> only_sent f st2 st3 -> only_sent f st1 st3.
Proof.
  intros (Hs12 & Ha12 & Hw12) (Hs23 & Ha23 & Hw23).
  split; [congruence|]. split; [congruence|].
  intros w. specialize (Hw12 w). specialize (Hw23 w).
  destruct (ChatRoutes.sockets st1 !! w) as [ws|].
  - destruct Hw12 as [n Hn]. rewrite Hn in Hw23. destruct Hw23 as [m Hm].
    exists (n + m)%nat. rewrite Hm, extend_extend, repeat_app. reflexivity.
  - now rewrite Hw12 in Hw23.
Qed.

(** The guarded send of [broadcast_to_room]: it never raises, and at most
    appends the frame to the outbox of the socket. *)
Lemma guarded_send (w : nat) (f : ChatRoutes.Frame) (st : ChatRoutes.t) :
  exists st',
    Eff.try_except (ChatRoutes.send_text w f) (fun _ => mret tt) st = (inr tt, st') /\
    only_sent f st st' /\
    (forall ws, ChatRoutes.sockets st !! w = Some ws ->
       ChatRoutes.can_send ws = true -> received f w st').
Proof.
  rewrite run_try_except. unfold ChatRoutes.send_text.
  rewrite run_bind. cbn [Eff.get].
  destruct (ChatRoutes.sockets st !! w) as [ws|] eqn:Hw.
  2:{ exists st. split; [reflexivity|]. split; [apply only_sent_refl|].
      intros ws [=]. }
  unfold ChatRoutes.can_send.
  destruct (ChatRoutes.send_raises ws) as [e|] eqn:Hraise.
  { exists st. split; [reflexivity|]. split; [apply only_sent_refl|].
    intros ws' [= <-]. rewrite Hraise. discriminate. }
  destruct (ChatRoutes.closed ws) as [code|] eqn:Hclosed.
  { exists st. split; [reflexivity|]. split; [apply only_sent_refl|].
    intros ws' [= <-]. rewrite Hraise, Hclosed. discriminate. }
  destruct (ChatRoutes.accepted ws) eqn:Hacc.
  2:{ exists st. split; [reflexivity|]. split; [apply only_sent_refl|].
      intros ws' [= <-]. rewrite Hraise, Hclosed, Hacc. discriminate. }
  eexists. split; [reflexivity|]. split.
  - split; [reflexivity|]. split; [reflexivity|].
    intros w'. cbn [ChatRoutes.with_sockets ChatRoutes.sockets].
    destruct (decide (w' = w)) as [-> | Hne].
    + rewrite Hw, lookup_insert_eq. exists 1%nat. reflexivity.
    + rewrite lookup_insert_ne by congruence.
      destruct (ChatRoutes.sockets st !! w') as [ws'|]; [|reflexivity].
      exists 0%nat. cbn. now rewrite extend_nil.
  - intros ws' [= <-] _. exists (ChatRoutes.push f ws).
    cbn [ChatRoutes.with_sockets ChatRoutes.sockets].
    rewrite lookup_insert_eq. split; [reflexivity|].
    cbn. apply elem_of_app. right. apply list_elem_of_singleton. reflexivity.
Qed.

Lemma received_only_sent (f : ChatRoutes.Frame) (w : nat) (st st' : ChatRoutes.t) :
  only_sent f st st' -> received f w st -> received f w st'.
Proof.
  intros (_ & _ & Hw) (ws & Hlook & Hin). specialize (Hw w).
  rewrite Hlook in Hw. destruct Hw as [n Hn].
  exists (extend (repeat f n) ws). split; [exact Hn|].
  cbn. apply elem_of_app. left. exact Hin.
Qed.

(** Two loop bodies that agree wherever [I] holds, the second of which
    keeps [I], give the same loop. *)
Lemma for_each_ext {A : Type} (I : ChatRoutes.t -> Prop)
    (body body' : A -> Eff.M ChatRoutes.t unit) (l : list A) :
  (forall x st, I st -> body x st = body' x st) ->
  (forall x st, I st -> I (snd (body' x st))) ->
  forall st, I st -> ChatRoutes.for_each l body st = ChatRoutes.for_each l body' st.
Proof.
  intros Heq Hkeep. induction l as [|x l IH]; intros st HI; [reflexivity|].
  rewrite !for_each_cons, Heq by exact HI.
  specialize (Hkeep x st HI).
  destruct (body' x st) as [[e | []] st']; [reflexivity|].
  apply IH, Hkeep.
Qed.

(** What every turn of the body keeps, the loop keeps, however it ends. *)
Lemma for_each_keeps {A : Type} (I : ChatRoutes.t -> Prop)
    (body : A -> Eff.M ChatRoutes.t unit) (l : list A) :
  (forall x st, I st -> I (snd (body x st))) ->
  forall st, I st -> I (snd (ChatRoutes.for_each l body st)).
Proof.
  intros Hkeep. induction l as [|x l IH]; intros st HI; [exact HI|].
  rewrite for_each_cons. specialize (Hkeep x st HI).
  destruct (body x st) as [[e | []] st']; [exact Hkeep|].
  apply IH, Hkeep.
Qed.

(** The guarded send of [broadcast_to_room], in closed form: the frame is
    appended to the outbox of a socket through which sending succeeds, and
    nothing happens otherwise. *)
Lemma guarded_send_run (w : nat) (f : ChatRoutes.Frame) (st : ChatRoutes.t) :
  Eff.try_except (ChatRoutes.send_text w f) (fun _ => mret tt) st =
  (inr tt,
   match ChatRoutes.sockets st !! w with
   | Some ws =>
       if ChatRoutes.can_send ws
       then ChatRoutes.with_sockets (<[w := ChatRoutes.push f ws]> (ChatRoutes.sockets st)) st
       else st
   | None => st
   end).
Proof.
  rewrite run_try_except. unfold ChatRoutes.send_text.
  rewrite run_bind. cbn [Eff.get].
  destruct (ChatRoutes.sockets st !! w) as [ws|]; [|reflexivity].
  unfold ChatRoutes.can_send.
  destruct (ChatRoutes.send_raises ws); [reflexivity|].
  destruct (ChatRoutes.closed ws); [reflexivity|].
  destruct (ChatRoutes.accepted ws); reflexivity.
Qed.

(** ** A broadcast during which no other task runs *)

Section Quiet.

Variable settings : Config.Settings.
Variable ctx : Security.CryptContext.
Variable message : ChatRoutes.Payload.
Variable exclude_session : option string.

(** With no other task running, a send is [send_text] and nothing more. *)
Lemma await_send_quiet (w : nat) (f : ChatRoutes.Frame) (st : ChatRoutes.t) :
  ChatRoutes.await_send settings ctx ChatRoutes.quiet w f st
  = ChatRoutes.send_text w f st.
Proof.
  unfold ChatRoutes.await_send, ChatRoutes.quiet, ChatRoutes.run_steps.
  cbn [fst snd fold_left]. now destruct (ChatRoutes.send_text w f st).
Qed.

(** What a visit does then, in closed form. *)
Lemma visit_quiet (participant session_id : string) (st : ChatRoutes.t) :
  ChatRoutes.visit settings ctx ChatRoutes.quiet message exclude_session
    participant session_id st =
  (inr tt,
   match MessagingService.user_sessions (ChatRoutes.messaging_service st)
         !! session_id with
   | Some username =>
       match ChatRoutes.active_connections st !! session_id with
       | Some w =>
           if String.eqb username participant
              && ChatRoutes.not_excluded session_id exclude_session
           then
             match ChatRoutes.sockets st !! w with
             | Some ws =>
                 if ChatRoutes.can_send ws
                 then ChatRoutes.with_sockets
                        (<[w := ChatRoutes.push (ChatRoutes.NewMessage message) ws]>
                           (ChatRoutes.sockets st)) st
                 else st
             | None => st
             end
           else st
       | None => st
       end
   | None => st
   end).
Proof.
  unfold ChatRoutes.visit. rewrite run_bind. cbn [Eff.get].
  destruct (MessagingService.user_sessions _ !! session_id) as [username|];
    [|reflexivity].
  destruct (ChatRoutes.active_connections st !! session_id) as [w|]; [|reflexivity].
  destruct (String.eqb username participant
            && ChatRoutes.not_excluded session_id exclude_session); [|reflexivity].
  rewrite <- guarded_send_run, !run_try_except, await_send_quiet. reflexivity.
Qed.

Lemma visit_quiet_service (participant session_id : string) (st : ChatRoutes.t) :
  ChatRoutes.messaging_service
    (snd (ChatRoutes.visit settings ctx ChatRoutes.quiet message exclude_session
            participant session_id st))
  = ChatRoutes.messaging_service st.
Proof.
  rewrite visit_quiet. cbn [snd].
  destruct (MessagingService.user_sessions _ !! session_id); [|reflexivity].
  destruct (ChatRoutes.active_connections st !! session_id) as [w|]; [|reflexivity].
  destruct (_ && _); [|reflexivity].
  destruct (ChatRoutes.sockets st !! w) as [ws|]; [|reflexivity].
  destruct (ChatRoutes.can_send ws); reflexivity.
Qed.

(** The dictionary keeps its size, so the walk over it is a plain loop. *)
Lemma sessions_loop_quiet (participant : string) (used : nat) (keys : list string) :
  forall (j : nat) (st : ChatRoutes.t),
  size (MessagingService.user_sessions (ChatRoutes.messaging_service st)) = used ->
  ChatRoutes.sessions_loop settings ctx (fun _ => ChatRoutes.quiet) message
    exclude_session participant used keys j st
  = ChatRoutes.for_each keys
      (ChatRoutes.visit settings ctx ChatRoutes.quiet message exclude_session
         participant) st.
Proof.
  induction keys as [|session_id keys IH]; intros j st Hsize;
    cbn [ChatRoutes.sessions_loop]; rewrite run_bind; cbn [Eff.get];
    rewrite Hsize, Nat.eqb_refl; cbn [negb]; [reflexivity|].
  rewrite for_each_cons, run_bind.
  pose proof (visit_quiet_service participant session_id st) as Hsvc.
  destruct (ChatRoutes.visit _ _ _ _ _ _ _ st) as [[e | []] st'];
    [reflexivity|].
  cbn [snd] in Hsvc. apply IH. now rewrite Hsvc.
Qed.

Lemma sessions_pass_quiet (participant : string) (st : ChatRoutes.t) :
  ChatRoutes.sessions_pass settings ctx (fun _ => ChatRoutes.quiet) message
    exclude_session participant st
  = ChatRoutes.for_each
      (map fst (map_to_list
         (MessagingService.user_sessions (ChatRoutes.messaging_service st))))
      (ChatRoutes.visit settings ctx ChatRoutes.quiet message exclude_session
         participant) st.
Proof.
  unfold ChatRoutes.sessions_pass. rewrite run_bind. cbn [Eff.get].
  now apply sessions_loop_quiet.
Qed.

(** The list the outer loop walks is the list of the room looked up. *)
Lemma live_participants_same (room_id : string) (room : ChatSchemas.ChatRoom)
    (st : ChatRoutes.t) :
  MessagingService.chat_rooms (ChatRoutes.messaging_service st) !! room_id
    = Some room ->
  ChatRoutes.live_participants room_id room st = ChatSchemas.participants room.
Proof.
  intros Hroom. unfold ChatRoutes.live_participants.
  destruct (String.eqb_spec room_id "general") as [-> | _]; [|reflexivity].
  now rewrite Hroom.
Qed.

(** Hence, with no other task running, [broadcast_to_room] is the two
    nested loops over the participants of the room and over the sessions on
    record at its start. *)
Lemma broadcast_quiet (st0 : ChatRoutes.t) (room_id : string)
    (room : ChatSchemas.ChatRoom) :
  ChatRoutes.payload_room_id message = Some room_id ->
  MessagingService.chat_rooms (ChatRoutes.messaging_service st0) !! room_id
    = Some room ->
  ChatRoutes.broadcast_to_room settings ctx [] message exclude_session st0
  = ChatRoutes.for_each (ChatSchemas.participants room)
      (fun participant =>
         ChatRoutes.for_each
           (map fst (map_to_list
              (MessagingService.user_sessions (ChatRoutes.messaging_service st0))))
           (ChatRoutes.visit settings ctx ChatRoutes.quiet message exclude_session
              participant)) st0.
Proof.
  intros Hid Hroom. unfold ChatRoutes.broadcast_to_room.
  rewrite run_bind. cbn [Eff.get]. rewrite Hid, Hroom.
  cbn [ChatRoutes.participants_loop]. rewrite run_bind. cbn [Eff.get skipn].
  rewrite (live_participants_same room_id room st0 Hroom).
  apply (for_each_ext
           (fun st => ChatRoutes.messaging_service st
                      = ChatRoutes.messaging_service st0)); [| |reflexivity].
  - intros participant st Hsvc. rewrite sessions_pass_quiet, Hsvc. reflexivity.
  - intros participant st Hsvc.
    apply (for_each_keeps
             (fun st => ChatRoutes.messaging_service st
                        = ChatRoutes.messaging_service st0)); [|exact Hsvc].
    intros session_id s Hs. now rewrite visit_quiet_service.
Qed.

(** When the message names no room, or a room that does not exist, nothing
    happens at all. *)
Lemma broadcast_nowhere (sched : ChatRoutes.Schedule) (st0 : ChatRoutes.t) :
  match ChatRoutes.payload_room_id message with
  | Some room_id =>
      MessagingService.chat_rooms (ChatRoutes.messaging_service st0) !! room_id = None
  | None => True
  end ->
  ChatRoutes.broadcast_to_room settings ctx sched message exclude_session st0
  = (inr tt, st0).
Proof.
  intros H. unfold ChatRoutes.broadcast_to_room. rewrite run_bind. cbn [Eff.get].
  destruct (ChatRoutes.payload_room_id message) as [room_id|]; [|reflexivity].
  now rewrite H.
Qed.

End Quiet.

(** ** A login during a broadcast *)

(** C7 at its failing input.  Three users participate in the room
    "general", each with a session and a registered WebSocket through which
    sending succeeds.  While the first copy of a message is being sent,
    "usuario2" logs in from another device.  The copy is delivered; asked
    for the next session, the iterator over [user_sessions] finds the
    dictionary one entry larger and raises [RuntimeError].  The broadcast is
    over: the other two sockets get nothing, although sending through them
    would succeed.  In the receive loop of the sender the exception ends the
    handler, which unregisters the sender's connection. *)
Theorem broadcast_aborts_when_a_login_interleaves :
  let message := ChatRoutes.PMessage demo_message in
  let frame := ChatRoutes.NewMessage message in
  let during_sends : ChatRoutes.Schedule := [fun _ => ([], [demo_login])] in
  let r := ChatRoutes.broadcast_to_room Config.settings demo_ctx during_sends
             message None demo_live_state in
  let h := ChatRoutes.websocket_receive Config.settings demo_ctx ChatRoutes.quiet
             during_sends (ChatSchemas.message_id demo_message) demo_now
             (demo_session 1) 1 "usuario1" (ChatRoutes.InMessage "general" "hola")
             demo_live_state in
  (forall w, w ∈ [1; 2; 3]%nat ->
     addressed message None demo_live_state w /\
     exists ws, ChatRoutes.sockets demo_live_state !! w = Some ws /\
                ChatRoutes.can_send ws = true /\ ChatRoutes.outbox ws = []) /\
  fst r = inl (Py.RuntimeError "dictionary changed size during iteration") /\
  (exists ws, ChatRoutes.sockets (snd r) !! 1%nat = Some ws /\
              ChatRoutes.outbox ws = [frame]) /\
  (forall w, w ∈ [2; 3]%nat ->
     exists ws, ChatRoutes.sockets (snd r) !! w = Some ws /\
                ChatRoutes.can_send ws = true /\ ChatRoutes.outbox ws = []) /\
  fst h = inr false /\
  ChatRoutes.active_connections (snd h) !! demo_session 1 = None /\
  (forall w, w ∈ [2; 3]%nat ->
     exists ws, ChatRoutes.sockets (snd h) !! w = Some ws /\
                ChatRoutes.can_send ws = true /\ ChatRoutes.outbox ws = []).
Proof.
  cbv zeta.
  assert (Hroom : MessagingService.chat_rooms
                    (ChatRoutes.messaging_service demo_live_state) !! "general"
                  = Some {| ChatSchemas.id := "general";
                            ChatSchemas.name := Some "Canal General";
                            ChatSchemas.participants :=
                              ["usuario1"; "usuario2"; "usuario3"];
                            ChatSchemas.is_group := true;
                            ChatSchemas.created_at := demo_now;
                            ChatSchemas.encryption_key := None |})
    by (vm_compute; reflexivity).
  split.
  { intros w Hw.
    assert (Hcases : w = 1%nat \/ w = 2%nat \/ w = 3%nat).
    { apply list_elem_of_In in Hw. cbn in Hw. intuition congruence. }
    destruct Hcases as [-> | [-> | ->]].
    - split.
      + exists "general". eexists. exists (demo_session 1), "usuario1".
        split; [reflexivity|]. split; [exact Hroom|].
        split; [apply list_elem_of_In; cbn; tauto|].
        split; [vm_compute; reflexivity|]. split; [vm_compute; reflexivity|].
        reflexivity.
      + eexists. split; [vm_compute; reflexivity|]. split; reflexivity.
    - split.
      + exists "general". eexists. exists (demo_session 2), "usuario2".
        split; [reflexivity|]. split; [exact Hroom|].
        split; [apply list_elem_of_In; cbn; tauto|].
        split; [vm_compute; reflexivity|]. split; [vm_compute; reflexivity|].
        reflexivity.
      + eexists. split; [vm_compute; reflexivity|]. split; reflexivity.
    - split.
      + exists "general". eexists. exists (demo_session 3), "usuario3".
        split; [reflexivity|]. split; [exact Hroom|].
        split; [apply list_elem_of_In; cbn; tauto|].
        split; [vm_compute; reflexivity|]. split; [vm_compute; reflexivity|].
        reflexivity.
      + eexists. split; [vm_compute; reflexivity|]. split; reflexivity. }
  split; [vm_compute; reflexivity|].
  split; [eexists; split; [vm_compute; reflexivity | reflexivity]|].
  split.
  { intros w Hw. apply list_elem_of_In in Hw. cbn in Hw.
    destruct Hw as [<- | [<- | []]];
      (eexists; split; [vm_compute; reflexivity | split; reflexivity]). }
  split; [vm_compute; reflexivity|].
  split; [vm_compute; reflexivity|].
  intros w Hw. apply list_elem_of_In in Hw. cbn in Hw.
  destruct Hw as [<- | [<- | []]];
    (eexists; split; [vm_compute; reflexivity | split; reflexivity]).
Qed.

(** A second way in which a live connection of a participant is missed,
    with no other task running: the session of "usuario3" opens a second
    WebSocket, which replaces the first in the registry.  The first is still
    open and sending through it would succeed, but the broadcast reaches
    only the second. *)
Lemma broadcast_misses_replaced_connection :
  let message := ChatRoutes.PMessage demo_message in
  let frame := ChatRoutes.NewMessage message in
  let st := snd (ChatRoutes.websocket_connect (demo_session 3) 4 demo_live_state) in
  let r := ChatRoutes.broadcast_to_room Config.settings demo_ctx [] message None st in
  fst r = inr tt /\
  (exists ws, ChatRoutes.sockets (snd r) !! 3%nat = Some ws /\
              ChatRoutes.can_send ws = true /\ ChatRoutes.outbox ws = []) /\
  (exists ws, ChatRoutes.sockets (snd r) !! 4%nat = Some ws /\
              ChatRoutes.outbox ws = [frame]).
Proof.
  cbv zeta. split; [vm_compute; reflexivity|].
  split; eexists; (split; [vm_compute; reflexivity|]); [split|]; reflexivity.
Qed.

(** ** The messaging service *)

(** ** Authentication and the VPN subnet *)

(** The address check refuses exactly the addresses that are off the VPN,
    with one of two messages. *)
Lemma check_vpn_address_off_vpn (settings : Config.Settings) (vpn_ip : string) :
  off_vpn settings vpn_ip ->
  MessagingService.check_vpn_address settings vpn_ip = Some "Dirección IP inválida" \/
  MessagingService.check_vpn_address settings vpn_ip
    = Some "Autenticación solo permitida a través de la VPN".
Proof.
  unfold off_vpn, MessagingService.check_vpn_address.
  destruct (IPAddress.ip_address vpn_ip) as [e | ip]; [auto|].
  destruct (IPAddress.ip_network (Config.VPN_SUBNET settings)) as [e | net]; [auto|].
  intros ->. auto.
Qed.

Lemma check_vpn_address_on_vpn (settings : Config.Settings) (vpn_ip : string) :
  MessagingService.check_vpn_address settings vpn_ip = None ->
  ~ off_vpn settings vpn_ip.
Proof.
  unfold off_vpn, MessagingService.check_vpn_address.
  destruct (IPAddress.ip_address vpn_ip) as [e | ip]; [discriminate|].
  destruct (IPAddress.ip_network (Config.VPN_SUBNET settings)) as [e | net];
    [discriminate|].
  destruct (IPAddress.contains net ip); [intros _ H|]; discriminate.
Qed.

(** C4.  With a claimed address that does not parse or lies outside the
    configured subnet, [authenticate_user] fails with an authentication
    failure and no token, changes nothing, and its outcome is the same for
    any two user names, passwords, password contexts and environments. *)
Theorem authenticate_off_vpn_ignores_credentials
    (settings : Config.Settings) (ctx1 ctx2 : Security.CryptContext)
    (env1 env2 : MessagingService.AuthEnv)
    (username1 password1 username2 password2 vpn_ip : string)
    (self : MessagingService.t) :
  off_vpn settings vpn_ip ->
  let r1 := MessagingService.authenticate_user settings ctx1 env1
              username1 password1 vpn_ip self in
  let r2 := MessagingService.authenticate_user settings ctx2 env2
              username2 password2 vpn_ip self in
  r1 = r2 /\
  snd r1 = self /\
  exists res,
    fst r1 = Py.ok res /\
    auth_error res = Some AuthenticationFailure /\
    MessagingService.token res = None.
Proof.
  intros Hoff. unfold MessagingService.authenticate_user.
  destruct (check_vpn_address_off_vpn settings vpn_ip Hoff) as [-> | ->];
    cbn; (split; [reflexivity|]); (split; [reflexivity|]);
    eexists; (split; [reflexivity|]); split; reflexivity.
Qed.

Lemma authenticate_off_vpn_ignores_credentials_witness :
  off_vpn Config.settings "192.168.1.5" /\
  let r1 := MessagingService.authenticate_user Config.settings demo_ctx
              demo_auth_env "usuario1" "password1" "192.168.1.5" demo_service in
  let r2 := MessagingService.authenticate_user Config.settings demo_ctx
              demo_auth_env "nadie" "x" "192.168.1.5" demo_service in
  r1 = r2 /\
  snd r1 = demo_service /\
  exists res,
    fst r1 = Py.ok res /\
    auth_error res = Some AuthenticationFailure /\
    MessagingService.token res = None.
Proof.
  split; [vm_compute; reflexivity|].
  apply (authenticate_off_vpn_ignores_credentials Config.settings demo_ctx
           demo_ctx demo_auth_env demo_auth_env "usuario1" "password1"
           "nadie" "x" "192.168.1.5" demo_service).
  vm_compute. reflexivity.
Defined.

(** The example of the specification: inside the subnet, with the right
    password, authentication succeeds and [verify_token] accepts the token. *)
Lemma authenticate_on_vpn_example :
  let r := MessagingService.authenticate_user Config.settings demo_ctx
             demo_auth_env "usuario1" "password1" "10.8.0.5" demo_service in
  exists res token,
    fst r = Py.ok res /\
    MessagingService.success res = true /\
    MessagingService.token res = Some token /\
    is_Some (Security.verify_token Config.settings 1715942600 token) /\
    MessagingService.user_sessions (snd r) !! MessagingService.auth_uuid demo_auth_env
      = Some "usuario1".
Proof.
  cbv zeta. eexists. eexists. split; [vm_compute; reflexivity|].
  split; [reflexivity|]. split; [reflexivity|].
  split; [vm_compute; eauto | vm_compute; reflexivity].
Qed.

(** ** Room history *)

Lemma slice_upto_length {A : Type} (l : list A) (limit : Z) :
  1 <= limit ->
  MessagingService.slice_upto l limit = firstn (Z.to_nat limit) l.
Proof.
  intros H. unfold MessagingService.slice_upto.
  destruct (Z.ltb_spec limit 0); [lia | reflexivity].
Qed.

(** C10.  For every room id and every limit of at least one,
    [get_room_messages] returns the first [min 3 limit] of three fabricated
    messages, from "usuario1", "usuario2" and "usuario1", each carrying the
    requested room id; the result is the same for every state of the service
    (whether or not such a room exists, whatever was posted), the service is
    left as it was, and the route hands the same list to every caller with
    a valid token. *)
Theorem get_room_messages_fabricates (env : MessagingService.SampleEnv)
    (room_id : string) (limit : Z) (self : MessagingService.t) :
  1 <= limit ->
  let r := MessagingService.get_room_messages env room_id limit self in
  length (fst r) = Z.to_nat (Z.min 3 limit) /\
  Forall (fun m => ChatSchemas.room_id m = room_id) (fst r) /\
  map ChatSchemas.sender (fst r) =
    firstn (Z.to_nat limit) ["usuario1"; "usuario2"; "usuario1"] /\
  map ChatSchemas.message_id (fst r) =
    firstn (Z.to_nat limit)
      [MessagingService.uuid1 env; MessagingService.uuid2 env;
       MessagingService.uuid3 env] /\
  snd r = self /\
  (forall self', fst (MessagingService.get_room_messages env room_id limit self')
                 = fst r) /\
  (forall settings utcnow token1 token2 st,
     limit <= 100 ->
     is_Some (ChatRoutes.get_current_user settings utcnow token1) ->
     is_Some (ChatRoutes.get_current_user settings utcnow token2) ->
     ChatRoutes.get_room_messages settings utcnow env token1 room_id limit st
       = (ChatRoutes.Ok (fst r), st) /\
     ChatRoutes.get_room_messages settings utcnow env token2 room_id limit st
       = (ChatRoutes.Ok (fst r), st)).
Proof.
  intros Hlimit r. subst r. unfold MessagingService.get_room_messages.
  cbn [fst snd]. rewrite slice_upto_length by exact Hlimit.
  assert (Hn : exists n, Z.to_nat limit = S n /\
                         Z.to_nat (Z.min 3 limit) = Nat.min 3 (S n)).
  { exists (Z.to_nat (limit - 1)). split; [lia|].
    destruct (Z.min_spec 3 limit) as [[? ->] | [? ->]]; lia. }
  destruct Hn as (n & Hn & ->). rewrite Hn.
  split; [now destruct n as [|[|[|n]]]|].
  split; [destruct n as [|[|[|n]]]; cbn; repeat constructor|].
  split; [now destruct n as [|[|[|n]]]|].
  split; [now destruct n as [|[|[|n]]]|].
  split; [reflexivity|]. split; [reflexivity|].
  intros settings utcnow token1 token2 st Hmax [u1 H1] [u2 H2].
  unfold ChatRoutes.get_room_messages. rewrite H1, H2.
  destruct (Z.leb_spec 1 limit); [|lia].
  destruct (Z.leb_spec limit 100); [|lia].
  cbn [andb fst snd]. unfold MessagingService.get_room_messages. cbn [fst snd].
  rewrite slice_upto_length, Hn by exact Hlimit.
  destruct st; split; reflexivity.
Qed.

Lemma get_room_messages_fabricates_witness :
  1 <= 2 /\
  let r := MessagingService.get_room_messages demo_sample_env "no-such-room" 2
             demo_service in
  length (fst r) = Z.to_nat (Z.min 3 2) /\
  Forall (fun m => ChatSchemas.room_id m = "no-such-room") (fst r) /\
  map ChatSchemas.sender (fst r) =
    firstn (Z.to_nat 2) ["usuario1"; "usuario2"; "usuario1"] /\
  map ChatSchemas.message_id (fst r) =
    firstn (Z.to_nat 2)
      [MessagingService.uuid1 demo_sample_env; MessagingService.uuid2 demo_sample_env;
       MessagingService.uuid3 demo_sample_env] /\
  snd r = demo_service /\
  (forall self', fst (MessagingService.get_room_messages demo_sample_env
                        "no-such-room" 2 self') = fst r) /\
  (forall settings utcnow token1 token2 st,
     2 <= 100 ->
     is_Some (ChatRoutes.get_current_user settings utcnow token1) ->
     is_Some (ChatRoutes.get_current_user settings utcnow token2) ->
     ChatRoutes.get_room_messages settings utcnow demo_sample_env token1
       "no-such-room" 2 st = (ChatRoutes.Ok (fst r), st) /\
     ChatRoutes.get_room_messages settings utcnow demo_sample_env token2
       "no-such-room" 2 st = (ChatRoutes.Ok (fst r), st)).
Proof.
  split; [lia|].
  apply (get_room_messages_fabricates demo_sample_env "no-such-room" 2 demo_service).
  lia.
Defined.

(** ** Posting a message *)

Lemma existsb_eqb_elem_of (u : string) (l : list string) :
  existsb (String.eqb u) l = true <-> u ∈ l.
Proof.
  rewrite existsb_exists. split.
  - intros (x & Hin & Heq). apply String.eqb_eq in Heq as <-.
    now apply list_elem_of_In.
  - intros Hin. exists u. split; [now apply list_elem_of_In | apply String.eqb_refl].
Qed.

(** [create_message] never changes the service. *)
Lemma create_message_state (uuid : string) (now : Datetime.t)
    (session_id room_id content : string) (self : MessagingService.t) :
  snd (MessagingService.create_message uuid now session_id room_id content self)
  = self.
Proof.
  unfold MessagingService.create_message.
  destruct (MessagingService.user_sessions self !! session_id) as [u|]; [|reflexivity].
  destruct (negb (MessagingService.truthy u)); [reflexivity|].
  destruct (MessagingService.chat_rooms self !! room_id) as [room|]; [|reflexivity].
  destruct (negb (existsb _ _)); reflexivity.
Qed.

(** It returns [None], changing nothing, when the session is unknown, the
    room is unknown, or the identity of the session is not a participant. *)
Lemma create_message_refuses (uuid : string) (now : Datetime.t)
    (session_id room_id content : string) (self : MessagingService.t) :
  MessagingService.user_sessions self !! session_id = None \/
  MessagingService.chat_rooms self !! room_id = None \/
  (exists username room,
     MessagingService.user_sessions self !! session_id = Some username /\
     MessagingService.chat_rooms self !! room_id = Some room /\
     username ∉ ChatSchemas.participants room) ->
  MessagingService.create_message uuid now session_id room_id content self
  = (None, self).
Proof.
  unfold MessagingService.create_message.
  intros [Hs | [Hr | (u & room & Hs & Hr & Hnot)]].
  - now rewrite Hs.
  - destruct (MessagingService.user_sessions self !! session_id) as [u|]; [|reflexivity].
    destruct (negb (MessagingService.truthy u)); [reflexivity|]. now rewrite Hr.
  - rewrite Hs, Hr. destruct (negb (MessagingService.truthy u)); [reflexivity|].
    destruct (existsb (String.eqb u) (ChatSchemas.participants room)) eqn:E;
      [|reflexivity].
    apply existsb_eqb_elem_of in E. contradiction.
Qed.

(** For a session bound to a non-empty identity that participates in the
    room, it returns the message: the sender is that identity, the id and
    timestamp are the fresh ones, and the sender has read it. *)
Lemma create_message_returns (uuid : string) (now : Datetime.t)
    (session_id room_id content username : string) (room : ChatSchemas.ChatRoom)
    (self : MessagingService.t) :
  MessagingService.user_sessions self !! session_id = Some username ->
  MessagingService.truthy username = true ->
  MessagingService.chat_rooms self !! room_id = Some room ->
  username ∈ ChatSchemas.participants room ->
  MessagingService.create_message uuid now session_id room_id content self
  = (Some {| ChatSchemas.message_id := uuid; ChatSchemas.sender := username;
             ChatSchemas.room_id := room_id; ChatSchemas.content := content;
             ChatSchemas.timestamp := now;
             ChatSchemas.read_by := [username] |}, self).
Proof.
  intros Hs Ht Hr Hin. unfold MessagingService.create_message.
  rewrite Hs, Ht, Hr. cbn [negb].
  apply existsb_eqb_elem_of in Hin. rewrite Hin. reflexivity.
Qed.

(** C6 at its failing input.  A user registered under the empty name
    authenticates from inside the VPN; the session exists, the room
    "general" exists and the empty identity participates in it, the
    real-time ingress accepts the session, and yet [create_message]
    returns [None]. *)
Lemma create_message_empty_identity :
  let s1 := snd (MessagingService.register_user demo_ctx "salt3" "" "secreto"
                   "Sin nombre" demo_service) in
  let r2 := MessagingService.authenticate_user Config.settings demo_ctx
              demo_auth_env "" "secreto" "10.8.0.5" s1 in
  let session_id := MessagingService.auth_uuid demo_auth_env in
  (exists res, fst r2 = Py.ok res /\ MessagingService.success res = true) /\
  MessagingService.user_sessions (snd r2) !! session_id = Some "" /\
  (exists room,
     MessagingService.chat_rooms (snd r2) !! "general" = Some room /\
     "" ∈ ChatSchemas.participants room) /\
  fst (ChatRoutes.websocket_connect session_id 0
         (ChatRoutes.with_service (snd r2) demo_chat)) = true /\
  MessagingService.create_message "c0ffee00-0000-4000-8000-000000000000"
    demo_now session_id "general" "hola" (snd r2) = (None, snd r2).
Proof.
  cbv zeta. split; [eexists; split; [vm_compute; reflexivity | reflexivity]|].
  split; [vm_compute; reflexivity|].
  split.
  { eexists. split; [vm_compute; reflexivity|].
    apply existsb_eqb_elem_of. vm_compute. reflexivity. }
  split; [vm_compute; reflexivity|].
  vm_compute. reflexivity.
Qed.

(** ** What every call keeps *)

Lemma send_text_service (w : nat) (f : ChatRoutes.Frame) (st : ChatRoutes.t) :
  ChatRoutes.messaging_service (snd (ChatRoutes.send_text w f st))
  = ChatRoutes.messaging_service st.
Proof.
  unfold ChatRoutes.send_text. rewrite run_bind. cbn [Eff.get].
  destruct (ChatRoutes.sockets st !! w) as [ws|]; [|reflexivity].
  destruct (ChatRoutes.send_raises ws); [reflexivity|].
  destruct (ChatRoutes.can_send ws); reflexivity.
Qed.

Lemma with_service_same (st : ChatRoutes.t) :
  ChatRoutes.with_service (ChatRoutes.messaging_service st) st = st.
Proof. destruct st. reflexivity. Qed.

(** A property [P] of the messaging service that every step of another
    task keeps is kept by a broadcast and by a turn of the receive loop,
    whatever the other tasks do meanwhile and however the turn ends, and so
    by every call. *)
Section Preserved.

Variable settings : Config.Settings.
Variable ctx : Security.CryptContext.
Variable P : MessagingService.t -> Prop.

Hypothesis P_step : forall step st,
  P (ChatRoutes.messaging_service st) ->
  P (ChatRoutes.messaging_service (ChatRoutes.run_step settings ctx step st)).

Let keeps {A : Type} (m : Eff.M ChatRoutes.t A) : Prop :=
  forall st, P (ChatRoutes.messaging_service st) ->
             P (ChatRoutes.messaging_service (snd (m st))).

Lemma keeps_bind {A B : Type} (m : Eff.M ChatRoutes.t A)
    (f : A -> Eff.M ChatRoutes.t B) :
  keeps m -> (forall a, keeps (f a)) -> keeps (m ≫= f).
Proof.
  intros Hm Hf st HP. rewrite run_bind. specialize (Hm st HP).
  destruct (m st) as [[e | a] st']; cbn [snd] in *; [exact Hm | apply Hf, Hm].
Qed.

Lemma keeps_try_except {A : Type} (body : Eff.M ChatRoutes.t A)
    (handler : Py.Exception -> Eff.M ChatRoutes.t A) :
  keeps body -> (forall e, keeps (handler e)) -> keeps (Eff.try_except body handler).
Proof.
  intros Hm Hh st HP. rewrite run_try_except. specialize (Hm st HP).
  destruct (body st) as [[e | a] st']; cbn [snd] in *; [apply Hh, Hm | exact Hm].
Qed.

Lemma keeps_run_steps (steps : list ChatRoutes.Step) :
  forall st, P (ChatRoutes.messaging_service st) ->
  P (ChatRoutes.messaging_service (ChatRoutes.run_steps settings ctx steps st)).
Proof.
  unfold ChatRoutes.run_steps.
  induction steps as [|step steps IH]; intros st HP; cbn [fold_left]; [exact HP|].
  apply IH, P_step, HP.
Qed.

Lemma keeps_await_send (others : ChatRoutes.Interference) (w : nat)
    (f : ChatRoutes.Frame) :
  keeps (ChatRoutes.await_send settings ctx others w f).
Proof.
  intros st HP. unfold ChatRoutes.await_send. cbn [snd].
  apply keeps_run_steps. rewrite send_text_service. apply keeps_run_steps, HP.
Qed.

Lemma keeps_visit (others : ChatRoutes.Interference) (message : ChatRoutes.Payload)
    (exclude_session : option string) (participant session_id : string) :
  keeps (ChatRoutes.visit settings ctx others message exclude_session participant
           session_id).
Proof.
  intros st HP. unfold ChatRoutes.visit. rewrite run_bind. cbn [Eff.get].
  destruct (MessagingService.user_sessions _ !! session_id); [|exact HP].
  destruct (ChatRoutes.active_connections st !! session_id) as [w|]; [|exact HP].
  destruct (_ && _); [|exact HP].
  apply keeps_try_except; [apply keeps_await_send | intros e ? Hs; exact Hs | exact HP].
Qed.

Lemma keeps_sessions_loop (others : nat -> ChatRoutes.Interference)
    (message : ChatRoutes.Payload) (exclude_session : option string)
    (participant : string) (used : nat) (keys : list string) :
  forall j, keeps (ChatRoutes.sessions_loop settings ctx others message
                     exclude_session participant used keys j).
Proof.
  induction keys as [|session_id keys IH]; intros j st HP;
    cbn [ChatRoutes.sessions_loop]; rewrite run_bind; cbn [Eff.get];
    destruct (negb _); try exact HP.
  apply keeps_bind; [apply keeps_visit | intros []; apply IH | exact HP].
Qed.

Lemma keeps_sessions_pass (others : nat -> ChatRoutes.Interference)
    (message : ChatRoutes.Payload) (exclude_session : option string)
    (participant : string) :
  keeps (ChatRoutes.sessions_pass settings ctx others message exclude_session
           participant).
Proof.
  intros st HP. unfold ChatRoutes.sessions_pass. rewrite run_bind. cbn [Eff.get].
  apply keeps_sessions_loop, HP.
Qed.

Lemma keeps_participants_loop (message : ChatRoutes.Payload)
    (exclude_session : option string) (room_id : string)
    (room : ChatSchemas.ChatRoom) (sched : ChatRoutes.Schedule) :
  forall i, keeps (ChatRoutes.participants_loop settings ctx sched message
                     exclude_session room_id room i).
Proof.
  induction sched as [|others sched IH]; intros i st HP;
    cbn [ChatRoutes.participants_loop]; rewrite run_bind; cbn [Eff.get].
  - apply (for_each_keeps (fun s => P (ChatRoutes.messaging_service s)));
      [|exact HP].
    intros participant s Hs. apply keeps_sessions_pass, Hs.
  - destruct (ChatRoutes.live_participants room_id room st !! i) as [participant|];
      [|exact HP].
    apply keeps_bind; [apply keeps_sessions_pass | intros []; apply IH | exact HP].
Qed.

Lemma keeps_broadcast (sched : ChatRoutes.Schedule) (message : ChatRoutes.Payload)
    (exclude_session : option string) :
  keeps (ChatRoutes.broadcast_to_room settings ctx sched message exclude_session).
Proof.
  intros st HP. unfold ChatRoutes.broadcast_to_room. rewrite run_bind. cbn [Eff.get].
  destruct (ChatRoutes.payload_room_id message) as [room_id|]; [|exact HP].
  destruct (MessagingService.chat_rooms _ !! room_id) as [room|]; [|exact HP].
  apply keeps_participants_loop, HP.
Qed.

Lemma keeps_websocket_receive (during : ChatRoutes.Interference)
    (sched : ChatRoutes.Schedule) (uuid : string) (now : Datetime.t)
    (session_id : string) (w : nat) (username : string)
    (data : ChatRoutes.Incoming) :
  keeps (ChatRoutes.websocket_receive settings ctx during sched uuid now session_id
           w username data).
Proof.
  unfold ChatRoutes.websocket_receive.
  apply keeps_try_except; [|intros e ? HP; exact HP].
  destruct data as [room_id content | [room_id|] | type | e]; intros st HP;
    try exact HP.
  - rewrite run_bind. cbn [Eff.get]. rewrite run_bind. cbn [Eff.modify].
    rewrite create_message_state, with_service_same.
    destruct (fst (MessagingService.create_message _ _ _ _ _ _)) as [message|].
    + apply keeps_bind; [apply keeps_await_send | intros [] | exact HP].
      apply keeps_bind; [apply keeps_broadcast | intros [] ? Hs; exact Hs].
    + apply keeps_bind; [apply keeps_await_send | intros [] ? Hs; exact Hs | exact HP].
  - rewrite run_bind. cbn [Eff.get].
    destruct (_ && _); [|exact HP].
    apply keeps_bind; [apply keeps_broadcast | intros [] ? Hs; exact Hs | exact HP].
Qed.

(** The calls of the other handlers are steps; a turn of the receive loop
    was just treated; the history route changes nothing. *)
Lemma call_keeps (st : ChatRoutes.t) (c : ChatCall) :
  P (ChatRoutes.messaging_service st) ->
  P (ChatRoutes.messaging_service (after_chat_call settings ctx st c)).
Proof.
  intros HP. destruct c.
  - exact (P_step (ChatRoutes.Registers salt username password display_name) st HP).
  - exact (P_step (ChatRoutes.LogsIn env username password vpn_ip) st HP).
  - exact (P_step (ChatRoutes.OpensRoom keygen uuid now user1 user2) st HP).
  - cbn [after_chat_call]. unfold ChatRoutes.get_room_messages.
    destruct (ChatRoutes.get_current_user _ _ _); [|exact HP].
    destruct (_ && _); exact HP.
  - exact (P_step (ChatRoutes.Connects session_id w) st HP).
  - apply keeps_websocket_receive, HP.
  - exact (P_step (ChatRoutes.Disconnects session_id username) st HP).
Qed.

Lemma calls_keep (calls : list ChatCall) (st : ChatRoutes.t) :
  P (ChatRoutes.messaging_service st) ->
  P (ChatRoutes.messaging_service (after_chat_calls settings ctx st calls)).
Proof.
  unfold after_chat_calls. revert st.
  induction calls as [|c calls IH]; intros st HP; cbn [fold_left]; [exact HP|].
  apply IH, call_keeps, HP.
Qed.

End Preserved.

(** What a step of another task does to the messaging service: one of the
    three operations that change it, a change of [connected_users] alone,
    or nothing. *)
Lemma run_step_service (settings : Config.Settings) (ctx : Security.CryptContext)
    (step : ChatRoutes.Step) (st : ChatRoutes.t) :
  let s := ChatRoutes.messaging_service st in
  let s' := ChatRoutes.messaging_service (ChatRoutes.run_step settings ctx step st) in
  (exists salt username password display_name,
     s' = snd (MessagingService.register_user ctx salt username password
                 display_name s)) \/
  (exists env username password vpn_ip,
     s' = snd (MessagingService.authenticate_user settings ctx env username
                 password vpn_ip s)) \/
  (exists keygen uuid now user1 user2,
     s' = snd (MessagingService.create_secure_channel keygen uuid now user1 user2 s)) \/
  (exists users, s' = MessagingService.with_connected_users users s) \/
  s' = s.
Proof.
  cbv zeta. destruct step; cbn [ChatRoutes.run_step ChatRoutes.with_service
    ChatRoutes.with_active ChatRoutes.messaging_service].
  - left. eauto.
  - right. left. eauto.
  - right. right. left. eauto 6.
  - unfold ChatRoutes.websocket_connect.
    destruct (MessagingService.user_sessions _ !! session_id) as [u|];
      [|right; right; right; right; reflexivity].
    cbn [snd ChatRoutes.with_active ChatRoutes.with_sockets
         ChatRoutes.messaging_service].
    destruct (MessagingService.connected_users _ !! u);
      [right; right; right; left; eauto | right; right; right; right; reflexivity].
  - right. right. right. right. rewrite run_try_except.
    pose proof (send_text_service w f st) as H.
    destruct (ChatRoutes.send_text w f st) as [[e | []] st']; exact H.
  - unfold ChatRoutes.websocket_disconnect.
    cbn [ChatRoutes.with_active ChatRoutes.messaging_service].
    destruct (MessagingService.connected_users _ !! username);
      [right; right; right; left; eauto | right; right; right; right; reflexivity].
  - right. right. right. right. reflexivity.
  - right. right. right. right.
    destruct (ChatRoutes.sockets st !! w); reflexivity.
Qed.

(** ** Sessions are never removed *)

Section Sessions.

Variable settings : Config.Settings.
Variable ctx : Security.CryptContext.

Lemma register_user_sessions (salt username password display_name : string)
    (self : MessagingService.t) :
  MessagingService.user_sessions
    (snd (MessagingService.register_user ctx salt username password display_name self))
  = MessagingService.user_sessions self.
Proof.
  unfold MessagingService.register_user.
  destruct (MessagingService._users_db _ !! username); [reflexivity|].
  destruct (Security.get_password_hash ctx salt password); [reflexivity|].
  cbn [snd MessagingService.with_users_db MessagingService.chat_rooms].
  destruct (MessagingService.chat_rooms _ !! "general") as [room|]; [|reflexivity].
  destruct (existsb _ _); reflexivity.
Qed.

Lemma create_secure_channel_sessions (keygen : Py.result RSA.RSAPrivateKey)
    (uuid : string) (now : Datetime.t) (user1 user2 : string)
    (self : MessagingService.t) :
  MessagingService.user_sessions
    (snd (MessagingService.create_secure_channel keygen uuid now user1 user2 self))
  = MessagingService.user_sessions self.
Proof.
  unfold MessagingService.create_secure_channel.
  destruct (MessagingService._users_db _ !! user1); [|reflexivity].
  destruct (MessagingService._users_db _ !! user2); [|reflexivity].
  destruct (KyberManager.__init__ _); [reflexivity|].
  destruct (fst _); reflexivity.
Qed.

(** [authenticate_user] adds at most the entry of its own session. *)
Lemma authenticate_user_sessions (env : MessagingService.AuthEnv)
    (username password vpn_ip : string) (self : MessagingService.t) :
  let sessions' :=
    MessagingService.user_sessions
      (snd (MessagingService.authenticate_user settings ctx env username password
              vpn_ip self)) in
  sessions' = MessagingService.user_sessions self \/
  sessions' = <[MessagingService.auth_uuid env := username]>
                (MessagingService.user_sessions self).
Proof.
  cbv zeta. unfold MessagingService.authenticate_user.
  destruct (MessagingService.check_vpn_address _ _); [now left|].
  destruct (MessagingService._users_db _ !! username); [|now left].
  destruct (Security.verify_password _ _ _) as [e | verified]; [now left|].
  destruct (negb verified); [now left | now right].
Qed.

(** No step of any task removes a session. *)
Lemma session_survives_step (session_id : string) (step : ChatRoutes.Step)
    (st : ChatRoutes.t) :
  is_Some (MessagingService.user_sessions (ChatRoutes.messaging_service st)
           !! session_id) ->
  is_Some (MessagingService.user_sessions
             (ChatRoutes.messaging_service (ChatRoutes.run_step settings ctx step st))
           !! session_id).
Proof.
  intros Hs.
  destruct (run_step_service settings ctx step st)
    as [(salt & u & p & d & ->) | [(env & u & p & ip & ->) |
        [(keygen & uuid & now & u1 & u2 & ->) | [(users & ->) | ->]]]].
  - now rewrite register_user_sessions.
  - destruct (authenticate_user_sessions env u p ip (ChatRoutes.messaging_service st))
      as [-> | ->]; [exact Hs|].
    apply lookup_insert_is_Some'. now right.
  - now rewrite create_secure_channel_sessions.
  - exact Hs.
  - exact Hs.
Qed.

Lemma session_survives_calls (calls : list ChatCall) (st : ChatRoutes.t)
    (session_id : string) :
  is_Some (MessagingService.user_sessions (ChatRoutes.messaging_service st)
           !! session_id) ->
  is_Some (MessagingService.user_sessions
             (ChatRoutes.messaging_service (after_chat_calls settings ctx st calls))
           !! session_id).
Proof.
  apply (calls_keep settings ctx
           (fun s => is_Some (MessagingService.user_sessions s !! session_id))).
  intros step s. apply session_survives_step.
Qed.

(** The ingress accepts exactly the session ids on record. *)
Lemma websocket_connect_accepts (session_id : string) (w : nat) (st : ChatRoutes.t) :
  fst (ChatRoutes.websocket_connect session_id w st) = true <->
  is_Some (MessagingService.user_sessions (ChatRoutes.messaging_service st)
           !! session_id).
Proof.
  unfold ChatRoutes.websocket_connect.
  destruct (MessagingService.user_sessions _ !! session_id) as [u|]; cbn.
  - split; eauto.
  - split; [discriminate | intros [? [=]]].
Qed.

(** A token is refused from the second after its expiry on. *)
Lemma verify_token_expired (utcnow : Z) (token : Security.Token) (e : Z) :
  token_exp token = Some e -> e < utcnow ->
  Security.verify_token settings utcnow token = None.
Proof.
  destruct token as [key alg claims e' | text]; [|discriminate].
  intros [= ->] Hlt. unfold Security.verify_token.
  destruct (Z.ltb_spec e utcnow); [|lia].
  now rewrite andb_false_r.
Qed.

(** A successful authentication issues a token that expires after the
    configured lifetime and records the session. *)
Lemma authenticate_success (env : MessagingService.AuthEnv)
    (username password vpn_ip : string) (self : MessagingService.t)
    (res : MessagingService.AuthResult) :
  let r := MessagingService.authenticate_user settings ctx env username password
             vpn_ip self in
  fst r = Py.ok res ->
  MessagingService.success res = true ->
  MessagingService.token res =
    Some (Security.create_access_token settings (MessagingService.auth_utcnow env)
            [("sub", username); ("session_id", MessagingService.auth_uuid env);
             ("vpn_ip", vpn_ip)] None) /\
  MessagingService.user_sessions (snd r) !! MessagingService.auth_uuid env
    = Some username.
Proof.
  cbv zeta. unfold MessagingService.authenticate_user.
  destruct (MessagingService.check_vpn_address _ _); [intros [= <-]; discriminate|].
  destruct (MessagingService._users_db _ !! username);
    [|intros [= <-]; discriminate].
  destruct (Security.verify_password _ _ _) as [e | verified]; [discriminate|].
  destruct (negb verified); [intros [= <-]; discriminate|].
  cbn [fst snd]. intros [= <-] _.
  cbn [MessagingService.token MessagingService.with_sessions
       MessagingService.user_sessions].
  split; [reflexivity | apply lookup_insert_eq].
Qed.

(** C5 (amended).  The token that a successful [authenticate_user] issues
    is refused by [verify_token], and so by every route that asks for the
    current user, from the second after its expiry on.  The session itself
    is never invalidated: whatever calls follow, and whenever, and whatever
    the other tasks do during their sends, its id stays on record, the
    real-time ingress accepts it, and [create_message] accepts it for every
    room in which the user it is bound to participates, provided the name
    of that user is not empty. *)
Theorem session_outlives_its_token (env : MessagingService.AuthEnv)
    (username password vpn_ip : string) (st : ChatRoutes.t)
    (res : MessagingService.AuthResult) :
  let r := MessagingService.authenticate_user settings ctx env username password
             vpn_ip (ChatRoutes.messaging_service st) in
  let expiry := MessagingService.auth_utcnow env
                + Config.ACCESS_TOKEN_EXPIRE_MINUTES settings * 60 in
  fst r = Py.ok res ->
  MessagingService.success res = true ->
  exists token,
    MessagingService.token res = Some token /\
    token_exp token = Some expiry /\
    (forall utcnow, expiry < utcnow ->
       Security.verify_token settings utcnow token = None /\
       ChatRoutes.get_current_user settings utcnow token = None) /\
    MessagingService.user_sessions (snd r) !! MessagingService.auth_uuid env
      = Some username /\
    (forall (calls : list ChatCall) (w : nat),
       let st' := after_chat_calls settings ctx
                    (ChatRoutes.with_service (snd r) st) calls in
       is_Some (MessagingService.user_sessions (ChatRoutes.messaging_service st')
                !! MessagingService.auth_uuid env) /\
       fst (ChatRoutes.websocket_connect (MessagingService.auth_uuid env) w st')
         = true /\
       exists bound,
         MessagingService.user_sessions (ChatRoutes.messaging_service st')
           !! MessagingService.auth_uuid env = Some bound /\
         forall (uuid : string) (now : Datetime.t) (room_id content : string)
                (room : ChatSchemas.ChatRoom),
           bound <> "" ->
           MessagingService.chat_rooms (ChatRoutes.messaging_service st') !! room_id
             = Some room ->
           bound ∈ ChatSchemas.participants room ->
           MessagingService.create_message uuid now (MessagingService.auth_uuid env)
             room_id content (ChatRoutes.messaging_service st')
           = (Some {| ChatSchemas.message_id := uuid; ChatSchemas.sender := bound;
                      ChatSchemas.room_id := room_id; ChatSchemas.content := content;
                      ChatSchemas.timestamp := now;
                      ChatSchemas.read_by := [bound] |},
              ChatRoutes.messaging_service st')).
Proof.
  intros r expiry Hres Hok.
  destruct (authenticate_success env username password vpn_ip
              (ChatRoutes.messaging_service st) res Hres Hok) as [Htok Hsess].
  fold r in Hsess.
  eexists. split; [exact Htok|]. split; [reflexivity|].
  split; [|split; [exact Hsess|]].
  - intros utcnow Hlt.
    assert (Hv : Security.verify_token settings utcnow
                   (Security.create_access_token settings
                      (MessagingService.auth_utcnow env)
                      [("sub", username);
                       ("session_id", MessagingService.auth_uuid env);
                       ("vpn_ip", vpn_ip)] None) = None)
      by (eapply verify_token_expired; [reflexivity | exact Hlt]).
    split; [exact Hv|]. unfold ChatRoutes.get_current_user. now rewrite Hv.
  - intros calls w st'.
    assert (Hs : is_Some (MessagingService.user_sessions
                            (ChatRoutes.messaging_service st')
                          !! MessagingService.auth_uuid env)).
    { apply session_survives_calls. cbn [ChatRoutes.with_service
        ChatRoutes.messaging_service]. rewrite Hsess. eauto. }
    split; [exact Hs|]. split; [apply websocket_connect_accepts, Hs|].
    destruct Hs as [bound Hbound]. exists bound. split; [exact Hbound|].
    intros uuid now room_id content room Hname Hroom Hpart.
    apply (create_message_returns uuid now _ room_id content bound room);
      try assumption.
    unfold MessagingService.truthy.
    destruct (String.eqb_spec bound ""); [contradiction | reflexivity].
Qed.

End Sessions.

Lemma session_outlives_its_token_witness :
  let r := MessagingService.authenticate_user Config.settings demo_ctx
             demo_auth_env "usuario1" "password1" "10.8.0.5"
             (ChatRoutes.messaging_service demo_chat) in
  let expiry := MessagingService.auth_utcnow demo_auth_env
                + Config.ACCESS_TOKEN_EXPIRE_MINUTES Config.settings * 60 in
  exists res,
    fst r = Py.ok res /\
    MessagingService.success res = true /\
    exists token,
      MessagingService.token res = Some token /\
      token_exp token = Some expiry /\
      (forall utcnow, expiry < utcnow ->
         Security.verify_token Config.settings utcnow token = None /\
         ChatRoutes.get_current_user Config.settings utcnow token = None) /\
      MessagingService.user_sessions (snd r) !! MessagingService.auth_uuid demo_auth_env
        = Some "usuario1" /\
      (forall (calls : list ChatCall) (w : nat),
         let st' := after_chat_calls Config.settings demo_ctx
                      (ChatRoutes.with_service (snd r) demo_chat) calls in
         is_Some (MessagingService.user_sessions (ChatRoutes.messaging_service st')
                  !! MessagingService.auth_uuid demo_auth_env) /\
         fst (ChatRoutes.websocket_connect (MessagingService.auth_uuid demo_auth_env)
                w st') = true /\
         exists bound,
           MessagingService.user_sessions (ChatRoutes.messaging_service st')
             !! MessagingService.auth_uuid demo_auth_env = Some bound /\
           forall (uuid : string) (now : Datetime.t) (room_id content : string)
                  (room : ChatSchemas.ChatRoom),
             bound <> "" ->
             MessagingService.chat_rooms (ChatRoutes.messaging_service st') !! room_id
               = Some room ->
             bound ∈ ChatSchemas.participants room ->
             MessagingService.create_message uuid now
               (MessagingService.auth_uuid demo_auth_env)
               room_id content (ChatRoutes.messaging_service st')
             = (Some {| ChatSchemas.message_id := uuid; ChatSchemas.sender := bound;
                        ChatSchemas.room_id := room_id;
                        ChatSchemas.content := content;
                        ChatSchemas.timestamp := now;
                        ChatSchemas.read_by := [bound] |},
                ChatRoutes.messaging_service st')).
Proof.
  cbv zeta. eexists. split; [vm_compute; reflexivity|].
  split; [reflexivity|].
  apply (session_outlives_its_token Config.settings demo_ctx demo_auth_env
           "usuario1" "password1" "10.8.0.5" demo_chat);
    [vm_compute; reflexivity | reflexivity].
Defined.

(** C5 as stated fails.  "usuario1" authenticates at 2024-05-17 10:42:07
    UTC and gets a token that expires eight days later.  On 2024-06-30 the
    token is refused, but the ingress still accepts the session id and
    [create_message] still posts under it. *)
Lemma expired_session_is_still_accepted :
  let r := MessagingService.authenticate_user Config.settings demo_ctx
             demo_auth_env "usuario1" "password1" "10.8.0.5" demo_service in
  let session_id := MessagingService.auth_uuid demo_auth_env in
  exists res token,
    fst r = Py.ok res /\
    MessagingService.token res = Some token /\
    token_exp token = Some 1716633727 /\
    1716633727 < demo_later_utc /\
    Security.verify_token Config.settings demo_later_utc token = None /\
    fst (ChatRoutes.websocket_connect session_id 0
           (ChatRoutes.with_service (snd r) demo_chat)) = true /\
    exists m,
      fst (MessagingService.create_message "c0ffee00-0000-4000-8000-000000000000"
             demo_later session_id "general" "hola" (snd r)) = Some m /\
      ChatSchemas.sender m = "usuario1".
Proof.
  cbv zeta. eexists. eexists. split; [vm_compute; reflexivity|].
  split; [reflexivity|].
  split; [reflexivity|]. split; [reflexivity|].
  split; [vm_compute; reflexivity|]. split; [vm_compute; reflexivity|].
  eexists. split; [vm_compute; reflexivity | reflexivity].
Qed.

(* ===================================================================== *)
(** * Part III: further properties                                        *)
(* ===================================================================== *)

(** ** Keys, ciphers and their encodings *)

(** ** Base64: decoding what was encoded *)

(** A property of all numbers below [n] that was checked on each of them. *)
Lemma forallb_range (P : Z -> bool) (n : nat) :
  forallb P (map Z.of_nat (seq 0 n)) = true ->
  forall z, 0 <= z < Z.of_nat n -> P z = true.
Proof.
  intros H z Hz. rewrite forallb_forall in H. apply H.
  apply in_map_iff. exists (Z.to_nat z). split; [lia|].
  apply in_seq. lia.
Qed.

Lemma Z_of_byte_range (b : byte) : 0 <= Py.Z_of_byte b < 256.
Proof.
  unfold Py.Z_of_byte. pose proof (Byte.to_N_bounded b). lia.
Qed.

Lemma byte_of_Z_of_byte (b : byte) : Py.byte_of_Z (Py.Z_of_byte b) = b.
Proof.
  unfold Py.byte_of_Z. rewrite Z.mod_small by apply Z_of_byte_range.
  unfold Py.Z_of_byte. rewrite N2Z.id, Byte.of_to_N. reflexivity.
Qed.

(** The alphabet and the table of the decoder are inverse to each other,
    and the padding character is not in the alphabet. *)
Lemma b64_value_char (i : Z) :
  0 <= i < 64 ->
  Base64.b64_value (Py.b64_char i) = Some i /\
  Ascii.eqb (Py.b64_char i) "=" = false.
Proof.
  intros Hi.
  assert (H : (match Base64.b64_value (Py.b64_char i) with
               | Some v => v =? i
               | None => false
               end && negb (Ascii.eqb (Py.b64_char i) "="))%bool = true).
  { revert i Hi. apply (forallb_range
      (fun i => (match Base64.b64_value (Py.b64_char i) with
                 | Some v => v =? i
                 | None => false
                 end && negb (Ascii.eqb (Py.b64_char i) "="))%bool) 64).
    vm_compute. reflexivity. }
  apply andb_prop in H as [H1 H2].
  destruct (Base64.b64_value (Py.b64_char i)) as [v|]; [|discriminate].
  apply Z.eqb_eq in H1 as ->. split; [reflexivity|].
  now apply negb_true_iff.
Qed.

(** The three bytes that the decoder reassembles from the four characters
    of a quad, on the bit fields the encoder cut them into. *)
Lemma quad_first (u x y : Z) :
  0 <= u < 64 -> 0 <= x < 4 -> 0 <= y < 16 ->
  Z.lor (Z.shiftl u 2) (Z.shiftr (x * 16 + y) 4) = u * 4 + x.
Proof.
  intros Hu Hx Hy. apply Z.eqb_eq. revert y Hy.
  apply (forallb_range
    (fun y => Z.lor (Z.shiftl u 2) (Z.shiftr (x * 16 + y) 4) =? u * 4 + x) 16).
  revert x Hx.
  apply (forallb_range
    (fun x => forallb (fun y => Z.lor (Z.shiftl u 2) (Z.shiftr (x * 16 + y) 4)
                                =? u * 4 + x)
                      (map Z.of_nat (seq 0 16))) 4).
  revert u Hu.
  apply (forallb_range
    (fun u => forallb (fun x =>
       forallb (fun y => Z.lor (Z.shiftl u 2) (Z.shiftr (x * 16 + y) 4)
                         =? u * 4 + x)
               (map Z.of_nat (seq 0 16)))
       (map Z.of_nat (seq 0 4))) 64).
  vm_compute. reflexivity.
Qed.

Lemma quad_second (x y z w : Z) :
  0 <= x < 4 -> 0 <= y < 16 -> 0 <= z < 16 -> 0 <= w < 4 ->
  Z.lor (Z.shiftl (Z.land (x * 16 + y) 15) 4) (Z.shiftr (z * 4 + w) 2)
  = y * 16 + z.
Proof.
  intros Hx Hy Hz Hw. apply Z.eqb_eq. revert w Hw.
  apply (forallb_range
    (fun w => Z.lor (Z.shiftl (Z.land (x * 16 + y) 15) 4) (Z.shiftr (z * 4 + w) 2)
              =? y * 16 + z) 4).
  revert z Hz.
  apply (forallb_range
    (fun z => forallb (fun w =>
       Z.lor (Z.shiftl (Z.land (x * 16 + y) 15) 4) (Z.shiftr (z * 4 + w) 2)
       =? y * 16 + z) (map Z.of_nat (seq 0 4))) 16).
  revert y Hy.
  apply (forallb_range
    (fun y => forallb (fun z => forallb (fun w =>
       Z.lor (Z.shiftl (Z.land (x * 16 + y) 15) 4) (Z.shiftr (z * 4 + w) 2)
       =? y * 16 + z) (map Z.of_nat (seq 0 4))) (map Z.of_nat (seq 0 16))) 16).
  revert x Hx.
  apply (forallb_range
    (fun x => forallb (fun y => forallb (fun z => forallb (fun w =>
       Z.lor (Z.shiftl (Z.land (x * 16 + y) 15) 4) (Z.shiftr (z * 4 + w) 2)
       =? y * 16 + z) (map Z.of_nat (seq 0 4))) (map Z.of_nat (seq 0 16)))
       (map Z.of_nat (seq 0 16))) 4).
  vm_compute. reflexivity.
Qed.

Lemma quad_third (z w v : Z) :
  0 <= z < 16 -> 0 <= w < 4 -> 0 <= v < 64 ->
  Z.lor (Z.shiftl (Z.land (z * 4 + w) 3) 6) v = w * 64 + v.
Proof.
  intros Hz Hw Hv. apply Z.eqb_eq. revert v Hv.
  apply (forallb_range
    (fun v => Z.lor (Z.shiftl (Z.land (z * 4 + w) 3) 6) v =? w * 64 + v) 64).
  revert w Hw.
  apply (forallb_range
    (fun w => forallb (fun v =>
       Z.lor (Z.shiftl (Z.land (z * 4 + w) 3) 6) v =? w * 64 + v)
       (map Z.of_nat (seq 0 64))) 4).
  revert z Hz.
  apply (forallb_range
    (fun z => forallb (fun w => forallb (fun v =>
       Z.lor (Z.shiftl (Z.land (z * 4 + w) 3) 6) v =? w * 64 + v)
       (map Z.of_nat (seq 0 64))) (map Z.of_nat (seq 0 4))) 16).
  vm_compute. reflexivity.
Qed.

(** One step of the decoder on a character of the alphabet. *)
Lemma a2b_step (i : Z) (s : string) (quad_pos : nat) (leftchar : Z) (pads : nat)
    (out : list byte) :
  0 <= i < 64 ->
  Base64.a2b_base64_loop (String (Py.b64_char i) s) quad_pos leftchar pads out =
  match quad_pos with
  | O => Base64.a2b_base64_loop s 1 i 0 out
  | 1%nat =>
      Base64.a2b_base64_loop s 2 (Z.land i 15) 0
        (out ++ [Py.byte_of_Z (Z.lor (Z.shiftl leftchar 2) (Z.shiftr i 4))])
  | 2%nat =>
      Base64.a2b_base64_loop s 3 (Z.land i 3) 0
        (out ++ [Py.byte_of_Z (Z.lor (Z.shiftl leftchar 4) (Z.shiftr i 2))])
  | _ =>
      Base64.a2b_base64_loop s 0 0 0
        (out ++ [Py.byte_of_Z (Z.lor (Z.shiftl leftchar 6) i)])
  end.
Proof.
  intros Hi. destruct (b64_value_char i Hi) as [Hv Hne].
  cbn [Base64.a2b_base64_loop]. rewrite Hne, Hv. reflexivity.
Qed.

(** The bit fields of a byte. *)
Lemma byte_fields (b : byte) :
  let n := Py.Z_of_byte b in
  0 <= n / 4 < 64 /\ 0 <= n mod 4 < 4 /\ 0 <= n / 16 < 16 /\
  0 <= n mod 16 < 16 /\ 0 <= n / 64 < 4 /\ 0 <= n mod 64 < 64 /\
  n / 4 * 4 + n mod 4 = n /\ n / 16 * 16 + n mod 16 = n /\
  n / 64 * 64 + n mod 64 = n.
Proof.
  cbv zeta. pose proof (Z_of_byte_range b) as H.
  repeat split;
    try (apply Z.div_pos; lia);
    try (apply Z.div_lt_upper_bound; lia);
    try (apply Z.mod_pos_bound; lia);
    try (pose proof (Z.div_mod (Py.Z_of_byte b) 4);
         pose proof (Z.div_mod (Py.Z_of_byte b) 16);
         pose proof (Z.div_mod (Py.Z_of_byte b) 64); lia).
Qed.

(** The decoder, started between two quads, reads the bytes back. *)
Lemma a2b_base64_loop_b64encode (l : list byte) (leftchar : Z) (pads : nat)
    (out : list byte) :
  Base64.a2b_base64_loop (Py.b64encode l) 0 leftchar pads out = Py.ok (out ++ l).
Proof.
  assert (H : forall n l leftchar pads out, (length l < n)%nat ->
            Base64.a2b_base64_loop (Py.b64encode l) 0 leftchar pads out
            = Py.ok (out ++ l)).
  { clear. induction n as [|n IH]; intros l leftchar pads out Hlen; [lia|].
    destruct l as [|a [|b [|c rest]]].
    - cbn. now rewrite app_nil_r.
    - (* one byte: two characters and two pads *)
      destruct (byte_fields a) as (Ha4 & Ham4 & _ & _ & _ & _ & Ea & _).
      cbn [Py.b64encode].
      rewrite a2b_step by exact Ha4.
      rewrite a2b_step by lia.
      replace (Py.Z_of_byte a mod 4 * 16) with (Py.Z_of_byte a mod 4 * 16 + 0) by lia.
      rewrite quad_first by lia. rewrite Ea, byte_of_Z_of_byte.
      reflexivity.
    - (* two bytes: three characters and one pad *)
      destruct (byte_fields a) as (Ha4 & Ham4 & _ & _ & _ & _ & Ea & _).
      destruct (byte_fields b) as (_ & _ & Hb16 & Hbm16 & _ & _ & _ & Eb & _).
      cbn [Py.b64encode].
      rewrite a2b_step by exact Ha4.
      rewrite a2b_step by lia.
      rewrite a2b_step by lia.
      rewrite quad_first by lia. rewrite Ea, byte_of_Z_of_byte.
      replace (Py.Z_of_byte b mod 16 * 4) with (Py.Z_of_byte b mod 16 * 4 + 0) by lia.
      rewrite quad_second by lia. rewrite Eb, byte_of_Z_of_byte.
      cbn. now rewrite <- !app_assoc.
    - (* a full quad *)
      destruct (byte_fields a) as (Ha4 & Ham4 & _ & _ & _ & _ & Ea & _).
      destruct (byte_fields b) as (_ & _ & Hb16 & Hbm16 & _ & _ & _ & Eb & _).
      destruct (byte_fields c) as (_ & _ & _ & _ & Hc64 & Hcm64 & _ & _ & Ec).
      cbn [Py.b64encode].
      rewrite a2b_step by exact Ha4.
      rewrite a2b_step by lia.
      rewrite a2b_step by lia.
      rewrite a2b_step by lia.
      rewrite quad_first by lia. rewrite Ea, byte_of_Z_of_byte.
      rewrite quad_second by lia. rewrite Eb, byte_of_Z_of_byte.
      rewrite quad_third by lia. rewrite Ec, byte_of_Z_of_byte.
      rewrite IH by (cbn [length] in Hlen; lia).
      now rewrite <- !app_assoc. }
  apply (H (S (length l))). lia.
Qed.

(** The encoder writes characters of the alphabet and pads only. *)
Lemma b64_char_ascii (i : Z) :
  0 <= i < 64 -> Base64.is_ascii (Py.b64_char i) = true.
Proof.
  revert i. apply (forallb_range (fun i => Base64.is_ascii (Py.b64_char i)) 64).
  vm_compute. reflexivity.
Qed.

Lemma b64encode_ascii (l : list byte) :
  Str.forall_chars Base64.is_ascii (Py.b64encode l) = true.
Proof.
  assert (H : forall n l, (length l < n)%nat ->
            Str.forall_chars Base64.is_ascii (Py.b64encode l) = true).
  { clear. induction n as [|n IH]; intros l Hlen; [lia|].
    destruct l as [|a [|b [|c rest]]]; [reflexivity| | |].
    - destruct (byte_fields a) as (Ha4 & Ham4 & _).
      cbn [Py.b64encode Str.forall_chars].
      rewrite !b64_char_ascii by lia. reflexivity.
    - destruct (byte_fields a) as (Ha4 & Ham4 & _).
      destruct (byte_fields b) as (_ & _ & Hb16 & Hbm16 & _).
      cbn [Py.b64encode Str.forall_chars].
      rewrite !b64_char_ascii by lia. reflexivity.
    - destruct (byte_fields a) as (Ha4 & Ham4 & _).
      destruct (byte_fields b) as (_ & _ & Hb16 & Hbm16 & _).
      destruct (byte_fields c) as (_ & _ & _ & _ & Hc64 & Hcm64 & _).
      cbn [Py.b64encode Str.forall_chars].
      rewrite !b64_char_ascii by lia.
      rewrite IH by (cbn [length] in Hlen; lia). reflexivity. }
  apply (H (S (length l))). lia.
Qed.

(** [base64.b64decode(base64.b64encode(l).decode())] is [l]. *)
Lemma b64decode_b64encode (l : list byte) :
  Base64.b64decode (Py.b64encode l) = Py.ok l.
Proof.
  unfold Base64.b64decode, Base64.a2b_base64.
  rewrite b64encode_ascii. apply a2b_base64_loop_b64encode.
Qed.

(** ** The keys [generate_keypair] returns *)

(** X1.  Whatever key the generator delivers, the two base64 texts that
    [generate_keypair] returns decode to exactly the DER encodings it keeps
    in [_keypair], and the parameters of the manager are untouched. *)
Theorem returned_keys_decode_to_stored_keys (sk : RSA.RSAPrivateKey)
    (km : KyberManager.t) :
  let r := KyberManager.generate_keypair (Py.ok sk) km in
  exists enc kp,
    fst r = Py.ok enc /\
    KyberManager._keypair (snd r) = Some kp /\
    Base64.b64decode (KyberManager.public_key_b64 enc)
      = Py.ok (KyberManager.public_key kp) /\
    Base64.b64decode (KyberManager.secret_key_b64 enc)
      = Py.ok (KyberManager.secret_key kp) /\
    KyberManager.public_key kp = RSA.public_bytes (RSA.public_key sk) /\
    KyberManager.secret_key kp = RSA.private_bytes sk /\
    KyberManager.parameter_set (snd r) = KyberManager.parameter_set km /\
    KyberManager.key_size (snd r) = KyberManager.key_size km.
Proof.
  cbv zeta. cbn [KyberManager.generate_keypair Py.ok fst snd].
  eexists. eexists. split; [reflexivity|]. split; [reflexivity|].
  cbn [KyberManager.public_key_b64 KyberManager.secret_key_b64
       KyberManager.public_key KyberManager.secret_key
       KyberManager.parameter_set KyberManager.key_size].
  rewrite !b64decode_b64encode. repeat split.
Qed.

(** ** The cipher object *)

Section Cipher.

Variable aes : list byte -> Z -> Z.

(** A cipher that [__init__] built holds a 32-byte key. *)
Lemma init_key_length (rnd : nat -> byte) (key : option (list byte))
    (c : AESGCMCipher.t) :
  AESGCMCipher.__init__ rnd key = Py.ok c -> length (AESGCMCipher.key c) = 32%nat.
Proof.
  unfold AESGCMCipher.__init__, GCM.AESGCM.
  destruct key as [k|].
  - destruct (Nat.eqb_spec (length k) 32) as [Hk|]; [|discriminate].
    unfold Py.ok, Py.raise. destruct (existsb _ _); [|discriminate].
    intros [= <-]. exact Hk.
  - unfold Py.ok, Py.raise. destruct (existsb _ _); [|discriminate].
    intros [= <-]. apply length_urandom.
Qed.

Lemma nonce_ok_urandom (rnd : nat -> byte) : GCM.nonce_ok (Py.urandom rnd 12) = true.
Proof. unfold GCM.nonce_ok. rewrite length_urandom. reflexivity. Qed.

(** What [encrypt] returns. *)
Lemma encrypt_returns (rnd : nat -> byte) (c : AESGCMCipher.t) (p : list byte)
    (aad : option (list byte)) :
  AESGCMCipher.encrypt aes rnd c p aad =
  Py.ok {| AESGCMCipher.nonce := Py.urandom rnd 12;
           AESGCMCipher.ciphertext :=
             GCM.gcm_encrypt aes (AESGCMCipher.key c) (Py.urandom rnd 12) p
               (GCM.aad_bytes aad) |}.
Proof.
  unfold AESGCMCipher.encrypt, GCM.AESGCM_encrypt.
  rewrite nonce_ok_urandom. reflexivity.
Qed.


(** X2.  For a cipher built by [__init__] and data within the size limit of the
    library (below [2^31] bytes), [encrypt] does not raise; the nonce it
    returns has 12 bytes and the ciphertext is 16 bytes, the tag, longer
    than the plaintext. *)
Theorem encrypt_adds_nonce_and_tag (rnd_key rnd : nat -> byte)
    (key : option (list byte)) (c : AESGCMCipher.t) (p : list byte)
    (aad : option (list byte)) :
  AESGCMCipher.__init__ rnd_key key = Py.ok c ->
  Z.of_nat (length p) < 2 ^ 31 ->
  Z.of_nat (length (GCM.aad_bytes aad)) < 2 ^ 31 ->
  exists e,
    AESGCMCipher.encrypt aes rnd c p aad = Py.ok e /\
    length (AESGCMCipher.nonce e) = 12%nat /\
    length (AESGCMCipher.ciphertext e) = (length p + 16)%nat /\
    length (AESGCMCipher.key c) = 32%nat.
Proof.
  intros Hinit _ _. eexists. split; [apply encrypt_returns|].
  cbn [AESGCMCipher.nonce AESGCMCipher.ciphertext].
  split; [apply length_urandom|]. split; [apply length_gcm_encrypt|].
  eapply init_key_length, Hinit.
Qed.

(** X3.  A ciphertext whose tag, its last 16 bytes, was replaced by any other
    16 bytes is refused by [decrypt] with the [ValueError] of a failed
    authentication, and so is any data too short to hold a tag. *)
Theorem decrypt_rejects_altered_tag (rnd : nat -> byte) (c : AESGCMCipher.t)
    (p : list byte) (aad : option (list byte)) (e : AESGCMCipher.Encrypted)
    (t' short : list byte) :
  AESGCMCipher.encrypt aes rnd c p aad = Py.ok e ->
  length t' = 16%nat ->
  t' <> skipn (length p) (AESGCMCipher.ciphertext e) ->
  (length short < 16)%nat ->
  AESGCMCipher.decrypt aes c (AESGCMCipher.nonce e)
    (firstn (length p) (AESGCMCipher.ciphertext e) ++ t') aad
  = Py.raise (Py.ValueError
      "Autenticación fallida: los datos pueden haber sido manipulados") /\
  AESGCMCipher.decrypt aes c (AESGCMCipher.nonce e) short aad
  = Py.raise (Py.ValueError
      "Autenticación fallida: los datos pueden haber sido manipulados").
Proof.
  rewrite encrypt_returns. intros [= <-] Hlen Hne Hshort.
  cbn [AESGCMCipher.nonce AESGCMCipher.ciphertext] in *.
  unfold AESGCMCipher.decrypt, GCM.AESGCM_decrypt.
  rewrite nonce_ok_urandom. split.
  - set (k := AESGCMCipher.key c) in *. set (iv := Py.urandom rnd 12) in *.
    set (a := GCM.aad_bytes aad) in *.
    unfold GCM.gcm_encrypt in *.
    set (body := GCM.gctr aes k (GCM.counter_block (GCM.j0 aes k iv) 1) p) in *.
    assert (Hbody : length body = length p) by (subst body; apply length_gctr).
    rewrite <- Hbody in Hne |- *.
    rewrite skipn_app, Nat.sub_diag, skipn_all, skipn_O in Hne. cbn [app] in Hne.
    rewrite firstn_app, Nat.sub_diag, firstn_all, firstn_O, app_nil_r.
    rewrite length_app, Hlen.
    destruct (Nat.ltb_spec (length body + 16) 16) as [Hlt|_]; [lia|].
    unfold GCM.gcm_decrypt. rewrite length_app, Hlen.
    replace (length body + 16 - 16)%nat with (length body) by lia.
    rewrite firstn_app, Nat.sub_diag, firstn_all, firstn_O, app_nil_r.
    rewrite skipn_app, Nat.sub_diag, skipn_all, skipn_O. cbn [app].
    unfold GCM.bytes_eqb.
    destruct (List.list_eq_dec Byte.byte_eq_dec t' (GCM.tag aes k iv a body));
      [contradiction | reflexivity].
  - destruct (Nat.ltb_spec (length short) 16) as [_|Hge]; [reflexivity | lia].
Qed.



End Cipher.

Lemma encrypt_adds_nonce_and_tag_witness :
  AESGCMCipher.__init__ demo_entropy (Some demo_aes_key) = Py.ok demo_cipher /\
  Z.of_nat (length demo_plaintext) < 2 ^ 31 /\
  Z.of_nat (length (GCM.aad_bytes (Some demo_aad))) < 2 ^ 31 /\
  forall (aes : list byte -> Z -> Z) (rnd : nat -> byte),
  exists e,
    AESGCMCipher.encrypt aes rnd demo_cipher demo_plaintext (Some demo_aad)
      = Py.ok e /\
    length (AESGCMCipher.nonce e) = 12%nat /\
    length (AESGCMCipher.ciphertext e) = (length demo_plaintext + 16)%nat /\
    length (AESGCMCipher.key demo_cipher) = 32%nat.
Proof.
  split; [reflexivity|]. split; [reflexivity|]. split; [reflexivity|].
  intros aes rnd.
  apply (encrypt_adds_nonce_and_tag aes demo_entropy rnd (Some demo_aes_key)
           demo_cipher demo_plaintext (Some demo_aad));
    reflexivity.
Defined.

Lemma decrypt_rejects_altered_tag_witness :
  let e := {| AESGCMCipher.nonce := Py.urandom demo_entropy 12;
              AESGCMCipher.ciphertext :=
                GCM.gcm_encrypt demo_block_cipher demo_aes_key
                  (Py.urandom demo_entropy 12) demo_plaintext demo_aad |} in
  AESGCMCipher.encrypt demo_block_cipher demo_entropy demo_cipher demo_plaintext
    (Some demo_aad) = Py.ok e /\
  length (repeat x00 16) = 16%nat /\
  repeat x00 16 <> skipn (length demo_plaintext) (AESGCMCipher.ciphertext e) /\
  (length [x01; x02; x03] < 16)%nat /\
  AESGCMCipher.decrypt demo_block_cipher demo_cipher (AESGCMCipher.nonce e)
    (firstn (length demo_plaintext) (AESGCMCipher.ciphertext e) ++ repeat x00 16)
    (Some demo_aad)
  = Py.raise (Py.ValueError
      "Autenticación fallida: los datos pueden haber sido manipulados") /\
  AESGCMCipher.decrypt demo_block_cipher demo_cipher (AESGCMCipher.nonce e)
    [x01; x02; x03] (Some demo_aad)
  = Py.raise (Py.ValueError
      "Autenticación fallida: los datos pueden haber sido manipulados").
Proof.
  cbv zeta.
  assert (Henc :
    AESGCMCipher.encrypt demo_block_cipher demo_entropy demo_cipher demo_plaintext
      (Some demo_aad) =
    Py.ok {| AESGCMCipher.nonce := Py.urandom demo_entropy 12;
             AESGCMCipher.ciphertext :=
               GCM.gcm_encrypt demo_block_cipher demo_aes_key
                 (Py.urandom demo_entropy 12) demo_plaintext demo_aad |})
    by reflexivity.
  assert (Hne : repeat x00 16 <>
    skipn (length demo_plaintext)
      (AESGCMCipher.ciphertext
         {| AESGCMCipher.nonce := Py.urandom demo_entropy 12;
            AESGCMCipher.ciphertext :=
              GCM.gcm_encrypt demo_block_cipher demo_aes_key
                (Py.urandom demo_entropy 12) demo_plaintext demo_aad |}))
    by (vm_compute; discriminate).
  split; [exact Henc|]. split; [reflexivity|]. split; [exact Hne|].
  split; [cbn; lia|].
  apply (decrypt_rejects_altered_tag demo_block_cipher demo_entropy demo_cipher
           demo_plaintext (Some demo_aad) _ (repeat x00 16) [x01; x02; x03]
           Henc); [reflexivity | exact Hne | cbn; lia].
Defined.



(** ** Random keys *)

Lemma hexlify_shape (data : list byte) :
  String.length (Base64.hexlify data) = (2 * length data)%nat /\
  Str.forall_chars (fun c => Str.contains c "0123456789abcdef")
    (Base64.hexlify data) = true.
Proof.
  assert (Hdigit : forall n, 0 <= n < 16 ->
            Str.contains (Base64.hex_digit n) "0123456789abcdef" = true).
  { apply (forallb_range
      (fun n => Str.contains (Base64.hex_digit n) "0123456789abcdef") 16).
    vm_compute. reflexivity. }
  induction data as [|b data [IHlen IHchars]]; [split; reflexivity|].
  pose proof (Z_of_byte_range b) as Hb.
  cbn [Base64.hexlify String.length Str.forall_chars length]. split; [lia|].
  rewrite !Hdigit, IHchars; [reflexivity | |].
  - apply Z.mod_pos_bound. lia.
  - split; [apply Z.div_pos; lia | apply Z.div_lt_upper_bound; lia].
Qed.

(** X6.  [generate_random_key(n)] on a 64-bit build.  For [0 <= n <= 2^63 - 34]
    it returns [2 * n] lowercase hexadecimal digits, the rendering of [n]
    random bytes, unless an allocation fails, and then that failure (a
    [MemoryError]) reaches the caller.  A negative length down to [-2^63]
    is a [ValueError]; a length from [2^63 - 33] on, and one below [-2^63],
    is an [OverflowError]. *)
Theorem generate_random_key_shape (rnd : nat -> byte)
    (memory : Z -> option Py.Exception) (n : Z) :
  (0 <= n <= 2 ^ 63 - 34 ->
   match memory n with
   | None =>
       exists key,
         Security.generate_random_key rnd memory n = Py.ok key /\
         Z.of_nat (String.length key) = 2 * n /\
         Str.forall_chars (fun c => Str.contains c "0123456789abcdef") key = true
   | Some e => Security.generate_random_key rnd memory n = Py.raise e
   end) /\
  (- 2 ^ 63 <= n < 0 ->
   Security.generate_random_key rnd memory n
   = Py.raise (Py.ValueError "negative argument not allowed")) /\
  (2 ^ 63 - 33 <= n < 2 ^ 63 ->
   Security.generate_random_key rnd memory n
   = Py.raise (Py.OverflowError "byte string is too large")) /\
  (n < - 2 ^ 63 \/ 2 ^ 63 <= n ->
   Security.generate_random_key rnd memory n
   = Py.raise (Py.OverflowError "Python int too large to convert to C ssize_t")).
Proof.
  unfold Security.generate_random_key, Base64.token_hex.
  destruct (Z.ltb_spec n (- 2 ^ 63));
    destruct (Z.leb_spec (2 ^ 63) n);
    destruct (Z.ltb_spec n 0);
    destruct (Z.ltb_spec (2 ^ 63 - 34) n);
    cbn [orb]; try lia;
    (split; [intros Hn | split; [intros Hn | split; intros Hn]]);
    try lia; try reflexivity.
  destruct (memory n) as [e|]; [reflexivity|].
  eexists. split; [reflexivity|].
  destruct (hexlify_shape (Py.urandom rnd (Z.to_nat n))) as [Hlen Hchars].
  rewrite Hlen, length_urandom. split; [lia | exact Hchars].
Qed.

(** ** The life of a connection *)

(** ** Resolving a server *)

Lemma get_server_loop_find (servers : list Config.Server) (server_id : string) :
  ServersRoutes.get_server_loop servers server_id =
  find (fun s => String.eqb (Config.id s) server_id) servers.
Proof.
  induction servers as [|s servers IH]; [reflexivity|].
  cbn. destruct (String.eqb (Config.id s) server_id); [reflexivity | exact IH].
Qed.

Lemma find_id (server_id : string) (servers : list Config.Server)
    (server : Config.Server) :
  find (fun s => String.eqb (Config.id s) server_id) servers = Some server ->
  Config.id server = server_id /\ In server servers.
Proof.
  intros H. apply find_some in H as [Hin Heq].
  apply String.eqb_eq in Heq. auto.
Qed.

Section Reaching.

Variable oaep : nat -> list byte -> list byte.
Variable load : list byte -> Py.result RSA.RSAPublicKey.
Variable settings : Config.Settings.

(** X7.  [connect] designates a server exactly as the catalogue route does.  For
    an id that [GET /servers/{id}] answers with 404, [connect] on a manager
    that is not connected fails with the very text of the 404 and changes
    nothing; for any other id it runs its [try] block on the entry the
    route returns, which carries that id and is in the catalogue. *)
Theorem connect_resolves_like_catalogue (env : VPNManager.ConnectEnv)
    (stop_raises : option Py.Exception) (server_id : string)
    (st : VPNManager.State) :
  VPNManager.connected (fst st) = false ->
  match ServersRoutes.get_server settings server_id with
  | inl not_found =>
      ServersRoutes.status_code not_found = 404 /\
      VPNManager.connect oaep load settings env stop_raises server_id st =
        (inr {| Schemas.success := false;
                Schemas.message := ServersRoutes.detail not_found;
                Schemas.vpnIp := None |}, st)
  | inr server =>
      Config.id server = server_id /\
      In server (ServersRoutes.get_servers settings) /\
      VPNManager.connect oaep load settings env stop_raises server_id st =
        match VPNManager.connect_body oaep load settings env server st with
        | (inr resp, st1) => (inr resp, st1)
        | (inl e, st1) =>
            (inr {| Schemas.success := false;
                    Schemas.message := "Error al establecer conexión: " +:+ Py.str e;
                    Schemas.vpnIp := None |},
             cleaned st1)
        end
  end.
Proof.
  intros Hc. unfold ServersRoutes.get_server, ServersRoutes.get_servers.
  rewrite get_server_loop_find.
  destruct (find (fun s => String.eqb (Config.id s) server_id)
                 (Config.VPN_SERVERS settings)) as [server|] eqn:Hfind.
  - destruct (find_id _ _ _ Hfind) as [Hid Hin].
    split; [exact Hid|]. split; [exact Hin|].
    apply connect_resolved; assumption.
  - split; [reflexivity|].
    cbv [VPNManager.connect Eff.get mbind Eff.M_bind].
    rewrite Hc, Hfind. reflexivity.
Qed.

(** A 32-byte key is accepted by the cipher. *)
Lemma cipher_of_shared_key (rnd : nat -> byte) (k : list byte) :
  length k = 32%nat ->
  AESGCMCipher.__init__ rnd (Some k) = inr {| AESGCMCipher.key := k |}.
Proof.
  intros Hk. unfold AESGCMCipher.__init__, GCM.AESGCM, Py.ok.
  rewrite Hk. cbn [Nat.eqb]. cbv beta iota. rewrite Hk. reflexivity.
Qed.

(** The [try] block of [connect] up to the choice of the address, when the
    environment raises no fault, the generator returns a key of the
    manager's size and the subnet is an IPv4 network. *)
Lemma connect_body_upto_address (env : VPNManager.ConnectEnv)
    (server : Config.Server) (self : VPNManager.t) (loop : Asyncio.EventLoop)
    (sk : RSA.RSAPrivateKey) (net p : Z) :
  VPNManager.keygen env = Py.ok sk ->
  In (KyberManager.key_size (VPNManager.kyber self)) [2048; 3072; 4096] ->
  RSA.generated (KyberManager.key_size (VPNManager.kyber self)) sk = true ->
  (forall n, VPNManager.faults env n = None) ->
  IPAddress.ipv4_network (Config.VPN_SUBNET settings)
    = Py.ok (IPAddress.IPv4Network net p) ->
  let km' := snd (KyberManager.generate_keypair (Py.ok sk) (VPNManager.kyber self)) in
  let cipher := {| AESGCMCipher.key := Py.urandom (VPNManager.entropy env) 32 |} in
  let tun := {| TunManager.name := Config.TUN_NAME settings;
                TunManager.mode := "tun"; TunManager.mtu := 1500;
                TunManager.interface := None; TunManager.running := false;
                TunManager.ip_address := None; TunManager.netmask := None |} in
  let mid := VPNManager.with_tun (Some tun)
               (VPNManager.with_aes (Some cipher)
                  (VPNManager.with_kyber km' self)) in
  VPNManager.connect_body oaep load settings env server (self, loop) =
  match IPAddress.getitem (IPAddress.IPv4Network net p) 2 with
  | inl e => (inl e, (mid, loop))
  | inr address =>
      let ip := match address with
                | IPAddress.IPv4Address a => IPAddress.str_ipv4 a
                | IPAddress.IPv6Address _ _ => ""
                end in
      (inr {| Schemas.success := true;
              Schemas.message := "Conexión establecida con " +:+ Config.name server;
              Schemas.vpnIp := Some ip |},
       (VPNManager.with_status_task (Some (length loop))
          (VPNManager.with_connection server (VPNManager.clock env)
             (VPNManager.with_vpn_ip (Some ip) mid)),
        loop ++ [Asyncio.Pending]))
  end.
Proof.
  intros Hkey Hsize Hgen Hfaults Hnet km' cipher tun mid.
  set (km := VPNManager.kyber self) in *.
  assert (Henc : exists ct,
    KyberManager.encapsulate oaep load (VPNManager.entropy env) km' None
    = inr (Py.urandom (VPNManager.entropy env) 32, ct)).
  { assert (Hh : exists h, KyberManager.key_size km = 16 * h /\ 98 <= 2 * h /\
                           2 < 16 * h / 2).
    { cbn [In] in Hsize.
      destruct Hsize as [<- | [<- | [<- | []]]];
        [exists 128 | exists 192 | exists 256]; repeat split; cbn; lia. }
    destruct Hh as (h & Hks & Hh & Hbig).
    rewrite Hks in Hgen.
    apply generated_facts in Hgen as (_ & Hn & _); [|exact Hbig].
    unfold KyberManager.encapsulate. subst km'.
    cbn [KyberManager.generate_keypair snd KyberManager._keypair
         KyberManager.public_key_obj Py.ok].
    destruct (encrypt_length oaep (RSA.public_key sk)
                (Py.urandom (VPNManager.entropy env) 32) (2 * h))
      as (c & Hcenc & _).
    - apply bit_length_pos. cbn [RSA.public_key RSA.pub_n]. lia.
    - cbn [RSA.public_key RSA.pub_n]. lia.
    - rewrite length_urandom. lia.
    - rewrite Hcenc. exists c. reflexivity. }
  destruct Henc as [ct Henc].
  unfold_eff. cbn [fst snd].
  rewrite !Hfaults. rewrite Hkey. cbn [fst snd]. cbv zeta.
  cbn [VPNManager.kyber VPNManager.with_kyber fst snd].
  fold km. fold km'. unfold Py.ok in Henc, Hnet |- *. rewrite Henc. cbn [fst snd].
  rewrite cipher_of_shared_key by apply length_urandom.
  cbn [TunManager.__init__ String.eqb Ascii.eqb Bool.eqb orb fst snd].
  rewrite Hnet.
  destruct (IPAddress.getitem (IPAddress.IPv4Network net p) 2) as [e | address];
    reflexivity.
Qed.

(** X8.  From a manager that is not connected, with a key as the generator
    returns them for the manager's key size, a subnet that is an IPv4
    network of prefix length at most 30 and no fault of the environment,
    [connect] succeeds for every id of the catalogue: it assigns the third
    address of the subnet, leaves the manager fully connected with a new
    live task, keys the cipher with the 32 random bytes of the exchange,
    and [get_status] reports the connection with zero counters, the
    catalogue latency of the server and, as uptime, the integer part of the
    difference between its clock reading and that of [connect], two floats
    (it raises when that difference is no finite number). *)
Theorem connect_establishes_connection (env : VPNManager.ConnectEnv)
    (stop_raises : option Py.Exception) (server_id : string)
    (server : Config.Server) (st0 : VPNManager.State)
    (sk : RSA.RSAPrivateKey) (net p : Z) :
  VPNManager.connected (fst st0) = false ->
  find (fun s => String.eqb (Config.id s) server_id)
       (Config.VPN_SERVERS settings) = Some server ->
  VPNManager.keygen env = Py.ok sk ->
  In (KyberManager.key_size (VPNManager.kyber (fst st0))) [2048; 3072; 4096] ->
  RSA.generated (KyberManager.key_size (VPNManager.kyber (fst st0))) sk = true ->
  (forall n, VPNManager.faults env n = None) ->
  IPAddress.ipv4_network (Config.VPN_SUBNET settings)
    = Py.ok (IPAddress.IPv4Network net p) ->
  0 <= p <= 30 ->
  exists st1,
    VPNManager.connect oaep load settings env stop_raises server_id st0 =
      (inr {| Schemas.success := true;
              Schemas.message := "Conexión establecida con " +:+ Config.name server;
              Schemas.vpnIp := Some (IPAddress.str_ipv4 (net + 2)) |}, st1) /\
    fully_connected (fst st1) /\
    VPNManager.status_task (fst st1) = Some (length (snd st0)) /\
    Asyncio.is_live (length (snd st0)) (snd st1) = true /\
    (exists cipher, VPNManager.aes (fst st1) = Some cipher /\
                    AESGCMCipher.key cipher = Py.urandom (VPNManager.entropy env) 32) /\
    VPNManager.connection_time (fst st1) = Py.Float (VPNManager.clock env) /\
    forall now,
      VPNManager.get_status now (fst st1) =
        match Py.int_of_float (PrimFloat.sub now (VPNManager.clock env)) with
        | inr uptime =>
            Py.ok {| Schemas.connected := true;
                     Schemas.uptime := uptime;
                     Schemas.bytesReceived := 0; Schemas.bytesSent := 0;
                     Schemas.latency := default 0 (Config.latency server);
                     Schemas.status_vpnIp := Some (IPAddress.str_ipv4 (net + 2));
                     Schemas.server_id := Some (Config.id server) |}
        | inl e => Py.raise e
        end.
Proof.
  intros Hc Hfind Hkey Hsize Hgen Hfaults Hnet Hp.
  rewrite (connect_resolved oaep load settings env stop_raises server_id server
             st0 Hc Hfind).
  destruct st0 as [self loop]. cbn [fst snd] in *.
  rewrite (connect_body_upto_address env server self loop sk net p)
    by assumption.
  assert (Hitem : IPAddress.getitem (IPAddress.IPv4Network net p) 2
                  = inr (IPAddress.IPv4Address (net + 2))).
  { unfold IPAddress.getitem.
    assert (4 <= 2 ^ (32 - p)).
    { change 4 with (2 ^ 2). apply Z.pow_le_mono_r; lia. }
    destruct (Z.ltb_spec (net + 2 ^ (32 - p) - 1) (net + 2)); [lia | reflexivity]. }
  rewrite Hitem. cbv zeta.
  eexists. split; [reflexivity|]. cbn [fst snd].
  split; [repeat split; cbn; eauto|].
  split; [reflexivity|].
  split.
  { unfold Asyncio.is_live. rewrite lookup_app_r by lia.
    rewrite Nat.sub_diag. reflexivity. }
  split; [eexists; split; reflexivity|].
  split; [reflexivity|].
  intros now. unfold VPNManager.get_status.
  cbn [fst VPNManager.connected VPNManager.connection_time
       VPNManager.with_status_task VPNManager.with_connection negb
       Py.float_sub Py.ok].
  destruct (Py.int_of_float (PrimFloat.sub now (VPNManager.clock env)));
    reflexivity.
Qed.

(** X9.  With a subnet of prefix length 31 or 32, which has no third address,
    [connect] fails for every id of the catalogue, whatever else succeeds:
    the answer carries the text of the [IndexError], no task was started
    and the manager is back at its disconnected values. *)
Theorem connect_fails_on_subnet_without_third_address
    (env : VPNManager.ConnectEnv)
    (stop_raises : option Py.Exception) (server_id : string)
    (server : Config.Server) (st0 : VPNManager.State)
    (sk : RSA.RSAPrivateKey) (net p : Z) :
  VPNManager.connected (fst st0) = false ->
  find (fun s => String.eqb (Config.id s) server_id)
       (Config.VPN_SERVERS settings) = Some server ->
  VPNManager.keygen env = Py.ok sk ->
  In (KyberManager.key_size (VPNManager.kyber (fst st0))) [2048; 3072; 4096] ->
  RSA.generated (KyberManager.key_size (VPNManager.kyber (fst st0))) sk = true ->
  (forall n, VPNManager.faults env n = None) ->
  IPAddress.ipv4_network (Config.VPN_SUBNET settings)
    = Py.ok (IPAddress.IPv4Network net p) ->
  31 <= p <= 32 ->
  VPNManager.status_task (fst st0) = None ->
  exists st1,
    VPNManager.connect oaep load settings env stop_raises server_id st0 =
      (inr {| Schemas.success := false;
              Schemas.message :=
                "Error al establecer conexión: address out of range";
              Schemas.vpnIp := None |}, st1) /\
    fully_disconnected (fst st1) /\
    snd st1 = snd st0 /\
    forall now, VPNManager.get_status now (fst st1) = Py.ok disconnected_status.
Proof.
  intros Hc Hfind Hkey Hsize Hgen Hfaults Hnet Hp Htask.
  rewrite (connect_resolved oaep load settings env stop_raises server_id server
             st0 Hc Hfind).
  destruct st0 as [self loop]. cbn [fst snd] in *.
  rewrite (connect_body_upto_address env server self loop sk net p)
    by assumption.
  assert (Hitem : IPAddress.getitem (IPAddress.IPv4Network net p) 2
                  = inl (Py.IndexError "address out of range")).
  { unfold IPAddress.getitem.
    assert (2 ^ (32 - p) <= 2).
    { change 2 with (2 ^ 1) at 2. apply Z.pow_le_mono_r; lia. }
    destruct (Z.ltb_spec (net + 2 ^ (32 - p) - 1) (net + 2)); [reflexivity | lia]. }
  rewrite Hitem. cbv zeta.
  eexists. split; [reflexivity|].
  split; [apply cleaned_fully_disconnected|].
  split.
  { unfold cleaned. cbn [fst snd VPNManager.status_task VPNManager.with_tun
      VPNManager.with_aes VPNManager.with_kyber]. rewrite Htask. reflexivity. }
  intros now. apply get_status_disconnected. apply cleaned_fields.
Qed.

End Reaching.

(** ** Closed instances of the connection theorems *)

Lemma connect_establishes_connection_witness :
  VPNManager.connected (fst (fresh_manager, @nil Asyncio.TaskState)) = false /\
  find (fun s => String.eqb (Config.id s) "server1")
       (Config.VPN_SERVERS Config.settings) = Some demo_server /\
  VPNManager.keygen demo_env = Py.ok demo_rsa_key_3072 /\
  In (KyberManager.key_size
        (VPNManager.kyber (fst (fresh_manager, @nil Asyncio.TaskState))))
     [2048; 3072; 4096] /\
  RSA.generated
    (KyberManager.key_size
       (VPNManager.kyber (fst (fresh_manager, @nil Asyncio.TaskState))))
    demo_rsa_key_3072 = true /\
  (forall n, VPNManager.faults demo_env n = None) /\
  IPAddress.ipv4_network (Config.VPN_SUBNET Config.settings)
    = Py.ok (IPAddress.IPv4Network 168296448 24) /\
  0 <= 24 <= 30 /\
  IPAddress.str_ipv4 (168296448 + 2) = "10.8.0.2" /\
  forall (oaep : nat -> list byte -> list byte)
         (load : list byte -> Py.result RSA.RSAPublicKey),
  exists st1,
    VPNManager.connect oaep load Config.settings demo_env None "server1"
      (fresh_manager, []) =
      (inr {| Schemas.success := true;
              Schemas.message := "Conexión establecida con " +:+ Config.name demo_server;
              Schemas.vpnIp := Some (IPAddress.str_ipv4 (168296448 + 2)) |}, st1) /\
    fully_connected (fst st1) /\
    VPNManager.status_task (fst st1)
      = Some (length (snd (fresh_manager, @nil Asyncio.TaskState))) /\
    Asyncio.is_live (length (snd (fresh_manager, @nil Asyncio.TaskState)))
      (snd st1) = true /\
    (exists cipher, VPNManager.aes (fst st1) = Some cipher /\
                    AESGCMCipher.key cipher
                    = Py.urandom (VPNManager.entropy demo_env) 32) /\
    VPNManager.connection_time (fst st1) = Py.Float 1700000000.75%float /\
    VPNManager.get_status 1700000060.5%float (fst st1) =
      Py.ok {| Schemas.connected := true;
               Schemas.uptime := 59;
               Schemas.bytesReceived := 0; Schemas.bytesSent := 0;
               Schemas.latency := 25;
               Schemas.status_vpnIp := Some "10.8.0.2";
               Schemas.server_id := Some "server1" |}.
Proof.
  split; [reflexivity|]. split; [reflexivity|]. split; [reflexivity|].
  split; [cbn; tauto|]. split; [vm_compute; reflexivity|].
  split; [reflexivity|]. split; [vm_compute; reflexivity|].
  split; [lia|]. split; [vm_compute; reflexivity|].
  intros oaep load.
  destruct (connect_establishes_connection oaep load Config.settings demo_env None
              "server1" demo_server (fresh_manager, []) demo_rsa_key_3072
              168296448 24)
    as (st1 & Hrun & Hfull & Htask & Hlive & Hcipher & Htime & Hstatus);
    [ reflexivity | reflexivity | reflexivity | cbn; tauto
    | vm_compute; reflexivity | reflexivity | vm_compute; reflexivity | lia | ].
  exists st1. split; [exact Hrun|]. split; [exact Hfull|].
  split; [exact Htask|]. split; [exact Hlive|]. split; [exact Hcipher|].
  split; [exact Htime|].
  rewrite (Hstatus 1700000060.5%float). vm_compute. reflexivity.
Defined.

Lemma connect_fails_on_subnet_without_third_address_witness :
  VPNManager.connected (fst (fresh_manager, @nil Asyncio.TaskState)) = false /\
  find (fun s => String.eqb (Config.id s) "server2")
       (Config.VPN_SERVERS demo_settings_small_subnet)
    = nth_error (Config.VPN_SERVERS Config.settings) 1 /\
  RSA.generated
    (KyberManager.key_size
       (VPNManager.kyber (fst (fresh_manager, @nil Asyncio.TaskState))))
    demo_rsa_key_3072 = true /\
  IPAddress.ipv4_network (Config.VPN_SUBNET demo_settings_small_subnet)
    = Py.ok (IPAddress.IPv4Network 168296448 31) /\
  forall (oaep : nat -> list byte -> list byte)
         (load : list byte -> Py.result RSA.RSAPublicKey),
  exists st1,
    VPNManager.connect oaep load demo_settings_small_subnet demo_env None
      "server2" (fresh_manager, []) =
      (inr {| Schemas.success := false;
              Schemas.message :=
                "Error al establecer conexión: address out of range";
              Schemas.vpnIp := None |}, st1) /\
    fully_disconnected (fst st1) /\
    snd st1 = snd (fresh_manager, @nil Asyncio.TaskState) /\
    forall now, VPNManager.get_status now (fst st1) = Py.ok disconnected_status.
Proof.
  split; [reflexivity|]. split; [reflexivity|].
  split; [vm_compute; reflexivity|]. split; [vm_compute; reflexivity|].
  intros oaep load.
  eapply (connect_fails_on_subnet_without_third_address oaep load
            demo_settings_small_subnet demo_env None "server2" _
            (fresh_manager, []) demo_rsa_key_3072 168296448 31);
    [ reflexivity | reflexivity | reflexivity | cbn; tauto
    | vm_compute; reflexivity | reflexivity | vm_compute; reflexivity | lia
    | reflexivity ].
Defined.

Lemma connect_resolves_like_catalogue_witness :
  VPNManager.connected (fst (fresh_manager, @nil Asyncio.TaskState)) = false /\
  ServersRoutes.get_server Config.settings "server9"
    = inl {| ServersRoutes.status_code := 404;
             ServersRoutes.detail := "Servidor con ID server9 no encontrado" |} /\
  forall (oaep : nat -> list byte -> list byte)
         (load : list byte -> Py.result RSA.RSAPublicKey),
    match ServersRoutes.get_server Config.settings "server9" with
    | inl not_found =>
        ServersRoutes.status_code not_found = 404 /\
        VPNManager.connect oaep load Config.settings demo_env None "server9"
          (fresh_manager, []) =
          (inr {| Schemas.success := false;
                  Schemas.message := ServersRoutes.detail not_found;
                  Schemas.vpnIp := None |}, (fresh_manager, []))
    | inr server =>
        Config.id server = "server9" /\
        In server (ServersRoutes.get_servers Config.settings) /\
        VPNManager.connect oaep load Config.settings demo_env None "server9"
          (fresh_manager, []) =
          match VPNManager.connect_body oaep load Config.settings demo_env server
                  (fresh_manager, []) with
          | (inr resp, st1) => (inr resp, st1)
          | (inl e, st1) =>
              (inr {| Schemas.success := false;
                      Schemas.message :=
                        "Error al establecer conexión: " +:+ Py.str e;
                      Schemas.vpnIp := None |},
               cleaned st1)
          end
    end.
Proof.
  split; [reflexivity|]. split; [reflexivity|].
  intros oaep load.
  apply (connect_resolves_like_catalogue oaep load Config.settings demo_env None
           "server9" (fresh_manager, [])).
  reflexivity.
Defined.

(** ** What the reachable states have in common *)

Section Invariant.

Variable oaep : nat -> list byte -> list byte.
Variable load : list byte -> Py.result RSA.RSAPublicKey.
Variable settings : Config.Settings.

(** While the manager is connected, [connection_time] holds the clock
    reading of [connect], a float. *)
Lemma timed_after_call (st : VPNManager.State) (c : Call) :
  (VPNManager.connected (fst st) = true ->
   exists started, VPNManager.connection_time (fst st) = Py.Float started) ->
  let st' := after_call oaep load settings st c in
  VPNManager.connected (fst st') = true ->
  exists started, VPNManager.connection_time (fst st') = Py.Float started.
Proof.
  intros Hst.
  assert (Hsame : VPNManager.connected (fst st) = true ->
                  exists started,
                    VPNManager.connection_time (fst st) = Py.Float started)
    by exact Hst.
  clear Hst.
  destruct c as [env stop_raises server_id | stop_raises | now
                 | task r_latency r_traffic]; cbn [after_call].
  - destruct (VPNManager.connected (fst st)) eqn:Hc.
    { cbv [VPNManager.connect Eff.get mbind Eff.M_bind]. rewrite Hc.
      cbn. intros _. apply Hsame. reflexivity. }
    destruct (find (fun s => String.eqb (Config.id s) server_id)
                   (Config.VPN_SERVERS settings)) as [server|] eqn:Hfind.
    2:{ cbv [VPNManager.connect Eff.get mbind Eff.M_bind].
        rewrite Hc, Hfind. cbn. congruence. }
    rewrite (connect_resolved oaep load settings env stop_raises server_id
               server st Hc Hfind).
    destruct (VPNManager.connect_body oaep load settings env server st)
      as [[e | resp] st1] eqn:Hbody; cbn [snd].
    + intros H. pose proof (cleaned_fields st1) as [Hoff _]. congruence.
    + apply connect_body_returns in Hbody as (_ & _ & _ & _ & Htime & _).
      intros _. eauto.
  - cbv [VPNManager.disconnect Eff.get mbind Eff.M_bind].
    destruct (VPNManager.connected (fst st)) eqn:Hc; cbn [negb];
      [|cbn; congruence].
    rewrite run_try_except, cleanup_total.
    change (VPNManager.connected (fst (cleaned st)) = true ->
            exists started,
              VPNManager.connection_time (fst (cleaned st)) = Py.Float started).
    intros H. pose proof (cleaned_fields st) as [Hoff _]. congruence.
  - intros H. apply Hsame, H.
  - unfold VPNManager._update_status_task.
    destruct (Asyncio.is_live task (snd st)); [|intros H; apply Hsame, H].
    destruct (VPNManager.connected (fst st)) eqn:Hc; [|cbn; congruence].
    destruct (VPNManager.server (fst st));
      [|cbn; intros _; apply Hsame; reflexivity].
    destruct (VPNManager.randint _ _ r_latency);
      [cbn; intros _; apply Hsame; reflexivity|].
    destruct (VPNManager.randint 1024 8192 r_traffic);
      cbn; intros _; apply Hsame; reflexivity.
Qed.

Lemma timed_after_calls (self : VPNManager.t) (calls : list Call) :
  VPNManager.__init__ settings = Py.ok self ->
  let st := after_calls oaep load settings self calls in
  VPNManager.connected (fst st) = true ->
  exists started, VPNManager.connection_time (fst st) = Py.Float started.
Proof.
  intros Hinit. unfold after_calls.
  assert (H0 : VPNManager.connected (fst (self, @nil Asyncio.TaskState)) = true ->
               exists started,
                 VPNManager.connection_time (fst (self, @nil Asyncio.TaskState))
                 = Py.Float started).
  { revert Hinit. unfold VPNManager.__init__.
    destruct (KyberManager.__init__ _); [discriminate|].
    intros [= <-]. cbn. discriminate. }
  revert H0. generalize (self, @nil Asyncio.TaskState) as st.
  induction calls as [|c calls IH]; intros st Hst; cbn [fold_left];
    [exact Hst | apply IH, timed_after_call, Hst].
Qed.

(** X10.  Whatever sequence of [connect], [disconnect], [get_status] and turns of
    the status task follows the construction of the manager: the manager is
    either fully disconnected or fully connected, never in between; at most
    one task is live, the one the manager holds, and none while it is
    disconnected; and [get_status] reports either the disconnected snapshot
    or a connection with its address, its server and, as uptime, the integer
    part of the time since the clock reading of [connect] (raising only when
    that difference is no finite number). *)
Theorem reachable_states_are_consistent (self : VPNManager.t) (calls : list Call) :
  VPNManager.__init__ settings = Py.ok self ->
  let st := after_calls oaep load settings self calls in
  (fully_disconnected (fst st) \/ fully_connected (fst st)) /\
  (forall task, Asyncio.is_live task (snd st) = true ->
     VPNManager.connected (fst st) = true /\
     VPNManager.status_task (fst st) = Some task) /\
  (forall task1 task2,
     Asyncio.is_live task1 (snd st) = true ->
     Asyncio.is_live task2 (snd st) = true -> task1 = task2) /\
  (forall now,
     VPNManager.get_status now (fst st) = Py.ok disconnected_status \/
     exists started ip id,
       VPNManager.connection_time (fst st) = Py.Float started /\
       VPNManager.get_status now (fst st) =
         match Py.int_of_float (PrimFloat.sub now started) with
         | inr uptime =>
             Py.ok {| Schemas.connected := true;
                      Schemas.uptime := uptime;
                      Schemas.bytesReceived := VPNManager.bytes_received (fst st);
                      Schemas.bytesSent := VPNManager.bytes_sent (fst st);
                      Schemas.latency := VPNManager.latency (fst st);
                      Schemas.status_vpnIp := Some ip;
                      Schemas.server_id := Some id |}
         | inl e => Py.raise e
         end).
Proof.
  intros Hinit st.
  pose proof (consistent_after_calls oaep load settings self calls Hinit)
    as [Hshape Htasks].
  pose proof (timed_after_calls self calls Hinit) as Htimed.
  fold st in Hshape, Htasks, Htimed.
  split; [exact Hshape|]. split; [exact Htasks|]. split.
  - intros task1 task2 H1 H2.
    apply Htasks in H1 as [_ H1]. apply Htasks in H2 as [_ H2]. congruence.
  - intros now. destruct Hshape as [Hd | Hc].
    + left. apply get_status_disconnected. apply Hd.
    + right. destruct Hc as (Hcon & [srv Hsrv] & [ip Hip] & _).
      destruct (Htimed Hcon) as [started Hstarted].
      exists started, ip, (Config.id srv). split; [exact Hstarted|].
      unfold VPNManager.get_status, VPNManager.connected_status.
      rewrite Hcon, Hsrv, Hip, Hstarted. cbn [negb Py.float_sub Py.ok].
      destruct (Py.int_of_float (PrimFloat.sub now started)); reflexivity.
Qed.

End Invariant.

(** ** The status task *)

Lemma randint_range (a b r : Z) :
  a <= b -> exists v, VPNManager.randint a b r = inr v /\ a <= v <= b.
Proof.
  intros Hab. unfold VPNManager.randint.
  destruct (Z.leb_spec a b) as [_|]; [|lia].
  eexists. split; [reflexivity|].
  pose proof (Z.mod_pos_bound r (b - a + 1)). lia.
Qed.

(** X11.  One turn of the status task on a connected manager whose server has a
    catalogue latency [base] (30 when it has none).  If [base >= -9], the
    turn draws a latency between [max(1, base - 10)] and [base + 10], adds
    between 1024 and 8192 bytes to the bytes sent and twice as many to the
    bytes received, touches nothing else and leaves the task waiting for
    its next turn.  If [base < -9] the range of latencies is empty: the
    task ends on the spot and the statistics stay as they were. *)
Theorem status_task_turn (task : nat) (r_latency r_traffic : Z)
    (st : VPNManager.State) (srv : Config.Server) :
  Asyncio.is_live task (snd st) = true ->
  VPNManager.connected (fst st) = true ->
  VPNManager.server (fst st) = Some srv ->
  let base := default 30 (Config.latency srv) in
  let st' := VPNManager._update_status_task task r_latency r_traffic st in
  (-9 <= base ->
   Z.max 1 (base - 10) <= VPNManager.latency (fst st') <= base + 10 /\
   (exists increment,
      1024 <= increment <= 8192 /\
      VPNManager.bytes_sent (fst st')
        = VPNManager.bytes_sent (fst st) + increment /\
      VPNManager.bytes_received (fst st')
        = VPNManager.bytes_received (fst st) + 2 * increment) /\
   snd st' !! task = Some Asyncio.Suspended /\
   VPNManager.connected (fst st') = true /\
   VPNManager.server (fst st') = Some srv /\
   VPNManager.vpn_ip (fst st') = VPNManager.vpn_ip (fst st) /\
   VPNManager.connection_time (fst st') = VPNManager.connection_time (fst st) /\
   VPNManager.status_task (fst st') = VPNManager.status_task (fst st)) /\
  (base < -9 ->
   fst st' = fst st /\ Asyncio.is_live task (snd st') = false).
Proof.
  intros Hlive Hcon Hsrv base st'.
  assert (Hlt : (task < length (snd st))%nat).
  { unfold Asyncio.is_live in Hlive.
    destruct (snd st !! task) eqn:E; [|discriminate].
    eapply lookup_lt_Some, E. }
  subst st'. unfold VPNManager._update_status_task.
  rewrite Hlive, Hcon, Hsrv. fold base. split; intros Hbase.
  - destruct (randint_range (Z.max 1 (base - 10)) (base + 10) r_latency)
      as (lat & -> & Hlat); [lia|].
    destruct (randint_range 1024 8192 r_traffic) as (inc & -> & Hinc); [lia|].
    cbn [fst snd VPNManager.with_statistics VPNManager.latency
         VPNManager.bytes_sent VPNManager.bytes_received VPNManager.connected
         VPNManager.server VPNManager.vpn_ip VPNManager.connection_time
         VPNManager.status_task].
    split; [exact Hlat|]. split; [exists inc; repeat split; lia|].
    split; [apply list_lookup_insert_eq; exact Hlt|].
    repeat split; assumption.
  - assert (Hempty : VPNManager.randint (Z.max 1 (base - 10)) (base + 10) r_latency
                     = inl (Py.ValueError "empty range for randrange()")).
    { unfold VPNManager.randint.
      destruct (Z.leb_spec (Z.max 1 (base - 10)) (base + 10)) as [|_];
        [lia | reflexivity]. }
    rewrite Hempty. cbn [fst snd]. split; [reflexivity|].
    unfold Asyncio.is_live. rewrite list_lookup_insert_eq by exact Hlt.
    reflexivity.
Qed.

(** X12.  After [disconnect], called in any state the manager can be in between
    calls, no task is live any more, so that no later turn of any status
    task changes anything: the statistics stay at zero. *)
Theorem status_task_is_inert_after_disconnect
    (stop_raises : option Py.Exception) (st : VPNManager.State)
    (task : nat) (r_latency r_traffic : Z) :
  consistent st ->
  let st' := snd (VPNManager.disconnect stop_raises st) in
  Asyncio.is_live task (snd st') = false /\
  VPNManager._update_status_task task r_latency r_traffic st' = st' /\
  VPNManager.bytes_sent (fst st') = 0 /\
  VPNManager.bytes_received (fst st') = 0 /\
  VPNManager.latency (fst st') = 0.
Proof.
  intros Hst st'.
  pose proof (consistent_disconnect stop_raises st Hst) as [Hshape Htasks].
  fold st' in Hshape, Htasks.
  assert (Hcon : VPNManager.connected (fst st') = false).
  { subst st'. cbv [VPNManager.disconnect Eff.get mbind Eff.M_bind].
    destruct (VPNManager.connected (fst st)) eqn:Hc; cbn [negb]; [|exact Hc].
    rewrite run_try_except, cleanup_total. apply cleaned_fields. }
  assert (Hdead : Asyncio.is_live task (snd st') = false).
  { destruct (Asyncio.is_live task (snd st')) eqn:E; [|reflexivity].
    apply Htasks in E as [E _]. congruence. }
  split; [exact Hdead|]. split.
  { unfold VPNManager._update_status_task. now rewrite Hdead. }
  destruct Hshape as [Hd | Hc].
  - destruct Hd as (_ & _ & _ & _ & Hs & Hr & Hl & _). auto.
  - destruct Hc as [Hc _]. congruence.
Qed.

(** ** Closed instances for the manager as a state machine *)

Lemma demo_connected_state_consistent : consistent demo_connected_state.
Proof.
  split.
  - right. repeat split; cbn; eauto.
  - intros task Hlive. unfold Asyncio.is_live in Hlive.
    destruct task as [|task]; [split; reflexivity|].
    cbn in Hlive. destruct task; discriminate.
Qed.

Lemma reachable_states_are_consistent_witness :
  VPNManager.__init__ Config.settings = Py.ok fresh_manager /\
  forall (oaep : nat -> list byte -> list byte)
         (load : list byte -> Py.result RSA.RSAPublicKey),
  let st := after_calls oaep load Config.settings fresh_manager
              [CallConnect demo_env None "server1";
               RunStatusTask 0 7 5000;
               CallConnect demo_env None "server2";
               CallDisconnect None;
               RunStatusTask 0 9 6000] in
  (fully_disconnected (fst st) \/ fully_connected (fst st)) /\
  (forall task, Asyncio.is_live task (snd st) = true ->
     VPNManager.connected (fst st) = true /\
     VPNManager.status_task (fst st) = Some task) /\
  (forall task1 task2,
     Asyncio.is_live task1 (snd st) = true ->
     Asyncio.is_live task2 (snd st) = true -> task1 = task2) /\
  (forall now,
     VPNManager.get_status now (fst st) = Py.ok disconnected_status \/
     exists started ip id,
       VPNManager.connection_time (fst st) = Py.Float started /\
       VPNManager.get_status now (fst st) =
         match Py.int_of_float (PrimFloat.sub now started) with
         | inr uptime =>
             Py.ok {| Schemas.connected := true;
                      Schemas.uptime := uptime;
                      Schemas.bytesReceived := VPNManager.bytes_received (fst st);
                      Schemas.bytesSent := VPNManager.bytes_sent (fst st);
                      Schemas.latency := VPNManager.latency (fst st);
                      Schemas.status_vpnIp := Some ip;
                      Schemas.server_id := Some id |}
         | inl e => Py.raise e
         end).
Proof.
  split; [reflexivity|].
  intros oaep load.
  apply (reachable_states_are_consistent oaep load Config.settings fresh_manager).
  reflexivity.
Defined.

Lemma status_task_turn_witness :
  Asyncio.is_live 0 (snd demo_connected_state) = true /\
  VPNManager.connected (fst demo_connected_state) = true /\
  VPNManager.server (fst demo_connected_state) = Some demo_server /\
  default 30 (Config.latency demo_server) = 25 /\
  let st' := VPNManager._update_status_task 0 7 5000 demo_connected_state in
  (-9 <= 25 ->
   Z.max 1 (25 - 10) <= VPNManager.latency (fst st') <= 25 + 10 /\
   (exists increment,
      1024 <= increment <= 8192 /\
      VPNManager.bytes_sent (fst st')
        = VPNManager.bytes_sent (fst demo_connected_state) + increment /\
      VPNManager.bytes_received (fst st')
        = VPNManager.bytes_received (fst demo_connected_state) + 2 * increment) /\
   snd st' !! 0%nat = Some Asyncio.Suspended /\
   VPNManager.connected (fst st') = true /\
   VPNManager.server (fst st') = Some demo_server /\
   VPNManager.vpn_ip (fst st') = VPNManager.vpn_ip (fst demo_connected_state) /\
   VPNManager.connection_time (fst st')
     = VPNManager.connection_time (fst demo_connected_state) /\
   VPNManager.status_task (fst st')
     = VPNManager.status_task (fst demo_connected_state)) /\
  (25 < -9 ->
   fst st' = fst demo_connected_state /\ Asyncio.is_live 0 (snd st') = false).
Proof.
  split; [reflexivity|]. split; [reflexivity|]. split; [reflexivity|].
  split; [reflexivity|].
  apply (status_task_turn 0 7 5000 demo_connected_state demo_server);
    reflexivity.
Defined.

Lemma status_task_is_inert_after_disconnect_witness :
  consistent demo_connected_state /\
  let st' := snd (VPNManager.disconnect None demo_connected_state) in
  Asyncio.is_live 0 (snd st') = false /\
  VPNManager._update_status_task 0 7 5000 st' = st' /\
  VPNManager.bytes_sent (fst st') = 0 /\
  VPNManager.bytes_received (fst st') = 0 /\
  VPNManager.latency (fst st') = 0.
Proof.
  split; [exact demo_connected_state_consistent|].
  apply (status_task_is_inert_after_disconnect None demo_connected_state 0 7 5000).
  exact demo_connected_state_consistent.
Defined.

(** ** Accounts, rooms and private channels *)

(** ** Authentication *)

Section Accounts.

Variable settings : Config.Settings.
Variable ctx : Security.CryptContext.

(** The three ways [authenticate_user] ends once the address is accepted
    and the account found: the verification raises, refuses or accepts. *)
Lemma authenticate_user_run (env : MessagingService.AuthEnv)
    (username password vpn_ip : string) (self : MessagingService.t)
    (account : MessagingService.UserRecord) :
  MessagingService.check_vpn_address settings vpn_ip = None ->
  MessagingService._users_db self !! username = Some account ->
  let r := MessagingService.authenticate_user settings ctx env username password
             vpn_ip self in
  match Security.verify_password ctx password
          (MessagingService.hashed_password account) with
  | inl e => r = (Py.raise e, self)
  | inr false =>
      r = (Py.ok {| MessagingService.success := false;
                    MessagingService.message := "Credenciales incorrectas";
                    MessagingService.token := None;
                    MessagingService.user_data := None |}, self)
  | inr true =>
      exists res,
        fst r = Py.ok res /\
        MessagingService.success res = true /\
        is_Some (MessagingService.token res) /\
        MessagingService.user_data res
          = Some (username, MessagingService.db_display_name account) /\
        MessagingService.user_sessions (snd r) !! MessagingService.auth_uuid env
          = Some username /\
        MessagingService.vpn_sessions (snd r) !! vpn_ip = Some username /\
        (exists user,
           MessagingService.connected_users (snd r) !! username = Some user /\
           ChatSchemas.is_online user = true /\
           ChatSchemas.vpn_ip user = Some vpn_ip) /\
        MessagingService._users_db (snd r) = MessagingService._users_db self /\
        MessagingService.chat_rooms (snd r) = MessagingService.chat_rooms self
  end.
Proof.
  intros Hvpn Hacc. cbv zeta. unfold MessagingService.authenticate_user.
  rewrite Hvpn, Hacc.
  destruct (Security.verify_password ctx password
              (MessagingService.hashed_password account)) as [e | [|]];
    cbn [negb]; [reflexivity | | reflexivity].
  eexists. cbn [fst snd]. split; [reflexivity|].
  cbn [MessagingService.success MessagingService.token
       MessagingService.user_data MessagingService.with_sessions
       MessagingService.user_sessions MessagingService.vpn_sessions
       MessagingService.connected_users MessagingService._users_db
       MessagingService.chat_rooms].
  split; [reflexivity|]. split; [eauto|]. split; [reflexivity|].
  split; [apply lookup_insert_eq|].
  split; [apply lookup_insert_eq|]. split; [|split; reflexivity].
  destruct (MessagingService.connected_users self !! username) as [user|];
    eexists; (split; [apply lookup_insert_eq | split; reflexivity]).
Qed.

(** When [authenticate_user] succeeds. *)
Lemma authenticate_user_success_iff (env : MessagingService.AuthEnv)
    (username password vpn_ip : string) (self : MessagingService.t) :
  (exists res,
     fst (MessagingService.authenticate_user settings ctx env username password
            vpn_ip self) = Py.ok res /\
     MessagingService.success res = true) <->
  MessagingService.check_vpn_address settings vpn_ip = None /\
  exists account,
    MessagingService._users_db self !! username = Some account /\
    Security.verify_password ctx password
      (MessagingService.hashed_password account) = Py.ok true.
Proof.
  split.
  - intros (res & Hres & Hok). revert Hres.
    unfold MessagingService.authenticate_user.
    destruct (MessagingService.check_vpn_address settings vpn_ip) as [refusal|];
      [intros [= <-]; discriminate|].
    destruct (MessagingService._users_db self !! username) as [account|];
      [|intros [= <-]; discriminate].
    destruct (Security.verify_password ctx password
                (MessagingService.hashed_password account)) as [e | [|]] eqn:Hv;
      cbn [negb]; [discriminate | | intros [= <-]; discriminate].
    intros _. split; [reflexivity|]. eauto.
  - intros (Hvpn & account & Hacc & Hv).
    pose proof (authenticate_user_run env username password vpn_ip self account
                  Hvpn Hacc) as Hrun.
    cbv zeta in Hrun. rewrite Hv in Hrun.
    destruct Hrun as (res & Hres & Hok & _). eauto.
Qed.

(** A successful [authenticate_user] records the session and keeps the
    rooms. *)
Lemma authenticate_user_success_state (env : MessagingService.AuthEnv)
    (username password vpn_ip : string) (self : MessagingService.t)
    (res : MessagingService.AuthResult) :
  let r := MessagingService.authenticate_user settings ctx env username password
             vpn_ip self in
  fst r = Py.ok res ->
  MessagingService.success res = true ->
  MessagingService.user_sessions (snd r) !! MessagingService.auth_uuid env
    = Some username /\
  MessagingService.chat_rooms (snd r) = MessagingService.chat_rooms self.
Proof.
  cbv zeta. intros Hres Hok.
  destruct (proj1 (authenticate_user_success_iff env username password vpn_ip self))
    as (Hvpn & account & Hacc & Hv); [eauto|].
  pose proof (authenticate_user_run env username password vpn_ip self account
                Hvpn Hacc) as Hrun.
  cbv zeta in Hrun. rewrite Hv in Hrun.
  destruct Hrun as (res' & _ & _ & _ & _ & Hsess & _ & _ & _ & Hrooms). auto.
Qed.


(** ** Accounts and the default room *)

Lemma private_room_id_not_general (user1 user2 uuid : string) :
  "private_" +:+ user1 +:+ "_" +:+ user2 +:+ "_" +:+ String.substring 0 8 uuid
  <> "general".
Proof. cbn. discriminate. Qed.

Lemma everyone_in_general_fresh (hashed1 hashed2 : string) (now : Datetime.t) :
  everyone_in_general (MessagingService.fresh hashed1 hashed2 now).
Proof.
  eexists. split; [reflexivity|]. cbn [ChatSchemas.participants]. split.
  - apply NoDup_cons. split; [|apply NoDup_singleton].
    intros H. apply list_elem_of_singleton in H. discriminate.
  - intros username [account Hacc].
    cbn [MessagingService.fresh MessagingService._users_db] in Hacc.
    destruct (decide (username = "usuario2")) as [-> | Hne2];
      [apply list_elem_of_In; cbn; tauto|].
    rewrite lookup_insert_ne in Hacc by congruence.
    destruct (decide (username = "usuario1")) as [-> | Hne1];
      [apply list_elem_of_In; cbn; tauto|].
    rewrite lookup_insert_ne in Hacc by congruence.
    rewrite lookup_empty in Hacc. discriminate.
Qed.

Lemma everyone_in_general_init (salt1 salt2 : string) (now : Datetime.t)
    (self : MessagingService.t) :
  MessagingService.__init__ ctx salt1 salt2 now = Py.ok self ->
  everyone_in_general self.
Proof.
  unfold MessagingService.__init__.
  destruct (Security.get_password_hash ctx salt1 "password1") as [e | hashed1];
    [discriminate|].
  destruct (Security.get_password_hash ctx salt2 "password2") as [e | hashed2];
    [discriminate|].
  intros [= <-]. apply everyone_in_general_fresh.
Qed.

Lemma everyone_in_general_register (salt username password display_name : string)
    (self : MessagingService.t) :
  everyone_in_general self ->
  everyone_in_general
    (snd (MessagingService.register_user ctx salt username password display_name self)).
Proof.
  intros (room & Hroom & Hnodup & Hall). unfold MessagingService.register_user.
  destruct (MessagingService._users_db self !! username) as [account|] eqn:Hacc.
  { exists room. auto. }
  destruct (Security.get_password_hash ctx salt password) as [e | hashed].
  { exists room. auto. }
  cbn [MessagingService.with_users_db MessagingService.chat_rooms]. rewrite Hroom.
  destruct (existsb (String.eqb username) (ChatSchemas.participants room)) eqn:Hin.
  - exists room. split; [exact Hroom|]. split; [exact Hnodup|].
    intros u [a Ha]. cbn [snd MessagingService.with_users_db
                          MessagingService._users_db] in Ha.
    destruct (decide (u = username)) as [-> | Hne].
    + now apply existsb_eqb_elem_of.
    + rewrite lookup_insert_ne in Ha by congruence. eauto.
  - assert (Hnot : username ∉ ChatSchemas.participants room).
    { intros H. apply existsb_eqb_elem_of in H. congruence. }
    eexists. cbn [snd MessagingService.with_chat_rooms MessagingService.chat_rooms
                  MessagingService._users_db MessagingService.with_users_db].
    split; [apply lookup_insert_eq|].
    cbn [MessagingService.add_participant ChatSchemas.participants]. split.
    + apply NoDup_app. split; [exact Hnodup|]. split; [|apply NoDup_singleton].
      intros x Hx Hx'. apply list_elem_of_singleton in Hx' as ->. contradiction.
    + intros u [a Ha]. apply elem_of_app.
      destruct (decide (u = username)) as [-> | Hne].
      * right. now apply list_elem_of_singleton.
      * rewrite lookup_insert_ne in Ha by congruence. left. eauto.
Qed.

Lemma everyone_in_general_same (s s' : MessagingService.t) :
  MessagingService.chat_rooms s' = MessagingService.chat_rooms s ->
  MessagingService._users_db s' = MessagingService._users_db s ->
  everyone_in_general s -> everyone_in_general s'.
Proof.
  intros Hr Hd (room & Hroom & Hnodup & Hall).
  exists room. rewrite Hr, Hd. auto.
Qed.

Lemma everyone_in_general_authenticate (env : MessagingService.AuthEnv)
    (username password vpn_ip : string) (self : MessagingService.t) :
  everyone_in_general self ->
  everyone_in_general
    (snd (MessagingService.authenticate_user settings ctx env username password
            vpn_ip self)).
Proof.
  apply everyone_in_general_same;
    unfold MessagingService.authenticate_user;
    destruct (MessagingService.check_vpn_address _ _); try reflexivity;
    destruct (MessagingService._users_db _ !! username); try reflexivity;
    destruct (Security.verify_password _ _ _) as [e | verified]; try reflexivity;
    destruct (negb verified); reflexivity.
Qed.

Lemma everyone_in_general_channel (keygen : Py.result RSA.RSAPrivateKey)
    (uuid : string) (now : Datetime.t) (user1 user2 : string)
    (self : MessagingService.t) :
  everyone_in_general self ->
  everyone_in_general
    (snd (MessagingService.create_secure_channel keygen uuid now user1 user2 self)).
Proof.
  intros (room & Hroom & Hnodup & Hall).
  unfold MessagingService.create_secure_channel.
  destruct (MessagingService._users_db self !! user1); [|exists room; auto].
  destruct (MessagingService._users_db self !! user2); [|exists room; auto].
  destruct (KyberManager.__init__ "kyber768"); [exists room; auto|].
  destruct (fst (KyberManager.generate_keypair keygen t)); [exists room; auto|].
  exists room.
  cbn [snd MessagingService.with_active_connections MessagingService.with_chat_rooms
       MessagingService.chat_rooms MessagingService._users_db].
  split; [|auto].
  rewrite lookup_insert_ne; [exact Hroom|].
  apply private_room_id_not_general.
Qed.

(** No step of any task takes an account out of the room "general". *)
Lemma everyone_in_general_step (step : ChatRoutes.Step) (st : ChatRoutes.t) :
  everyone_in_general (ChatRoutes.messaging_service st) ->
  everyone_in_general
    (ChatRoutes.messaging_service (ChatRoutes.run_step settings ctx step st)).
Proof.
  intros H.
  destruct (run_step_service settings ctx step st)
    as [(salt & u & p & d & ->) | [(env & u & p & ip & ->) |
        [(keygen & uuid & now & u1 & u2 & ->) | [(users & ->) | ->]]]].
  - now apply everyone_in_general_register.
  - now apply everyone_in_general_authenticate.
  - now apply everyone_in_general_channel.
  - revert H. now apply everyone_in_general_same.
  - exact H.
Qed.

Lemma everyone_in_general_calls (calls : list ChatCall) (st : ChatRoutes.t) :
  everyone_in_general (ChatRoutes.messaging_service st) ->
  everyone_in_general
    (ChatRoutes.messaging_service (after_chat_calls settings ctx st calls)).
Proof.
  apply (calls_keep settings ctx everyone_in_general).
  apply everyone_in_general_step.
Qed.

(** X14.  Whatever calls the service has served since it was built, and whatever
    the other tasks did during their sends, every account participates in
    the room "general", exactly once; so a user with a non-empty name who
    authenticates successfully can post there under the session just
    created, and the message carries the user's name. *)
Theorem every_account_can_post_to_general (salt1 salt2 : string)
    (created : Datetime.t) (st0 : ChatRoutes.t) (calls : list ChatCall)
    (env : MessagingService.AuthEnv) (username password vpn_ip : string)
    (uuid : string) (now : Datetime.t) (content : string)
    (res : MessagingService.AuthResult) :
  MessagingService.__init__ ctx salt1 salt2 created
    = Py.ok (ChatRoutes.messaging_service st0) ->
  let service :=
    ChatRoutes.messaging_service (after_chat_calls settings ctx st0 calls) in
  let r := MessagingService.authenticate_user settings ctx env username password
             vpn_ip service in
  fst r = Py.ok res ->
  MessagingService.success res = true ->
  username <> "" ->
  everyone_in_general service /\
  MessagingService.create_message uuid now (MessagingService.auth_uuid env)
    "general" content (snd r)
  = (Some {| ChatSchemas.message_id := uuid; ChatSchemas.sender := username;
             ChatSchemas.room_id := "general"; ChatSchemas.content := content;
             ChatSchemas.timestamp := now;
             ChatSchemas.read_by := [username] |}, snd r).
Proof.
  intros Hinit service r Hres Hok Hname.
  assert (Hinv : everyone_in_general service).
  { apply everyone_in_general_calls.
    apply (everyone_in_general_init salt1 salt2 created), Hinit. }
  split; [exact Hinv|].
  destruct (authenticate_user_success_state env username password vpn_ip service
              res Hres Hok) as [Hsess Hrooms].
  fold r in Hsess, Hrooms.
  destruct (proj1 (authenticate_user_success_iff env username password vpn_ip service))
    as (_ & account & Hacc & _); [eauto|].
  destruct Hinv as (room & Hroom & _ & Hall).
  apply (create_message_returns uuid now _ "general" content username room).
  - exact Hsess.
  - unfold MessagingService.truthy.
    destruct (String.eqb_spec username ""); [contradiction | reflexivity].
  - rewrite Hrooms. exact Hroom.
  - apply Hall. eauto.
Qed.


End Accounts.

(** ** Private channels *)

Lemma truthy_ne (s : string) : MessagingService.truthy s = true <-> s <> "".
Proof.
  unfold MessagingService.truthy.
  destruct (String.eqb_spec s ""); cbn; split; intros H;
    first [discriminate | contradiction | reflexivity | assumption].
Qed.

(** What [create_secure_channel] does when both accounts exist and the key
    generation succeeds. *)
Lemma create_secure_channel_success (sk : RSA.RSAPrivateKey) (uuid : string)
    (now : Datetime.t) (user1 user2 : string) (self : MessagingService.t) :
  is_Some (MessagingService._users_db self !! user1) ->
  is_Some (MessagingService._users_db self !! user2) ->
  let room_id :=
    "private_" +:+ user1 +:+ "_" +:+ user2 +:+ "_" +:+ String.substring 0 8 uuid in
  let room_name := "Chat privado: " +:+ user1 +:+ " - " +:+ user2 in
  let room :=
    {| ChatSchemas.id := room_id; ChatSchemas.name := Some room_name;
       ChatSchemas.participants := [user1; user2];
       ChatSchemas.is_group := false; ChatSchemas.created_at := now;
       ChatSchemas.encryption_key :=
         Some (Py.b64encode (RSA.public_bytes (RSA.public_key sk))) |} in
  MessagingService.create_secure_channel (Py.ok sk) uuid now user1 user2 self =
  (Py.ok {| MessagingService.ch_success := true;
            MessagingService.ch_message := None;
            MessagingService.ch_room_id := Some room_id;
            MessagingService.ch_name := Some room_name |},
   MessagingService.with_active_connections
     (<[room_id := []]> (MessagingService.active_connections self))
     (MessagingService.with_chat_rooms
        (<[room_id := room]> (MessagingService.chat_rooms self)) self)).
Proof.
  intros [a1 H1] [a2 H2]. cbv zeta. unfold MessagingService.create_secure_channel.
  rewrite H1, H2. reflexivity.
Qed.

(** X16.  A private channel created for two accounts is a room of exactly these
    two participants, not a group, that carries the base64 public key of
    the exchange; every other room, the accounts and the sessions are as
    before; and a message posted to it under a session is accepted exactly
    when the session belongs to one of the two and its user name is not
    empty. *)
Theorem private_channel_admits_only_its_two_users (sk : RSA.RSAPrivateKey)
    (uuid : string) (now : Datetime.t) (user1 user2 : string)
    (self : MessagingService.t) :
  is_Some (MessagingService._users_db self !! user1) ->
  is_Some (MessagingService._users_db self !! user2) ->
  let r := MessagingService.create_secure_channel (Py.ok sk) uuid now user1 user2
             self in
  exists room_id room,
    fst r = Py.ok {| MessagingService.ch_success := true;
                     MessagingService.ch_message := None;
                     MessagingService.ch_room_id := Some room_id;
                     MessagingService.ch_name := ChatSchemas.name room |} /\
    MessagingService.chat_rooms (snd r) !! room_id = Some room /\
    ChatSchemas.id room = room_id /\
    ChatSchemas.participants room = [user1; user2] /\
    ChatSchemas.is_group room = false /\
    (exists key, ChatSchemas.encryption_key room = Some key /\
                 Base64.b64decode key
                 = Py.ok (RSA.public_bytes (RSA.public_key sk))) /\
    (forall other, other <> room_id ->
       MessagingService.chat_rooms (snd r) !! other
       = MessagingService.chat_rooms self !! other) /\
    MessagingService._users_db (snd r) = MessagingService._users_db self /\
    MessagingService.user_sessions (snd r) = MessagingService.user_sessions self /\
    forall (session_id username uuid' content : string) (now' : Datetime.t),
      MessagingService.user_sessions self !! session_id = Some username ->
      (is_Some (fst (MessagingService.create_message uuid' now' session_id room_id
                       content (snd r)))
       <-> (username = user1 \/ username = user2) /\ username <> "").
Proof.
  intros H1 H2 r. subst r.
  rewrite (create_secure_channel_success sk uuid now user1 user2 self H1 H2).
  cbv zeta.
  exists ("private_" +:+ user1 +:+ "_" +:+ user2 +:+ "_" +:+ String.substring 0 8 uuid).
  exists {| ChatSchemas.id :=
              "private_" +:+ user1 +:+ "_" +:+ user2 +:+ "_" +:+
              String.substring 0 8 uuid;
            ChatSchemas.name := Some ("Chat privado: " +:+ user1 +:+ " - " +:+ user2);
            ChatSchemas.participants := [user1; user2];
            ChatSchemas.is_group := false; ChatSchemas.created_at := now;
            ChatSchemas.encryption_key :=
              Some (Py.b64encode (RSA.public_bytes (RSA.public_key sk))) |}.
  cbn [fst snd MessagingService.with_active_connections
       MessagingService.with_chat_rooms MessagingService.chat_rooms
       MessagingService._users_db MessagingService.user_sessions
       ChatSchemas.name ChatSchemas.id ChatSchemas.participants
       ChatSchemas.is_group ChatSchemas.encryption_key].
  split; [reflexivity|]. split; [apply lookup_insert_eq|].
  split; [reflexivity|]. split; [reflexivity|]. split; [reflexivity|].
  split.
  { eexists. split; [reflexivity|]. apply b64decode_b64encode. }
  split; [intros other Hne; apply lookup_insert_ne; congruence|].
  split; [reflexivity|]. split; [reflexivity|].
  intros session_id username uuid' content now' Hsess.
  unfold MessagingService.create_message.
  cbn [MessagingService.user_sessions MessagingService.chat_rooms
       MessagingService.with_active_connections MessagingService.with_chat_rooms].
  rewrite Hsess, lookup_insert_eq. cbn [ChatSchemas.participants existsb].
  destruct (MessagingService.truthy username) eqn:Ht; cbn [negb].
  - apply truthy_ne in Ht.
    destruct (String.eqb_spec username user1) as [-> | Hn1]; cbn [orb negb fst].
    { split; [intros _; auto | eauto]. }
    destruct (String.eqb_spec username user2) as [-> | Hn2]; cbn [orb negb fst].
    { split; [intros _; auto | eauto]. }
    split; [intros [? [=]] | intros [[? | ?] _]; contradiction].
  - cbn [fst]. split; [intros [? [=]]|].
    intros [_ Hne]. apply truthy_ne in Hne. congruence.
Qed.

Section Failures.

Variable ctx : Security.CryptContext.

(** X17.  [register_user] and [create_secure_channel] change the service only
    when they report success: a registration under a name that is taken
    (the one case in which [register_user] answers with a failure), a
    registration whose password hashing raised (the exception reaches the
    caller), a channel for an account that does not exist, and a channel
    whose key generation raised (the [RuntimeError] reaches the caller) all
    leave every account, room and session as it was. *)
Theorem refused_operations_change_nothing (self : MessagingService.t) :
  (forall salt username password display_name,
     let r := MessagingService.register_user ctx salt username password
                display_name self in
     (is_Some (MessagingService._users_db self !! username) ->
      r = (Py.ok {| MessagingService.reg_success := false;
                    MessagingService.reg_message :=
                      "El nombre de usuario ya está en uso" |}, self)) /\
     (MessagingService._users_db self !! username = None ->
      forall e, Security.get_password_hash ctx salt password = Py.raise e ->
      r = (Py.raise e, self)) /\
     (MessagingService._users_db self !! username = None ->
      forall hashed, Security.get_password_hash ctx salt password = Py.ok hashed ->
      fst r = Py.ok {| MessagingService.reg_success := true;
                       MessagingService.reg_message :=
                         "Usuario registrado correctamente" |} /\
      MessagingService._users_db (snd r) !! username
      = Some {| MessagingService.db_username := username;
                MessagingService.db_display_name := display_name;
                MessagingService.hashed_password := hashed |}) /\
     (forall res,
        fst r = Py.ok res ->
        (MessagingService.reg_success res = false <->
         is_Some (MessagingService._users_db self !! username)) /\
        (MessagingService.reg_success res = false -> snd r = self))) /\
  (forall keygen uuid now user1 user2,
     let r := MessagingService.create_secure_channel keygen uuid now user1 user2
                self in
     (MessagingService._users_db self !! user1 = None \/
      MessagingService._users_db self !! user2 = None ->
      r = (Py.ok {| MessagingService.ch_success := false;
                    MessagingService.ch_message :=
                      Some "Uno o ambos usuarios no existen";
                    MessagingService.ch_room_id := None;
                    MessagingService.ch_name := None |}, self)) /\
     (is_Some (MessagingService._users_db self !! user1) ->
      is_Some (MessagingService._users_db self !! user2) ->
      forall e, keygen = Py.raise e ->
      r = (Py.raise (Py.RuntimeError
             ("Error al generar par de claves simulado: " +:+ Py.str e)), self))).
Proof.
  split.
  - intros salt username password display_name. cbv zeta.
    unfold MessagingService.register_user.
    destruct (MessagingService._users_db self !! username) as [account|].
    + split; [reflexivity|]. split; [discriminate|]. split; [discriminate|].
      intros res [= <-]. cbn. split; [split; eauto | reflexivity].
    + split; [intros [? [=]]|].
      destruct (Security.get_password_hash ctx salt password) as [e | hashed].
      * split; [intros _ e' [= <-]; reflexivity|].
        split; [intros _ h [=] | intros res [=]].
      * split; [intros _ e' [=]|].
        split.
        { intros _ h [= <-]. cbn [fst snd]. split; [reflexivity|].
          cbn [MessagingService.with_users_db MessagingService.chat_rooms].
          destruct (MessagingService.chat_rooms self !! "general") as [room|];
            [destruct (existsb _ _)|];
            cbn [MessagingService.with_chat_rooms MessagingService.with_users_db
                 MessagingService._users_db];
            apply lookup_insert_eq. }
        intros res [= <-]. cbn [MessagingService.reg_success].
        split; [split; [discriminate | intros [? [=]]] | discriminate].
  - intros keygen uuid now user1 user2. cbv zeta.
    unfold MessagingService.create_secure_channel. split.
    + intros [H | H]; rewrite H; [reflexivity|].
      destruct (MessagingService._users_db self !! user1); reflexivity.
    + intros [a1 H1] [a2 H2] e ->. rewrite H1, H2. reflexivity.
Qed.

End Failures.

(** ** The rooms of a user *)

(** What [get_user_rooms] lists, whatever the order: for an account, the
    rooms it participates in; for an unknown name, nothing. *)
Lemma get_user_rooms_spec (username : string) (self : MessagingService.t)
    (info : MessagingService.RoomInfo) :
  info ∈ MessagingService.get_user_rooms username self <->
  is_Some (MessagingService._users_db self !! username) /\
  exists room_id room,
    MessagingService.chat_rooms self !! room_id = Some room /\
    username ∈ ChatSchemas.participants room /\
    info = MessagingService.room_info room.
Proof.
  unfold MessagingService.get_user_rooms.
  destruct (MessagingService._users_db self !! username) as [account|].
  2:{ split; [intros H; apply elem_of_nil in H as [] | intros [[? [=]] _]]. }
  rewrite list_elem_of_In, in_map_iff. split.
  - intros ([room_id room] & <- & Hin). apply filter_In in Hin as [Hin Hpart].
    split; [eauto|]. exists room_id, room. cbn [snd] in *.
    split; [|split; [now apply existsb_eqb_elem_of | reflexivity]].
    apply elem_of_map_to_list. now apply list_elem_of_In.
  - intros (_ & room_id & room & Hroom & Hpart & ->).
    exists (room_id, room). split; [reflexivity|].
    apply filter_In. split.
    + apply list_elem_of_In. now apply elem_of_map_to_list.
    + cbn [snd]. now apply existsb_eqb_elem_of.
Qed.

(** X18.  After a private channel was created for two accounts, [get_user_rooms]
    lists it for an account exactly when the account is one of the two; for
    a name that is no account it lists nothing at all. *)
Theorem private_channel_is_listed_for_its_users (sk : RSA.RSAPrivateKey)
    (uuid : string) (now : Datetime.t) (user1 user2 : string)
    (self : MessagingService.t) :
  is_Some (MessagingService._users_db self !! user1) ->
  is_Some (MessagingService._users_db self !! user2) ->
  let r := MessagingService.create_secure_channel (Py.ok sk) uuid now user1 user2
             self in
  exists room_id room,
    MessagingService.chat_rooms (snd r) !! room_id = Some room /\
    ChatSchemas.participants room = [user1; user2] /\
    (forall username,
       is_Some (MessagingService._users_db self !! username) ->
       (MessagingService.room_info room
          ∈ MessagingService.get_user_rooms username (snd r)
        <-> username = user1 \/ username = user2)) /\
    (forall username,
       MessagingService._users_db self !! username = None ->
       MessagingService.get_user_rooms username (snd r) = []).
Proof.
  intros H1 H2 r. subst r.
  rewrite (create_secure_channel_success sk uuid now user1 user2 self H1 H2).
  cbv zeta. eexists. eexists.
  cbn [snd MessagingService.with_active_connections
       MessagingService.with_chat_rooms MessagingService.chat_rooms].
  split; [apply lookup_insert_eq|]. split; [reflexivity|]. split.
  - intros username Hacc. rewrite get_user_rooms_spec.
    cbn [MessagingService._users_db MessagingService.chat_rooms
         MessagingService.with_active_connections MessagingService.with_chat_rooms].
    split.
    + intros (_ & room_id & room & _ & Hpart & Hinfo).
      apply (f_equal MessagingService.info_participants) in Hinfo.
      cbn [MessagingService.room_info MessagingService.info_participants
           ChatSchemas.participants] in Hinfo.
      rewrite <- Hinfo in Hpart.
      apply list_elem_of_In in Hpart. cbn in Hpart.
      destruct Hpart as [<- | [<- | []]]; auto.
    + intros Hu. split; [exact Hacc|].
      eexists. eexists. split; [apply lookup_insert_eq|].
      split; [|reflexivity].
      cbn [ChatSchemas.participants]. apply list_elem_of_In. cbn.
      destruct Hu as [-> | ->]; auto.
  - intros username Hnone. unfold MessagingService.get_user_rooms.
    cbn [MessagingService._users_db MessagingService.with_active_connections
         MessagingService.with_chat_rooms].
    now rewrite Hnone.
Qed.

(** ** Closed instances for the messaging service *)

Lemma every_account_can_post_to_general_witness :
  let calls :=
    [ Register "salt3" "ana" "secreto" "Ana";
      CreateChannel (Py.ok demo_rsa_key_2048)
        "0a1b2c3d-0000-4000-8000-000000000000" demo_now "ana" "usuario1";
      Authenticate (demo_auth_env_for 1) "usuario1" "password1" "10.8.0.5";
      WsConnect (demo_session 1) 1;
      WsReceive ChatRoutes.quiet [fun _ => ([], [demo_login])]
        "c0ffee00-0000-4000-8000-000000000001" demo_now (demo_session 1) 1
        "usuario1" (ChatRoutes.InMessage "general" "buenas") ] in
  let service :=
    ChatRoutes.messaging_service
      (after_chat_calls Config.settings demo_ctx demo_chat calls) in
  let r := MessagingService.authenticate_user Config.settings demo_ctx demo_auth_env
             "ana" "secreto" "10.8.0.9" service in
  MessagingService.__init__ demo_ctx "salt1" "salt2" demo_now
    = Py.ok (ChatRoutes.messaging_service demo_chat) /\
  (exists res, fst r = Py.ok res /\ MessagingService.success res = true) /\
  "ana" <> "" /\
  everyone_in_general service /\
  MessagingService.create_message "c0ffee00-0000-4000-8000-000000000000" demo_now
    (MessagingService.auth_uuid demo_auth_env) "general" "hola" (snd r)
  = (Some {| ChatSchemas.message_id := "c0ffee00-0000-4000-8000-000000000000";
             ChatSchemas.sender := "ana";
             ChatSchemas.room_id := "general"; ChatSchemas.content := "hola";
             ChatSchemas.timestamp := demo_now;
             ChatSchemas.read_by := ["ana"] |}, snd r).
Proof.
  cbv zeta. split; [reflexivity|].
  split; [eexists; split; [vm_compute; reflexivity | reflexivity]|].
  split; [discriminate|].
  eapply (every_account_can_post_to_general Config.settings demo_ctx "salt1" "salt2"
            demo_now demo_chat _ demo_auth_env "ana" "secreto" "10.8.0.9"
            "c0ffee00-0000-4000-8000-000000000000" demo_now "hola");
    [reflexivity | vm_compute; reflexivity | reflexivity | discriminate].
Defined.


Lemma private_channel_admits_only_its_two_users_witness :
  let r := MessagingService.create_secure_channel (Py.ok demo_rsa_key_2048)
             "0a1b2c3d-0000-4000-8000-000000000000" demo_now "usuario1" "usuario2"
             demo_service in
  is_Some (MessagingService._users_db demo_service !! "usuario1") /\
  is_Some (MessagingService._users_db demo_service !! "usuario2") /\
  exists room_id room,
    fst r = Py.ok {| MessagingService.ch_success := true;
                     MessagingService.ch_message := None;
                     MessagingService.ch_room_id := Some room_id;
                     MessagingService.ch_name := ChatSchemas.name room |} /\
    MessagingService.chat_rooms (snd r) !! room_id = Some room /\
    ChatSchemas.id room = room_id /\
    ChatSchemas.participants room = ["usuario1"; "usuario2"] /\
    ChatSchemas.is_group room = false /\
    (exists key, ChatSchemas.encryption_key room = Some key /\
                 Base64.b64decode key
                 = Py.ok (RSA.public_bytes (RSA.public_key demo_rsa_key_2048))) /\
    (forall other, other <> room_id ->
       MessagingService.chat_rooms (snd r) !! other
       = MessagingService.chat_rooms demo_service !! other) /\
    MessagingService._users_db (snd r) = MessagingService._users_db demo_service /\
    MessagingService.user_sessions (snd r)
      = MessagingService.user_sessions demo_service /\
    forall (session_id username uuid' content : string) (now' : Datetime.t),
      MessagingService.user_sessions demo_service !! session_id = Some username ->
      (is_Some (fst (MessagingService.create_message uuid' now' session_id room_id
                       content (snd r)))
       <-> (username = "usuario1" \/ username = "usuario2") /\ username <> "").
Proof.
  cbv zeta. split; [vm_compute; eauto|]. split; [vm_compute; eauto|].
  apply (private_channel_admits_only_its_two_users demo_rsa_key_2048
           "0a1b2c3d-0000-4000-8000-000000000000" demo_now "usuario1" "usuario2"
           demo_service); vm_compute; eauto.
Defined.

Lemma private_channel_is_listed_for_its_users_witness :
  let r := MessagingService.create_secure_channel (Py.ok demo_rsa_key_2048)
             "0a1b2c3d-0000-4000-8000-000000000000" demo_now "usuario1" "usuario2"
             demo_service in
  is_Some (MessagingService._users_db demo_service !! "usuario1") /\
  is_Some (MessagingService._users_db demo_service !! "usuario2") /\
  exists room_id room,
    MessagingService.chat_rooms (snd r) !! room_id = Some room /\
    ChatSchemas.participants room = ["usuario1"; "usuario2"] /\
    (forall username,
       is_Some (MessagingService._users_db demo_service !! username) ->
       (MessagingService.room_info room
          ∈ MessagingService.get_user_rooms username (snd r)
        <-> username = "usuario1" \/ username = "usuario2")) /\
    (forall username,
       MessagingService._users_db demo_service !! username = None ->
       MessagingService.get_user_rooms username (snd r) = []).
Proof.
  cbv zeta. split; [vm_compute; eauto|]. split; [vm_compute; eauto|].
  apply (private_channel_is_listed_for_its_users demo_rsa_key_2048
           "0a1b2c3d-0000-4000-8000-000000000000" demo_now "usuario1" "usuario2"
           demo_service); vm_compute; eauto.
Defined.

(** ** The real-time routes *)

(** ** Sending through one socket *)

(** [send_text] through a socket that can send. *)
Lemma send_text_run (w : nat) (f : ChatRoutes.Frame) (st : ChatRoutes.t)
    (ws : ChatRoutes.WebSocket) :
  ChatRoutes.sockets st !! w = Some ws ->
  ChatRoutes.can_send ws = true ->
  ChatRoutes.send_text w f st =
  (inr tt, ChatRoutes.with_sockets (<[w := ChatRoutes.push f ws]> (ChatRoutes.sockets st)) st).
Proof.
  intros Hw Hcan. unfold ChatRoutes.send_text. rewrite run_bind. cbn [Eff.get].
  rewrite Hw. unfold ChatRoutes.can_send in Hcan |- *.
  destruct (ChatRoutes.send_raises ws); [discriminate|].
  destruct (ChatRoutes.closed ws); [discriminate|].
  rewrite Hcan. reflexivity.
Qed.

(** A loop whose body never raises and keeps [I] on the elements of the
    list never raises and keeps [I]. *)
Lemma for_each_invariant_in {A : Type} (I : ChatRoutes.t -> Prop)
    (body : A -> Eff.M ChatRoutes.t unit) (l : list A) :
  (forall x st, x ∈ l -> I st -> exists st', body x st = (inr tt, st') /\ I st') ->
  forall st, I st ->
  exists st', ChatRoutes.for_each l body st = (inr tt, st') /\ I st'.
Proof.
  induction l as [|x l IH]; intros Hbody st HI.
  - exists st. split; [reflexivity | exact HI].
  - destruct (Hbody x st) as (st1 & Hrun & HI1); [left | exact HI |].
    rewrite for_each_cons, Hrun. apply IH; [|exact HI1].
    intros y s Hy. apply Hbody. now right.
Qed.

(** ** Who a broadcast reaches, and who it does not, when no other task
    runs during its sends *)

Section Fanout.

Variable settings : Config.Settings.
Variable ctx : Security.CryptContext.
Variable message : ChatRoutes.Payload.
Variable exclude_session : option string.
Variable st0 : ChatRoutes.t.

Let frame : ChatRoutes.Frame := ChatRoutes.NewMessage message.

(** The body of the inner loop, and the sessions it walks. *)
Let visit : string -> string -> Eff.M ChatRoutes.t unit :=
  ChatRoutes.visit settings ctx ChatRoutes.quiet message exclude_session.

Let sessions : list string :=
  map fst (map_to_list
    (MessagingService.user_sessions (ChatRoutes.messaging_service st0))).

Lemma session_on_record (session_id username : string) :
  MessagingService.user_sessions (ChatRoutes.messaging_service st0) !! session_id
    = Some username ->
  session_id ∈ sessions.
Proof.
  intros H. apply list_elem_of_fmap. exists (session_id, username).
  split; [reflexivity | now apply elem_of_map_to_list].
Qed.

(** What every visit keeps: the service, the registry, and every outbox up
    to copies of the frame appended at its end. *)
Lemma visit_grows (participant session_id : string) (w : nat)
    (ws : ChatRoutes.WebSocket) (st : ChatRoutes.t) :
  only_sent frame st0 st ->
  exists st',
    visit participant session_id st = (inr tt, st') /\
    only_sent frame st0 st' /\
    (forall n, grown frame w ws n st -> exists m, (n <= m)%nat /\ grown frame w ws m st').
Proof.
  intros HI. unfold visit. rewrite visit_quiet.
  eexists. split; [reflexivity|].
  destruct (MessagingService.user_sessions _ !! session_id) as [username|];
    [|split; [exact HI | intros n Hn; exists n; split; [lia | exact Hn]]].
  destruct (ChatRoutes.active_connections st !! session_id) as [w'|];
    [|split; [exact HI | intros n Hn; exists n; split; [lia | exact Hn]]].
  destruct (String.eqb username participant
            && ChatRoutes.not_excluded session_id exclude_session);
    [|split; [exact HI | intros n Hn; exists n; split; [lia | exact Hn]]].
  destruct (ChatRoutes.sockets st !! w') as [ws'|] eqn:Hw';
    [|split; [exact HI | intros n Hn; exists n; split; [lia | exact Hn]]].
  destruct (ChatRoutes.can_send ws') eqn:Hcan;
    [|split; [exact HI | intros n Hn; exists n; split; [lia | exact Hn]]].
  split.
  - eapply only_sent_trans; [exact HI|].
    split; [reflexivity|]. split; [reflexivity|].
    intros v. cbn [ChatRoutes.with_sockets ChatRoutes.sockets].
    destruct (decide (v = w')) as [-> | Hne].
    + rewrite Hw', lookup_insert_eq. exists 1%nat. reflexivity.
    + rewrite lookup_insert_ne by congruence.
      destruct (ChatRoutes.sockets st !! v); [|reflexivity].
      exists 0%nat. cbn. now rewrite extend_nil.
  - intros n Hn. unfold grown in *.
    cbn [ChatRoutes.with_sockets ChatRoutes.sockets].
    destruct (decide (w = w')) as [-> | Hne].
    + rewrite Hw' in Hn. injection Hn as ->.
      exists (S n). split; [lia|]. rewrite lookup_insert_eq.
      f_equal. unfold ChatRoutes.push, extend. cbn. f_equal.
      rewrite <- app_assoc. f_equal.
      change [ChatRoutes.NewMessage message] with (repeat frame 1).
      rewrite <- repeat_app.
      replace (n + 1)%nat with (S n) by lia. reflexivity.
    + exists n. split; [lia|]. rewrite lookup_insert_ne by congruence. exact Hn.
Qed.

(** A visit of a session of [participant] whose socket can send appends
    one more copy. *)
Lemma visit_hits (session_id username : string) (w : nat)
    (ws : ChatRoutes.WebSocket) (st : ChatRoutes.t) :
  MessagingService.user_sessions (ChatRoutes.messaging_service st0) !! session_id
    = Some username ->
  ChatRoutes.active_connections st0 !! session_id = Some w ->
  ChatRoutes.not_excluded session_id exclude_session = true ->
  ChatRoutes.can_send ws = true ->
  only_sent frame st0 st ->
  forall n, grown frame w ws n st ->
  exists st',
    visit username session_id st = (inr tt, st') /\
    grown frame w ws (S n) st'.
Proof.
  intros Hsess Hactive Hexcl Hcan (Hsvc & Hact & Hw) n Hn. unfold visit.
  rewrite visit_quiet. eexists. split; [reflexivity|].
  rewrite Hsvc, Hsess, Hact, Hactive, String.eqb_refl, Hexcl. cbn [andb].
  unfold grown in *. rewrite Hn. rewrite can_send_extend, Hcan.
  cbn [ChatRoutes.with_sockets ChatRoutes.sockets].
  rewrite lookup_insert_eq. f_equal. unfold ChatRoutes.push, extend. cbn. f_equal.
  rewrite <- app_assoc. f_equal.
  change [ChatRoutes.NewMessage message] with (repeat frame 1).
  rewrite <- repeat_app.
  replace (n + 1)%nat with (S n) by lia. reflexivity.
Qed.

(** A visit leaves alone every socket that is not addressed. *)
Lemma visit_spares (participant session_id : string) (w : nat)
    (room_id : string) (room : ChatSchemas.ChatRoom) (st : ChatRoutes.t) :
  ChatRoutes.payload_room_id message = Some room_id ->
  MessagingService.chat_rooms (ChatRoutes.messaging_service st0) !! room_id
    = Some room ->
  participant ∈ ChatSchemas.participants room ->
  ~ addressed message exclude_session st0 w ->
  only_sent frame st0 st /\ ChatRoutes.sockets st !! w = ChatRoutes.sockets st0 !! w ->
  exists st',
    visit participant session_id st = (inr tt, st') /\
    only_sent frame st0 st' /\
    ChatRoutes.sockets st' !! w = ChatRoutes.sockets st0 !! w.
Proof.
  intros Hid Hroom Hpart Hnot [HI Hsame].
  destruct (visit_grows participant session_id w
              {| ChatRoutes.accepted := false; ChatRoutes.closed := None;
                 ChatRoutes.outbox := []; ChatRoutes.send_raises := None |}
              st HI) as (st' & Hrun & HI' & _).
  exists st'. split; [exact Hrun|]. split; [exact HI'|].
  unfold visit in Hrun. rewrite visit_quiet in Hrun.
  injection Hrun as <-.
  destruct HI as (Hsvc & Hact & _).
  destruct (MessagingService.user_sessions (ChatRoutes.messaging_service st)
            !! session_id) as [username|] eqn:Hsess; [|exact Hsame].
  rewrite Hsvc in Hsess.
  destruct (ChatRoutes.active_connections st !! session_id) as [w'|] eqn:Hw';
    [|exact Hsame].
  destruct (String.eqb_spec username participant) as [-> | _]; [|exact Hsame].
  destruct (ChatRoutes.not_excluded session_id exclude_session) eqn:Hexcl;
    [|exact Hsame].
  cbn [andb].
  destruct (ChatRoutes.sockets st !! w') as [ws'|]; [|exact Hsame].
  destruct (ChatRoutes.can_send ws'); [|exact Hsame].
  cbn [ChatRoutes.with_sockets ChatRoutes.sockets].
  destruct (decide (w = w')) as [-> | Hne];
    [|rewrite lookup_insert_ne by congruence; exact Hsame].
  exfalso. apply Hnot. exists room_id, room, session_id, participant.
  rewrite <- Hact. repeat split; assumption.
Qed.

(** With no other task running, [broadcast_to_room] never raises and
    changes nothing but outboxes, to which it only appends the frame. *)
Lemma broadcast_only_sent :
  exists st',
    ChatRoutes.broadcast_to_room settings ctx [] message exclude_session st0
      = (inr tt, st') /\
    only_sent (ChatRoutes.NewMessage message) st0 st'.
Proof.
  destruct (ChatRoutes.payload_room_id message) as [room_id|] eqn:Hid.
  2:{ exists st0. split; [|apply only_sent_refl].
      apply broadcast_nowhere. now rewrite Hid. }
  destruct (MessagingService.chat_rooms (ChatRoutes.messaging_service st0) !! room_id)
    as [room|] eqn:Hroom.
  2:{ exists st0. split; [|apply only_sent_refl].
      apply broadcast_nowhere. now rewrite Hid. }
  rewrite (broadcast_quiet settings ctx message exclude_session st0 room_id room
             Hid Hroom).
  apply (for_each_invariant (only_sent frame st0)); [|apply only_sent_refl].
  intros participant st HI.
  apply (for_each_invariant (only_sent frame st0)); [|exact HI].
  intros session_id s HIs.
  destruct (visit_grows participant session_id 0%nat
              {| ChatRoutes.accepted := false; ChatRoutes.closed := None;
                 ChatRoutes.outbox := []; ChatRoutes.send_raises := None |}
              s HIs) as (s' & Hrun & HI' & _).
  exists s'. split; [exact Hrun | exact HI'].
Qed.

(** It sends through no socket but those it addresses: the sockets
    registered for a session, other than the excluded one, of a participant
    of the room of the message.  Every other socket is exactly as before,
    and the service and the registry are unchanged. *)
Lemma broadcast_spares (w : nat) :
  ~ addressed message exclude_session st0 w ->
  exists st',
    ChatRoutes.broadcast_to_room settings ctx [] message exclude_session st0
      = (inr tt, st') /\
    ChatRoutes.sockets st' !! w = ChatRoutes.sockets st0 !! w /\
    ChatRoutes.messaging_service st' = ChatRoutes.messaging_service st0 /\
    ChatRoutes.active_connections st' = ChatRoutes.active_connections st0.
Proof.
  intros Hnot.
  destruct (ChatRoutes.payload_room_id message) as [room_id|] eqn:Hid.
  2:{ exists st0. split; [|repeat split].
      apply broadcast_nowhere. now rewrite Hid. }
  destruct (MessagingService.chat_rooms (ChatRoutes.messaging_service st0) !! room_id)
    as [room|] eqn:Hroom.
  2:{ exists st0. split; [|repeat split].
      apply broadcast_nowhere. now rewrite Hid. }
  rewrite (broadcast_quiet settings ctx message exclude_session st0 room_id room
             Hid Hroom).
  destruct (for_each_invariant_in
              (fun st => only_sent frame st0 st /\
                         ChatRoutes.sockets st !! w = ChatRoutes.sockets st0 !! w)
              (fun participant => ChatRoutes.for_each sessions (visit participant))
              (ChatSchemas.participants room)) with (st := st0)
    as (st' & Hrun & HI & Hsame).
  - intros participant st Hpart HIst.
    apply (for_each_invariant
             (fun st => only_sent frame st0 st /\
                        ChatRoutes.sockets st !! w = ChatRoutes.sockets st0 !! w));
      [|exact HIst].
    intros session_id s HIs.
    destruct (visit_spares participant session_id w room_id room s Hid Hroom Hpart
                Hnot HIs) as (s' & Hr & HI' & Hs').
    eauto.
  - split; [apply only_sent_refl | reflexivity].
  - exists st'. split; [exact Hrun|]. split; [exact Hsame|].
    destruct HI as (Hsvc & Hact & _). auto.
Qed.

(** Every socket that it addresses and through which sending succeeds ends
    with at least one new copy of the frame at the end of its outbox, and
    with nothing else new. *)
Lemma broadcast_extends (w : nat) (ws : ChatRoutes.WebSocket) :
  addressed message exclude_session st0 w ->
  ChatRoutes.sockets st0 !! w = Some ws ->
  ChatRoutes.can_send ws = true ->
  exists st' n,
    ChatRoutes.broadcast_to_room settings ctx [] message exclude_session st0
      = (inr tt, st') /\
    only_sent frame st0 st' /\
    ChatRoutes.sockets st' !! w = Some (extend (repeat frame (S n)) ws).
Proof.
  intros (room_id & room & session_id & username & Hid & Hroom & Hpart & Hsess &
          Hactive & Hexcl) Hsock Hcan.
  rewrite (broadcast_quiet settings ctx message exclude_session st0 room_id room
             Hid Hroom).
  pose (I := fun st => only_sent frame st0 st /\ exists n, grown frame w ws n st).
  pose (D := fun st => exists n, grown frame w ws (S n) st).
  assert (Hvisit : forall participant sid st, I st ->
            exists st', visit participant sid st = (inr tt, st') /\ I st' /\
                        (D st -> D st')).
  { intros participant sid st [HI [n Hn]].
    destruct (visit_grows participant sid w ws st HI) as (st' & Hrun & HI' & Hg).
    exists st'. split; [exact Hrun|]. split.
    - split; [exact HI'|]. destruct (Hg n Hn) as (m & _ & Hm). eauto.
    - intros [k Hk]. destruct (Hg (S k) Hk) as (m & Hle & Hm).
      destruct m as [|m]; [lia|]. exists m. exact Hm. }
  assert (Hinner : forall participant st, I st ->
            exists st', ChatRoutes.for_each sessions (visit participant) st
                        = (inr tt, st') /\ I st' /\ (D st -> D st')).
  { intros participant st HI.
    destruct (for_each_invariant (fun s => I s /\ (D st -> D s))
                (visit participant) sessions) with (st := st)
      as (st' & Hrun & HI' & HD'); [|split; [exact HI | auto]|eauto].
    intros sid s [HIs HDs].
    destruct (Hvisit participant sid s HIs) as (s' & Hr & HI' & HD').
    exists s'. split; [exact Hr|]. split; [exact HI' | auto]. }
  destruct (for_each_reaches I D
              (fun participant => ChatRoutes.for_each sessions (visit participant))
              (ChatSchemas.participants room) username Hpart) with (st := st0)
    as (st' & Hrun & [HI' _] & [n Hn]).
  - intros participant st HI. apply Hinner, HI.
  - intros st HI.
    destruct (for_each_reaches I D (visit username) sessions session_id)
      with (st := st) as (s' & Hr & _ & HD); [| | |exact HI|eauto].
    + eapply session_on_record, Hsess.
    + intros sid s HIs. apply Hvisit, HIs.
    + intros s [HIs [n Hn]].
      destruct (visit_hits session_id username w ws s Hsess Hactive Hexcl Hcan HIs
                  n Hn) as (s' & Hr & Hs').
      exists s'. split; [exact Hr|]. exists n. exact Hs'.
  - split; [apply only_sent_refl|]. exists 0%nat. unfold grown.
    rewrite Hsock. cbn. now rewrite extend_nil.
  - exists st', n. split; [exact Hrun|]. split; [exact HI' | exact Hn].
Qed.

End Fanout.

Section Sequential.

Variable settings : Config.Settings.
Variable ctx : Security.CryptContext.

(** X19.  When no other task runs during its sends, [broadcast_to_room] returns
    normally whatever the message and the state, changes neither the
    service nor the registry, and sends through no socket but those it
    addresses: the sockets registered for a session, other than the
    excluded one, of a participant of the room of the message.  Every other
    socket is exactly as before. *)
Theorem broadcast_touches_only_addressed_sockets (message : ChatRoutes.Payload)
    (exclude_session : option string) (st0 : ChatRoutes.t) :
  exists st',
    ChatRoutes.broadcast_to_room settings ctx [] message exclude_session st0
      = (inr tt, st') /\
    ChatRoutes.messaging_service st' = ChatRoutes.messaging_service st0 /\
    ChatRoutes.active_connections st' = ChatRoutes.active_connections st0 /\
    forall w, ~ addressed message exclude_session st0 w ->
              ChatRoutes.sockets st' !! w = ChatRoutes.sockets st0 !! w.
Proof.
  destruct (broadcast_only_sent settings ctx message exclude_session st0)
    as (st' & Hrun & Hsvc & Hact & _).
  exists st'. split; [exact Hrun|]. split; [exact Hsvc|]. split; [exact Hact|].
  intros w Hnot.
  destruct (broadcast_spares settings ctx message exclude_session st0 w Hnot)
    as (st'' & Hrun' & Hsame & _).
  rewrite Hrun in Hrun'. now injection Hrun' as <-.
Qed.

(** X28.  When no other task runs during its sends, [broadcast_to_room] delivers
    to every socket it addresses through which sending succeeds: such a
    socket ends with its outbox extended by one or more copies of the frame
    and by nothing else, whatever the other sockets do when sent to; a
    socket registered only for the excluded session, like every socket that
    is not addressed, gets nothing. *)
Theorem sequential_broadcast_reaches_addressed_sockets
    (message : ChatRoutes.Payload) (exclude_session : option string)
    (st0 : ChatRoutes.t) :
  exists st',
    ChatRoutes.broadcast_to_room settings ctx [] message exclude_session st0
      = (inr tt, st') /\
    only_sent (ChatRoutes.NewMessage message) st0 st' /\
    (forall (w : nat) (ws : ChatRoutes.WebSocket),
       addressed message exclude_session st0 w ->
       ChatRoutes.sockets st0 !! w = Some ws ->
       ChatRoutes.can_send ws = true ->
       exists n, ChatRoutes.sockets st' !! w
                 = Some (extend (repeat (ChatRoutes.NewMessage message) (S n)) ws)) /\
    (forall (w : nat),
       ~ addressed message exclude_session st0 w ->
       ChatRoutes.sockets st' !! w = ChatRoutes.sockets st0 !! w) /\
    (forall (session_id : string) (w : nat),
       exclude_session = Some session_id ->
       (forall other, ChatRoutes.active_connections st0 !! other = Some w ->
                      other = session_id) ->
       ChatRoutes.sockets st' !! w = ChatRoutes.sockets st0 !! w).
Proof.
  destruct (broadcast_only_sent settings ctx message exclude_session st0)
    as (st' & Hrun & Hsent).
  assert (Hspares : forall w, ~ addressed message exclude_session st0 w ->
            ChatRoutes.sockets st' !! w = ChatRoutes.sockets st0 !! w).
  { intros w Hnot.
    destruct (broadcast_spares settings ctx message exclude_session st0 w Hnot)
      as (st'' & Hrun' & Hsame & _).
    rewrite Hrun in Hrun'. now injection Hrun' as <-. }
  exists st'. split; [exact Hrun|]. split; [exact Hsent|].
  split; [|split; [exact Hspares|]].
  - intros w ws Haddr Hsock Hcan.
    destruct (broadcast_extends settings ctx message exclude_session st0 w ws
                Haddr Hsock Hcan) as (st'' & n & Hrun' & _ & Hn).
    rewrite Hrun in Hrun'. injection Hrun' as <-. eauto.
  - intros session_id w -> Hown. apply Hspares.
    intros (rid & room & other & u & _ & _ & _ & _ & Hact & Hexcl).
    apply Hown in Hact as ->. cbn in Hexcl. now rewrite String.eqb_refl in Hexcl.
Qed.

End Sequential.

(** ** A broadcast while other tasks run *)

Section Interleaved.

Variable settings : Config.Settings.
Variable ctx : Security.CryptContext.
Variable message : ChatRoutes.Payload.
Variable exclude_session : option string.

Let changed : Py.Exception :=
  Py.RuntimeError "dictionary changed size during iteration".

(** The ways a part of the broadcast ends. *)
Let ends {A : Type} (r : Py.result A * ChatRoutes.t) : Prop :=
  (exists a, fst r = inr a) \/ fst r = inl changed.

(** A visit never raises: what sending raises is caught. *)
Lemma visit_returns (others : ChatRoutes.Interference)
    (participant session_id : string) (st : ChatRoutes.t) :
  fst (ChatRoutes.visit settings ctx others message exclude_session participant
         session_id st) = inr tt.
Proof.
  unfold ChatRoutes.visit. rewrite run_bind. cbn [Eff.get].
  destruct (MessagingService.user_sessions _ !! session_id); [|reflexivity].
  destruct (ChatRoutes.active_connections st !! session_id) as [w|]; [|reflexivity].
  destruct (_ && _); [|reflexivity].
  rewrite run_try_except.
  destruct (ChatRoutes.await_send settings ctx others w _ st) as [[e | []] st'];
    reflexivity.
Qed.

Lemma sessions_loop_ends (others : nat -> ChatRoutes.Interference)
    (participant : string) (used : nat) (keys : list string) :
  forall j st,
    ends (ChatRoutes.sessions_loop settings ctx others message exclude_session
            participant used keys j st).
Proof.
  induction keys as [|session_id keys IH]; intros j st;
    cbn [ChatRoutes.sessions_loop]; rewrite run_bind; cbn [Eff.get];
    destruct (negb _); try (right; reflexivity); [left; eexists; reflexivity|].
  rewrite run_bind.
  pose proof (visit_returns (others j) participant session_id st) as Hv.
  destruct (ChatRoutes.visit _ _ _ _ _ _ _ st) as [[e | []] st']; [discriminate|].
  apply IH.
Qed.

Lemma sessions_pass_ends (others : nat -> ChatRoutes.Interference)
    (participant : string) (st : ChatRoutes.t) :
  ends (ChatRoutes.sessions_pass settings ctx others message exclude_session
          participant st).
Proof.
  unfold ChatRoutes.sessions_pass. rewrite run_bind. cbn [Eff.get].
  apply sessions_loop_ends.
Qed.

Lemma for_each_ends {A : Type} (body : A -> Eff.M ChatRoutes.t unit) (l : list A) :
  (forall x st, ends (body x st)) ->
  forall st, ends (ChatRoutes.for_each l body st).
Proof.
  intros Hbody. induction l as [|x l IH]; intros st;
    [left; eexists; reflexivity|].
  rewrite for_each_cons. specialize (Hbody x st).
  destruct (body x st) as [[e | []] st']; [|apply IH].
  destruct Hbody as [[a [=]] | H]; right; exact H.
Qed.

Lemma participants_loop_ends (room_id : string) (room : ChatSchemas.ChatRoom)
    (sched : ChatRoutes.Schedule) :
  forall i st,
    ends (ChatRoutes.participants_loop settings ctx sched message exclude_session
            room_id room i st).
Proof.
  induction sched as [|others sched IH]; intros i st;
    cbn [ChatRoutes.participants_loop]; rewrite run_bind; cbn [Eff.get].
  - apply for_each_ends. intros participant s. apply sessions_pass_ends.
  - destruct (ChatRoutes.live_participants room_id room st !! i) as [participant|];
      [|left; eexists; reflexivity].
    rewrite run_bind.
    pose proof (sessions_pass_ends others participant st) as Hp.
    destruct (ChatRoutes.sessions_pass _ _ _ _ _ _ st) as [[e | []] st'];
      [|apply IH].
    destruct Hp as [[a [=]] | H]; right; exact H.
Qed.

(** A step that is no login leaves [user_sessions] as it is. *)
Lemma run_step_sessions (step : ChatRoutes.Step) (st : ChatRoutes.t) :
  is_login step = false ->
  MessagingService.user_sessions
    (ChatRoutes.messaging_service (ChatRoutes.run_step settings ctx step st))
  = MessagingService.user_sessions (ChatRoutes.messaging_service st).
Proof.
  intros Hstep.
  destruct step; try discriminate;
    cbn [ChatRoutes.run_step ChatRoutes.with_service ChatRoutes.with_active
         ChatRoutes.messaging_service].
  - apply register_user_sessions.
  - apply create_secure_channel_sessions.
  - unfold ChatRoutes.websocket_connect.
    destruct (MessagingService.user_sessions _ !! session_id) as [u|]; [|reflexivity].
    cbn [snd ChatRoutes.with_active ChatRoutes.with_sockets
         ChatRoutes.messaging_service].
    destruct (MessagingService.connected_users _ !! u); reflexivity.
  - rewrite run_try_except. pose proof (send_text_service w f st) as H.
    destruct (ChatRoutes.send_text w f st) as [[e | []] st'];
      exact (f_equal MessagingService.user_sessions H).
  - unfold ChatRoutes.websocket_disconnect.
    cbn [ChatRoutes.with_active ChatRoutes.messaging_service].
    destruct (MessagingService.connected_users _ !! username); reflexivity.
  - reflexivity.
  - destruct (ChatRoutes.sockets st !! w); reflexivity.
Qed.

Lemma run_steps_sessions (steps : list ChatRoutes.Step) :
  Forall (fun step => is_login step = false) steps ->
  forall st,
  MessagingService.user_sessions
    (ChatRoutes.messaging_service (ChatRoutes.run_steps settings ctx steps st))
  = MessagingService.user_sessions (ChatRoutes.messaging_service st).
Proof.
  unfold ChatRoutes.run_steps.
  induction 1 as [|step steps Hstep _ IH]; intros st; cbn [fold_left];
    [reflexivity|].
  rewrite IH. apply run_step_sessions, Hstep.
Qed.

Lemma visit_sessions (others : ChatRoutes.Interference)
    (participant session_id : string) (st : ChatRoutes.t) :
  no_login others ->
  MessagingService.user_sessions
    (ChatRoutes.messaging_service
       (snd (ChatRoutes.visit settings ctx others message exclude_session
               participant session_id st)))
  = MessagingService.user_sessions (ChatRoutes.messaging_service st).
Proof.
  intros Hquiet. apply Forall_app in Hquiet as [Hbefore Hafter].
  unfold ChatRoutes.visit. rewrite run_bind. cbn [Eff.get].
  destruct (MessagingService.user_sessions _ !! session_id); [|reflexivity].
  destruct (ChatRoutes.active_connections st !! session_id) as [w|]; [|reflexivity].
  destruct (_ && _); [|reflexivity].
  assert (Hsend :
    MessagingService.user_sessions
      (ChatRoutes.messaging_service
         (snd (ChatRoutes.await_send settings ctx others w
                 (ChatRoutes.NewMessage message) st)))
    = MessagingService.user_sessions (ChatRoutes.messaging_service st)).
  { unfold ChatRoutes.await_send. cbn [snd].
    rewrite (run_steps_sessions _ Hafter), send_text_service.
    apply (run_steps_sessions _ Hbefore). }
  rewrite run_try_except.
  destruct (ChatRoutes.await_send settings ctx others w _ st) as [[e | []] st'];
    exact Hsend.
Qed.

Lemma sessions_loop_returns (others : nat -> ChatRoutes.Interference)
    (participant : string) (used : nat) (keys : list string) :
  (forall j, no_login (others j)) ->
  forall j st,
    size (MessagingService.user_sessions (ChatRoutes.messaging_service st)) = used ->
    exists st',
      ChatRoutes.sessions_loop settings ctx others message exclude_session
        participant used keys j st = (inr tt, st') /\
      MessagingService.user_sessions (ChatRoutes.messaging_service st')
      = MessagingService.user_sessions (ChatRoutes.messaging_service st).
Proof.
  intros Hquiet.
  induction keys as [|session_id keys IH]; intros j st Hsize;
    cbn [ChatRoutes.sessions_loop]; rewrite run_bind; cbn [Eff.get];
    rewrite Hsize, Nat.eqb_refl; cbn [negb]; [eauto|].
  rewrite run_bind.
  pose proof (visit_returns (others j) participant session_id st) as Hv.
  pose proof (visit_sessions (others j) participant session_id st (Hquiet j)) as Hs.
  destruct (ChatRoutes.visit _ _ _ _ _ _ _ st) as [[e | []] st1]; [discriminate|].
  cbn [snd] in Hs.
  destruct (IH (S j) st1) as (st' & Hrun & Hsame); [now rewrite Hs|].
  exists st'. split; [exact Hrun | congruence].
Qed.

Lemma sessions_pass_returns (others : nat -> ChatRoutes.Interference)
    (participant : string) (st : ChatRoutes.t) :
  (forall j, no_login (others j)) ->
  fst (ChatRoutes.sessions_pass settings ctx others message exclude_session
         participant st) = inr tt.
Proof.
  intros Hquiet. unfold ChatRoutes.sessions_pass. rewrite run_bind. cbn [Eff.get].
  destruct (sessions_loop_returns others participant _
              (map fst (map_to_list
                 (MessagingService.user_sessions (ChatRoutes.messaging_service st))))
              Hquiet 0%nat st eq_refl) as (st' & -> & _).
  reflexivity.
Qed.

Lemma no_login_quiet : no_login ChatRoutes.quiet.
Proof. constructor. Qed.

Lemma participants_loop_returns (room_id : string) (room : ChatSchemas.ChatRoom)
    (sched : ChatRoutes.Schedule) :
  (forall others j, others ∈ sched -> no_login (others j)) ->
  forall i st,
    fst (ChatRoutes.participants_loop settings ctx sched message exclude_session
           room_id room i st) = inr tt.
Proof.
  induction sched as [|others sched IH]; intros Hquiet i st;
    cbn [ChatRoutes.participants_loop]; rewrite run_bind; cbn [Eff.get].
  - generalize (skipn i (ChatRoutes.live_participants room_id room st)).
    intros l. revert st. induction l as [|participant l IHl]; intros st;
      [reflexivity|].
    rewrite for_each_cons.
    pose proof (sessions_pass_returns (fun _ => ChatRoutes.quiet) participant st
                  (fun _ => no_login_quiet)) as Hp.
    destruct (ChatRoutes.sessions_pass _ _ _ _ _ _ st) as [[e | []] st'];
      [discriminate | apply IHl].
  - destruct (ChatRoutes.live_participants room_id room st !! i) as [participant|];
      [|reflexivity].
    rewrite run_bind.
    pose proof (sessions_pass_returns others participant st
                  (fun j => Hquiet others j ltac:(left))) as Hp.
    destruct (ChatRoutes.sessions_pass _ _ _ _ _ _ st) as [[e | []] st'];
      [discriminate|].
    apply IH. intros others' j Hin. apply Hquiet. now right.
Qed.

(** X29.  Whatever the other tasks do during its sends, [broadcast_to_room]
    either returns normally or raises the [RuntimeError] of the iterator
    over [user_sessions], and nothing else: what a send raises is caught.
    It returns normally when no task logs in meanwhile. *)
Theorem broadcast_raises_only_when_sessions_change (sched : ChatRoutes.Schedule)
    (st0 : ChatRoutes.t) :
  let r := ChatRoutes.broadcast_to_room settings ctx sched message exclude_session
             st0 in
  (fst r = inr tt \/
   fst r = inl (Py.RuntimeError "dictionary changed size during iteration")) /\
  ((forall others j, others ∈ sched -> no_login (others j)) -> fst r = inr tt).
Proof.
  cbv zeta. unfold ChatRoutes.broadcast_to_room. rewrite run_bind. cbn [Eff.get].
  destruct (ChatRoutes.payload_room_id message) as [room_id|];
    [|split; [left|]; reflexivity].
  destruct (MessagingService.chat_rooms _ !! room_id) as [room|];
    [|split; [left|]; reflexivity].
  split.
  - destruct (participants_loop_ends room_id room sched 0%nat st0) as [[[] H] | H];
      [left | right]; exact H.
  - intros Hquiet. now apply participants_loop_returns.
Qed.

End Interleaved.

(** ** The receive loop *)

Lemma addressed_same (message : ChatRoutes.Payload) (exclude_session : option string)
    (st st' : ChatRoutes.t) (w : nat) :
  ChatRoutes.messaging_service st' = ChatRoutes.messaging_service st ->
  ChatRoutes.active_connections st' = ChatRoutes.active_connections st ->
  addressed message exclude_session st w -> addressed message exclude_session st' w.
Proof.
  intros Hsvc Hact (room_id & room & session_id & username & H).
  exists room_id, room, session_id, username. rewrite Hsvc, Hact. exact H.
Qed.

Section ReceiveLoop.

Variable settings : Config.Settings.
Variable ctx : Security.CryptContext.

(** X20.  A post that [create_message] refuses (unknown session, unknown room,
    or a user who does not participate in the room) is answered, when no
    other task runs during the send, with one error frame to the sender and
    with nothing else: no other socket, no part of the service and no
    registration changes, and the loop goes on. *)
Theorem refused_post_answers_sender_only (sched : ChatRoutes.Schedule)
    (uuid : string) (now : Datetime.t)
    (session_id : string) (w : nat) (username room_id content : string)
    (st : ChatRoutes.t) (ws : ChatRoutes.WebSocket) :
  fst (MessagingService.create_message uuid now session_id room_id content
         (ChatRoutes.messaging_service st)) = None ->
  ChatRoutes.sockets st !! w = Some ws ->
  ChatRoutes.can_send ws = true ->
  ChatRoutes.websocket_receive settings ctx ChatRoutes.quiet sched uuid now
    session_id w username (ChatRoutes.InMessage room_id content) st
  = (inr true,
     ChatRoutes.with_sockets
       (<[w := ChatRoutes.push (ChatRoutes.ErrorFrame "No se pudo enviar el mensaje") ws]>
          (ChatRoutes.sockets st)) st).
Proof.
  intros Hnone Hw Hcan. unfold ChatRoutes.websocket_receive.
  rewrite run_try_except, run_bind. cbn [Eff.get]. rewrite run_bind.
  cbn [Eff.modify]. rewrite create_message_state, Hnone, with_service_same.
  rewrite run_bind, await_send_quiet, (send_text_run w _ st ws Hw Hcan). reflexivity.
Qed.

(** X21.  A post that [create_message] accepts, from a session registered with a
    socket through which sending succeeds, when no other task runs during
    the sends: the sender first gets the acknowledgement and then, like
    every other socket the broadcast addresses and can send through, at
    least one copy of the message; the sockets the broadcast does not
    address are left alone; the service and the registry do not change, and
    the loop goes on. *)
Theorem accepted_post_is_acknowledged_then_broadcast (uuid : string)
    (now : Datetime.t) (session_id : string) (w : nat)
    (username room_id content : string) (room : ChatSchemas.ChatRoom)
    (st : ChatRoutes.t) (ws : ChatRoutes.WebSocket) :
  MessagingService.user_sessions (ChatRoutes.messaging_service st) !! session_id
    = Some username ->
  username <> "" ->
  MessagingService.chat_rooms (ChatRoutes.messaging_service st) !! room_id
    = Some room ->
  username ∈ ChatSchemas.participants room ->
  ChatRoutes.active_connections st !! session_id = Some w ->
  ChatRoutes.sockets st !! w = Some ws ->
  ChatRoutes.can_send ws = true ->
  let message :=
    {| ChatSchemas.message_id := uuid; ChatSchemas.sender := username;
       ChatSchemas.room_id := room_id; ChatSchemas.content := content;
       ChatSchemas.timestamp := now; ChatSchemas.read_by := [username] |} in
  let frame := ChatRoutes.NewMessage (ChatRoutes.PMessage message) in
  exists st' n,
    ChatRoutes.websocket_receive settings ctx ChatRoutes.quiet [] uuid now
      session_id w username (ChatRoutes.InMessage room_id content) st
      = (inr true, st') /\
    ChatRoutes.sockets st' !! w
      = Some (extend (ChatRoutes.MessageSent uuid now :: repeat frame (S n)) ws) /\
    ChatRoutes.messaging_service st' = ChatRoutes.messaging_service st /\
    ChatRoutes.active_connections st' = ChatRoutes.active_connections st /\
    (forall w2 ws2,
       w2 <> w ->
       addressed (ChatRoutes.PMessage message) None st w2 ->
       ChatRoutes.sockets st !! w2 = Some ws2 ->
       ChatRoutes.can_send ws2 = true ->
       exists k, ChatRoutes.sockets st' !! w2
                 = Some (extend (repeat frame (S k)) ws2)) /\
    (forall w3,
       w3 <> w ->
       ~ addressed (ChatRoutes.PMessage message) None st w3 ->
       ChatRoutes.sockets st' !! w3 = ChatRoutes.sockets st !! w3).
Proof.
  intros Hsess Hname Hroom Hpart Hactive Hw Hcan message frame.
  set (ack := ChatRoutes.MessageSent uuid now).
  set (st1 := ChatRoutes.with_sockets
                (<[w := ChatRoutes.push ack ws]> (ChatRoutes.sockets st)) st).
  assert (Hcreated :
    MessagingService.create_message uuid now session_id room_id content
      (ChatRoutes.messaging_service st) = (Some message, ChatRoutes.messaging_service st)).
  { apply (create_message_returns uuid now session_id room_id content username room);
      try assumption. now apply truthy_ne. }
  assert (Hsender : addressed (ChatRoutes.PMessage message) None st1 w).
  { exists room_id, room, session_id, username. repeat split; assumption. }
  destruct (broadcast_extends settings ctx (ChatRoutes.PMessage message) None
              st1 w (ChatRoutes.push ack ws) Hsender)
    as (st' & n & Hrun & (Hsvc & Hact & _) & Hgrown).
  { subst st1. cbn. apply lookup_insert_eq. }
  { exact Hcan. }
  assert (Hreceive :
    ChatRoutes.websocket_receive settings ctx ChatRoutes.quiet [] uuid now
      session_id w username (ChatRoutes.InMessage room_id content) st
    = (inr true, st')).
  { unfold ChatRoutes.websocket_receive.
    rewrite run_try_except, run_bind. cbn [Eff.get]. rewrite run_bind.
    cbn [Eff.modify]. rewrite Hcreated. cbn [fst snd].
    rewrite with_service_same.
    rewrite run_bind, await_send_quiet, (send_text_run w _ st ws Hw Hcan).
    change (ChatRoutes.with_sockets
              (<[w := ChatRoutes.push
                        (ChatRoutes.MessageSent (ChatSchemas.message_id message)
                           (ChatSchemas.timestamp message)) ws]>
                 (ChatRoutes.sockets st)) st) with st1.
    rewrite run_bind, Hrun. reflexivity. }
  exists st', n. split; [exact Hreceive|]. split.
  { rewrite Hgrown. f_equal. unfold extend, ChatRoutes.push. cbn.
    now rewrite <- app_assoc. }
  split; [exact Hsvc|]. split; [exact Hact|]. split.
  - intros w2 ws2 Hne Haddr Hw2 Hcan2.
    destruct (broadcast_extends settings ctx (ChatRoutes.PMessage message) None
                st1 w2 ws2) as (st'' & k & Hrun'' & _ & Hk).
    + eapply addressed_same; [| |exact Haddr]; reflexivity.
    + subst st1. cbn. rewrite lookup_insert_ne by congruence. exact Hw2.
    + exact Hcan2.
    + rewrite Hrun in Hrun''. injection Hrun'' as <-. eauto.
  - intros w3 Hne Hnot.
    destruct (broadcast_spares settings ctx (ChatRoutes.PMessage message)
                None st1 w3) as (st'' & Hrun'' & Hsame & _).
    + intros Haddr. apply Hnot.
      eapply addressed_same; [| |exact Haddr]; reflexivity.
    + rewrite Hrun in Hrun''. injection Hrun'' as <-.
      rewrite Hsame. subst st1. cbn. now rewrite lookup_insert_ne by congruence.
Qed.

(** X22.  A typing notice is never echoed, when no other task runs during the
    sends: the socket of the session that types, when no other session is
    registered with it, is left exactly as it was, whatever the room; and
    when the room exists and its id is not empty, every socket the
    broadcast addresses and can send through gets at least one copy of the
    notice.  The loop goes on either way. *)
Theorem typing_notice_is_not_echoed (during : ChatRoutes.Interference)
    (uuid : string) (now : Datetime.t)
    (session_id : string) (w : nat) (username room_id : string)
    (st : ChatRoutes.t) :
  (forall other, ChatRoutes.active_connections st !! other = Some w ->
                 other = session_id) ->
  let notice := ChatRoutes.PTyping room_id username in
  exists st',
    ChatRoutes.websocket_receive settings ctx during [] uuid now session_id w
      username (ChatRoutes.InTyping (Some room_id)) st = (inr true, st') /\
    ChatRoutes.sockets st' !! w = ChatRoutes.sockets st !! w /\
    ChatRoutes.messaging_service st' = ChatRoutes.messaging_service st /\
    ChatRoutes.active_connections st' = ChatRoutes.active_connections st /\
    (room_id <> "" ->
     forall w2 ws2,
       addressed notice (Some session_id) st w2 ->
       ChatRoutes.sockets st !! w2 = Some ws2 ->
       ChatRoutes.can_send ws2 = true ->
       exists k, ChatRoutes.sockets st' !! w2
                 = Some (extend (repeat (ChatRoutes.NewMessage notice) (S k)) ws2)).
Proof.
  intros Hown notice.
  assert (Hnot : ~ addressed notice (Some session_id) st w).
  { intros (rid & room & other & u & _ & _ & _ & _ & Hact & Hexcl).
    apply Hown in Hact as ->. cbn in Hexcl. now rewrite String.eqb_refl in Hexcl. }
  destruct (broadcast_spares settings ctx notice (Some session_id) st w Hnot)
    as (st' & Hrun & Hsame & Hsvc & Hact).
  unfold ChatRoutes.websocket_receive. rewrite run_try_except, run_bind.
  cbn [Eff.get].
  destruct (MessagingService.truthy room_id) eqn:Htruthy; cbn [andb].
  2:{ exists st. split; [reflexivity|]. repeat split.
      intros Hne. apply truthy_ne in Hne. congruence. }
  destruct (bool_decide (is_Some (MessagingService.chat_rooms
              (ChatRoutes.messaging_service st) !! room_id))) eqn:Hroom.
  2:{ exists st. split; [reflexivity|]. repeat split.
      intros _ w2 ws2 (rid & room & other & u & [= <-] & Hr & _).
      apply bool_decide_eq_false in Hroom. exfalso. apply Hroom. eauto. }
  fold notice. rewrite run_bind, Hrun.
  exists st'. split; [reflexivity|]. split; [exact Hsame|].
  split; [exact Hsvc|]. split; [exact Hact|].
  intros _ w2 ws2 Haddr Hw2 Hcan2.
  destruct (broadcast_extends settings ctx notice (Some session_id) st w2 ws2
              Haddr Hw2 Hcan2) as (st'' & k & Hrun'' & _ & Hk).
  rewrite Hrun in Hrun''. injection Hrun'' as <-. eauto.
Qed.

(** X23.  After a disconnection the socket of the session, when no other session
    is registered with it, is out of reach: the session is no longer in the
    registry, the user, if known, is marked offline, and a later broadcast
    of any message, during whose sends no other task runs, sends nothing
    through the socket. *)
Theorem disconnected_socket_is_out_of_reach (session_id username : string)
    (w : nat) (st : ChatRoutes.t) (message : ChatRoutes.Payload)
    (exclude_session : option string) :
  (forall other, ChatRoutes.active_connections st !! other = Some w ->
                 other = session_id) ->
  let st1 := ChatRoutes.websocket_disconnect session_id username st in
  ChatRoutes.active_connections st1 !! session_id = None /\
  (forall user,
     MessagingService.connected_users (ChatRoutes.messaging_service st) !! username
       = Some user ->
     exists user',
       MessagingService.connected_users (ChatRoutes.messaging_service st1) !! username
         = Some user' /\
       ChatSchemas.is_online user' = false) /\
  exists st',
    ChatRoutes.broadcast_to_room settings ctx [] message exclude_session st1
      = (inr tt, st') /\
    ChatRoutes.sockets st' !! w = ChatRoutes.sockets st !! w.
Proof.
  intros Hown st1.
  assert (Hact : ChatRoutes.active_connections st1
                 = delete session_id (ChatRoutes.active_connections st)).
  { subst st1. unfold ChatRoutes.websocket_disconnect.
    cbn [ChatRoutes.with_active ChatRoutes.messaging_service].
    destruct (MessagingService.connected_users _ !! username); reflexivity. }
  assert (Hsock : ChatRoutes.sockets st1 = ChatRoutes.sockets st).
  { subst st1. unfold ChatRoutes.websocket_disconnect.
    cbn [ChatRoutes.with_active ChatRoutes.messaging_service].
    destruct (MessagingService.connected_users _ !! username); reflexivity. }
  split; [rewrite Hact; apply lookup_delete_eq|]. split.
  { intros user Huser. subst st1. unfold ChatRoutes.websocket_disconnect.
    cbn [ChatRoutes.with_active ChatRoutes.messaging_service]. rewrite Huser.
    cbn [ChatRoutes.with_service ChatRoutes.messaging_service
         MessagingService.with_connected_users MessagingService.with_sessions
         MessagingService.connected_users].
    eexists. split; [apply lookup_insert_eq | reflexivity]. }
  destruct (broadcast_spares settings ctx message exclude_session st1 w)
    as (st' & Hrun & Hsame & _).
  { intros (rid & room & other & u & _ & _ & _ & _ & Ha & _).
    rewrite Hact in Ha.
    destruct (decide (other = session_id)) as [-> | Hne].
    - rewrite lookup_delete_eq in Ha. discriminate.
    - rewrite lookup_delete_ne in Ha by congruence. apply Hown in Ha. contradiction. }
  exists st'. split; [exact Hrun|]. now rewrite Hsame, Hsock.
Qed.

End ReceiveLoop.

(** ** The token of a login *)

Section Token.

Variable settings : Config.Settings.
Variable ctx : Security.CryptContext.

(** X24.  The token of a successful login, for a user with a non-empty name,
    identifies the user and the session to the routes until it expires,
    the configured number of minutes after the login: [get_current_user]
    returns the user name and the id of the session, and that id is on
    record for the user. *)
Theorem login_token_identifies_user_and_session (env : MessagingService.AuthEnv)
    (username password vpn_ip : string) (self : MessagingService.t)
    (utcnow : Z) (res : MessagingService.AuthResult) :
  let r := MessagingService.authenticate_user settings ctx env username password
             vpn_ip self in
  fst r = Py.ok res ->
  MessagingService.success res = true ->
  username <> "" ->
  utcnow <= MessagingService.auth_utcnow env
            + Config.ACCESS_TOKEN_EXPIRE_MINUTES settings * 60 ->
  exists token,
    MessagingService.token res = Some token /\
    ChatRoutes.get_current_user settings utcnow token
      = Some (username, Some (MessagingService.auth_uuid env)) /\
    MessagingService.user_sessions (snd r) !! MessagingService.auth_uuid env
      = Some username.
Proof.
  intros r Hres Hok Hname Htime.
  destruct (authenticate_success settings ctx env username password vpn_ip self
              res Hres Hok) as [Htok Hsess].
  fold r in Hsess. eexists. split; [exact Htok|]. split; [|exact Hsess].
  unfold ChatRoutes.get_current_user, Security.verify_token,
    Security.create_access_token.
  rewrite !String.eqb_refl. cbn [andb].
  destruct (Z.ltb_spec (MessagingService.auth_utcnow env
              + Config.ACCESS_TOKEN_EXPIRE_MINUTES settings * 60) utcnow);
    [lia|].
  cbn. apply truthy_ne in Hname. now rewrite Hname.
Qed.

End Token.

(** ** Closed instances *)

(** The registry of the demonstration state: three sessions, one socket each. *)
Lemma demo_registry (other : string) (w : nat) :
  ChatRoutes.active_connections demo_broadcast_state !! other = Some w ->
  (other, w) = (demo_session 1, 1%nat) \/
  (other, w) = (demo_session 2, 2%nat) \/
  (other, w) = (demo_session 3, 3%nat).
Proof.
  intros H. apply elem_of_map_to_list in H.
  remember (map_to_list (ChatRoutes.active_connections demo_broadcast_state))
    as l eqn:Hl.
  vm_compute in Hl. subst l.
  repeat (apply elem_of_cons in H as [H | H]; [injection H as -> ->; vm_compute; tauto|]).
  now apply elem_of_nil in H.
Qed.

(** The third socket of the demonstration state is addressed by a message
    to "general". *)
Lemma demo_third_addressed (message : ChatRoutes.Payload)
    (exclude_session : option string) :
  ChatRoutes.payload_room_id message = Some "general" ->
  ChatRoutes.not_excluded (demo_session 3) exclude_session = true ->
  addressed message exclude_session demo_broadcast_state 3.
Proof.
  intros Hid Hexcl. exists "general".
  exists {| ChatSchemas.id := "general"; ChatSchemas.name := Some "Canal General";
            ChatSchemas.participants := ["usuario1"; "usuario2"; "usuario3"];
            ChatSchemas.is_group := true; ChatSchemas.created_at := demo_now;
            ChatSchemas.encryption_key := None |}.
  exists (demo_session 3), "usuario3".
  split; [exact Hid|]. split; [vm_compute; reflexivity|].
  split; [apply list_elem_of_In; cbn; tauto|].
  split; [vm_compute; reflexivity|]. split; [vm_compute; reflexivity|].
  exact Hexcl.
Qed.

(** The example of the specification, with no other task running: in a
    room of three participants in which sending to the second raises, the
    broadcast returns normally and the first and the third receive the
    frame; the second receives nothing. *)
Lemma sequential_broadcast_reaches_addressed_sockets_witness :
  let frame := ChatRoutes.NewMessage (ChatRoutes.PMessage demo_message) in
  let r := ChatRoutes.broadcast_to_room Config.settings demo_ctx []
             (ChatRoutes.PMessage demo_message) None demo_broadcast_state in
  fst r = inr tt /\
  (exists ws n, ChatRoutes.sockets (snd r) !! 1%nat = Some ws /\
                ChatRoutes.outbox ws = repeat frame (S n)) /\
  (exists ws n, ChatRoutes.sockets (snd r) !! 3%nat = Some ws /\
                ChatRoutes.outbox ws = repeat frame (S n)) /\
  (exists ws, ChatRoutes.sockets (snd r) !! 2%nat = Some ws /\
              ChatRoutes.outbox ws = []) /\
  ChatRoutes.sockets (snd r) !! 7%nat = ChatRoutes.sockets demo_broadcast_state !! 7%nat.
Proof.
  cbv zeta.
  destruct (sequential_broadcast_reaches_addressed_sockets Config.settings demo_ctx
              (ChatRoutes.PMessage demo_message) None demo_broadcast_state)
    as (st' & Hrun & _ & Hdeliver & Hspares & _).
  rewrite Hrun. cbn [fst snd]. split; [reflexivity|].
  split; [|split; [|split]].
  - destruct (Hdeliver 1%nat
                {| ChatRoutes.accepted := true; ChatRoutes.closed := None;
                   ChatRoutes.outbox := []; ChatRoutes.send_raises := None |})
      as [n Hn]; [ | vm_compute; reflexivity | reflexivity | ].
    + exists "general".
      exists {| ChatSchemas.id := "general"; ChatSchemas.name := Some "Canal General";
                ChatSchemas.participants := ["usuario1"; "usuario2"; "usuario3"];
                ChatSchemas.is_group := true; ChatSchemas.created_at := demo_now;
                ChatSchemas.encryption_key := None |}.
      exists (demo_session 1), "usuario1".
      split; [reflexivity|]. split; [vm_compute; reflexivity|].
      split; [apply list_elem_of_In; cbn; tauto|].
      split; [vm_compute; reflexivity|]. split; [vm_compute; reflexivity|].
      reflexivity.
    + eexists _, n. split; [exact Hn | reflexivity].
  - destruct (Hdeliver 3%nat
                {| ChatRoutes.accepted := true; ChatRoutes.closed := None;
                   ChatRoutes.outbox := []; ChatRoutes.send_raises := None |})
      as [n Hn]; [ | vm_compute; reflexivity | reflexivity | ].
    + apply demo_third_addressed; reflexivity.
    + eexists _, n. split; [exact Hn | reflexivity].
  - assert (Hr : snd (ChatRoutes.broadcast_to_room Config.settings demo_ctx []
                        (ChatRoutes.PMessage demo_message) None demo_broadcast_state)
                 = st') by now rewrite Hrun.
    rewrite <- Hr. eexists. split; [vm_compute; reflexivity | reflexivity].
  - apply Hspares.
    intros (rid & room & other & u & _ & _ & _ & _ & Hact & _).
    apply demo_registry in Hact as [Hact | [Hact | Hact]]; discriminate.
Defined.

Lemma refused_post_answers_sender_only_witness :
  let st := demo_broadcast_state in
  let ws := {| ChatRoutes.accepted := true; ChatRoutes.closed := None;
               ChatRoutes.outbox := []; ChatRoutes.send_raises := None |} in
  fst (MessagingService.create_message "c0ffee00-0000-4000-8000-000000000000"
         demo_now (demo_session 1) "no-such-room" "hola"
         (ChatRoutes.messaging_service st)) = None /\
  ChatRoutes.sockets st !! 1%nat = Some ws /\
  ChatRoutes.can_send ws = true /\
  ChatRoutes.websocket_receive Config.settings demo_ctx ChatRoutes.quiet []
    "c0ffee00-0000-4000-8000-000000000000"
    demo_now (demo_session 1) 1 "usuario1"
    (ChatRoutes.InMessage "no-such-room" "hola") st
  = (inr true,
     ChatRoutes.with_sockets
       (<[1%nat := ChatRoutes.push
                     (ChatRoutes.ErrorFrame "No se pudo enviar el mensaje") ws]>
          (ChatRoutes.sockets st)) st).
Proof.
  cbv zeta.
  assert (Hnone :
    fst (MessagingService.create_message "c0ffee00-0000-4000-8000-000000000000"
           demo_now (demo_session 1) "no-such-room" "hola"
           (ChatRoutes.messaging_service demo_broadcast_state)) = None)
    by (vm_compute; reflexivity).
  assert (Hw : ChatRoutes.sockets demo_broadcast_state !! 1%nat
               = Some {| ChatRoutes.accepted := true; ChatRoutes.closed := None;
                         ChatRoutes.outbox := []; ChatRoutes.send_raises := None |})
    by (vm_compute; reflexivity).
  split; [exact Hnone|]. split; [exact Hw|]. split; [reflexivity|].
  exact (refused_post_answers_sender_only Config.settings demo_ctx []
           "c0ffee00-0000-4000-8000-000000000000"
           demo_now (demo_session 1) 1 "usuario1" "no-such-room" "hola"
           demo_broadcast_state _ Hnone Hw eq_refl).
Defined.

Lemma accepted_post_is_acknowledged_then_broadcast_witness :
  let st := demo_broadcast_state in
  let uuid := "c0ffee00-0000-4000-8000-000000000000" in
  let frame := ChatRoutes.NewMessage (ChatRoutes.PMessage demo_message) in
  let r := ChatRoutes.websocket_receive Config.settings demo_ctx ChatRoutes.quiet []
             uuid demo_now (demo_session 1) 1 "usuario1"
             (ChatRoutes.InMessage "general" "hola") st in
  MessagingService.user_sessions (ChatRoutes.messaging_service st) !! demo_session 1
    = Some "usuario1" /\
  ChatRoutes.active_connections st !! demo_session 1 = Some 1%nat /\
  fst r = inr true /\
  (exists ws n, ChatRoutes.sockets (snd r) !! 1%nat = Some ws /\
                ChatRoutes.outbox ws
                = ChatRoutes.MessageSent uuid demo_now :: repeat frame (S n)) /\
  (exists ws k, ChatRoutes.sockets (snd r) !! 3%nat = Some ws /\
                ChatRoutes.outbox ws = repeat frame (S k)) /\
  ChatRoutes.sockets (snd r) !! 7%nat = None.
Proof.
  cbv zeta.
  assert (Hsess : MessagingService.user_sessions
                    (ChatRoutes.messaging_service demo_broadcast_state)
                  !! demo_session 1 = Some "usuario1") by (vm_compute; reflexivity).
  assert (Hactive : ChatRoutes.active_connections demo_broadcast_state
                    !! demo_session 1 = Some 1%nat) by (vm_compute; reflexivity).
  split; [exact Hsess|]. split; [exact Hactive|].
  destruct (accepted_post_is_acknowledged_then_broadcast Config.settings demo_ctx
              "c0ffee00-0000-4000-8000-000000000000" demo_now (demo_session 1) 1
              "usuario1" "general" "hola"
              {| ChatSchemas.id := "general"; ChatSchemas.name := Some "Canal General";
                 ChatSchemas.participants := ["usuario1"; "usuario2"; "usuario3"];
                 ChatSchemas.is_group := true; ChatSchemas.created_at := demo_now;
                 ChatSchemas.encryption_key := None |}
              demo_broadcast_state
              {| ChatRoutes.accepted := true; ChatRoutes.closed := None;
                 ChatRoutes.outbox := []; ChatRoutes.send_raises := None |}
              Hsess)
    as (st' & n & Hrun & Hw & _ & _ & Hothers & Hrest);
    [ discriminate | vm_compute; reflexivity | apply list_elem_of_In; cbn; tauto
    | exact Hactive | vm_compute; reflexivity | reflexivity | ].
  rewrite Hrun. cbn [fst snd]. split; [reflexivity|]. split; [|split].
  - eexists _, n. split; [exact Hw | reflexivity].
  - destruct (Hothers 3%nat
                {| ChatRoutes.accepted := true; ChatRoutes.closed := None;
                   ChatRoutes.outbox := []; ChatRoutes.send_raises := None |})
      as [k Hk];
      [ discriminate | | vm_compute; reflexivity | reflexivity | ].
    + apply demo_third_addressed; reflexivity.
    + eexists _, k. split; [exact Hk | reflexivity].
  - rewrite (Hrest 7%nat); [vm_compute; reflexivity | discriminate |].
    intros (rid & room & other & u & _ & _ & _ & _ & Hact & _).
    apply demo_registry in Hact as [Hact | [Hact | Hact]]; discriminate.
Defined.

Lemma typing_notice_is_not_echoed_witness :
  let st := demo_broadcast_state in
  let notice := ChatRoutes.PTyping "general" "usuario1" in
  let r := ChatRoutes.websocket_receive Config.settings demo_ctx ChatRoutes.quiet []
             "c0ffee00-0000-4000-8000-000000000000"
             demo_now (demo_session 1) 1 "usuario1"
             (ChatRoutes.InTyping (Some "general")) st in
  (forall other, ChatRoutes.active_connections st !! other = Some 1%nat ->
                 other = demo_session 1) /\
  fst r = inr true /\
  ChatRoutes.sockets (snd r) !! 1%nat = ChatRoutes.sockets st !! 1%nat /\
  exists ws k, ChatRoutes.sockets (snd r) !! 3%nat = Some ws /\
               ChatRoutes.outbox ws = repeat (ChatRoutes.NewMessage notice) (S k).
Proof.
  cbv zeta.
  assert (Hown : forall other,
            ChatRoutes.active_connections demo_broadcast_state !! other = Some 1%nat ->
            other = demo_session 1).
  { intros other H. apply demo_registry in H as [H | [H | H]];
      [now injection H | discriminate | discriminate]. }
  split; [exact Hown|].
  destruct (typing_notice_is_not_echoed Config.settings demo_ctx ChatRoutes.quiet
              "c0ffee00-0000-4000-8000-000000000000"
              demo_now (demo_session 1) 1 "usuario1" "general"
              demo_broadcast_state Hown)
    as (st' & Hrun & Hsame & _ & _ & Hothers).
  rewrite Hrun. cbn [fst snd]. split; [reflexivity|]. split; [exact Hsame|].
  destruct (Hothers ltac:(discriminate) 3%nat
              {| ChatRoutes.accepted := true; ChatRoutes.closed := None;
                 ChatRoutes.outbox := []; ChatRoutes.send_raises := None |})
    as [k Hk]; [ | vm_compute; reflexivity | reflexivity | ].
  - apply demo_third_addressed; [reflexivity | vm_compute; reflexivity].
  - eexists _, k. split; [exact Hk | reflexivity].
Defined.

Lemma disconnected_socket_is_out_of_reach_witness :
  let st := demo_broadcast_state in
  let st1 := ChatRoutes.websocket_disconnect (demo_session 3) "usuario3" st in
  let r := ChatRoutes.broadcast_to_room Config.settings demo_ctx []
             (ChatRoutes.PMessage demo_message) None st1 in
  (forall other, ChatRoutes.active_connections st !! other = Some 3%nat ->
                 other = demo_session 3) /\
  ChatRoutes.active_connections st1 !! demo_session 3 = None /\
  fst r = inr tt /\
  ChatRoutes.sockets (snd r) !! 3%nat = ChatRoutes.sockets st !! 3%nat.
Proof.
  cbv zeta.
  assert (Hown : forall other,
            ChatRoutes.active_connections demo_broadcast_state !! other = Some 3%nat ->
            other = demo_session 3).
  { intros other H. apply demo_registry in H as [H | [H | H]];
      [discriminate | discriminate | now injection H]. }
  split; [exact Hown|].
  destruct (disconnected_socket_is_out_of_reach Config.settings demo_ctx
              (demo_session 3) "usuario3" 3
              demo_broadcast_state (ChatRoutes.PMessage demo_message) None Hown)
    as (Hgone & _ & st' & Hrun & Hsame).
  split; [exact Hgone|]. rewrite Hrun. split; [reflexivity | exact Hsame].
Defined.

Lemma login_token_identifies_user_and_session_witness :
  let r := MessagingService.authenticate_user Config.settings demo_ctx demo_auth_env
             "usuario1" "password1" "10.8.0.5" demo_service in
  exists res,
    fst r = Py.ok res /\
    MessagingService.success res = true /\
    exists token,
      MessagingService.token res = Some token /\
      ChatRoutes.get_current_user Config.settings
        (MessagingService.auth_utcnow demo_auth_env + 60) token
        = Some ("usuario1", Some (MessagingService.auth_uuid demo_auth_env)) /\
      MessagingService.user_sessions (snd r) !! MessagingService.auth_uuid demo_auth_env
        = Some "usuario1".
Proof.
  cbv zeta. eexists. split; [vm_compute; reflexivity|]. split; [reflexivity|].
  apply (login_token_identifies_user_and_session Config.settings demo_ctx
           demo_auth_env "usuario1" "password1" "10.8.0.5" demo_service
           (MessagingService.auth_utcnow demo_auth_env + 60));
    [vm_compute; reflexivity | reflexivity | discriminate | vm_compute; discriminate].
Defined.

(** ** Addresses and parameter levels *)

(** ** Addresses: printing, parsing and membership *)

Lemma contains_app (c : ascii) (s t : string) :
  Str.contains c (s +:+ t) = Str.contains c s || Str.contains c t.
Proof.
  induction s as [|c' s IH]; [reflexivity|].
  change (Ascii.eqb c c' || Str.contains c (s +:+ t)
          = Ascii.eqb c c' || Str.contains c s || Str.contains c t).
  now rewrite IH, orb_assoc.
Qed.

Lemma split_no_sep (sep : ascii) (s : string) :
  Str.contains sep s = false -> Str.split sep s = [s].
Proof.
  induction s as [|c s IH]; [reflexivity|].
  intros H. change (Ascii.eqb sep c || Str.contains sep s = false) in H.
  apply orb_false_elim in H as [Hc Hs].
  cbn [Str.split]. rewrite Ascii.eqb_sym, Hc, (IH Hs). reflexivity.
Qed.

Lemma split_app_sep (sep : ascii) (s t : string) :
  Str.contains sep s = false ->
  Str.split sep (s +:+ String sep t) = s :: Str.split sep t.
Proof.
  induction s as [|c s IH]; intros H.
  - simpl. now rewrite Ascii.eqb_refl.
  - change (Ascii.eqb sep c || Str.contains sep s = false) in H.
    apply orb_false_elim in H as [Hc Hs].
    change (String c s +:+ String sep t) with (String c (s +:+ String sep t)).
    cbn [Str.split]. rewrite Ascii.eqb_sym, Hc, (IH Hs). reflexivity.
Qed.

Lemma octet_ok_all (o : Z) : 0 <= o < 256 -> octet_ok o = true.
Proof.
  apply (forallb_range octet_ok 256). vm_compute. reflexivity.
Qed.

Lemma octet_facts (o : Z) :
  0 <= o < 256 ->
  IPAddress.parse_octet (Str.of_int o) = Some o /\
  Str.contains "." (Str.of_int o) = false /\
  Str.contains "/" (Str.of_int o) = false /\
  Str.of_int o <> "".
Proof.
  intros Ho. pose proof (octet_ok_all o Ho) as H. unfold octet_ok in H.
  apply andb_prop in H as [H H4]. apply andb_prop in H as [H H3].
  apply andb_prop in H as [H1 H2].
  destruct (IPAddress.parse_octet (Str.of_int o)) as [v|]; [|discriminate].
  apply Z.eqb_eq in H1 as ->.
  apply negb_true_iff in H2, H3, H4.
  repeat split; try assumption.
  intros Hempty. rewrite Hempty in H4. discriminate.
Qed.

(** [IPv4Address(str(a))] is [a]. *)
Lemma parse_ipv4_str (a : Z) :
  0 <= a < 2 ^ 32 -> IPAddress.parse_ipv4 (IPAddress.str_ipv4 a) = Some a.
Proof.
  intros Ha. unfold IPAddress.str_ipv4. cbn [map].
  set (o3 := a / 256 ^ 3 mod 256). set (o2 := a / 256 ^ 2 mod 256).
  set (o1 := a / 256 ^ 1 mod 256). set (o0 := a / 256 ^ 0 mod 256).
  assert (H3 : 0 <= o3 < 256) by (subst o3; apply Z.mod_pos_bound; lia).
  assert (H2 : 0 <= o2 < 256) by (subst o2; apply Z.mod_pos_bound; lia).
  assert (H1 : 0 <= o1 < 256) by (subst o1; apply Z.mod_pos_bound; lia).
  assert (H0 : 0 <= o0 < 256) by (subst o0; apply Z.mod_pos_bound; lia).
  destruct (octet_facts o3 H3) as (P3 & D3 & S3 & E3).
  destruct (octet_facts o2 H2) as (P2 & D2 & S2 & E2).
  destruct (octet_facts o1 H1) as (P1 & D1 & S1 & E1).
  destruct (octet_facts o0 H0) as (P0 & D0 & S0 & E0).
  set (text := Str.of_int o3 +:+ String "." (Str.of_int o2 +:+ String "."
                 (Str.of_int o1 +:+ String "." (Str.of_int o0)))).
  change (Str.join "." [Str.of_int o3; Str.of_int o2; Str.of_int o1; Str.of_int o0])
    with text.
  unfold IPAddress.parse_ipv4.
  assert (Hslash : Str.contains "/" text = false).
  { subst text.
    rewrite contains_app, S3.
    change (Str.contains "/" (String "." ?x)) with (Str.contains "/" x).
    rewrite contains_app, S2.
    change (Str.contains "/" (String "." ?x)) with (Str.contains "/" x).
    rewrite contains_app, S1.
    change (Str.contains "/" (String "." ?x)) with (Str.contains "/" x).
    exact S0. }
  rewrite Hslash.
  unfold IPAddress.ipv4_int_from_string.
  destruct (String.eqb_spec text "") as [Hempty|_].
  { subst text. destruct (Str.of_int o3); [contradiction | discriminate]. }
  subst text.
  rewrite !split_app_sep, split_no_sep by assumption.
  cbn [map]. rewrite P3, P2, P1, P0. f_equal.
  subst o3 o2 o1 o0. change (2 ^ 32) with 4294967296 in Ha.
  change (256 ^ 3) with 16777216. change (256 ^ 2) with 65536.
  change (256 ^ 1) with 256. change (256 ^ 0) with 1.
  Z.div_mod_to_equations. lia.
Qed.

(** [ip_address(str(a))] is the IPv4 address [a]. *)
Lemma ip_address_str (a : Z) :
  0 <= a < 2 ^ 32 ->
  IPAddress.ip_address (IPAddress.str_ipv4 a) = Py.ok (IPAddress.IPv4Address a).
Proof.
  intros Ha. unfold IPAddress.ip_address. now rewrite parse_ipv4_str.
Qed.

(** *** What a parsed network is *)

Lemma int_of_decimal_from_nonneg (s : string) (acc : Z) :
  0 <= acc -> Str.forall_chars Str.is_digit s = true ->
  0 <= Str.int_of_decimal_from acc s.
Proof.
  revert acc. induction s as [|c s IH]; intros acc Hacc H; [exact Hacc|].
  cbn in H. apply andb_prop in H as [Hc Hs]. cbn. apply IH; [|exact Hs].
  unfold Str.is_digit in Hc. apply andb_prop in Hc as [Hlo _].
  apply Nat.leb_le in Hlo. lia.
Qed.

Lemma int_of_decimal_nonneg (s : string) :
  Str.is_ascii_digits s = true -> 0 <= Str.int_of_decimal s.
Proof.
  unfold Str.is_ascii_digits. intros H. apply andb_prop in H as [_ H].
  apply int_of_decimal_from_nonneg; [lia | exact H].
Qed.

Lemma parse_octet_range (s : string) (v : Z) :
  IPAddress.parse_octet s = Some v -> 0 <= v < 256.
Proof.
  unfold IPAddress.parse_octet.
  destruct (String.eqb s ""); [discriminate|].
  destruct (Str.is_ascii_digits s) eqn:Hd; [|discriminate]. cbn [negb].
  destruct (3 <? String.length s)%nat; [discriminate|].
  destruct (negb (String.eqb s "0") && String.prefix "0" s); [discriminate|].
  destruct (Z.ltb_spec 255 (Str.int_of_decimal s)); [discriminate|].
  intros [= <-]. pose proof (int_of_decimal_nonneg s Hd). lia.
Qed.

Lemma parse_ipv4_range (s : string) (v : Z) :
  IPAddress.parse_ipv4 s = Some v -> 0 <= v < 2 ^ 32.
Proof.
  unfold IPAddress.parse_ipv4, IPAddress.ipv4_int_from_string.
  destruct (Str.contains "/" s); [discriminate|].
  destruct (String.eqb s ""); [discriminate|].
  destruct (Str.split "." s) as [|a [|b [|c [|d [|? ?]]]]]; cbn [map];
    try discriminate;
    repeat match goal with
           | |- context [IPAddress.parse_octet ?x] =>
               let H := fresh "H" in
               destruct (IPAddress.parse_octet x) eqn:H;
               [apply parse_octet_range in H|]
           end; try discriminate.
  intros [= <-]. change (2 ^ 32) with 4294967296. lia.
Qed.

Lemma prefix_from_ip_int_range (x p : Z) :
  IPAddress.prefix_from_ip_int x = Some p -> 0 <= p <= 32.
Proof.
  unfold IPAddress.prefix_from_ip_int. intros H.
  apply find_some in H as [H _]. apply in_map_iff in H as (n & <- & Hn).
  apply in_seq in Hn. lia.
Qed.

(** A network that [IPv4Network] accepts: its address fits 32 bits, its
    prefix length is at most 32, and no host bit is set. *)
Lemma ipv4_network_facts (s : string) (net p : Z) :
  IPAddress.ipv4_network s = Py.ok (IPAddress.IPv4Network net p) ->
  0 <= net < 2 ^ 32 /\ 0 <= p <= 32 /\
  Z.land net (2 ^ 32 - 2 ^ (32 - p)) = net.
Proof.
  unfold IPAddress.ipv4_network, IPAddress.invalid, Py.raise, Py.ok.
  destruct (IPAddress.split_optional_netmask s) as [[addr mask]|]; [|discriminate].
  destruct (IPAddress.parse_ipv4 addr) as [ip|] eqn:Hip; [|discriminate].
  apply parse_ipv4_range in Hip.
  assert (Hprefix : forall q,
            match mask with
            | None => Some 32
            | Some m =>
                match IPAddress.prefix_from_prefix_string 32 m with
                | Some p => Some p
                | None => IPAddress.prefix_from_ip_string m
                end
            end = Some q -> 0 <= q <= 32).
  { intros q. destruct mask as [m|]; [|intros [= <-]; lia].
    unfold IPAddress.prefix_from_prefix_string, IPAddress.prefix_from_ip_string.
    destruct (Str.is_ascii_digits m) eqn:Hd.
    - destruct (Z.leb_spec (Str.int_of_decimal m) 32).
      + intros [= <-]. pose proof (int_of_decimal_nonneg m Hd). lia.
      + destruct (IPAddress.ipv4_int_from_string m) as [x|]; [|discriminate].
        destruct (IPAddress.prefix_from_ip_int x) eqn:H1.
        * intros [= <-]. eapply prefix_from_ip_int_range, H1.
        * apply prefix_from_ip_int_range.
    - destruct (IPAddress.ipv4_int_from_string m) as [x|]; [|discriminate].
      destruct (IPAddress.prefix_from_ip_int x) eqn:H1.
      + intros [= <-]. eapply prefix_from_ip_int_range, H1.
      + apply prefix_from_ip_int_range. }
  cbv zeta.
  destruct (match mask with
            | None => Some 32
            | Some m => _
            end) as [q|]; [|discriminate].
  specialize (Hprefix q eq_refl).
  destruct (Z.eqb_spec (Z.land ip (2 ^ 32 - 2 ^ (32 - q))) ip) as [Hland|];
    [|discriminate].
  intros [= <- <-]. auto.
Qed.

(** The netmask keeps the bits above the host part. *)
Lemma land_netmask (x k : Z) :
  0 <= x < 2 ^ 32 -> 0 <= k <= 32 ->
  Z.land x (2 ^ 32 - 2 ^ k) = x - x mod 2 ^ k.
Proof.
  intros Hx Hk.
  replace (x - x mod 2 ^ k) with (Z.shiftl (Z.shiftr x k) k).
  2:{ rewrite Z.shiftl_mul_pow2, Z.shiftr_div_pow2 by lia.
      pose proof (Z.div_mod x (2 ^ k)). 
      assert (0 < 2 ^ k) by (apply Z.pow_pos_nonneg; lia). lia. }
  replace (2 ^ 32 - 2 ^ k) with (Z.shiftl (Z.ones (32 - k)) k).
  2:{ rewrite Z.shiftl_mul_pow2, Z.ones_equiv by lia.
      replace (Z.pred (2 ^ (32 - k)) * 2 ^ k)
        with (2 ^ (32 - k) * 2 ^ k - 2 ^ k) by lia.
      rewrite <- Z.pow_add_r by lia. now replace (32 - k + k) with 32 by lia. }
  apply Z.bits_inj'. intros n Hn.
  rewrite Z.land_spec, !Z.shiftl_spec by lia.
  destruct (Z.ltb_spec n k) as [Hlt | Hge].
  - rewrite !(Z.testbit_neg_r _ (n - k)) by lia. apply andb_false_r.
  - rewrite Z.shiftr_spec by lia. replace (n - k + k) with n by lia.
    destruct (Z.ltb_spec n 32) as [Hlt32 | Hge32].
    + rewrite Z.ones_spec_low by lia. apply andb_true_r.
    + rewrite Z.ones_spec_high by lia. rewrite andb_false_r.
      destruct (Z.eq_dec x 0) as [-> | Hne]; [now rewrite Z.bits_0|].
      assert (Hlog : Z.log2 x < 32) by (apply Z.log2_lt_pow2; lia).
      symmetry. apply Z.bits_above_log2; lia.
Qed.

(** Membership in an IPv4 network, as an interval. *)
Lemma contains_interval (net p a : Z) :
  0 <= net < 2 ^ 32 -> 0 <= p <= 32 ->
  Z.land net (2 ^ 32 - 2 ^ (32 - p)) = net ->
  0 <= a < 2 ^ 32 ->
  IPAddress.contains (IPAddress.IPv4Network net p) (IPAddress.IPv4Address a)
  = (net <=? a) && (a <? net + 2 ^ (32 - p)).
Proof.
  intros Hnet Hp Haligned Ha. cbn [IPAddress.contains].
  rewrite land_netmask in Haligned |- * by lia.
  assert (Hpow : 0 < 2 ^ (32 - p)) by (apply Z.pow_pos_nonneg; lia).
  pose proof (Z.mod_pos_bound a (2 ^ (32 - p)) Hpow) as Hr.
  assert (Hnet0 : net mod 2 ^ (32 - p) = 0) by lia.
  destruct (Z.eqb_spec (a - a mod 2 ^ (32 - p)) net) as [Heq | Hne];
    destruct (Z.leb_spec net a); destruct (Z.ltb_spec a (net + 2 ^ (32 - p)));
    cbn [andb]; try reflexivity; try lia.
  exfalso. apply Hne.
  apply Z.mod_divide in Hnet0 as [q Hq]; [|lia].
  assert (Hmod : a mod 2 ^ (32 - p) = a - net).
  { symmetry. apply (Z.mod_unique_pos a _ q); lia. }
  lia.
Qed.

(** The last address of a network fits 32 bits. *)
Lemma network_end (net p : Z) :
  0 <= net < 2 ^ 32 -> 0 <= p <= 32 ->
  Z.land net (2 ^ 32 - 2 ^ (32 - p)) = net ->
  net + 2 ^ (32 - p) <= 2 ^ 32.
Proof.
  intros Hnet Hp Haligned. rewrite land_netmask in Haligned by lia.
  assert (Hpow : 0 < 2 ^ (32 - p)) by (apply Z.pow_pos_nonneg; lia).
  assert (Hnet0 : net mod 2 ^ (32 - p) = 0) by lia.
  apply Z.mod_divide in Hnet0 as [q Hq]; [|lia].
  assert (Hsplit : 2 ^ 32 = 2 ^ p * 2 ^ (32 - p)).
  { rewrite <- Z.pow_add_r by lia. f_equal. lia. }
  assert (0 < 2 ^ p) by (apply Z.pow_pos_nonneg; lia).
  assert (q < 2 ^ p) by nia.
  nia.
Qed.

Section VpnCheck.

Variable settings : Config.Settings.

(** The login check on a printed IPv4 address, when the VPN subnet is an
    IPv4 network. *)
Lemma check_vpn_address_str (net p a : Z) :
  IPAddress.ipv4_network (Config.VPN_SUBNET settings)
    = Py.ok (IPAddress.IPv4Network net p) ->
  0 <= a < 2 ^ 32 ->
  MessagingService.check_vpn_address settings (IPAddress.str_ipv4 a)
  = if (net <=? a) && (a <? net + 2 ^ (32 - p)) then None
    else Some "Autenticación solo permitida a través de la VPN".
Proof.
  intros Hnet Ha. unfold MessagingService.check_vpn_address.
  rewrite ip_address_str by exact Ha.
  unfold IPAddress.ip_network. rewrite Hnet. unfold Py.ok.
  destruct (ipv4_network_facts _ net p Hnet) as (Hn & Hp & Haligned).
  now rewrite contains_interval.
Qed.

(** X25.  The address check of [authenticate_user] admits, among the IPv4
    addresses in their printed form, exactly those of the configured
    subnet, from its network address to its last address; every other one
    is refused as coming from outside the VPN. *)
Theorem vpn_check_admits_exactly_the_subnet (net p a : Z) :
  IPAddress.ipv4_network (Config.VPN_SUBNET settings)
    = Py.ok (IPAddress.IPv4Network net p) ->
  0 <= a < 2 ^ 32 ->
  (net <= a < net + 2 ^ (32 - p) ->
   MessagingService.check_vpn_address settings (IPAddress.str_ipv4 a) = None) /\
  (a < net \/ net + 2 ^ (32 - p) <= a ->
   MessagingService.check_vpn_address settings (IPAddress.str_ipv4 a)
   = Some "Autenticación solo permitida a través de la VPN").
Proof.
  intros Hnet Ha. rewrite (check_vpn_address_str net p a Hnet Ha).
  destruct (Z.leb_spec net a); destruct (Z.ltb_spec a (net + 2 ^ (32 - p)));
    cbn [andb]; split; intros; first [reflexivity | lia].
Qed.

(** X26.  The address that [connect] assigns, the third one of the configured
    subnet printed as [connect] prints it, passes the address check of
    [authenticate_user] under the same settings. *)
Theorem assigned_address_passes_vpn_check (subnet : IPAddress.Network)
    (address : IPAddress.Address) :
  IPAddress.ipv4_network (Config.VPN_SUBNET settings) = Py.ok subnet ->
  IPAddress.getitem subnet 2 = Py.ok address ->
  MessagingService.check_vpn_address settings
    match address with
    | IPAddress.IPv4Address a => IPAddress.str_ipv4 a
    | IPAddress.IPv6Address _ _ => ""
    end = None.
Proof.
  intros Hnet Hitem.
  assert (Hv4 : exists net p, subnet = IPAddress.IPv4Network net p).
  { revert Hnet. unfold IPAddress.ipv4_network, IPAddress.invalid, Py.raise, Py.ok.
    destruct (IPAddress.split_optional_netmask _) as [[addr mask]|]; [|discriminate].
    destruct (IPAddress.parse_ipv4 addr); [|discriminate]. cbv zeta.
    destruct (match mask with None => Some 32 | Some m => _ end);
      [|discriminate].
    destruct (Z.eqb _ _); [|discriminate]. intros [= <-]. eauto. }
  destruct Hv4 as (net & p & ->).
  destruct (ipv4_network_facts _ net p Hnet) as (Hn & Hp & Haligned).
  pose proof (network_end net p Hn Hp Haligned) as Hend.
  unfold IPAddress.getitem, Py.ok, Py.raise in Hitem.
  destruct (Z.ltb_spec (net + 2 ^ (32 - p) - 1) (net + 2)); [discriminate|].
  injection Hitem as <-.
  rewrite (check_vpn_address_str net p (net + 2) Hnet) by lia.
  destruct (Z.leb_spec net (net + 2)); [|lia].
  destruct (Z.ltb_spec (net + 2) (net + 2 ^ (32 - p))); [reflexivity | lia].
Qed.

End VpnCheck.

Lemma vpn_check_admits_exactly_the_subnet_witness :
  IPAddress.ipv4_network (Config.VPN_SUBNET Config.settings)
    = Py.ok (IPAddress.IPv4Network 168296448 24) /\
  IPAddress.str_ipv4 168296453 = "10.8.0.5" /\
  IPAddress.str_ipv4 3232235777 = "192.168.1.1" /\
  MessagingService.check_vpn_address Config.settings "10.8.0.5" = None /\
  MessagingService.check_vpn_address Config.settings "192.168.1.1"
  = Some "Autenticación solo permitida a través de la VPN".
Proof.
  assert (Hnet : IPAddress.ipv4_network (Config.VPN_SUBNET Config.settings)
                 = Py.ok (IPAddress.IPv4Network 168296448 24))
    by (vm_compute; reflexivity).
  split; [exact Hnet|].
  assert (H1 : IPAddress.str_ipv4 168296453 = "10.8.0.5") by (vm_compute; reflexivity).
  assert (H2 : IPAddress.str_ipv4 3232235777 = "192.168.1.1")
    by (vm_compute; reflexivity).
  split; [exact H1|]. split; [exact H2|].
  rewrite <- H1, <- H2. split.
  - apply (vpn_check_admits_exactly_the_subnet Config.settings 168296448 24
             168296453 Hnet); [vm_compute | vm_compute]; split; congruence.
  - apply (vpn_check_admits_exactly_the_subnet Config.settings 168296448 24
             3232235777 Hnet); [vm_compute; split; congruence|].
    right. vm_compute. congruence.
Defined.

Lemma assigned_address_passes_vpn_check_witness :
  IPAddress.ipv4_network (Config.VPN_SUBNET Config.settings)
    = Py.ok (IPAddress.IPv4Network 168296448 24) /\
  IPAddress.getitem (IPAddress.IPv4Network 168296448 24) 2
    = Py.ok (IPAddress.IPv4Address 168296450) /\
  MessagingService.check_vpn_address Config.settings (IPAddress.str_ipv4 168296450)
    = None.
Proof.
  assert (Hnet : IPAddress.ipv4_network (Config.VPN_SUBNET Config.settings)
                 = Py.ok (IPAddress.IPv4Network 168296448 24))
    by (vm_compute; reflexivity).
  assert (Hitem : IPAddress.getitem (IPAddress.IPv4Network 168296448 24) 2
                  = Py.ok (IPAddress.IPv4Address 168296450))
    by (vm_compute; reflexivity).
  split; [exact Hnet|]. split; [exact Hitem|].
  exact (assigned_address_passes_vpn_check Config.settings _ _ Hnet Hitem).
Defined.

(** ** Constructing a manager and asking for the details of a level *)

(** X27.  For a name of ASCII characters, the constructor and
    [get_algorithm_details] part ways on what they do not know: the
    constructor accepts exactly the three levels, in any letter case, keeps
    the name in lower case with the RSA size of the level and no key pair,
    and the details are then those of that level; every other name makes the
    constructor raise a [ValueError], while [get_algorithm_details] answers
    it with the details of "kyber768". *)
Theorem unknown_level_is_refused_but_detailed (name : string) :
  Str.forall_chars Base64.is_ascii name = true ->
  match KyberManager.__init__ name with
  | inr manager =>
      In (Py.lower name) KyberManager.valid_params /\
      KyberManager.parameter_set manager = Py.lower name /\
      KyberManager.dict_get KyberManager.key_sizes (Py.lower name)
        = Some (KyberManager.key_size manager) /\
      KyberManager._keypair manager = None /\
      exists entry,
        KyberManager.dict_get KyberManager.details (Py.lower name) = Some entry /\
        KyberManager.name (KyberManager.get_algorithm_details name)
          = KyberManager.entry_name entry
  | inl e =>
      ~ In (Py.lower name) KyberManager.valid_params /\
      e = Py.ValueError
            "Conjunto de parámetros inválido. Debe ser uno de: ['kyber512', 'kyber768', 'kyber1024']" /\
      KyberManager.get_algorithm_details name
        = KyberManager.get_algorithm_details "kyber768"
  end.
Proof.
  intros _. unfold KyberManager.__init__, KyberManager.get_algorithm_details.
  destruct (existsb (String.eqb (Py.lower name)) KyberManager.valid_params) eqn:Hin.
  - apply existsb_exists in Hin as (level & Hlevel & Heq).
    apply String.eqb_eq in Heq. rewrite Heq.
    destruct Hlevel as [<- | [<- | [<- | []]]]; cbn;
      (split; [tauto|]); repeat split; eauto.
  - assert (Hnot : ~ In (Py.lower name) KyberManager.valid_params).
    { intros H. apply not_true_iff_false in Hin. apply Hin.
      apply existsb_exists. exists (Py.lower name).
      split; [exact H | apply String.eqb_refl]. }
    unfold Py.raise. split; [exact Hnot|]. split; [reflexivity|].
    assert (Hnone : KyberManager.dict_get KyberManager.details (Py.lower name) = None).
    { cbn [KyberManager.dict_get KyberManager.details].
      repeat match goal with
             | |- context [String.eqb ?a (Py.lower name)] =>
                 destruct (String.eqb_spec a (Py.lower name)) as [Heq | _];
                 [exfalso; apply Hnot; rewrite <- Heq; cbn; tauto|]
             end.
      reflexivity. }
    rewrite Hnone. reflexivity.
Qed.

Lemma unknown_level_is_refused_but_detailed_witness :
  Str.forall_chars Base64.is_ascii "Kyber2048" = true /\
  KyberManager.__init__ "Kyber2048"
    = Py.raise (Py.ValueError
        "Conjunto de parámetros inválido. Debe ser uno de: ['kyber512', 'kyber768', 'kyber1024']") /\
  KyberManager.name (KyberManager.get_algorithm_details "Kyber2048")
    = "CRYSTALS-Kyber-768".
Proof.
  assert (Hascii : Str.forall_chars Base64.is_ascii "Kyber2048" = true)
    by reflexivity.
  split; [exact Hascii|].
  pose proof (unknown_level_is_refused_but_detailed "Kyber2048" Hascii) as H.
  destruct (KyberManager.__init__ "Kyber2048") as [e | manager].
  - destruct H as (_ & -> & Hdetails). split; [reflexivity|].
    rewrite Hdetails. reflexivity.
  - destruct H as (Hin & _). cbn in Hin.
    exfalso. repeat destruct Hin as [Hin | Hin]; try discriminate; exact Hin.
Defined.
